(** * A Game Boy (DMG) emulator core: bus, CPU, PPU and APU register file

    Shallow embedding of the emulator's C++ sources and the properties of its
    specification that concern them.

    - [APU]     : apu.h / apu.cpp, the register interface of the sound unit
    - [PPUState], [PPU] : ppu.h / ppu.cpp, the LCD mode state machine and the
                  scanline rasteriser
    - [MemoryState], [Memory] : memory.h / memory.cpp, the bus with the
                  cartridge controller, timer, OAM DMA and joypad latch
    - [CPUState], [CPU] : cpu.h / cpu.cpp, the LR35902 interpreter
    - [GameBoy] : gameboy.cpp / main.cpp, the set-up of the components and
                  the cartridge loading path

    The model comes first, module by module; then the vocabulary in which
    the properties are stated; then the properties with their proofs.

    Conventions.  A [uint8_t] or [uint16_t] is a [Z] in its range; every
    place where the source narrows an [int] to one of them is written out
    with [u8] or [u16].  An [int] is an unbounded [Z] (the counters of the
    source stay far from the limits of a 32-bit [int]).  A [std::vector] or
    [std::array] is a [list Z] and [v[i]] is [idx v i]; a store [v[i] = x]
    is [upd v i x].  Objects that point at each other (the bus holds the PPU
    and the APU, the PPU refers back to the bus) are modelled as one value:
    the bus record holds the PPU and APU records, [None] standing for a null
    pointer, and a PPU method takes and returns the bus it refers to. *)

From Stdlib Require Import ZArith List Lia Bool String.
From stdpp Require Import base list.
Import ListNotations.
Open Scope Z_scope.

(** ** Machine integers and arrays *)

Notation "x .& y" := (Z.land x y) (at level 40, left associativity).
Notation "x .| y" := (Z.lor x y) (at level 50, left associativity).
Notation "x .^ y" := (Z.lxor x y) (at level 50, left associativity).
Notation "x >> n" := (Z.shiftr x n) (at level 30, no associativity).
Notation "x << n" := (Z.shiftl x n) (at level 30, no associativity).

(** Statements in sequence: [s |> f |> g] is [g (f s)]. *)
Notation "s |> f" := (f s) (at level 61, left associativity, only parsing).

(** Conversion of an [int] to [uint8_t] and to [uint16_t]. *)
Definition u8 (x : Z) : Z := x mod 256.
Definition u16 (x : Z) : Z := x mod 65536.

(** [(int8_t)v] for a byte [v]. *)
Definition s8 (v : Z) : Z := if v <? 128 then v else v - 256.

(** [~x] on an [int]. *)
Definition cnot (x : Z) : Z := Z.lnot x.

(** [x != 0] used as a condition. *)
Definition nz (x : Z) : bool := negb (x =? 0).

Definition is_u8 (x : Z) : Prop := 0 <= x < 256.
Definition is_u16 (x : Z) : Prop := 0 <= x < 65536.

(** [v[i]].  The source never checks an index; outside the array (undefined
    behaviour in C++) the model reads 0. *)
Definition idx (v : list Z) (i : Z) : Z :=
  if i <? 0 then 0 else nth (Z.to_nat i) v 0.

(** [v[i] = x].  Outside the array the store is dropped. *)
Definition upd (v : list Z) (i : Z) (x : Z) : list Z :=
  if i <? 0 then v else <[Z.to_nat i := x]> v.

(** [v.fill(x)] and the [vector(n, x)] constructor. *)
Definition filled (n : Z) (x : Z) : list Z := repeat x (Z.to_nat n).

(** The size of an array, as a [Z]. *)
Definition size (v : list Z) : Z := Z.of_nat (length v).

Module Channel1.

(** [struct Channel1] of apu.h: square wave with frequency sweep. The [int] fields are unbounded integers. *)
Record t : Type := mk {
  enabled : bool;
  frequencyTimer : Z;
  frequency : Z;
  duty : Z;
  dutyPos : Z;
  volume : Z;
  volumeInit : Z;
  envelopeTimer : Z;
  envelopePeriod : Z;
  envelopeAdd : bool;
  lengthCounter : Z;
  lengthEnabled : bool;
  sweepTimer : Z;
  sweepPeriod : Z;
  sweepNegate : bool;
  sweepShift : Z;
  shadowFreq : Z;
  sweepEnabled : bool
}.

Definition set_enabled (v : bool) (r : t) : t :=
  mk v (frequencyTimer r) (frequency r) (duty r) (dutyPos r) (volume r) (volumeInit r)
     (envelopeTimer r) (envelopePeriod r) (envelopeAdd r) (lengthCounter r)
     (lengthEnabled r) (sweepTimer r) (sweepPeriod r) (sweepNegate r) (sweepShift r)
     (shadowFreq r) (sweepEnabled r).
Definition set_frequencyTimer (v : Z) (r : t) : t :=
  mk (enabled r) v (frequency r) (duty r) (dutyPos r) (volume r) (volumeInit r)
     (envelopeTimer r) (envelopePeriod r) (envelopeAdd r) (lengthCounter r)
     (lengthEnabled r) (sweepTimer r) (sweepPeriod r) (sweepNegate r) (sweepShift r)
     (shadowFreq r) (sweepEnabled r).
Definition set_frequency (v : Z) (r : t) : t :=
  mk (enabled r) (frequencyTimer r) v (duty r) (dutyPos r) (volume r) (volumeInit r)
     (envelopeTimer r) (envelopePeriod r) (envelopeAdd r) (lengthCounter r)
     (lengthEnabled r) (sweepTimer r) (sweepPeriod r) (sweepNegate r) (sweepShift r)
     (shadowFreq r) (sweepEnabled r).
Definition set_duty (v : Z) (r : t) : t :=
  mk (enabled r) (frequencyTimer r) (frequency r) v (dutyPos r) (volume r) (volumeInit r)
     (envelopeTimer r) (envelopePeriod r) (envelopeAdd r) (lengthCounter r)
     (lengthEnabled r) (sweepTimer r) (sweepPeriod r) (sweepNegate r) (sweepShift r)
     (shadowFreq r) (sweepEnabled r).
Definition set_dutyPos (v : Z) (r : t) : t :=
  mk (enabled r) (frequencyTimer r) (frequency r) (duty r) v (volume r) (volumeInit r)
     (envelopeTimer r) (envelopePeriod r) (envelopeAdd r) (lengthCounter r)
     (lengthEnabled r) (sweepTimer r) (sweepPeriod r) (sweepNegate r) (sweepShift r)
     (shadowFreq r) (sweepEnabled r).
Definition set_volume (v : Z) (r : t) : t :=
  mk (enabled r) (frequencyTimer r) (frequency r) (duty r) (dutyPos r) v (volumeInit r)
     (envelopeTimer r) (envelopePeriod r) (envelopeAdd r) (lengthCounter r)
     (lengthEnabled r) (sweepTimer r) (sweepPeriod r) (sweepNegate r) (sweepShift r)
     (shadowFreq r) (sweepEnabled r).
Definition set_volumeInit (v : Z) (r : t) : t :=
  mk (enabled r) (frequencyTimer r) (frequency r) (duty r) (dutyPos r) (volume r) v
     (envelopeTimer r) (envelopePeriod r) (envelopeAdd r) (lengthCounter r)
     (lengthEnabled r) (sweepTimer r) (sweepPeriod r) (sweepNegate r) (sweepShift r)
     (shadowFreq r) (sweepEnabled r).
Definition set_envelopeTimer (v : Z) (r : t) : t :=
  mk (enabled r) (frequencyTimer r) (frequency r) (duty r) (dutyPos r) (volume r)
     (volumeInit r) v (envelopePeriod r) (envelopeAdd r) (lengthCounter r) (lengthEnabled r)
     (sweepTimer r) (sweepPeriod r) (sweepNegate r) (sweepShift r) (shadowFreq r)
     (sweepEnabled r).
Definition set_envelopePeriod (v : Z) (r : t) : t :=
  mk (enabled r) (frequencyTimer r) (frequency r) (duty r) (dutyPos r) (volume r)
     (volumeInit r) (envelopeTimer r) v (envelopeAdd r) (lengthCounter r) (lengthEnabled r)
     (sweepTimer r) (sweepPeriod r) (sweepNegate r) (sweepShift r) (shadowFreq r)
     (sweepEnabled r).
Definition set_envelopeAdd (v : bool) (r : t) : t :=
  mk (enabled r) (frequencyTimer r) (frequency r) (duty r) (dutyPos r) (volume r)
     (volumeInit r) (envelopeTimer r) (envelopePeriod r) v (lengthCounter r)
     (lengthEnabled r) (sweepTimer r) (sweepPeriod r) (sweepNegate r) (sweepShift r)
     (shadowFreq r) (sweepEnabled r).
Definition set_lengthCounter (v : Z) (r : t) : t :=
  mk (enabled r) (frequencyTimer r) (frequency r) (duty r) (dutyPos r) (volume r)
     (volumeInit r) (envelopeTimer r) (envelopePeriod r) (envelopeAdd r) v (lengthEnabled r)
     (sweepTimer r) (sweepPeriod r) (sweepNegate r) (sweepShift r) (shadowFreq r)
     (sweepEnabled r).
Definition set_lengthEnabled (v : bool) (r : t) : t :=
  mk (enabled r) (frequencyTimer r) (frequency r) (duty r) (dutyPos r) (volume r)
     (volumeInit r) (envelopeTimer r) (envelopePeriod r) (envelopeAdd r) (lengthCounter r) v
     (sweepTimer r) (sweepPeriod r) (sweepNegate r) (sweepShift r) (shadowFreq r)
     (sweepEnabled r).
Definition set_sweepTimer (v : Z) (r : t) : t :=
  mk (enabled r) (frequencyTimer r) (frequency r) (duty r) (dutyPos r) (volume r)
     (volumeInit r) (envelopeTimer r) (envelopePeriod r) (envelopeAdd r) (lengthCounter r)
     (lengthEnabled r) v (sweepPeriod r) (sweepNegate r) (sweepShift r) (shadowFreq r)
     (sweepEnabled r).
Definition set_sweepPeriod (v : Z) (r : t) : t :=
  mk (enabled r) (frequencyTimer r) (frequency r) (duty r) (dutyPos r) (volume r)
     (volumeInit r) (envelopeTimer r) (envelopePeriod r) (envelopeAdd r) (lengthCounter r)
     (lengthEnabled r) (sweepTimer r) v (sweepNegate r) (sweepShift r) (shadowFreq r)
     (sweepEnabled r).
Definition set_sweepNegate (v : bool) (r : t) : t :=
  mk (enabled r) (frequencyTimer r) (frequency r) (duty r) (dutyPos r) (volume r)
     (volumeInit r) (envelopeTimer r) (envelopePeriod r) (envelopeAdd r) (lengthCounter r)
     (lengthEnabled r) (sweepTimer r) (sweepPeriod r) v (sweepShift r) (shadowFreq r)
     (sweepEnabled r).
Definition set_sweepShift (v : Z) (r : t) : t :=
  mk (enabled r) (frequencyTimer r) (frequency r) (duty r) (dutyPos r) (volume r)
     (volumeInit r) (envelopeTimer r) (envelopePeriod r) (envelopeAdd r) (lengthCounter r)
     (lengthEnabled r) (sweepTimer r) (sweepPeriod r) (sweepNegate r) v (shadowFreq r)
     (sweepEnabled r).
Definition set_shadowFreq (v : Z) (r : t) : t :=
  mk (enabled r) (frequencyTimer r) (frequency r) (duty r) (dutyPos r) (volume r)
     (volumeInit r) (envelopeTimer r) (envelopePeriod r) (envelopeAdd r) (lengthCounter r)
     (lengthEnabled r) (sweepTimer r) (sweepPeriod r) (sweepNegate r) (sweepShift r) v
     (sweepEnabled r).
Definition set_sweepEnabled (v : bool) (r : t) : t :=
  mk (enabled r) (frequencyTimer r) (frequency r) (duty r) (dutyPos r) (volume r)
     (volumeInit r) (envelopeTimer r) (envelopePeriod r) (envelopeAdd r) (lengthCounter r)
     (lengthEnabled r) (sweepTimer r) (sweepPeriod r) (sweepNegate r) (sweepShift r)
     (shadowFreq r) v.

(** [memset(&ch1, 0, sizeof(ch1))]. *)
Definition zero : t :=
  mk false 0 0 0 0 0 0 0 0 false 0 false 0 0 false 0 0 false.

End Channel1.

Module Channel2.

(** [struct Channel2] of apu.h: square wave. *)
Record t : Type := mk {
  enabled : bool;
  frequencyTimer : Z;
  frequency : Z;
  duty : Z;
  dutyPos : Z;
  volume : Z;
  volumeInit : Z;
  envelopeTimer : Z;
  envelopePeriod : Z;
  envelopeAdd : bool;
  lengthCounter : Z;
  lengthEnabled : bool
}.

Definition set_enabled (v : bool) (r : t) : t :=
  mk v (frequencyTimer r) (frequency r) (duty r) (dutyPos r) (volume r) (volumeInit r)
     (envelopeTimer r) (envelopePeriod r) (envelopeAdd r) (lengthCounter r)
     (lengthEnabled r).
Definition set_frequencyTimer (v : Z) (r : t) : t :=
  mk (enabled r) v (frequency r) (duty r) (dutyPos r) (volume r) (volumeInit r)
     (envelopeTimer r) (envelopePeriod r) (envelopeAdd r) (lengthCounter r)
     (lengthEnabled r).
Definition set_frequency (v : Z) (r : t) : t :=
  mk (enabled r) (frequencyTimer r) v (duty r) (dutyPos r) (volume r) (volumeInit r)
     (envelopeTimer r) (envelopePeriod r) (envelopeAdd r) (lengthCounter r)
     (lengthEnabled r).
Definition set_duty (v : Z) (r : t) : t :=
  mk (enabled r) (frequencyTimer r) (frequency r) v (dutyPos r) (volume r) (volumeInit r)
     (envelopeTimer r) (envelopePeriod r) (envelopeAdd r) (lengthCounter r)
     (lengthEnabled r).
Definition set_dutyPos (v : Z) (r : t) : t :=
  mk (enabled r) (frequencyTimer r) (frequency r) (duty r) v (volume r) (volumeInit r)
     (envelopeTimer r) (envelopePeriod r) (envelopeAdd r) (lengthCounter r)
     (lengthEnabled r).
Definition set_volume (v : Z) (r : t) : t :=
  mk (enabled r) (frequencyTimer r) (frequency r) (duty r) (dutyPos r) v (volumeInit r)
     (envelopeTimer r) (envelopePeriod r) (envelopeAdd r) (lengthCounter r)
     (lengthEnabled r).
Definition set_volumeInit (v : Z) (r : t) : t :=
  mk (enabled r) (frequencyTimer r) (frequency r) (duty r) (dutyPos r) (volume r) v
     (envelopeTimer r) (envelopePeriod r) (envelopeAdd r) (lengthCounter r)
     (lengthEnabled r).
Definition set_envelopeTimer (v : Z) (r : t) : t :=
  mk (enabled r) (frequencyTimer r) (frequency r) (duty r) (dutyPos r) (volume r)
     (volumeInit r) v (envelopePeriod r) (envelopeAdd r) (lengthCounter r)
     (lengthEnabled r).
Definition set_envelopePeriod (v : Z) (r : t) : t :=
  mk (enabled r) (frequencyTimer r) (frequency r) (duty r) (dutyPos r) (volume r)
     (volumeInit r) (envelopeTimer r) v (envelopeAdd r) (lengthCounter r) (lengthEnabled r).
Definition set_envelopeAdd (v : bool) (r : t) : t :=
  mk (enabled r) (frequencyTimer r) (frequency r) (duty r) (dutyPos r) (volume r)
     (volumeInit r) (envelopeTimer r) (envelopePeriod r) v (lengthCounter r)
     (lengthEnabled r).
Definition set_lengthCounter (v : Z) (r : t) : t :=
  mk (enabled r) (frequencyTimer r) (frequency r) (duty r) (dutyPos r) (volume r)
     (volumeInit r) (envelopeTimer r) (envelopePeriod r) (envelopeAdd r) v
     (lengthEnabled r).
Definition set_lengthEnabled (v : bool) (r : t) : t :=
  mk (enabled r) (frequencyTimer r) (frequency r) (duty r) (dutyPos r) (volume r)
     (volumeInit r) (envelopeTimer r) (envelopePeriod r) (envelopeAdd r) (lengthCounter r)
     v.

Definition zero : t := mk false 0 0 0 0 0 0 0 0 false 0 false.

End Channel2.

Module Channel3.

(** [struct Channel3] of apu.h: wave channel. *)
Record t : Type := mk {
  enabled : bool;
  dacEnabled : bool;
  frequencyTimer : Z;
  frequency : Z;
  volume : Z;
  lengthCounter : Z;
  lengthEnabled : bool;
  samplePos : Z
}.

Definition set_enabled (v : bool) (r : t) : t :=
  mk v (dacEnabled r) (frequencyTimer r) (frequency r) (volume r) (lengthCounter r)
     (lengthEnabled r) (samplePos r).
Definition set_dacEnabled (v : bool) (r : t) : t :=
  mk (enabled r) v (frequencyTimer r) (frequency r) (volume r) (lengthCounter r)
     (lengthEnabled r) (samplePos r).
Definition set_frequencyTimer (v : Z) (r : t) : t :=
  mk (enabled r) (dacEnabled r) v (frequency r) (volume r) (lengthCounter r)
     (lengthEnabled r) (samplePos r).
Definition set_frequency (v : Z) (r : t) : t :=
  mk (enabled r) (dacEnabled r) (frequencyTimer r) v (volume r) (lengthCounter r)
     (lengthEnabled r) (samplePos r).
Definition set_volume (v : Z) (r : t) : t :=
  mk (enabled r) (dacEnabled r) (frequencyTimer r) (frequency r) v (lengthCounter r)
     (lengthEnabled r) (samplePos r).
Definition set_lengthCounter (v : Z) (r : t) : t :=
  mk (enabled r) (dacEnabled r) (frequencyTimer r) (frequency r) (volume r) v
     (lengthEnabled r) (samplePos r).
Definition set_lengthEnabled (v : bool) (r : t) : t :=
  mk (enabled r) (dacEnabled r) (frequencyTimer r) (frequency r) (volume r)
     (lengthCounter r) v (samplePos r).
Definition set_samplePos (v : Z) (r : t) : t :=
  mk (enabled r) (dacEnabled r) (frequencyTimer r) (frequency r) (volume r)
     (lengthCounter r) (lengthEnabled r) v.

Definition zero : t := mk false false 0 0 0 0 false 0.

End Channel3.

Module Channel4.

(** [struct Channel4] of apu.h: noise channel. *)
Record t : Type := mk {
  enabled : bool;
  frequencyTimer : Z;
  volume : Z;
  volumeInit : Z;
  envelopeTimer : Z;
  envelopePeriod : Z;
  envelopeAdd : bool;
  lengthCounter : Z;
  lengthEnabled : bool;
  lfsr : Z;  (* uint16_t *)
  divisor : Z;
  shift : Z;
  widthMode : bool
}.

Definition set_enabled (v : bool) (r : t) : t :=
  mk v (frequencyTimer r) (volume r) (volumeInit r) (envelopeTimer r) (envelopePeriod r)
     (envelopeAdd r) (lengthCounter r) (lengthEnabled r) (lfsr r) (divisor r) (shift r)
     (widthMode r).
Definition set_frequencyTimer (v : Z) (r : t) : t :=
  mk (enabled r) v (volume r) (volumeInit r) (envelopeTimer r) (envelopePeriod r)
     (envelopeAdd r) (lengthCounter r) (lengthEnabled r) (lfsr r) (divisor r) (shift r)
     (widthMode r).
Definition set_volume (v : Z) (r : t) : t :=
  mk (enabled r) (frequencyTimer r) v (volumeInit r) (envelopeTimer r) (envelopePeriod r)
     (envelopeAdd r) (lengthCounter r) (lengthEnabled r) (lfsr r) (divisor r) (shift r)
     (widthMode r).
Definition set_volumeInit (v : Z) (r : t) : t :=
  mk (enabled r) (frequencyTimer r) (volume r) v (envelopeTimer r) (envelopePeriod r)
     (envelopeAdd r) (lengthCounter r) (lengthEnabled r) (lfsr r) (divisor r) (shift r)
     (widthMode r).
Definition set_envelopeTimer (v : Z) (r : t) : t :=
  mk (enabled r) (frequencyTimer r) (volume r) (volumeInit r) v (envelopePeriod r)
     (envelopeAdd r) (lengthCounter r) (lengthEnabled r) (lfsr r) (divisor r) (shift r)
     (widthMode r).
Definition set_envelopePeriod (v : Z) (r : t) : t :=
  mk (enabled r) (frequencyTimer r) (volume r) (volumeInit r) (envelopeTimer r) v
     (envelopeAdd r) (lengthCounter r) (lengthEnabled r) (lfsr r) (divisor r) (shift r)
     (widthMode r).
Definition set_envelopeAdd (v : bool) (r : t) : t :=
  mk (enabled r) (frequencyTimer r) (volume r) (volumeInit r) (envelopeTimer r)
     (envelopePeriod r) v (lengthCounter r) (lengthEnabled r) (lfsr r) (divisor r) (shift r)
     (widthMode r).
Definition set_lengthCounter (v : Z) (r : t) : t :=
  mk (enabled r) (frequencyTimer r) (volume r) (volumeInit r) (envelopeTimer r)
     (envelopePeriod r) (envelopeAdd r) v (lengthEnabled r) (lfsr r) (divisor r) (shift r)
     (widthMode r).
Definition set_lengthEnabled (v : bool) (r : t) : t :=
  mk (enabled r) (frequencyTimer r) (volume r) (volumeInit r) (envelopeTimer r)
     (envelopePeriod r) (envelopeAdd r) (lengthCounter r) v (lfsr r) (divisor r) (shift r)
     (widthMode r).
Definition set_lfsr (v : Z) (r : t) : t :=
  mk (enabled r) (frequencyTimer r) (volume r) (volumeInit r) (envelopeTimer r)
     (envelopePeriod r) (envelopeAdd r) (lengthCounter r) (lengthEnabled r) v (divisor r)
     (shift r) (widthMode r).
Definition set_divisor (v : Z) (r : t) : t :=
  mk (enabled r) (frequencyTimer r) (volume r) (volumeInit r) (envelopeTimer r)
     (envelopePeriod r) (envelopeAdd r) (lengthCounter r) (lengthEnabled r) (lfsr r) v
     (shift r) (widthMode r).
Definition set_shift (v : Z) (r : t) : t :=
  mk (enabled r) (frequencyTimer r) (volume r) (volumeInit r) (envelopeTimer r)
     (envelopePeriod r) (envelopeAdd r) (lengthCounter r) (lengthEnabled r) (lfsr r)
     (divisor r) v (widthMode r).
Definition set_widthMode (v : bool) (r : t) : t :=
  mk (enabled r) (frequencyTimer r) (volume r) (volumeInit r) (envelopeTimer r)
     (envelopePeriod r) (envelopeAdd r) (lengthCounter r) (lengthEnabled r) (lfsr r)
     (divisor r) (shift r) v.

Definition zero : t := mk false 0 0 0 0 0 false 0 false 0 0 0 false.

End Channel4.

Module APU.


(** The [APU] class of apu.h.  The SDL audio device and the ring of output
    samples with its two atomic positions belong to the host audio path
    ([init], [generateSample], [audioCallback]); the register interface
    modelled here never reads or writes them and they are left out. *)
Record t : Type := mk {
  registers : list Z;  (* sound registers 0xFF10-0xFF3F *)
  ch1 : Channel1.t;
  ch2 : Channel2.t;
  ch3 : Channel3.t;
  ch4 : Channel4.t;
  waveRam : list Z;  (* 0xFF30-0xFF3F *)
  frameSequencerCycles : Z;
  frameSequencerStep : Z;
  sampleAccumulator : Z;
  masterEnable : bool;
  masterVolume : Z;  (* NR50 *)
  channelPan : Z  (* NR51 *)
}.

Definition set_registers (v : list Z) (r : t) : t :=
  mk v (ch1 r) (ch2 r) (ch3 r) (ch4 r) (waveRam r) (frameSequencerCycles r)
     (frameSequencerStep r) (sampleAccumulator r) (masterEnable r) (masterVolume r)
     (channelPan r).
Definition set_ch1 (v : Channel1.t) (r : t) : t :=
  mk (registers r) v (ch2 r) (ch3 r) (ch4 r) (waveRam r) (frameSequencerCycles r)
     (frameSequencerStep r) (sampleAccumulator r) (masterEnable r) (masterVolume r)
     (channelPan r).
Definition set_ch2 (v : Channel2.t) (r : t) : t :=
  mk (registers r) (ch1 r) v (ch3 r) (ch4 r) (waveRam r) (frameSequencerCycles r)
     (frameSequencerStep r) (sampleAccumulator r) (masterEnable r) (masterVolume r)
     (channelPan r).
Definition set_ch3 (v : Channel3.t) (r : t) : t :=
  mk (registers r) (ch1 r) (ch2 r) v (ch4 r) (waveRam r) (frameSequencerCycles r)
     (frameSequencerStep r) (sampleAccumulator r) (masterEnable r) (masterVolume r)
     (channelPan r).
Definition set_ch4 (v : Channel4.t) (r : t) : t :=
  mk (registers r) (ch1 r) (ch2 r) (ch3 r) v (waveRam r) (frameSequencerCycles r)
     (frameSequencerStep r) (sampleAccumulator r) (masterEnable r) (masterVolume r)
     (channelPan r).
Definition set_waveRam (v : list Z) (r : t) : t :=
  mk (registers r) (ch1 r) (ch2 r) (ch3 r) (ch4 r) v (frameSequencerCycles r)
     (frameSequencerStep r) (sampleAccumulator r) (masterEnable r) (masterVolume r)
     (channelPan r).
Definition set_frameSequencerCycles (v : Z) (r : t) : t :=
  mk (registers r) (ch1 r) (ch2 r) (ch3 r) (ch4 r) (waveRam r) v (frameSequencerStep r)
     (sampleAccumulator r) (masterEnable r) (masterVolume r) (channelPan r).
Definition set_frameSequencerStep (v : Z) (r : t) : t :=
  mk (registers r) (ch1 r) (ch2 r) (ch3 r) (ch4 r) (waveRam r) (frameSequencerCycles r) v
     (sampleAccumulator r) (masterEnable r) (masterVolume r) (channelPan r).
Definition set_sampleAccumulator (v : Z) (r : t) : t :=
  mk (registers r) (ch1 r) (ch2 r) (ch3 r) (ch4 r) (waveRam r) (frameSequencerCycles r)
     (frameSequencerStep r) v (masterEnable r) (masterVolume r) (channelPan r).
Definition set_masterEnable (v : bool) (r : t) : t :=
  mk (registers r) (ch1 r) (ch2 r) (ch3 r) (ch4 r) (waveRam r) (frameSequencerCycles r)
     (frameSequencerStep r) (sampleAccumulator r) v (masterVolume r) (channelPan r).
Definition set_masterVolume (v : Z) (r : t) : t :=
  mk (registers r) (ch1 r) (ch2 r) (ch3 r) (ch4 r) (waveRam r) (frameSequencerCycles r)
     (frameSequencerStep r) (sampleAccumulator r) (masterEnable r) v (channelPan r).
Definition set_channelPan (v : Z) (r : t) : t :=
  mk (registers r) (ch1 r) (ch2 r) (ch3 r) (ch4 r) (waveRam r) (frameSequencerCycles r)
     (frameSequencerStep r) (sampleAccumulator r) (masterEnable r) (masterVolume r) v.



(** [APU::reset], which the constructor runs. *)
Definition reset : t :=
  mk (filled 0x30 0) Channel1.zero Channel2.zero Channel3.zero
     (Channel4.zero |> Channel4.set_lfsr 0x7FFF)
     (filled 16 0) 0 0 0 true 0x77 0xFF.

Definition triggerChannel1 (a : t) : t :=
  let c := ch1 a in
  let c := c |> Channel1.set_enabled true in
  let c := if Channel1.lengthCounter c =? 0 then c |> Channel1.set_lengthCounter 64 else c in
  let c := c |> Channel1.set_frequencyTimer ((2048 - Channel1.frequency c) * 4) in
  let c := c |> Channel1.set_envelopeTimer (Channel1.envelopePeriod c) in
  let c := c |> Channel1.set_volume (Channel1.volumeInit c) in
  let c := c |> Channel1.set_shadowFreq (Channel1.frequency c) in
  let c := c |> Channel1.set_sweepTimer
                  (if 0 <? Channel1.sweepPeriod c then Channel1.sweepPeriod c else 8) in
  let c := c |> Channel1.set_sweepEnabled
                  ((0 <? Channel1.sweepPeriod c) || (0 <? Channel1.sweepShift c)) in
  let c := c |> Channel1.set_dutyPos 0 in
  a |> set_ch1 c.

Definition triggerChannel2 (a : t) : t :=
  let c := ch2 a in
  let c := c |> Channel2.set_enabled true in
  let c := if Channel2.lengthCounter c =? 0 then c |> Channel2.set_lengthCounter 64 else c in
  let c := c |> Channel2.set_frequencyTimer ((2048 - Channel2.frequency c) * 4) in
  let c := c |> Channel2.set_envelopeTimer (Channel2.envelopePeriod c) in
  let c := c |> Channel2.set_volume (Channel2.volumeInit c) in
  let c := c |> Channel2.set_dutyPos 0 in
  a |> set_ch2 c.

Definition triggerChannel3 (a : t) : t :=
  let c := ch3 a in
  let c := c |> Channel3.set_enabled (Channel3.dacEnabled c) in
  let c := if Channel3.lengthCounter c =? 0 then c |> Channel3.set_lengthCounter 256 else c in
  let c := c |> Channel3.set_frequencyTimer ((2048 - Channel3.frequency c) * 2) in
  let c := c |> Channel3.set_samplePos 0 in
  a |> set_ch3 c.

Definition divisors : list Z := [8; 16; 32; 48; 64; 80; 96; 112].

Definition triggerChannel4 (a : t) : t :=
  let c := ch4 a in
  let c := c |> Channel4.set_enabled true in
  let c := if Channel4.lengthCounter c =? 0 then c |> Channel4.set_lengthCounter 64 else c in
  let c := c |> Channel4.set_envelopeTimer (Channel4.envelopePeriod c) in
  let c := c |> Channel4.set_volume (Channel4.volumeInit c) in
  let c := c |> Channel4.set_lfsr 0x7FFF in
  let c := c |> Channel4.set_frequencyTimer
                  ((idx divisors (Channel4.divisor c)) << (Channel4.shift c)) in
  a |> set_ch4 c.

(** The [switch (reg)] of [APU::writeRegister], reached for
    [0x10 <= reg <= 0x26] after the byte has been stored. *)
Definition writeSwitch (reg val : Z) (a : t) : t :=
  match reg with
  (* Channel 1 - Square with sweep *)
  | 0x10 =>
      a |> set_ch1 (ch1 a |> Channel1.set_sweepPeriod ((val >> 4) .& 0x07)
                          |> Channel1.set_sweepNegate (nz (val .& 0x08))
                          |> Channel1.set_sweepShift (val .& 0x07))
  | 0x11 =>
      a |> set_ch1 (ch1 a |> Channel1.set_duty ((val >> 6) .& 0x03)
                          |> Channel1.set_lengthCounter (64 - (val .& 0x3F)))
  | 0x12 =>
      let c := ch1 a |> Channel1.set_volumeInit ((val >> 4) .& 0x0F)
                     |> Channel1.set_envelopeAdd (nz (val .& 0x08))
                     |> Channel1.set_envelopePeriod (val .& 0x07) in
      a |> set_ch1 (if (val .& 0xF8) =? 0 then c |> Channel1.set_enabled false else c)
  | 0x13 =>
      a |> set_ch1 (ch1 a |> Channel1.set_frequency
                               ((Channel1.frequency (ch1 a) .& 0x700) .| val))
  | 0x14 =>
      let a := a |> set_ch1 (ch1 a |> Channel1.set_frequency
                                        ((Channel1.frequency (ch1 a) .& 0xFF)
                                         .| ((val .& 0x07) << 8))
                                   |> Channel1.set_lengthEnabled (nz (val .& 0x40))) in
      if nz (val .& 0x80) then triggerChannel1 a else a
  (* Channel 2 - Square *)
  | 0x16 =>
      a |> set_ch2 (ch2 a |> Channel2.set_duty ((val >> 6) .& 0x03)
                          |> Channel2.set_lengthCounter (64 - (val .& 0x3F)))
  | 0x17 =>
      let c := ch2 a |> Channel2.set_volumeInit ((val >> 4) .& 0x0F)
                     |> Channel2.set_envelopeAdd (nz (val .& 0x08))
                     |> Channel2.set_envelopePeriod (val .& 0x07) in
      a |> set_ch2 (if (val .& 0xF8) =? 0 then c |> Channel2.set_enabled false else c)
  | 0x18 =>
      a |> set_ch2 (ch2 a |> Channel2.set_frequency
                               ((Channel2.frequency (ch2 a) .& 0x700) .| val))
  | 0x19 =>
      let a := a |> set_ch2 (ch2 a |> Channel2.set_frequency
                                        ((Channel2.frequency (ch2 a) .& 0xFF)
                                         .| ((val .& 0x07) << 8))
                                   |> Channel2.set_lengthEnabled (nz (val .& 0x40))) in
      if nz (val .& 0x80) then triggerChannel2 a else a
  (* Channel 3 - Wave *)
  | 0x1A =>
      let c := ch3 a |> Channel3.set_dacEnabled (nz (val .& 0x80)) in
      a |> set_ch3 (if negb (Channel3.dacEnabled c) then c |> Channel3.set_enabled false else c)
  | 0x1B => a |> set_ch3 (ch3 a |> Channel3.set_lengthCounter (256 - val))
  | 0x1C => a |> set_ch3 (ch3 a |> Channel3.set_volume ((val >> 5) .& 0x03))
  | 0x1D =>
      a |> set_ch3 (ch3 a |> Channel3.set_frequency
                               ((Channel3.frequency (ch3 a) .& 0x700) .| val))
  | 0x1E =>
      let a := a |> set_ch3 (ch3 a |> Channel3.set_frequency
                                        ((Channel3.frequency (ch3 a) .& 0xFF)
                                         .| ((val .& 0x07) << 8))
                                   |> Channel3.set_lengthEnabled (nz (val .& 0x40))) in
      if nz (val .& 0x80) then triggerChannel3 a else a
  (* Channel 4 - Noise *)
  | 0x20 => a |> set_ch4 (ch4 a |> Channel4.set_lengthCounter (64 - (val .& 0x3F)))
  | 0x21 =>
      let c := ch4 a |> Channel4.set_volumeInit ((val >> 4) .& 0x0F)
                     |> Channel4.set_envelopeAdd (nz (val .& 0x08))
                     |> Channel4.set_envelopePeriod (val .& 0x07) in
      a |> set_ch4 (if (val .& 0xF8) =? 0 then c |> Channel4.set_enabled false else c)
  | 0x22 =>
      a |> set_ch4 (ch4 a |> Channel4.set_shift ((val >> 4) .& 0x0F)
                          |> Channel4.set_widthMode (nz (val .& 0x08))
                          |> Channel4.set_divisor (val .& 0x07))
  | 0x23 =>
      let a := a |> set_ch4 (ch4 a |> Channel4.set_lengthEnabled (nz (val .& 0x40))) in
      if nz (val .& 0x80) then triggerChannel4 a else a
  (* Master control *)
  | 0x24 => a |> set_masterVolume val
  | 0x25 => a |> set_channelPan val
  | 0x26 =>
      let a := a |> set_masterEnable (nz (val .& 0x80)) in
      if negb (masterEnable a)
      then a |> set_ch1 (ch1 a |> Channel1.set_enabled false)
             |> set_ch2 (ch2 a |> Channel2.set_enabled false)
             |> set_ch3 (ch3 a |> Channel3.set_enabled false)
             |> set_ch4 (ch4 a |> Channel4.set_enabled false)
      else a
  | _ => a
  end.

(** [APU::writeRegister(reg, val)]; [reg] is the low byte of the bus address. *)
Definition writeRegister (reg val : Z) (a : t) : t :=
  if (0x30 <=? reg) && (reg <=? 0x3F)
  then a |> set_waveRam (upd (waveRam a) (reg - 0x30) val)
  else if (reg <? 0x10) || (0x26 <? reg) then a
  else a |> set_registers (upd (registers a) (reg - 0x10) val) |> writeSwitch reg val.

(** [APU::readRegister(reg)]. *)
Definition readRegister (reg : Z) (a : t) : Z :=
  if (0x30 <=? reg) && (reg <=? 0x3F) then idx (waveRam a) (reg - 0x30)
  else if (reg <? 0x10) || (0x26 <? reg) then 0xFF
  else if reg =? 0x26 then
    let status := if masterEnable a then 0x80 else 0x00 in
    let status := if Channel1.enabled (ch1 a) then status .| 0x01 else status in
    let status := if Channel2.enabled (ch2 a) then status .| 0x02 else status in
    let status := if Channel3.enabled (ch3 a) then status .| 0x04 else status in
    let status := if Channel4.enabled (ch4 a) then status .| 0x08 else status in
    status .| 0x70
  else idx (registers a) (reg - 0x10).

(** The blocks of [APU::stepFrameSequencer], channel by channel.

    The length clock: a running counter is decremented, and the channel is
    switched off when it reaches zero. *)
Definition lengthClock1 (a : t) : t :=
  if Channel1.lengthEnabled (ch1 a) && (0 <? Channel1.lengthCounter (ch1 a)) then
    let c := ch1 a |> Channel1.set_lengthCounter (Channel1.lengthCounter (ch1 a) - 1) in
    a |> set_ch1 (if Channel1.lengthCounter c =? 0 then c |> Channel1.set_enabled false else c)
  else a.

Definition lengthClock2 (a : t) : t :=
  if Channel2.lengthEnabled (ch2 a) && (0 <? Channel2.lengthCounter (ch2 a)) then
    let c := ch2 a |> Channel2.set_lengthCounter (Channel2.lengthCounter (ch2 a) - 1) in
    a |> set_ch2 (if Channel2.lengthCounter c =? 0 then c |> Channel2.set_enabled false else c)
  else a.

Definition lengthClock3 (a : t) : t :=
  if Channel3.lengthEnabled (ch3 a) && (0 <? Channel3.lengthCounter (ch3 a)) then
    let c := ch3 a |> Channel3.set_lengthCounter (Channel3.lengthCounter (ch3 a) - 1) in
    a |> set_ch3 (if Channel3.lengthCounter c =? 0 then c |> Channel3.set_enabled false else c)
  else a.

Definition lengthClock4 (a : t) : t :=
  if Channel4.lengthEnabled (ch4 a) && (0 <? Channel4.lengthCounter (ch4 a)) then
    let c := ch4 a |> Channel4.set_lengthCounter (Channel4.lengthCounter (ch4 a) - 1) in
    a |> set_ch4 (if Channel4.lengthCounter c =? 0 then c |> Channel4.set_enabled false else c)
  else a.

(** The frequency sweep of channel 1. *)
Definition sweepClock (a : t) : t :=
  if Channel1.sweepEnabled (ch1 a) && (0 <? Channel1.sweepPeriod (ch1 a)) then
    let c := ch1 a |> Channel1.set_sweepTimer (Channel1.sweepTimer (ch1 a) - 1) in
    if Channel1.sweepTimer c <=? 0 then
      let c := c |> Channel1.set_sweepTimer
                      (if 0 <? Channel1.sweepPeriod c then Channel1.sweepPeriod c else 8) in
      let newFreq := Channel1.shadowFreq c >> Channel1.sweepShift c in
      let newFreq :=
        if Channel1.sweepNegate c then Channel1.shadowFreq c - newFreq
        else Channel1.shadowFreq c + newFreq in
      a |> set_ch1 (if 2047 <? newFreq then c |> Channel1.set_enabled false
                    else if 0 <? Channel1.sweepShift c
                    then c |> Channel1.set_shadowFreq newFreq
                           |> Channel1.set_frequency newFreq
                    else c)
    else a |> set_ch1 c
  else a.

(** The volume envelope. *)
Definition envelopeClock1 (a : t) : t :=
  if 0 <? Channel1.envelopePeriod (ch1 a) then
    let c := ch1 a |> Channel1.set_envelopeTimer (Channel1.envelopeTimer (ch1 a) - 1) in
    if Channel1.envelopeTimer c <=? 0 then
      let c := c |> Channel1.set_envelopeTimer (Channel1.envelopePeriod c) in
      a |> set_ch1 (if Channel1.envelopeAdd c && (Channel1.volume c <? 15)
                    then c |> Channel1.set_volume (Channel1.volume c + 1)
                    else if negb (Channel1.envelopeAdd c) && (0 <? Channel1.volume c)
                    then c |> Channel1.set_volume (Channel1.volume c - 1)
                    else c)
    else a |> set_ch1 c
  else a.

Definition envelopeClock2 (a : t) : t :=
  if 0 <? Channel2.envelopePeriod (ch2 a) then
    let c := ch2 a |> Channel2.set_envelopeTimer (Channel2.envelopeTimer (ch2 a) - 1) in
    if Channel2.envelopeTimer c <=? 0 then
      let c := c |> Channel2.set_envelopeTimer (Channel2.envelopePeriod c) in
      a |> set_ch2 (if Channel2.envelopeAdd c && (Channel2.volume c <? 15)
                    then c |> Channel2.set_volume (Channel2.volume c + 1)
                    else if negb (Channel2.envelopeAdd c) && (0 <? Channel2.volume c)
                    then c |> Channel2.set_volume (Channel2.volume c - 1)
                    else c)
    else a |> set_ch2 c
  else a.

Definition envelopeClock4 (a : t) : t :=
  if 0 <? Channel4.envelopePeriod (ch4 a) then
    let c := ch4 a |> Channel4.set_envelopeTimer (Channel4.envelopeTimer (ch4 a) - 1) in
    if Channel4.envelopeTimer c <=? 0 then
      let c := c |> Channel4.set_envelopeTimer (Channel4.envelopePeriod c) in
      a |> set_ch4 (if Channel4.envelopeAdd c && (Channel4.volume c <? 15)
                    then c |> Channel4.set_volume (Channel4.volume c + 1)
                    else if negb (Channel4.envelopeAdd c) && (0 <? Channel4.volume c)
                    then c |> Channel4.set_volume (Channel4.volume c - 1)
                    else c)
    else a |> set_ch4 c
  else a.

(** [APU::stepFrameSequencer]: one step of the 512 Hz sequencer. *)
Definition stepFrameSequencer (a : t) : t :=
  (* Length counter on steps 0, 2, 4, 6 *)
  let a :=
    if (frameSequencerStep a .& 1) =? 0
    then a |> lengthClock1 |> lengthClock2 |> lengthClock3 |> lengthClock4
    else a in
  (* Sweep on steps 2, 6 *)
  let a :=
    if (frameSequencerStep a =? 2) || (frameSequencerStep a =? 6) then sweepClock a else a in
  (* Envelope on step 7 *)
  let a :=
    if frameSequencerStep a =? 7
    then a |> envelopeClock1 |> envelopeClock2 |> envelopeClock4
    else a in
  a |> set_frameSequencerStep ((frameSequencerStep a + 1) .& 7).

(** The blocks of [APU::stepChannels]: one CPU clock of a frequency timer. *)
Definition clockChannel1 (a : t) : t :=
  let c := ch1 a in
  let c := if 0 <? Channel1.frequencyTimer c
           then c |> Channel1.set_frequencyTimer (Channel1.frequencyTimer c - 1) else c in
  let c := if Channel1.frequencyTimer c <=? 0
           then c |> Channel1.set_frequencyTimer ((2048 - Channel1.frequency c) * 4)
                  |> Channel1.set_dutyPos ((Channel1.dutyPos c + 1) .& 7)
           else c in
  a |> set_ch1 c.

Definition clockChannel2 (a : t) : t :=
  let c := ch2 a in
  let c := if 0 <? Channel2.frequencyTimer c
           then c |> Channel2.set_frequencyTimer (Channel2.frequencyTimer c - 1) else c in
  let c := if Channel2.frequencyTimer c <=? 0
           then c |> Channel2.set_frequencyTimer ((2048 - Channel2.frequency c) * 4)
                  |> Channel2.set_dutyPos ((Channel2.dutyPos c + 1) .& 7)
           else c in
  a |> set_ch2 c.

Definition clockChannel3 (a : t) : t :=
  let c := ch3 a in
  let c := if 0 <? Channel3.frequencyTimer c
           then c |> Channel3.set_frequencyTimer (Channel3.frequencyTimer c - 1) else c in
  let c := if Channel3.frequencyTimer c <=? 0
           then c |> Channel3.set_frequencyTimer ((2048 - Channel3.frequency c) * 2)
                  |> Channel3.set_samplePos ((Channel3.samplePos c + 1) .& 31)
           else c in
  a |> set_ch3 c.

Definition clockChannel4 (a : t) : t :=
  let c := ch4 a in
  let c := if 0 <? Channel4.frequencyTimer c
           then c |> Channel4.set_frequencyTimer (Channel4.frequencyTimer c - 1) else c in
  let c :=
    if Channel4.frequencyTimer c <=? 0 then
      let c := c |> Channel4.set_frequencyTimer
                      ((idx divisors (Channel4.divisor c)) << (Channel4.shift c)) in
      let xorResult := (Channel4.lfsr c .& 1) .^ ((Channel4.lfsr c >> 1) .& 1) in
      let c := c |> Channel4.set_lfsr (u16 ((Channel4.lfsr c >> 1) .| (xorResult << 14))) in
      if Channel4.widthMode c
      then c |> Channel4.set_lfsr (u16 (Channel4.lfsr c .& cnot (1 << 6)))
             |> (fun c => Channel4.set_lfsr (u16 (Channel4.lfsr c .| (xorResult << 6))) c)
      else c
    else c in
  a |> set_ch4 c.

(** [APU::stepChannels]. *)
Definition stepChannels (a : t) : t :=
  a |> clockChannel1 |> clockChannel2 |> clockChannel3 |> clockChannel4.

End APU.
(** ** ppu.h *)

Module PPUState.

(** The data members of [class PPU]; the reference to the bus is the bus
    value a method is applied to. *)
Record t : Type := mk {
  lcdc : Z;  (* 0xFF40 - LCD Control *)
  stat : Z;  (* 0xFF41 - LCD Status *)
  scy : Z;  (* 0xFF42 - Scroll Y *)
  scx : Z;  (* 0xFF43 - Scroll X *)
  ly : Z;  (* 0xFF44 - Current scanline *)
  lyc : Z;  (* 0xFF45 - LY Compare *)
  wy : Z;  (* 0xFF4A - Window Y *)
  wx : Z;  (* 0xFF4B - Window X *)
  bgp : Z;  (* 0xFF47 - BG Palette *)
  obp0 : Z;  (* 0xFF48 - OBJ Palette 0 *)
  obp1 : Z;  (* 0xFF49 - OBJ Palette 1 *)
  scanlineCycles : Z;  (* int *)
  mode : Z;  (* int: 0=HBlank, 1=VBlank, 2=OAM, 3=Transfer *)
  frameReady : bool;
  windowLine : Z;  (* int: internal window line counter *)
  framebuffer : list Z  (* 160 x 144 ARGB *)
}.

Definition set_lcdc (v : Z) (r : t) : t :=
  mk v (stat r) (scy r) (scx r) (ly r) (lyc r) (wy r) (wx r) (bgp r) (obp0 r) (obp1 r)
     (scanlineCycles r) (mode r) (frameReady r) (windowLine r) (framebuffer r).
Definition set_stat (v : Z) (r : t) : t :=
  mk (lcdc r) v (scy r) (scx r) (ly r) (lyc r) (wy r) (wx r) (bgp r) (obp0 r) (obp1 r)
     (scanlineCycles r) (mode r) (frameReady r) (windowLine r) (framebuffer r).
Definition set_scy (v : Z) (r : t) : t :=
  mk (lcdc r) (stat r) v (scx r) (ly r) (lyc r) (wy r) (wx r) (bgp r) (obp0 r) (obp1 r)
     (scanlineCycles r) (mode r) (frameReady r) (windowLine r) (framebuffer r).
Definition set_scx (v : Z) (r : t) : t :=
  mk (lcdc r) (stat r) (scy r) v (ly r) (lyc r) (wy r) (wx r) (bgp r) (obp0 r) (obp1 r)
     (scanlineCycles r) (mode r) (frameReady r) (windowLine r) (framebuffer r).
Definition set_ly (v : Z) (r : t) : t :=
  mk (lcdc r) (stat r) (scy r) (scx r) v (lyc r) (wy r) (wx r) (bgp r) (obp0 r) (obp1 r)
     (scanlineCycles r) (mode r) (frameReady r) (windowLine r) (framebuffer r).
Definition set_lyc (v : Z) (r : t) : t :=
  mk (lcdc r) (stat r) (scy r) (scx r) (ly r) v (wy r) (wx r) (bgp r) (obp0 r) (obp1 r)
     (scanlineCycles r) (mode r) (frameReady r) (windowLine r) (framebuffer r).
Definition set_wy (v : Z) (r : t) : t :=
  mk (lcdc r) (stat r) (scy r) (scx r) (ly r) (lyc r) v (wx r) (bgp r) (obp0 r) (obp1 r)
     (scanlineCycles r) (mode r) (frameReady r) (windowLine r) (framebuffer r).
Definition set_wx (v : Z) (r : t) : t :=
  mk (lcdc r) (stat r) (scy r) (scx r) (ly r) (lyc r) (wy r) v (bgp r) (obp0 r) (obp1 r)
     (scanlineCycles r) (mode r) (frameReady r) (windowLine r) (framebuffer r).
Definition set_bgp (v : Z) (r : t) : t :=
  mk (lcdc r) (stat r) (scy r) (scx r) (ly r) (lyc r) (wy r) (wx r) v (obp0 r) (obp1 r)
     (scanlineCycles r) (mode r) (frameReady r) (windowLine r) (framebuffer r).
Definition set_obp0 (v : Z) (r : t) : t :=
  mk (lcdc r) (stat r) (scy r) (scx r) (ly r) (lyc r) (wy r) (wx r) (bgp r) v (obp1 r)
     (scanlineCycles r) (mode r) (frameReady r) (windowLine r) (framebuffer r).
Definition set_obp1 (v : Z) (r : t) : t :=
  mk (lcdc r) (stat r) (scy r) (scx r) (ly r) (lyc r) (wy r) (wx r) (bgp r) (obp0 r) v
     (scanlineCycles r) (mode r) (frameReady r) (windowLine r) (framebuffer r).
Definition set_scanlineCycles (v : Z) (r : t) : t :=
  mk (lcdc r) (stat r) (scy r) (scx r) (ly r) (lyc r) (wy r) (wx r) (bgp r) (obp0 r)
     (obp1 r) v (mode r) (frameReady r) (windowLine r) (framebuffer r).
Definition set_mode (v : Z) (r : t) : t :=
  mk (lcdc r) (stat r) (scy r) (scx r) (ly r) (lyc r) (wy r) (wx r) (bgp r) (obp0 r)
     (obp1 r) (scanlineCycles r) v (frameReady r) (windowLine r) (framebuffer r).
Definition set_frameReady (v : bool) (r : t) : t :=
  mk (lcdc r) (stat r) (scy r) (scx r) (ly r) (lyc r) (wy r) (wx r) (bgp r) (obp0 r)
     (obp1 r) (scanlineCycles r) (mode r) v (windowLine r) (framebuffer r).
Definition set_windowLine (v : Z) (r : t) : t :=
  mk (lcdc r) (stat r) (scy r) (scx r) (ly r) (lyc r) (wy r) (wx r) (bgp r) (obp0 r)
     (obp1 r) (scanlineCycles r) (mode r) (frameReady r) v (framebuffer r).
Definition set_framebuffer (v : list Z) (r : t) : t :=
  mk (lcdc r) (stat r) (scy r) (scx r) (ly r) (lyc r) (wy r) (wx r) (bgp r) (obp0 r)
     (obp1 r) (scanlineCycles r) (mode r) (frameReady r) (windowLine r) v.

Definition SCREEN_WIDTH : Z := 160.
Definition SCREEN_HEIGHT : Z := 144.

(** The DMG palette [colors]. *)
Definition colors : list Z := [0xFFFFFFFF; 0xFFAAAAAA; 0xFF555555; 0xFF000000].

(** Inline members of ppu.h. *)
Definition isFrameReady (p : t) : bool := frameReady p.
Definition clearFrameReady (p : t) : t := set_frameReady false p.
Definition readLY (p : t) : Z := ly p.

End PPUState.

(** ** memory.h *)

Module MemoryState.

(** The data members of [class Memory].  The two pointers are [None] until
    [setPPU] and [setAPU] attach the units. *)
Record t : Type := mk {
  ppu : option PPUState.t;  (* PPU* ppu *)
  apu : option APU.t;  (* APU* apu *)
  rom : list Z;
  extRam : list Z;
  vram : list Z;  (* 0x8000-0x9FFF (8KB) *)
  wram : list Z;  (* 0xC000-0xDFFF (8KB) *)
  oam : list Z;  (* 0xFE00-0xFE9F (160 bytes) *)
  io : list Z;  (* 0xFF00-0xFF7F (128 bytes) *)
  hram : list Z;  (* 0xFF80-0xFFFE (127 bytes) *)
  ie : Z;  (* 0xFFFF *)
  mbcType : Z;  (* uint8_t *)
  romBank : Z;  (* int *)
  ramBank : Z;  (* int *)
  ramEnabled : bool;
  rtcEnabled : bool;
  rtcRegister : Z;  (* uint8_t *)
  timerCounter : Z;  (* int *)
  divCounter : Z;  (* int *)
  dmaActive : bool;
  dmaCycles : Z;  (* int *)
  dmaSource : Z;  (* uint16_t *)
  joypadButtons : Z;  (* A, B, Select, Start *)
  joypadDpad : Z  (* Right, Left, Up, Down *)
}.

Definition set_ppu (v : option PPUState.t) (r : t) : t :=
  mk v (apu r) (rom r) (extRam r) (vram r) (wram r) (oam r) (io r) (hram r) (ie r)
     (mbcType r) (romBank r) (ramBank r) (ramEnabled r) (rtcEnabled r) (rtcRegister r)
     (timerCounter r) (divCounter r) (dmaActive r) (dmaCycles r) (dmaSource r)
     (joypadButtons r) (joypadDpad r).
Definition set_apu (v : option APU.t) (r : t) : t :=
  mk (ppu r) v (rom r) (extRam r) (vram r) (wram r) (oam r) (io r) (hram r) (ie r)
     (mbcType r) (romBank r) (ramBank r) (ramEnabled r) (rtcEnabled r) (rtcRegister r)
     (timerCounter r) (divCounter r) (dmaActive r) (dmaCycles r) (dmaSource r)
     (joypadButtons r) (joypadDpad r).
Definition set_rom (v : list Z) (r : t) : t :=
  mk (ppu r) (apu r) v (extRam r) (vram r) (wram r) (oam r) (io r) (hram r) (ie r)
     (mbcType r) (romBank r) (ramBank r) (ramEnabled r) (rtcEnabled r) (rtcRegister r)
     (timerCounter r) (divCounter r) (dmaActive r) (dmaCycles r) (dmaSource r)
     (joypadButtons r) (joypadDpad r).
Definition set_extRam (v : list Z) (r : t) : t :=
  mk (ppu r) (apu r) (rom r) v (vram r) (wram r) (oam r) (io r) (hram r) (ie r) (mbcType r)
     (romBank r) (ramBank r) (ramEnabled r) (rtcEnabled r) (rtcRegister r) (timerCounter r)
     (divCounter r) (dmaActive r) (dmaCycles r) (dmaSource r) (joypadButtons r)
     (joypadDpad r).
Definition set_vram (v : list Z) (r : t) : t :=
  mk (ppu r) (apu r) (rom r) (extRam r) v (wram r) (oam r) (io r) (hram r) (ie r)
     (mbcType r) (romBank r) (ramBank r) (ramEnabled r) (rtcEnabled r) (rtcRegister r)
     (timerCounter r) (divCounter r) (dmaActive r) (dmaCycles r) (dmaSource r)
     (joypadButtons r) (joypadDpad r).
Definition set_wram (v : list Z) (r : t) : t :=
  mk (ppu r) (apu r) (rom r) (extRam r) (vram r) v (oam r) (io r) (hram r) (ie r)
     (mbcType r) (romBank r) (ramBank r) (ramEnabled r) (rtcEnabled r) (rtcRegister r)
     (timerCounter r) (divCounter r) (dmaActive r) (dmaCycles r) (dmaSource r)
     (joypadButtons r) (joypadDpad r).
Definition set_oam (v : list Z) (r : t) : t :=
  mk (ppu r) (apu r) (rom r) (extRam r) (vram r) (wram r) v (io r) (hram r) (ie r)
     (mbcType r) (romBank r) (ramBank r) (ramEnabled r) (rtcEnabled r) (rtcRegister r)
     (timerCounter r) (divCounter r) (dmaActive r) (dmaCycles r) (dmaSource r)
     (joypadButtons r) (joypadDpad r).
Definition set_io (v : list Z) (r : t) : t :=
  mk (ppu r) (apu r) (rom r) (extRam r) (vram r) (wram r) (oam r) v (hram r) (ie r)
     (mbcType r) (romBank r) (ramBank r) (ramEnabled r) (rtcEnabled r) (rtcRegister r)
     (timerCounter r) (divCounter r) (dmaActive r) (dmaCycles r) (dmaSource r)
     (joypadButtons r) (joypadDpad r).
Definition set_hram (v : list Z) (r : t) : t :=
  mk (ppu r) (apu r) (rom r) (extRam r) (vram r) (wram r) (oam r) (io r) v (ie r)
     (mbcType r) (romBank r) (ramBank r) (ramEnabled r) (rtcEnabled r) (rtcRegister r)
     (timerCounter r) (divCounter r) (dmaActive r) (dmaCycles r) (dmaSource r)
     (joypadButtons r) (joypadDpad r).
Definition set_ie (v : Z) (r : t) : t :=
  mk (ppu r) (apu r) (rom r) (extRam r) (vram r) (wram r) (oam r) (io r) (hram r) v
     (mbcType r) (romBank r) (ramBank r) (ramEnabled r) (rtcEnabled r) (rtcRegister r)
     (timerCounter r) (divCounter r) (dmaActive r) (dmaCycles r) (dmaSource r)
     (joypadButtons r) (joypadDpad r).
Definition set_mbcType (v : Z) (r : t) : t :=
  mk (ppu r) (apu r) (rom r) (extRam r) (vram r) (wram r) (oam r) (io r) (hram r) (ie r) v
     (romBank r) (ramBank r) (ramEnabled r) (rtcEnabled r) (rtcRegister r) (timerCounter r)
     (divCounter r) (dmaActive r) (dmaCycles r) (dmaSource r) (joypadButtons r)
     (joypadDpad r).
Definition set_romBank (v : Z) (r : t) : t :=
  mk (ppu r) (apu r) (rom r) (extRam r) (vram r) (wram r) (oam r) (io r) (hram r) (ie r)
     (mbcType r) v (ramBank r) (ramEnabled r) (rtcEnabled r) (rtcRegister r)
     (timerCounter r) (divCounter r) (dmaActive r) (dmaCycles r) (dmaSource r)
     (joypadButtons r) (joypadDpad r).
Definition set_ramBank (v : Z) (r : t) : t :=
  mk (ppu r) (apu r) (rom r) (extRam r) (vram r) (wram r) (oam r) (io r) (hram r) (ie r)
     (mbcType r) (romBank r) v (ramEnabled r) (rtcEnabled r) (rtcRegister r)
     (timerCounter r) (divCounter r) (dmaActive r) (dmaCycles r) (dmaSource r)
     (joypadButtons r) (joypadDpad r).
Definition set_ramEnabled (v : bool) (r : t) : t :=
  mk (ppu r) (apu r) (rom r) (extRam r) (vram r) (wram r) (oam r) (io r) (hram r) (ie r)
     (mbcType r) (romBank r) (ramBank r) v (rtcEnabled r) (rtcRegister r) (timerCounter r)
     (divCounter r) (dmaActive r) (dmaCycles r) (dmaSource r) (joypadButtons r)
     (joypadDpad r).
Definition set_rtcEnabled (v : bool) (r : t) : t :=
  mk (ppu r) (apu r) (rom r) (extRam r) (vram r) (wram r) (oam r) (io r) (hram r) (ie r)
     (mbcType r) (romBank r) (ramBank r) (ramEnabled r) v (rtcRegister r) (timerCounter r)
     (divCounter r) (dmaActive r) (dmaCycles r) (dmaSource r) (joypadButtons r)
     (joypadDpad r).
Definition set_rtcRegister (v : Z) (r : t) : t :=
  mk (ppu r) (apu r) (rom r) (extRam r) (vram r) (wram r) (oam r) (io r) (hram r) (ie r)
     (mbcType r) (romBank r) (ramBank r) (ramEnabled r) (rtcEnabled r) v (timerCounter r)
     (divCounter r) (dmaActive r) (dmaCycles r) (dmaSource r) (joypadButtons r)
     (joypadDpad r).
Definition set_timerCounter (v : Z) (r : t) : t :=
  mk (ppu r) (apu r) (rom r) (extRam r) (vram r) (wram r) (oam r) (io r) (hram r) (ie r)
     (mbcType r) (romBank r) (ramBank r) (ramEnabled r) (rtcEnabled r) (rtcRegister r) v
     (divCounter r) (dmaActive r) (dmaCycles r) (dmaSource r) (joypadButtons r)
     (joypadDpad r).
Definition set_divCounter (v : Z) (r : t) : t :=
  mk (ppu r) (apu r) (rom r) (extRam r) (vram r) (wram r) (oam r) (io r) (hram r) (ie r)
     (mbcType r) (romBank r) (ramBank r) (ramEnabled r) (rtcEnabled r) (rtcRegister r)
     (timerCounter r) v (dmaActive r) (dmaCycles r) (dmaSource r) (joypadButtons r)
     (joypadDpad r).
Definition set_dmaActive (v : bool) (r : t) : t :=
  mk (ppu r) (apu r) (rom r) (extRam r) (vram r) (wram r) (oam r) (io r) (hram r) (ie r)
     (mbcType r) (romBank r) (ramBank r) (ramEnabled r) (rtcEnabled r) (rtcRegister r)
     (timerCounter r) (divCounter r) v (dmaCycles r) (dmaSource r) (joypadButtons r)
     (joypadDpad r).
Definition set_dmaCycles (v : Z) (r : t) : t :=
  mk (ppu r) (apu r) (rom r) (extRam r) (vram r) (wram r) (oam r) (io r) (hram r) (ie r)
     (mbcType r) (romBank r) (ramBank r) (ramEnabled r) (rtcEnabled r) (rtcRegister r)
     (timerCounter r) (divCounter r) (dmaActive r) v (dmaSource r) (joypadButtons r)
     (joypadDpad r).
Definition set_dmaSource (v : Z) (r : t) : t :=
  mk (ppu r) (apu r) (rom r) (extRam r) (vram r) (wram r) (oam r) (io r) (hram r) (ie r)
     (mbcType r) (romBank r) (ramBank r) (ramEnabled r) (rtcEnabled r) (rtcRegister r)
     (timerCounter r) (divCounter r) (dmaActive r) (dmaCycles r) v (joypadButtons r)
     (joypadDpad r).
Definition set_joypadButtons (v : Z) (r : t) : t :=
  mk (ppu r) (apu r) (rom r) (extRam r) (vram r) (wram r) (oam r) (io r) (hram r) (ie r)
     (mbcType r) (romBank r) (ramBank r) (ramEnabled r) (rtcEnabled r) (rtcRegister r)
     (timerCounter r) (divCounter r) (dmaActive r) (dmaCycles r) (dmaSource r) v
     (joypadDpad r).
Definition set_joypadDpad (v : Z) (r : t) : t :=
  mk (ppu r) (apu r) (rom r) (extRam r) (vram r) (wram r) (oam r) (io r) (hram r) (ie r)
     (mbcType r) (romBank r) (ramBank r) (ramEnabled r) (rtcEnabled r) (rtcRegister r)
     (timerCounter r) (divCounter r) (dmaActive r) (dmaCycles r) (dmaSource r)
     (joypadButtons r) v.

(** Inline members of memory.h. *)
Definition setPPU (p : option PPUState.t) (m : t) : t := set_ppu p m.
Definition setAPU (a : option APU.t) (m : t) : t := set_apu a m.
Definition getIF (m : t) : Z := idx (io m) 0x0F.
Definition setIF (val : Z) (m : t) : t := set_io (upd (io m) 0x0F val) m.
Definition getIE (m : t) : Z := ie m.
Definition getVRAM (m : t) : list Z := vram m.
Definition getOAM (m : t) : list Z := oam m.
Definition readIO (reg : Z) (m : t) : Z := idx (io m) reg.
Definition writeIO (reg val : Z) (m : t) : t := set_io (upd (io m) reg val) m.

End MemoryState.

(** ** Interrupt bits (cpu.h) *)

Definition INT_VBLANK : Z := 0x01.
Definition INT_STAT   : Z := 0x02.
Definition INT_TIMER  : Z := 0x04.
Definition INT_SERIAL : Z := 0x08.
Definition INT_JOYPAD : Z := 0x10.

(** ** ppu.cpp *)

Module PPU.
Import PPUState.

(** A PPU together with the bus it refers to. *)
Definition sys : Type := (PPUState.t * MemoryState.t)%type.

(** Apply an update to the PPU half and to the bus half. *)
Definition onP (f : PPUState.t -> PPUState.t) (s : sys) : sys := (f (fst s), snd s).
Definition onM (f : MemoryState.t -> MemoryState.t) (s : sys) : sys := (fst s, f (snd s)).

(** [PPU::reset], which the constructor runs. *)
Definition reset : PPUState.t :=
  mk 0x91 0x00 0 0 0 0 0 0 0xFC 0xFF 0xFF 0 2 false 0
     (filled (160 * 144) (idx colors 0)).

Definition checkSTATInterrupt (s : sys) : sys :=
  let p := fst s in
  let interrupt := false in
  (* Mode interrupts *)
  let interrupt := if nz (stat p .& 0x20) && (mode p =? 2) then true else interrupt in
  let interrupt := if nz (stat p .& 0x10) && (mode p =? 1) then true else interrupt in
  let interrupt := if nz (stat p .& 0x08) && (mode p =? 0) then true else interrupt in
  (* LYC=LY interrupt *)
  let interrupt := if nz (stat p .& 0x40) && nz (stat p .& 0x04) then true else interrupt in
  if interrupt
  then s |> onM (fun m => MemoryState.setIF (u8 (MemoryState.getIF m .| INT_STAT)) m)
  else s.

Definition setMode (newMode : Z) (s : sys) : sys :=
  s |> onP (set_mode newMode)
    |> onP (fun p => set_stat (u8 ((stat p .& 0xFC) .| (mode p .& 0x03))) p)
    |> checkSTATInterrupt.

Definition checkLYC (s : sys) : sys :=
  s |> onP (fun p => if ly p =? lyc p
                     then set_stat (u8 (stat p .| 0x04)) p
                     else set_stat (u8 (stat p .& cnot 0x04)) p)
    |> checkSTATInterrupt.

Definition writeLCDC (val : Z) (s : sys) : sys :=
  let wasEnabled := nz (lcdc (fst s) .& 0x80) in
  let isEnabled := nz (val .& 0x80) in
  let s := if wasEnabled && negb isEnabled
           then s |> onP (set_ly 0) |> onP (set_scanlineCycles 0) |> setMode 0
           else s in
  s |> onP (set_lcdc val).

(** Lower 3 bits are read-only. *)
Definition writeSTAT (val : Z) (p : PPUState.t) : PPUState.t :=
  set_stat (u8 ((val .& 0x78) .| (stat p .& 0x07))) p.

Definition writeLY (val : Z) (p : PPUState.t) : PPUState.t := set_ly 0 p.

(** Bit 7 always 1. *)
Definition readSTAT (p : PPUState.t) : Z := u8 (stat p .| 0x80).

(** *** The scanline rasteriser

    The rasteriser writes the frame buffer, the window line counter and
    its local array [bgPriority]; it reads the video RAM and the OAM of the
    bus.  A render state is the PPU with the local array. *)

Definition rstate : Type := (PPUState.t * list Z)%type.

(** The loop variable of [for (int i = 0; i < n; i++)]. *)
Definition upto (n : Z) : list Z := seqZ 0 n.

(** The colour number of a pixel from the two bit planes of a tile row. *)
Definition colorNumOf (hi lo bit : Z) : Z :=
  u8 ((((hi >> bit) .& 1) << 1) .| ((lo >> bit) .& 1)).

(** The address of a tile's data in video RAM, in either addressing mode. *)
Definition tileDataAddrOf (signedMode : bool) (tileDataBase tileNum : Z) : Z :=
  if signedMode then u16 (tileDataBase + s8 tileNum * 16)
  else u16 (tileDataBase + tileNum * 16).

Definition renderBackground (m : MemoryState.t) (r : rstate) : rstate :=
  let p := fst r in
  let vram := MemoryState.getVRAM m in
  (* Tile map address *)
  let tileMapBase := if nz (lcdc p .& 0x08) then 0x1C00 else 0x1800 in
  (* Tile data address and addressing mode *)
  let signedMode := negb (nz (lcdc p .& 0x10)) in
  let tileDataBase := if signedMode then 0x1000 else 0x0000 in
  let yPos := u8 (ly p + scy p) in
  let tileRow := u16 (Z.quot yPos 8 * 32) in
  fold_left
    (fun (r : rstate) (pixel : Z) =>
       let xPos := u8 (pixel + scx p) in
       let tileCol := Z.quot xPos 8 in
       (* Get tile number *)
       let tileAddr := u16 (tileMapBase + tileRow + tileCol) in
       let tileNum := idx vram tileAddr in
       (* Get tile data address *)
       let tileDataAddr := tileDataAddrOf signedMode tileDataBase tileNum in
       (* Get pixel within tile *)
       let line := u8 (Z.rem yPos 8 * 2) in
       let lo := idx vram (tileDataAddr + line) in
       let hi := idx vram (tileDataAddr + line + 1) in
       let bit := 7 - Z.rem xPos 8 in
       let colorNum := colorNumOf hi lo bit in
       (* Apply palette *)
       let color := u8 ((bgp p >> (colorNum * 2)) .& 0x03) in
       (set_framebuffer
          (upd (framebuffer (fst r)) (ly p * SCREEN_WIDTH + pixel) (idx colors color))
          (fst r),
        upd (snd r) pixel colorNum))
    (upto SCREEN_WIDTH) r.

Definition renderWindow (m : MemoryState.t) (r : rstate) : rstate :=
  let p := fst r in
  if ly p <? wy p then r
  else if 166 <? wx p then r
  else
    let vram := MemoryState.getVRAM m in
    (* Window tile map *)
    let tileMapBase := if nz (lcdc p .& 0x40) then 0x1C00 else 0x1800 in
    (* Tile data addressing *)
    let signedMode := negb (nz (lcdc p .& 0x10)) in
    let tileDataBase := if signedMode then 0x1000 else 0x0000 in
    let tileRow := u16 (Z.quot (windowLine p) 8 * 32) in
    let '(r, windowVisible) :=
      fold_left
        (fun (rv : rstate * bool) (pixel : Z) =>
           let r := fst rv in
           let windowX := pixel - (wx p - 7) in
           if windowX <? 0 then rv
           else
             let tileCol := u16 (Z.quot windowX 8) in
             let tileAddr := u16 (tileMapBase + tileRow + tileCol) in
             let tileNum := idx vram tileAddr in
             let tileDataAddr := tileDataAddrOf signedMode tileDataBase tileNum in
             let line := u8 (Z.rem (windowLine p) 8 * 2) in
             let lo := idx vram (tileDataAddr + line) in
             let hi := idx vram (tileDataAddr + line + 1) in
             let bit := 7 - Z.rem windowX 8 in
             let colorNum := colorNumOf hi lo bit in
             let color := u8 ((bgp p >> (colorNum * 2)) .& 0x03) in
             ((set_framebuffer
                 (upd (framebuffer (fst r)) (ly p * SCREEN_WIDTH + pixel) (idx colors color))
                 (fst r),
               upd (snd r) pixel colorNum),
              true))
        (upto SCREEN_WIDTH) (r, false) in
    if windowVisible
    then (set_windowLine (windowLine (fst r) + 1) (fst r), snd r)
    else r.

(** The eight pixels of one sprite row. *)
Definition renderSpriteRow (p : PPUState.t) (bgPriority : list Z)
    (xPos lo hi palette : Z) (priority xFlip : bool) (fb : list Z) : list Z :=
  fold_left
    (fun (fb : list Z) (pixel : Z) =>
       let screenX := xPos + pixel in
       if (screenX <? 0) || (SCREEN_WIDTH <=? screenX) then fb
       else
         let bit := if xFlip then pixel else 7 - pixel in
         let colorNum := colorNumOf hi lo bit in
         (* Color 0 is transparent *)
         if colorNum =? 0 then fb
         (* BG priority: sprite behind BG color 1-3 *)
         else if priority && nz (idx bgPriority screenX) then fb
         else
           let color := u8 ((palette >> (colorNum * 2)) .& 0x03) in
           upd fb (ly p * SCREEN_WIDTH + screenX) (idx colors color))
    (upto 8) fb.

(** [for (sprite = 0; sprite < 40 && spritesOnLine < 10; sprite++)]: once
    ten sprites are on the line the loop ends, which the fold renders by
    leaving the state alone from then on. *)
Definition renderSprites (m : MemoryState.t) (r : rstate) : rstate :=
  let p := fst r in
  let bgPriority := snd r in
  let vram := MemoryState.getVRAM m in
  let oam := MemoryState.getOAM m in
  let spriteHeight := if nz (lcdc p .& 0x04) then 16 else 8 in
  let '(fb, _) :=
    fold_left
      (fun (st : list Z * Z) (sprite : Z) =>
         let '(fb, spritesOnLine) := st in
         if negb (spritesOnLine <? 10) then st
         else
           let yPos := u8 (idx oam (sprite * 4) - 16) in
           let xPos := u8 (idx oam (sprite * 4 + 1) - 8) in
           let tileNum := idx oam (sprite * 4 + 2) in
           let attrs := idx oam (sprite * 4 + 3) in
           (* Check if sprite is on this scanline *)
           if (ly p <? yPos) || (yPos + spriteHeight <=? ly p) then st
           else
             let spritesOnLine := spritesOnLine + 1 in
             let priority := nz (attrs .& 0x80) in
             let yFlip := nz (attrs .& 0x40) in
             let xFlip := nz (attrs .& 0x20) in
             let palette := if nz (attrs .& 0x10) then obp1 p else obp0 p in
             (* For 8x16 sprites, mask bit 0 of tile number *)
             let tileNum := if spriteHeight =? 16 then u8 (tileNum .& 0xFE) else tileNum in
             let line := ly p - yPos in
             let line := if yFlip then (spriteHeight - 1) - line else line in
             let tileDataAddr := u16 (tileNum * 16 + line * 2) in
             let lo := idx vram tileDataAddr in
             let hi := idx vram (tileDataAddr + 1) in
             (renderSpriteRow p bgPriority xPos lo hi palette priority xFlip fb,
              spritesOnLine))
      (upto 40) (framebuffer p, 0) in
  (set_framebuffer fb p, bgPriority).

Definition renderScanline (m : MemoryState.t) (p : PPUState.t) : PPUState.t :=
  if SCREEN_HEIGHT <=? ly p then p
  else
    let r : rstate := (p, filled 160 0) in
    (* Render background *)
    let r :=
      if nz (lcdc p .& 0x01) then renderBackground m r
      else
        (* Background disabled - fill with color 0 *)
        (fold_left
           (fun (q : PPUState.t) (x : Z) =>
              set_framebuffer (upd (framebuffer q) (ly p * SCREEN_WIDTH + x) (idx colors 0)) q)
           (upto SCREEN_WIDTH) p,
         snd r) in
    (* Render window *)
    let r := if nz (lcdc p .& 0x20) && nz (lcdc p .& 0x01) then renderWindow m r else r in
    (* Render sprites *)
    let r := if nz (lcdc p .& 0x02) then renderSprites m r else r in
    fst r.

(** The first block of [PPU::step]: update registers from memory. *)
Definition loadRegisters (m : MemoryState.t) (p : PPUState.t) : PPUState.t :=
  p |> set_scy (MemoryState.readIO 0x42 m)
    |> set_scx (MemoryState.readIO 0x43 m)
    |> set_lyc (MemoryState.readIO 0x45 m)
    |> set_bgp (MemoryState.readIO 0x47 m)
    |> set_obp0 (MemoryState.readIO 0x48 m)
    |> set_obp1 (MemoryState.readIO 0x49 m)
    |> set_wy (MemoryState.readIO 0x4A m)
    |> set_wx (MemoryState.readIO 0x4B m)
    |> set_lcdc (MemoryState.readIO 0x40 m).

(** The four [case] blocks of the [switch (mode)] in [PPU::step], each
    applied after the clocks have been added to [scanlineCycles]. *)

(** [case 2]: OAM search (80 cycles). *)
Definition stepOAM (s : sys) : sys :=
  let p := fst s in
  if 80 <=? scanlineCycles p
  then s |> onP (set_scanlineCycles (scanlineCycles p - 80)) |> setMode 3
  else s.

(** [case 3]: pixel transfer (172 cycles, variable). *)
Definition stepTransfer (s : sys) : sys :=
  let p := fst s in
  if 172 <=? scanlineCycles p
  then s |> onP (set_scanlineCycles (scanlineCycles p - 172))
         |> (fun s => (renderScanline (snd s) (fst s), snd s))
         |> setMode 0
  else s.

(** [case 0]: HBlank (204 cycles). *)
Definition stepHBlank (s : sys) : sys :=
  let p := fst s in
  if 204 <=? scanlineCycles p
  then
    let s := s |> onP (set_scanlineCycles (scanlineCycles p - 204))
               |> onP (set_ly (u8 (ly p + 1))) in
    let s :=
      if ly (fst s) =? 144
      then (* Enter VBlank *)
        s |> setMode 1
          |> onM (fun m => MemoryState.setIF (u8 (MemoryState.getIF m .| INT_VBLANK)) m)
          |> onP (set_frameReady true)
          |> onP (set_windowLine 0)
      else s |> setMode 2 in
    s |> (fun s => onM (MemoryState.writeIO 0x44 (ly (fst s))) s) |> checkLYC
  else s.

(** [case 1]: VBlank (10 lines, 456 cycles each). *)
Definition stepVBlank (s : sys) : sys :=
  let p := fst s in
  if 456 <=? scanlineCycles p
  then
    let s := s |> onP (set_scanlineCycles (scanlineCycles p - 456))
               |> onP (set_ly (u8 (ly p + 1))) in
    let s := if 153 <? ly (fst s)
             then s |> onP (set_ly 0) |> setMode 2
             else s in
    s |> (fun s => onM (MemoryState.writeIO 0x44 (ly (fst s))) s) |> checkLYC
  else s.

(** [PPU::step(cycles)]. *)
Definition step (cycles : Z) (s : sys) : sys :=
  let s := s |> onP (loadRegisters (snd s)) in
  (* LCD disabled *)
  if negb (nz (lcdc (fst s) .& 0x80)) then s
  else
    let s := s |> onP (fun p => set_scanlineCycles (scanlineCycles p + cycles) p) in
    match mode (fst s) with
    | 2 => stepOAM s
    | 3 => stepTransfer s
    | 0 => stepHBlank s
    | 1 => stepVBlank s
    | _ => s
    end.

End PPU.

(** ** memory.cpp *)

Module Memory.
Import MemoryState.

(** The initial values of the I/O registers that the constructor stores,
    in the order of the source. *)
Definition ioDefaults : list (Z * Z) :=
  [ (0x00, 0xCF) (* JOYP *); (0x05, 0x00) (* TIMA *); (0x06, 0x00) (* TMA *);
    (0x07, 0x00) (* TAC *);  (0x0F, 0xE1) (* IF *);   (0x10, 0x80) (* NR10 *);
    (0x11, 0xBF) (* NR11 *); (0x12, 0xF3) (* NR12 *); (0x14, 0xBF) (* NR14 *);
    (0x16, 0x3F) (* NR21 *); (0x17, 0x00) (* NR22 *); (0x19, 0xBF) (* NR24 *);
    (0x1A, 0x7F) (* NR30 *); (0x1B, 0xFF) (* NR31 *); (0x1C, 0x9F) (* NR32 *);
    (0x1E, 0xBF) (* NR34 *); (0x20, 0xFF) (* NR41 *); (0x21, 0x00) (* NR42 *);
    (0x22, 0x00) (* NR43 *); (0x23, 0xBF) (* NR44 *); (0x24, 0x77) (* NR50 *);
    (0x25, 0xF3) (* NR51 *); (0x26, 0xF1) (* NR52 *); (0x40, 0x91) (* LCDC *);
    (0x42, 0x00) (* SCY *);  (0x43, 0x00) (* SCX *);  (0x45, 0x00) (* LYC *);
    (0x47, 0xFC) (* BGP *);  (0x48, 0xFF) (* OBP0 *); (0x49, 0xFF) (* OBP1 *);
    (0x4A, 0x00) (* WY *);   (0x4B, 0x00) (* WX *) ].

(** [Memory::Memory()]. *)
Definition new : t :=
  mk None None [] []
     (filled 0x2000 0) (filled 0x2000 0) (filled 0xA0 0)
     (fold_left (fun io rv => upd io (fst rv) (snd rv)) ioDefaults (filled 0x80 0))
     (filled 0x7F 0)
     0 0 1 0 false false 0 0 0 false 0 0 0xFF 0xFF.

(** What [Memory::loadROM] asks of its host.  A file that the stream
    opens reports a position at its end, [tellg] (-1 if it cannot tell),
    and delivers the bytes [content] when it is read from the start; for a
    regular file [tellg] is the number of these bytes, for a directory or a
    device it need not be. *)
Record file : Type := mkFile {
  tellg : Z;
  content : list Z
}.

(** [ifstream path] is [None] when the stream cannot be opened;
    [allocates n] tells whether a vector of [n] bytes can be had, that is
    whether [rom.resize(n)] returns rather than throws.  The vectors of a
    fixed size, those of the constructor and the external RAM of 128 KiB at
    most, are taken to be there. *)
Record files : Type := mkFiles {
  ifstream : string -> option file;
  allocates : Z -> bool
}.

(** [file.read(rom.data(), size)] after [rom.resize(size)]: the vector
    keeps its first [size] bytes, or is filled up with 0, and the bytes the
    file delivers, [size] of them at most, are stored from its start. *)
Definition readInto (f : file) (n : Z) (v : list Z) : list Z :=
  let got := take (Z.to_nat n) (content f) in
  got ++ drop (length got) (resize (Z.to_nat n) 0 v).

(** [Memory::loadROM(path)].  There are three ways out: [Some (false, _)]
    when the stream is not open, [Some (true, _)] when the image is in
    place, and [None] when [rom.resize] throws: nothing catches the
    exception, so the process is aborted.  The source does not check
    [tellg()]; a failure becomes the largest [size_t]. *)
Definition loadROM (fs : files) (path : string) (m : t) : option (bool * t) :=
  match ifstream fs path with
  | None => Some (false, m)
  | Some f =>
      let size_ := tellg f mod 2 ^ 64 in
      if negb (allocates fs size_) then None
      else
      let m := m |> set_rom (readInto f size_ (rom m)) in
      (* Detect MBC type from cartridge header *)
      let m :=
        if 0x148 <=? size (rom m) then
          let cartType := idx (rom m) 0x147 in
          let m :=
            match cartType with
            | 0x00 => m |> set_mbcType 0
            | 0x01 | 0x02 | 0x03 => m |> set_mbcType 1
            | 0x0F | 0x10 | 0x11 | 0x12 | 0x13 => m |> set_mbcType 3
            | 0x19 | 0x1A | 0x1B | 0x1C | 0x1D | 0x1E => m |> set_mbcType 5
            | _ => m |> set_mbcType 1
            end in
          (* Initialize external RAM *)
          let ramSize := idx (rom m) 0x149 in
          match ramSize with
          | 0x02 => m |> set_extRam (resize (Z.to_nat 0x2000) 0 (extRam m))
          | 0x03 => m |> set_extRam (resize (Z.to_nat 0x8000) 0 (extRam m))
          | 0x04 => m |> set_extRam (resize (Z.to_nat 0x20000) 0 (extRam m))
          | 0x05 => m |> set_extRam (resize (Z.to_nat 0x10000) 0 (extRam m))
          | _ => m |> set_extRam (resize (Z.to_nat 0x2000) 0 (extRam m))
          end
        else m in
      Some (true, m)
  end.

Definition setJoypadState (buttons dpad : Z) (m : t) : t :=
  m |> set_joypadButtons buttons |> set_joypadDpad dpad.

Definition readJoypad (m : t) : Z :=
  let select := u8 (idx (io m) 0x00 .& 0x30) in
  let result := 0xCF in (* Upper bits always 1 *)
  let result :=
    if (select .& 0x20) =? 0
    then (* Button keys selected (A, B, Select, Start) *)
      u8 ((result .& 0xF0) .| (joypadButtons m .& 0x0F))
    else result in
  let result :=
    if (select .& 0x10) =? 0
    then (* D-pad selected *)
      u8 ((result .& 0xF0) .| (joypadDpad m .& 0x0F))
    else result in
  result.

(** Whether the whole of ROM bank 0 is there.  Below 0x4000 the source
    reads [rom[addr]] unchecked, so that [read] is defined on every address
    only with an image of 0x4000 bytes or more; the switchable bank and the
    external RAM are read behind a check of the size. *)
Definition bank0Present (m : t) : Prop := 0x4000 <= size (rom m).

(** [Memory::read(addr)]. *)
Definition read (addr : Z) (m : t) : Z :=
  (* ROM Bank 0 *)
  if addr <? 0x4000 then idx (rom m) addr
  (* ROM Bank N (switchable) *)
  else if addr <? 0x8000 then
    let bankOffset := addr - 0x4000 in
    let romAddr := (romBank m * 0x4000) + bankOffset in
    if romAddr <? size (rom m) then idx (rom m) romAddr else 0xFF
  (* VRAM *)
  else if addr <? 0xA000 then idx (vram m) (addr - 0x8000)
  (* External RAM *)
  else if addr <? 0xC000 then
    if ramEnabled m && negb (size (extRam m) =? 0) then
      let ramAddr := (ramBank m * 0x2000) + (addr - 0xA000) in
      if ramAddr <? size (extRam m) then idx (extRam m) ramAddr else 0xFF
    else 0xFF
  (* Work RAM *)
  else if addr <? 0xE000 then idx (wram m) (addr - 0xC000)
  (* Echo RAM *)
  else if addr <? 0xFE00 then idx (wram m) (addr - 0xE000)
  (* OAM *)
  else if addr <? 0xFEA0 then idx (oam m) (addr - 0xFE00)
  (* Unusable *)
  else if addr <? 0xFF00 then 0xFF
  (* I/O Registers *)
  else if addr <? 0xFF80 then
    let reg := u8 (addr - 0xFF00) in
    match reg with
    | 0x00 => readJoypad m
    | 0x44 => match ppu m with Some p => PPUState.readLY p | None => 0 end
    | 0x41 => match ppu m with Some p => PPU.readSTAT p | None => 0 end
    | _ =>
        match apu m with
        | Some a =>
            if (0x10 <=? reg) && (reg <=? 0x3F) then APU.readRegister reg a
            else idx (io m) reg
        | None => idx (io m) reg
        end
    end
  (* High RAM *)
  else if addr <? 0xFFFF then idx (hram m) (addr - 0xFF80)
  (* IE register *)
  else ie m.

Definition handleMBCWrite (addr val : Z) (m : t) : t :=
  match mbcType m with
  | 0 => m (* ROM only *)
  | 1 => (* MBC1 *)
      if addr <? 0x2000 then m |> set_ramEnabled ((val .& 0x0F) =? 0x0A)
      else if addr <? 0x4000 then
        let m := m |> set_romBank (val .& 0x1F) in
        if romBank m =? 0 then m |> set_romBank 1 else m
      else if addr <? 0x6000 then m |> set_ramBank (val .& 0x03)
      else m
  | 3 => (* MBC3 *)
      if addr <? 0x2000 then m |> set_ramEnabled ((val .& 0x0F) =? 0x0A)
      else if addr <? 0x4000 then
        let m := m |> set_romBank (val .& 0x7F) in
        if romBank m =? 0 then m |> set_romBank 1 else m
      else if addr <? 0x6000 then
        if val <=? 0x03 then m |> set_ramBank val |> set_rtcEnabled false
        else if (0x08 <=? val) && (val <=? 0x0C)
        then m |> set_rtcEnabled true |> set_rtcRegister val
        else m
      else m
  | 5 => (* MBC5 *)
      if addr <? 0x2000 then m |> set_ramEnabled ((val .& 0x0F) =? 0x0A)
      else if addr <? 0x3000 then m |> set_romBank ((romBank m .& 0x100) .| val)
      else if addr <? 0x4000
      then m |> set_romBank ((romBank m .& 0xFF) .| ((val .& 0x01) << 8))
      else if addr <? 0x6000 then m |> set_ramBank (val .& 0x0F)
      else m
  | _ => m
  end.

(** Run a PPU method on the attached PPU: the method works on the PPU
    and on the bus, and the bus keeps pointing at the updated PPU. *)
Definition withPPU (f : PPU.sys -> PPU.sys) (m : t) : t :=
  match ppu m with
  | Some p => let s := f (p, m) in snd s |> set_ppu (Some (fst s))
  | None => m
  end.

(** [Memory::write(addr, val)]. *)
Definition write (addr val : Z) (m : t) : t :=
  (* ROM area - MBC control *)
  if addr <? 0x8000 then handleMBCWrite addr val m
  (* VRAM *)
  else if addr <? 0xA000 then m |> set_vram (upd (vram m) (addr - 0x8000) val)
  (* External RAM *)
  else if addr <? 0xC000 then
    if ramEnabled m && negb (size (extRam m) =? 0) then
      let ramAddr := (ramBank m * 0x2000) + (addr - 0xA000) in
      if ramAddr <? size (extRam m)
      then m |> set_extRam (upd (extRam m) ramAddr val)
      else m
    else m
  (* Work RAM *)
  else if addr <? 0xE000 then m |> set_wram (upd (wram m) (addr - 0xC000) val)
  (* Echo RAM *)
  else if addr <? 0xFE00 then m |> set_wram (upd (wram m) (addr - 0xE000) val)
  (* OAM *)
  else if addr <? 0xFEA0 then m |> set_oam (upd (oam m) (addr - 0xFE00) val)
  (* Unusable *)
  else if addr <? 0xFF00 then m
  (* I/O Registers *)
  else if addr <? 0xFF80 then
    let reg := u8 (addr - 0xFF00) in
    match reg with
    | 0x00 => (* JOYP *)
        m |> set_io (upd (io m) 0x00 (u8 ((val .& 0x30) .| (idx (io m) 0x00 .& 0xCF))))
    | 0x04 => (* DIV - writing resets to 0 *)
        m |> set_io (upd (io m) 0x04 0) |> set_divCounter 0
    | 0x40 => (* LCDC *)
        m |> withPPU (PPU.writeLCDC val)
          |> (fun m => set_io (upd (io m) 0x40 val) m)
    | 0x41 => (* STAT *)
        m |> withPPU (PPU.onP (PPU.writeSTAT val))
          |> (fun m => set_io (upd (io m) 0x41 val) m)
    | 0x44 => (* LY (read-only, but writing resets) *)
        m |> withPPU (PPU.onP (PPU.writeLY val))
    | 0x46 => (* DMA *)
        m |> set_dmaActive true |> set_dmaCycles 0 |> set_dmaSource (u16 (val << 8))
          |> (fun m => set_io (upd (io m) 0x46 val) m)
    | _ =>
        let m :=
          match apu m with
          | Some a =>
              if (0x10 <=? reg) && (reg <=? 0x3F)
              then m |> set_apu (Some (APU.writeRegister reg val a))
              else m
          | None => m
          end in
        m |> set_io (upd (io m) reg val)
    end
  (* High RAM *)
  else if addr <? 0xFFFF then m |> set_hram (upd (hram m) (addr - 0xFF80) val)
  (* IE register *)
  else m |> set_ie val.

Definition getTimerFrequency (m : t) : Z :=
  match idx (io m) 0x07 .& 0x03 with
  | 0 => 1024 (* 4096 Hz *)
  | 1 => 16   (* 262144 Hz *)
  | 2 => 64   (* 65536 Hz *)
  | 3 => 256  (* 16384 Hz *)
  | _ => 1024
  end.

(** [while (divCounter >= 256) { divCounter -= 256; io[0x04]++; }], with
    a bound on the number of iterations. *)
Fixpoint divLoop (fuel : nat) (m : t) : t :=
  match fuel with
  | O => m
  | S fuel =>
      if 256 <=? divCounter m
      then divLoop fuel (m |> set_divCounter (divCounter m - 256)
                           |> (fun m => set_io (upd (io m) 0x04 (u8 (idx (io m) 0x04 + 1))) m))
      else m
  end.

(** One pass of the body of the timer loop: a tick of TIMA. *)
Definition timerTick (freq : Z) (m : t) : t :=
  let m := m |> set_timerCounter (timerCounter m - freq) in
  let m := m |> set_io (upd (io m) 0x05 (u8 (idx (io m) 0x05 + 1))) (* TIMA *) in
  (* Timer overflow *)
  if idx (io m) 0x05 =? 0
  then m |> set_io (upd (io m) 0x05 (idx (io m) 0x06)) (* Reset to TMA *)
         |> (fun m => set_io (upd (io m) 0x0F (u8 (idx (io m) 0x0F .| INT_TIMER))) m)
  else m.

(** [while (timerCounter >= freq) { ... }], with a bound on the number
    of iterations. *)
Fixpoint timerLoop (fuel : nat) (freq : Z) (m : t) : t :=
  match fuel with
  | O => m
  | S fuel => if freq <=? timerCounter m then timerLoop fuel freq (timerTick freq m) else m
  end.

(** [Memory::updateTimer(cycles)].  Each pass of either loop takes at least
    16 from a counter, so a bound of the counter's own value is never
    reached ([divLoop_runs_out], [timerLoop_runs_out]). *)
Definition updateTimer (cycles : Z) (m : t) : t :=
  (* Update DIV register *)
  let m := m |> set_divCounter (divCounter m + cycles) in
  let m := divLoop (Z.to_nat (divCounter m)) m in
  (* Check if timer is enabled *)
  let tac := idx (io m) 0x07 in
  if negb (nz (tac .& 0x04)) then m
  else
    let m := m |> set_timerCounter (timerCounter m + cycles) in
    let freq := getTimerFrequency m in
    timerLoop (Z.to_nat (timerCounter m)) freq m.

(** [for (int i = from; i < from + count; i++) oam[i] = read(dmaSource + i);]
    each read sees the stores made before it. *)
Definition dmaCopy (from count : Z) (m : t) : t :=
  fold_left
    (fun (m : t) (i : Z) => m |> set_oam (upd (oam m) i (read (u16 (dmaSource m + i)) m)))
    (seqZ from count) m.

(** [Memory::updateDMA(cycles)]. *)
Definition updateDMA (cycles : Z) (m : t) : t :=
  if negb (dmaActive m) then m
  else
    let m := m |> set_dmaCycles (dmaCycles m + cycles) in
    (* DMA takes 160 machine cycles (640 clocks) *)
    if 640 <=? dmaCycles m then
      (* Copy 160 bytes to OAM *)
      m |> dmaCopy 0 160 |> set_dmaActive false
    else m.

End Memory.

(** ** cpu.h *)

Module CPUState.

(** The data members of [class CPU]; the reference to the bus is the bus
    value a method is applied to. *)
Record t : Type := mk {
  a : Z;
  f : Z;  (* Flags: Z N H C 0 0 0 0 *)
  b : Z;
  c : Z;
  d : Z;
  e : Z;
  h : Z;
  l : Z;
  sp : Z;  (* Stack pointer *)
  pc : Z;  (* Program counter *)
  ime : bool;  (* Interrupt master enable *)
  imeScheduled : bool;  (* IME to be enabled after next instruction *)
  halted : bool;
  stopped : bool
}.

Definition set_a (v : Z) (r : t) : t :=
  mk v (f r) (b r) (c r) (d r) (e r) (h r) (l r) (sp r) (pc r) (ime r) (imeScheduled r)
     (halted r) (stopped r).
Definition set_f (v : Z) (r : t) : t :=
  mk (a r) v (b r) (c r) (d r) (e r) (h r) (l r) (sp r) (pc r) (ime r) (imeScheduled r)
     (halted r) (stopped r).
Definition set_b (v : Z) (r : t) : t :=
  mk (a r) (f r) v (c r) (d r) (e r) (h r) (l r) (sp r) (pc r) (ime r) (imeScheduled r)
     (halted r) (stopped r).
Definition set_c (v : Z) (r : t) : t :=
  mk (a r) (f r) (b r) v (d r) (e r) (h r) (l r) (sp r) (pc r) (ime r) (imeScheduled r)
     (halted r) (stopped r).
Definition set_d (v : Z) (r : t) : t :=
  mk (a r) (f r) (b r) (c r) v (e r) (h r) (l r) (sp r) (pc r) (ime r) (imeScheduled r)
     (halted r) (stopped r).
Definition set_e (v : Z) (r : t) : t :=
  mk (a r) (f r) (b r) (c r) (d r) v (h r) (l r) (sp r) (pc r) (ime r) (imeScheduled r)
     (halted r) (stopped r).
Definition set_h (v : Z) (r : t) : t :=
  mk (a r) (f r) (b r) (c r) (d r) (e r) v (l r) (sp r) (pc r) (ime r) (imeScheduled r)
     (halted r) (stopped r).
Definition set_l (v : Z) (r : t) : t :=
  mk (a r) (f r) (b r) (c r) (d r) (e r) (h r) v (sp r) (pc r) (ime r) (imeScheduled r)
     (halted r) (stopped r).
Definition set_sp (v : Z) (r : t) : t :=
  mk (a r) (f r) (b r) (c r) (d r) (e r) (h r) (l r) v (pc r) (ime r) (imeScheduled r)
     (halted r) (stopped r).
Definition set_pc (v : Z) (r : t) : t :=
  mk (a r) (f r) (b r) (c r) (d r) (e r) (h r) (l r) (sp r) v (ime r) (imeScheduled r)
     (halted r) (stopped r).
Definition set_ime (v : bool) (r : t) : t :=
  mk (a r) (f r) (b r) (c r) (d r) (e r) (h r) (l r) (sp r) (pc r) v (imeScheduled r)
     (halted r) (stopped r).
Definition set_imeScheduled (v : bool) (r : t) : t :=
  mk (a r) (f r) (b r) (c r) (d r) (e r) (h r) (l r) (sp r) (pc r) (ime r) v (halted r)
     (stopped r).
Definition set_halted (v : bool) (r : t) : t :=
  mk (a r) (f r) (b r) (c r) (d r) (e r) (h r) (l r) (sp r) (pc r) (ime r) (imeScheduled r)
     v (stopped r).
Definition set_stopped (v : bool) (r : t) : t :=
  mk (a r) (f r) (b r) (c r) (d r) (e r) (h r) (l r) (sp r) (pc r) (ime r) (imeScheduled r)
     (halted r) v.

(** The register pairs.  Each is a union of a 16-bit word with two bytes,
    the low byte first in memory: [af] is [a] over [f], and so on. *)
Definition af (r : t) : Z := (a r << 8) .| f r.
Definition bc (r : t) : Z := (b r << 8) .| c r.
Definition de (r : t) : Z := (d r << 8) .| e r.
Definition hl (r : t) : Z := (h r << 8) .| l r.
Definition set_af (v : Z) (r : t) : t := r |> set_a (v >> 8) |> set_f (v .& 0xFF).
Definition set_bc (v : Z) (r : t) : t := r |> set_b (v >> 8) |> set_c (v .& 0xFF).
Definition set_de (v : Z) (r : t) : t := r |> set_d (v >> 8) |> set_e (v .& 0xFF).
Definition set_hl (v : Z) (r : t) : t := r |> set_h (v >> 8) |> set_l (v .& 0xFF).

(** Flag helpers. *)
Definition getZ (r : t) : bool := nz (f r .& 0x80).
Definition getN (r : t) : bool := nz (f r .& 0x40).
Definition getH (r : t) : bool := nz (f r .& 0x20).
Definition getC (r : t) : bool := nz (f r .& 0x10).

Definition setZ (v : bool) (r : t) : t :=
  r |> set_f (u8 (if v then f r .| 0x80 else f r .& cnot 0x80)).
Definition setN (v : bool) (r : t) : t :=
  r |> set_f (u8 (if v then f r .| 0x40 else f r .& cnot 0x40)).
Definition setH (v : bool) (r : t) : t :=
  r |> set_f (u8 (if v then f r .| 0x20 else f r .& cnot 0x20)).
Definition setC (v : bool) (r : t) : t :=
  r |> set_f (u8 (if v then f r .| 0x10 else f r .& cnot 0x10)).

Definition setFlags (z n h c : bool) (r : t) : t :=
  r |> set_f ((if z then 0x80 else 0) .| (if n then 0x40 else 0)
              .| (if h then 0x20 else 0) .| (if c then 0x10 else 0)).

End CPUState.

(** ** cpu.cpp *)

Module CPU.
Import CPUState.

(** A CPU together with the bus it refers to. *)
Definition mach : Type := (CPUState.t * MemoryState.t)%type.

Definition onC (g : CPUState.t -> CPUState.t) (s : mach) : mach := (g (fst s), snd s).
Definition onM (g : MemoryState.t -> MemoryState.t) (s : mach) : mach := (fst s, g (snd s)).

(** [CPU::reset], which the constructor runs: the values after the boot ROM. *)
Definition reset : CPUState.t :=
  mk 0 0 0 0 0 0 0 0 0 0 false false false false
    |> set_af 0x01B0 |> set_bc 0x0013 |> set_de 0x00D8 |> set_hl 0x014D
    |> set_sp 0xFFFE |> set_pc 0x0100.

Definition read8 (addr : Z) (s : mach) : Z := Memory.read addr (snd s).

Definition write8 (addr val : Z) (s : mach) : mach := s |> onM (Memory.write addr val).

Definition read16 (addr : Z) (s : mach) : Z :=
  u16 (read8 addr s .| (read8 (u16 (addr + 1)) s << 8)).

Definition write16 (addr val : Z) (s : mach) : mach :=
  s |> write8 addr (val .& 0xFF) |> write8 (u16 (addr + 1)) (u8 (val >> 8)).

(** [read8(pc++)]. *)
Definition fetch8 (s : mach) : Z * mach :=
  (read8 (pc (fst s)) s, s |> onC (fun r => set_pc (u16 (pc r + 1)) r)).

Definition fetch16 (s : mach) : Z * mach :=
  (read16 (pc (fst s)) s, s |> onC (fun r => set_pc (u16 (pc r + 2)) r)).

Definition push16 (val : Z) (s : mach) : mach :=
  let s := s |> onC (fun r => set_sp (u16 (sp r - 2)) r) in
  s |> write16 (sp (fst s)) val.

Definition pop16 (s : mach) : Z * mach :=
  (read16 (sp (fst s)) s, s |> onC (fun r => set_sp (u16 (sp r + 2)) r)).

Definition requestInterrupt (interrupt : Z) (s : mach) : mach :=
  s |> onM (fun m => MemoryState.setIF (u8 (MemoryState.getIF m .| interrupt)) m).

(** [CPU::handleInterrupts]: the clocks taken, 0 when nothing is dispatched. *)
Definition handleInterrupts (s : mach) : Z * mach :=
  let pending := u8 (MemoryState.getIF (snd s) .& MemoryState.getIE (snd s) .& 0x1F) in
  if nz pending then
    let s := s |> onC (set_halted false) in
    if ime (fst s) then
      let s := s |> onC (set_ime false) in
      (* Find highest priority interrupt *)
      let '(handler, bit) :=
        if nz (pending .& INT_VBLANK) then (0x0040, INT_VBLANK)
        else if nz (pending .& INT_STAT) then (0x0048, INT_STAT)
        else if nz (pending .& INT_TIMER) then (0x0050, INT_TIMER)
        else if nz (pending .& INT_SERIAL) then (0x0058, INT_SERIAL)
        else if nz (pending .& INT_JOYPAD) then (0x0060, INT_JOYPAD)
        else (0, 0) in
      (* Clear interrupt flag *)
      let s := s |> onM (fun m => MemoryState.setIF (u8 (MemoryState.getIF m .& cnot bit)) m) in
      (* Call interrupt handler *)
      let s := s |> push16 (pc (fst s)) |> onC (set_pc handler) in
      (20, s) (* Interrupt handling takes 20 cycles *)
    else (0, s)
  else (0, s).

(** *** ALU operations *)

Definition add8 (val : Z) (r : t) : t :=
  let result := a r + val in
  r |> setFlags ((result .& 0xFF) =? 0) false
                (0xF <? (a r .& 0xF) + (val .& 0xF)) (0xFF <? result)
    |> set_a (result .& 0xFF).

Definition adc8 (val : Z) (r : t) : t :=
  let carry := if getC r then 1 else 0 in
  let result := a r + val + carry in
  r |> setFlags ((result .& 0xFF) =? 0) false
                (0xF <? (a r .& 0xF) + (val .& 0xF) + carry) (0xFF <? result)
    |> set_a (result .& 0xFF).

Definition sub8 (val : Z) (r : t) : t :=
  let result := a r - val in
  r |> setFlags ((result .& 0xFF) =? 0) true
                ((a r .& 0xF) <? (val .& 0xF)) (a r <? val)
    |> set_a (result .& 0xFF).

Definition sbc8 (val : Z) (r : t) : t :=
  let carry := if getC r then 1 else 0 in
  let result := a r - val - carry in
  r |> setFlags ((result .& 0xFF) =? 0) true
                ((a r .& 0xF) <? (val .& 0xF) + carry) (result <? 0)
    |> set_a (result .& 0xFF).

Definition and8 (val : Z) (r : t) : t :=
  let r := r |> set_a (u8 (a r .& val)) in
  r |> setFlags (a r =? 0) false true false.

Definition or8 (val : Z) (r : t) : t :=
  let r := r |> set_a (u8 (a r .| val)) in
  r |> setFlags (a r =? 0) false false false.

Definition xor8 (val : Z) (r : t) : t :=
  let r := r |> set_a (u8 (a r .^ val)) in
  r |> setFlags (a r =? 0) false false false.

Definition cp8 (val : Z) (r : t) : t :=
  r |> setFlags (a r =? val) true ((a r .& 0xF) <? (val .& 0xF)) (a r <? val).

(** [inc8(uint8_t& reg)] and [dec8]: the new value of the referenced byte
    comes back with the CPU, and the caller stores it. *)
Definition inc8 (reg : Z) (r : t) : Z * t :=
  let reg := u8 (reg + 1) in
  (reg, r |> setZ (reg =? 0) |> setN false |> setH ((reg .& 0xF) =? 0)).

Definition dec8 (reg : Z) (r : t) : Z * t :=
  let reg := u8 (reg - 1) in
  (reg, r |> setZ (reg =? 0) |> setN true |> setH ((reg .& 0xF) =? 0xF)).

Definition add16hl (val : Z) (r : t) : t :=
  let result := hl r + val in
  r |> setN false
    |> setH (0xFFF <? (hl r .& 0xFFF) + (val .& 0xFFF))
    |> setC (0xFFFF <? result)
    |> set_hl (result .& 0xFFFF).

(** [addSP(int8_t val)]: [val] is the signed operand. *)
Definition addSP (val : Z) (r : t) : t :=
  let result := sp r + val in
  r |> setFlags false false
                (0xF <? (sp r .& 0xF) + (val .& 0xF))
                (0xFF <? (sp r .& 0xFF) + (val .& 0xFF))
    |> set_sp (result .& 0xFFFF).

(** The body of [case 0xF8] ([LD HL, SP+imm8]), [e8] the signed operand. *)
Definition ldHLSP (e8 : Z) (r : t) : t :=
  let result := sp r + e8 in
  r |> setFlags false false
                (0xF <? (sp r .& 0xF) + (e8 .& 0xF))
                (0xFF <? (sp r .& 0xFF) + (e8 .& 0xFF))
    |> set_hl (result .& 0xFFFF).

(** The body of [case 0x27] ([DAA]). *)
Definition daa (r : t) : t :=
  let result := a r in
  let '(result, r) :=
    if getN r then
      let result := if getC r then result - 0x60 else result in
      let result := if getH r then result - 0x06 else result in
      (result, r)
    else
      let '(result, r) :=
        if getC r || (0x99 <? result) then (result + 0x60, setC true r) else (result, r) in
      let result := if getH r || (0x09 <? (result .& 0x0F)) then result + 0x06 else result in
      (result, r) in
  let r := r |> set_a (result .& 0xFF) in
  r |> setZ (a r =? 0) |> setH false.

(** *** Rotate/shift operations: the result with the flags set. *)

Definition rlc (val : Z) (r : t) : Z * t :=
  let result := u8 ((val << 1) .| (val >> 7)) in
  (result, r |> setFlags (result =? 0) false false (nz (val .& 0x80))).

Definition rrc (val : Z) (r : t) : Z * t :=
  let result := u8 ((val >> 1) .| (val << 7)) in
  (result, r |> setFlags (result =? 0) false false (nz (val .& 0x01))).

Definition rl (val : Z) (r : t) : Z * t :=
  let result := u8 ((val << 1) .| (if getC r then 1 else 0)) in
  (result, r |> setFlags (result =? 0) false false (nz (val .& 0x80))).

Definition rr (val : Z) (r : t) : Z * t :=
  let result := u8 ((val >> 1) .| (if getC r then 0x80 else 0)) in
  (result, r |> setFlags (result =? 0) false false (nz (val .& 0x01))).

Definition sla (val : Z) (r : t) : Z * t :=
  let result := u8 (val << 1) in
  (result, r |> setFlags (result =? 0) false false (nz (val .& 0x80))).

Definition sra (val : Z) (r : t) : Z * t :=
  let result := u8 ((val >> 1) .| (val .& 0x80)) in
  (result, r |> setFlags (result =? 0) false false (nz (val .& 0x01))).

Definition swap (val : Z) (r : t) : Z * t :=
  let result := u8 (((val .& 0xF) << 4) .| ((val .& 0xF0) >> 4)) in
  (result, r |> setFlags (result =? 0) false false false).

Definition srl (val : Z) (r : t) : Z * t :=
  let result := u8 (val >> 1) in
  (result, r |> setFlags (result =? 0) false false (nz (val .& 0x01))).

Definition bit (b val : Z) (r : t) : t :=
  r |> setZ ((val .& (1 << b)) =? 0) |> setN false |> setH true.

Definition res (b val : Z) : Z := u8 (val .& cnot (1 << b)).

Definition set (b val : Z) : Z := u8 (val .| (1 << b)).

(** [*regs[reg]] of [executeCB], for [reg] other than 6. *)
Definition getReg (reg : Z) (r : t) : Z :=
  match reg with
  | 0 => b r | 1 => c r | 2 => d r | 3 => e r | 4 => h r | 5 => l r | _ => a r
  end.

Definition setReg (reg : Z) (v : Z) (r : t) : t :=
  match reg with
  | 0 => set_b v r | 1 => set_c v r | 2 => set_d v r | 3 => set_e v r
  | 4 => set_h v r | 5 => set_l v r | _ => set_a v r
  end.

(** [CPU::executeCB]. *)
Definition executeCB (s : mach) : Z * mach :=
  let '(opcode, s) := fetch8 s in
  let reg := opcode .& 0x07 in
  let op := opcode >> 3 in
  let val := if reg =? 6 then read8 (hl (fst s)) s else getReg reg (fst s) in
  let store (vr : Z * t) : Z * mach :=
    let '(result, r) := vr in
    if reg =? 6 then (16, (r, snd s) |> write8 (hl r) result)
    else (8, (setReg reg result r, snd s)) in
  match op with
  | 0 => store (rlc val (fst s))
  | 1 => store (rrc val (fst s))
  | 2 => store (rl val (fst s))
  | 3 => store (rr val (fst s))
  | 4 => store (sla val (fst s))
  | 5 => store (sra val (fst s))
  | 6 => store (swap val (fst s))
  | 7 => store (srl val (fst s))
  | _ =>
      let bitNum := Z.rem (op - 8) 8 in
      if op <? 16 then (if reg =? 6 then 12 else 8, s |> onC (bit bitNum val))
      else if op <? 24 then store (res bitNum val, fst s)
      else store (set bitNum val, fst s)
  end.

(** The [switch (opcode)] of [CPU::step]: the clocks taken and the new state. *)
Definition execute (opcode : Z) (s : mach) : Z * mach :=
  match opcode with
  | 0x00 => (4, s) (* NOP *)
  | 0x01 => let '(v, s) := fetch16 s in (12, s |> onC (set_bc v)) (* LD r16, imm16 *)
  | 0x02 => (8, s |> write8 (bc (fst s)) (a (fst s))) (* LD (r16), A *)
  | 0x03 => (8, s |> onC (fun r => set_bc (u16 (bc r + 1)) r)) (* INC r16 *)
  | 0x04 => let '(v, r) := inc8 (b (fst s)) (fst s) in (4, (set_b v r, snd s)) (* INC r8 *)
  | 0x05 => let '(v, r) := dec8 (b (fst s)) (fst s) in (4, (set_b v r, snd s)) (* DEC r8 *)
  | 0x06 => let '(v, s) := fetch8 s in (8, s |> onC (set_b v)) (* LD r8, imm8 *)
  | 0x07 => (* RLCA *)
      let '(v, r) := rlc (a (fst s)) (fst s) in (4, (r |> set_a v |> setZ false, snd s))
  | 0x08 => let '(addr, s) := fetch16 s in (20, s |> write16 addr (sp (fst s))) (* LD (imm16), SP *)
  | 0x09 => (8, s |> onC (fun r => add16hl (bc r) r)) (* ADD HL, r16 *)
  | 0x0A => (8, s |> onC (set_a (read8 (bc (fst s)) s))) (* LD A, (r16) *)
  | 0x0B => (8, s |> onC (fun r => set_bc (u16 (bc r - 1)) r)) (* DEC r16 *)
  | 0x0C => let '(v, r) := inc8 (c (fst s)) (fst s) in (4, (set_c v r, snd s))
  | 0x0D => let '(v, r) := dec8 (c (fst s)) (fst s) in (4, (set_c v r, snd s))
  | 0x0E => let '(v, s) := fetch8 s in (8, s |> onC (set_c v))
  | 0x0F => (* RRCA *)
      let '(v, r) := rrc (a (fst s)) (fst s) in (4, (r |> set_a v |> setZ false, snd s))
  | 0x10 => (4, s |> onC (set_stopped true) |> (fun s => snd (fetch8 s))) (* STOP *)
  | 0x11 => let '(v, s) := fetch16 s in (12, s |> onC (set_de v))
  | 0x12 => (8, s |> write8 (de (fst s)) (a (fst s)))
  | 0x13 => (8, s |> onC (fun r => set_de (u16 (de r + 1)) r))
  | 0x14 => let '(v, r) := inc8 (d (fst s)) (fst s) in (4, (set_d v r, snd s))
  | 0x15 => let '(v, r) := dec8 (d (fst s)) (fst s) in (4, (set_d v r, snd s))
  | 0x16 => let '(v, s) := fetch8 s in (8, s |> onC (set_d v))
  | 0x17 => (* RLA *)
      let '(v, r) := rl (a (fst s)) (fst s) in (4, (r |> set_a v |> setZ false, snd s))
  | 0x18 => (* JR *)
      let '(v, s) := fetch8 s in (12, s |> onC (fun r => set_pc (u16 (pc r + s8 v)) r))
  | 0x19 => (8, s |> onC (fun r => add16hl (de r) r))
  | 0x1A => (8, s |> onC (set_a (read8 (de (fst s)) s)))
  | 0x1B => (8, s |> onC (fun r => set_de (u16 (de r - 1)) r))
  | 0x1C => let '(v, r) := inc8 (e (fst s)) (fst s) in (4, (set_e v r, snd s))
  | 0x1D => let '(v, r) := dec8 (e (fst s)) (fst s) in (4, (set_e v r, snd s))
  | 0x1E => let '(v, s) := fetch8 s in (8, s |> onC (set_e v))
  | 0x1F => (* RRA *)
      let '(v, r) := rr (a (fst s)) (fst s) in (4, (r |> set_a v |> setZ false, snd s))
  | 0x20 =>
      let '(v, s) := fetch8 s in
      if negb (getZ (fst s)) then (12, s |> onC (fun r => set_pc (u16 (pc r + s8 v)) r)) else (8, s)
  | 0x21 => let '(v, s) := fetch16 s in (12, s |> onC (set_hl v))
  | 0x22 =>
      (8, s |> onC (set_hl (u16 (hl (fst s) + 1))) |> write8 (hl (fst s)) (a (fst s)))
  | 0x23 => (8, s |> onC (fun r => set_hl (u16 (hl r + 1)) r))
  | 0x24 => let '(v, r) := inc8 (h (fst s)) (fst s) in (4, (set_h v r, snd s))
  | 0x25 => let '(v, r) := dec8 (h (fst s)) (fst s) in (4, (set_h v r, snd s))
  | 0x26 => let '(v, s) := fetch8 s in (8, s |> onC (set_h v))
  | 0x27 => (4, s |> onC daa) (* DAA *)
  | 0x28 =>
      let '(v, s) := fetch8 s in
      if getZ (fst s) then (12, s |> onC (fun r => set_pc (u16 (pc r + s8 v)) r)) else (8, s)
  | 0x29 => (8, s |> onC (fun r => add16hl (hl r) r))
  | 0x2A =>
      (8, s |> onC (set_hl (u16 (hl (fst s) + 1))) |> onC (set_a (read8 (hl (fst s)) s)))
  | 0x2B => (8, s |> onC (fun r => set_hl (u16 (hl r - 1)) r))
  | 0x2C => let '(v, r) := inc8 (l (fst s)) (fst s) in (4, (set_l v r, snd s))
  | 0x2D => let '(v, r) := dec8 (l (fst s)) (fst s) in (4, (set_l v r, snd s))
  | 0x2E => let '(v, s) := fetch8 s in (8, s |> onC (set_l v))
  | 0x2F => (* CPL *)
      (4, s |> onC (fun r => r |> set_a (u8 (cnot (a r))) |> setN true |> setH true))
  | 0x30 =>
      let '(v, s) := fetch8 s in
      if negb (getC (fst s)) then (12, s |> onC (fun r => set_pc (u16 (pc r + s8 v)) r)) else (8, s)
  | 0x31 => let '(v, s) := fetch16 s in (12, s |> onC (set_sp v))
  | 0x32 =>
      (8, s |> onC (set_hl (u16 (hl (fst s) - 1))) |> write8 (hl (fst s)) (a (fst s)))
  | 0x33 => (8, s |> onC (fun r => set_sp (u16 (sp r + 1)) r))
  | 0x34 =>
      let '(v, r) := inc8 (read8 (hl (fst s)) s) (fst s) in (12, (r, snd s) |> write8 (hl r) v)
  | 0x35 =>
      let '(v, r) := dec8 (read8 (hl (fst s)) s) (fst s) in (12, (r, snd s) |> write8 (hl r) v)
  | 0x36 => let '(v, s) := fetch8 s in (12, s |> write8 (hl (fst s)) v)
  | 0x37 => (4, s |> onC (fun r => r |> setN false |> setH false |> setC true)) (* SCF *)
  | 0x38 =>
      let '(v, s) := fetch8 s in
      if getC (fst s) then (12, s |> onC (fun r => set_pc (u16 (pc r + s8 v)) r)) else (8, s)
  | 0x39 => (8, s |> onC (fun r => add16hl (sp r) r))
  | 0x3A =>
      (8, s |> onC (set_hl (u16 (hl (fst s) - 1))) |> onC (set_a (read8 (hl (fst s)) s)))
  | 0x3B => (8, s |> onC (fun r => set_sp (u16 (sp r - 1)) r))
  | 0x3C => let '(v, r) := inc8 (a (fst s)) (fst s) in (4, (set_a v r, snd s))
  | 0x3D => let '(v, r) := dec8 (a (fst s)) (fst s) in (4, (set_a v r, snd s))
  | 0x3E => let '(v, s) := fetch8 s in (8, s |> onC (set_a v))
  | 0x3F => (* CCF *)
      (4, s |> onC (fun r => r |> setN false |> setH false |> (fun r => setC (negb (getC r)) r)))
  | 0x40 => (4, s |> onC (fun r => set_b (b r) r)) (* LD r8, r8 (0x40-0x7F except 0x76) *)
  | 0x41 => (4, s |> onC (fun r => set_b (c r) r))
  | 0x42 => (4, s |> onC (fun r => set_b (d r) r))
  | 0x43 => (4, s |> onC (fun r => set_b (e r) r))
  | 0x44 => (4, s |> onC (fun r => set_b (h r) r))
  | 0x45 => (4, s |> onC (fun r => set_b (l r) r))
  | 0x46 => (8, s |> onC (set_b (read8 (hl (fst s)) s)))
  | 0x47 => (4, s |> onC (fun r => set_b (a r) r))
  | 0x48 => (4, s |> onC (fun r => set_c (b r) r))
  | 0x49 => (4, s |> onC (fun r => set_c (c r) r))
  | 0x4A => (4, s |> onC (fun r => set_c (d r) r))
  | 0x4B => (4, s |> onC (fun r => set_c (e r) r))
  | 0x4C => (4, s |> onC (fun r => set_c (h r) r))
  | 0x4D => (4, s |> onC (fun r => set_c (l r) r))
  | 0x4E => (8, s |> onC (set_c (read8 (hl (fst s)) s)))
  | 0x4F => (4, s |> onC (fun r => set_c (a r) r))
  | 0x50 => (4, s |> onC (fun r => set_d (b r) r))
  | 0x51 => (4, s |> onC (fun r => set_d (c r) r))
  | 0x52 => (4, s |> onC (fun r => set_d (d r) r))
  | 0x53 => (4, s |> onC (fun r => set_d (e r) r))
  | 0x54 => (4, s |> onC (fun r => set_d (h r) r))
  | 0x55 => (4, s |> onC (fun r => set_d (l r) r))
  | 0x56 => (8, s |> onC (set_d (read8 (hl (fst s)) s)))
  | 0x57 => (4, s |> onC (fun r => set_d (a r) r))
  | 0x58 => (4, s |> onC (fun r => set_e (b r) r))
  | 0x59 => (4, s |> onC (fun r => set_e (c r) r))
  | 0x5A => (4, s |> onC (fun r => set_e (d r) r))
  | 0x5B => (4, s |> onC (fun r => set_e (e r) r))
  | 0x5C => (4, s |> onC (fun r => set_e (h r) r))
  | 0x5D => (4, s |> onC (fun r => set_e (l r) r))
  | 0x5E => (8, s |> onC (set_e (read8 (hl (fst s)) s)))
  | 0x5F => (4, s |> onC (fun r => set_e (a r) r))
  | 0x60 => (4, s |> onC (fun r => set_h (b r) r))
  | 0x61 => (4, s |> onC (fun r => set_h (c r) r))
  | 0x62 => (4, s |> onC (fun r => set_h (d r) r))
  | 0x63 => (4, s |> onC (fun r => set_h (e r) r))
  | 0x64 => (4, s |> onC (fun r => set_h (h r) r))
  | 0x65 => (4, s |> onC (fun r => set_h (l r) r))
  | 0x66 => (8, s |> onC (set_h (read8 (hl (fst s)) s)))
  | 0x67 => (4, s |> onC (fun r => set_h (a r) r))
  | 0x68 => (4, s |> onC (fun r => set_l (b r) r))
  | 0x69 => (4, s |> onC (fun r => set_l (c r) r))
  | 0x6A => (4, s |> onC (fun r => set_l (d r) r))
  | 0x6B => (4, s |> onC (fun r => set_l (e r) r))
  | 0x6C => (4, s |> onC (fun r => set_l (h r) r))
  | 0x6D => (4, s |> onC (fun r => set_l (l r) r))
  | 0x6E => (8, s |> onC (set_l (read8 (hl (fst s)) s)))
  | 0x6F => (4, s |> onC (fun r => set_l (a r) r))
  | 0x70 => (8, s |> write8 (hl (fst s)) (b (fst s)))
  | 0x71 => (8, s |> write8 (hl (fst s)) (c (fst s)))
  | 0x72 => (8, s |> write8 (hl (fst s)) (d (fst s)))
  | 0x73 => (8, s |> write8 (hl (fst s)) (e (fst s)))
  | 0x74 => (8, s |> write8 (hl (fst s)) (h (fst s)))
  | 0x75 => (8, s |> write8 (hl (fst s)) (l (fst s)))
  | 0x76 => (4, s |> onC (set_halted true)) (* HALT *)
  | 0x77 => (8, s |> write8 (hl (fst s)) (a (fst s)))
  | 0x78 => (4, s |> onC (fun r => set_a (b r) r))
  | 0x79 => (4, s |> onC (fun r => set_a (c r) r))
  | 0x7A => (4, s |> onC (fun r => set_a (d r) r))
  | 0x7B => (4, s |> onC (fun r => set_a (e r) r))
  | 0x7C => (4, s |> onC (fun r => set_a (h r) r))
  | 0x7D => (4, s |> onC (fun r => set_a (l r) r))
  | 0x7E => (8, s |> onC (set_a (read8 (hl (fst s)) s)))
  | 0x7F => (4, s |> onC (fun r => set_a (a r) r))
  | 0x80 => (4, s |> onC (fun r => add8 (b r) r)) (* ADD A, r8 *)
  | 0x81 => (4, s |> onC (fun r => add8 (c r) r))
  | 0x82 => (4, s |> onC (fun r => add8 (d r) r))
  | 0x83 => (4, s |> onC (fun r => add8 (e r) r))
  | 0x84 => (4, s |> onC (fun r => add8 (h r) r))
  | 0x85 => (4, s |> onC (fun r => add8 (l r) r))
  | 0x86 => (8, s |> onC (add8 (read8 (hl (fst s)) s)))
  | 0x87 => (4, s |> onC (fun r => add8 (a r) r))
  | 0x88 => (4, s |> onC (fun r => adc8 (b r) r)) (* ADC A, r8 *)
  | 0x89 => (4, s |> onC (fun r => adc8 (c r) r))
  | 0x8A => (4, s |> onC (fun r => adc8 (d r) r))
  | 0x8B => (4, s |> onC (fun r => adc8 (e r) r))
  | 0x8C => (4, s |> onC (fun r => adc8 (h r) r))
  | 0x8D => (4, s |> onC (fun r => adc8 (l r) r))
  | 0x8E => (8, s |> onC (adc8 (read8 (hl (fst s)) s)))
  | 0x8F => (4, s |> onC (fun r => adc8 (a r) r))
  | 0x90 => (4, s |> onC (fun r => sub8 (b r) r)) (* SUB A, r8 *)
  | 0x91 => (4, s |> onC (fun r => sub8 (c r) r))
  | 0x92 => (4, s |> onC (fun r => sub8 (d r) r))
  | 0x93 => (4, s |> onC (fun r => sub8 (e r) r))
  | 0x94 => (4, s |> onC (fun r => sub8 (h r) r))
  | 0x95 => (4, s |> onC (fun r => sub8 (l r) r))
  | 0x96 => (8, s |> onC (sub8 (read8 (hl (fst s)) s)))
  | 0x97 => (4, s |> onC (fun r => sub8 (a r) r))
  | 0x98 => (4, s |> onC (fun r => sbc8 (b r) r)) (* SBC A, r8 *)
  | 0x99 => (4, s |> onC (fun r => sbc8 (c r) r))
  | 0x9A => (4, s |> onC (fun r => sbc8 (d r) r))
  | 0x9B => (4, s |> onC (fun r => sbc8 (e r) r))
  | 0x9C => (4, s |> onC (fun r => sbc8 (h r) r))
  | 0x9D => (4, s |> onC (fun r => sbc8 (l r) r))
  | 0x9E => (8, s |> onC (sbc8 (read8 (hl (fst s)) s)))
  | 0x9F => (4, s |> onC (fun r => sbc8 (a r) r))
  | 0xA0 => (4, s |> onC (fun r => and8 (b r) r)) (* AND A, r8 *)
  | 0xA1 => (4, s |> onC (fun r => and8 (c r) r))
  | 0xA2 => (4, s |> onC (fun r => and8 (d r) r))
  | 0xA3 => (4, s |> onC (fun r => and8 (e r) r))
  | 0xA4 => (4, s |> onC (fun r => and8 (h r) r))
  | 0xA5 => (4, s |> onC (fun r => and8 (l r) r))
  | 0xA6 => (8, s |> onC (and8 (read8 (hl (fst s)) s)))
  | 0xA7 => (4, s |> onC (fun r => and8 (a r) r))
  | 0xA8 => (4, s |> onC (fun r => xor8 (b r) r)) (* XOR A, r8 *)
  | 0xA9 => (4, s |> onC (fun r => xor8 (c r) r))
  | 0xAA => (4, s |> onC (fun r => xor8 (d r) r))
  | 0xAB => (4, s |> onC (fun r => xor8 (e r) r))
  | 0xAC => (4, s |> onC (fun r => xor8 (h r) r))
  | 0xAD => (4, s |> onC (fun r => xor8 (l r) r))
  | 0xAE => (8, s |> onC (xor8 (read8 (hl (fst s)) s)))
  | 0xAF => (4, s |> onC (fun r => xor8 (a r) r))
  | 0xB0 => (4, s |> onC (fun r => or8 (b r) r)) (* OR A, r8 *)
  | 0xB1 => (4, s |> onC (fun r => or8 (c r) r))
  | 0xB2 => (4, s |> onC (fun r => or8 (d r) r))
  | 0xB3 => (4, s |> onC (fun r => or8 (e r) r))
  | 0xB4 => (4, s |> onC (fun r => or8 (h r) r))
  | 0xB5 => (4, s |> onC (fun r => or8 (l r) r))
  | 0xB6 => (8, s |> onC (or8 (read8 (hl (fst s)) s)))
  | 0xB7 => (4, s |> onC (fun r => or8 (a r) r))
  | 0xB8 => (4, s |> onC (fun r => cp8 (b r) r)) (* CP A, r8 *)
  | 0xB9 => (4, s |> onC (fun r => cp8 (c r) r))
  | 0xBA => (4, s |> onC (fun r => cp8 (d r) r))
  | 0xBB => (4, s |> onC (fun r => cp8 (e r) r))
  | 0xBC => (4, s |> onC (fun r => cp8 (h r) r))
  | 0xBD => (4, s |> onC (fun r => cp8 (l r) r))
  | 0xBE => (8, s |> onC (cp8 (read8 (hl (fst s)) s)))
  | 0xBF => (4, s |> onC (fun r => cp8 (a r) r))
  | 0xC0 => (* RET cc *)
      if negb (getZ (fst s))
      then let '(v, s) := pop16 s in (20, s |> onC (set_pc v))
      else (8, s)
  | 0xC1 => let '(v, s) := pop16 s in (12, s |> onC (set_bc v)) (* POP r16 *)
  | 0xC2 => (* JP cc, imm16 *)
      let '(addr, s) := fetch16 s in
      if negb (getZ (fst s)) then (16, s |> onC (set_pc addr)) else (12, s)
  | 0xC3 => let '(addr, s) := fetch16 s in (16, s |> onC (set_pc addr)) (* JP imm16 *)
  | 0xC4 => (* CALL cc, imm16 *)
      let '(addr, s) := fetch16 s in
      if negb (getZ (fst s)) then (24, s |> push16 (pc (fst s)) |> onC (set_pc addr)) else (12, s)
  | 0xC5 => (16, s |> push16 (bc (fst s))) (* PUSH r16 *)
  | 0xC6 => let '(v, s) := fetch8 s in (8, s |> onC (add8 v)) (* ALU A, imm8 *)
  | 0xC7 => (16, s |> push16 (pc (fst s)) |> onC (set_pc 0x00)) (* RST *)
  | 0xC8 =>
      if getZ (fst s)
      then let '(v, s) := pop16 s in (20, s |> onC (set_pc v))
      else (8, s)
  | 0xC9 => let '(v, s) := pop16 s in (16, s |> onC (set_pc v)) (* RET *)
  | 0xCA =>
      let '(addr, s) := fetch16 s in
      if getZ (fst s) then (16, s |> onC (set_pc addr)) else (12, s)
  | 0xCB => let '(n, s) := executeCB s in (n + 4, s) (* CB prefix *)
  | 0xCC =>
      let '(addr, s) := fetch16 s in
      if getZ (fst s) then (24, s |> push16 (pc (fst s)) |> onC (set_pc addr)) else (12, s)
  | 0xCD => (* CALL imm16 *)
      let '(addr, s) := fetch16 s in (24, s |> push16 (pc (fst s)) |> onC (set_pc addr))
  | 0xCE => let '(v, s) := fetch8 s in (8, s |> onC (adc8 v))
  | 0xCF => (16, s |> push16 (pc (fst s)) |> onC (set_pc 0x08))
  | 0xD0 =>
      if negb (getC (fst s))
      then let '(v, s) := pop16 s in (20, s |> onC (set_pc v))
      else (8, s)
  | 0xD1 => let '(v, s) := pop16 s in (12, s |> onC (set_de v))
  | 0xD2 =>
      let '(addr, s) := fetch16 s in
      if negb (getC (fst s)) then (16, s |> onC (set_pc addr)) else (12, s)
  | 0xD4 =>
      let '(addr, s) := fetch16 s in
      if negb (getC (fst s)) then (24, s |> push16 (pc (fst s)) |> onC (set_pc addr)) else (12, s)
  | 0xD5 => (16, s |> push16 (de (fst s)))
  | 0xD6 => let '(v, s) := fetch8 s in (8, s |> onC (sub8 v))
  | 0xD7 => (16, s |> push16 (pc (fst s)) |> onC (set_pc 0x10))
  | 0xD8 =>
      if getC (fst s)
      then let '(v, s) := pop16 s in (20, s |> onC (set_pc v))
      else (8, s)
  | 0xD9 => (* RETI *)
      let '(v, s) := pop16 s in (16, s |> onC (set_pc v) |> onC (set_ime true))
  | 0xDA =>
      let '(addr, s) := fetch16 s in
      if getC (fst s) then (16, s |> onC (set_pc addr)) else (12, s)
  | 0xDC =>
      let '(addr, s) := fetch16 s in
      if getC (fst s) then (24, s |> push16 (pc (fst s)) |> onC (set_pc addr)) else (12, s)
  | 0xDE => let '(v, s) := fetch8 s in (8, s |> onC (sbc8 v))
  | 0xDF => (16, s |> push16 (pc (fst s)) |> onC (set_pc 0x18))
  | 0xE0 => let '(v, s) := fetch8 s in (12, s |> write8 (0xFF00 + v) (a (fst s))) (* LDH (imm8), A *)
  | 0xE1 => let '(v, s) := pop16 s in (12, s |> onC (set_hl v))
  | 0xE2 => (8, s |> write8 (0xFF00 + c (fst s)) (a (fst s))) (* LDH (C), A *)
  | 0xE5 => (16, s |> push16 (hl (fst s)))
  | 0xE6 => let '(v, s) := fetch8 s in (8, s |> onC (and8 v))
  | 0xE7 => (16, s |> push16 (pc (fst s)) |> onC (set_pc 0x20))
  | 0xE8 => let '(v, s) := fetch8 s in (16, s |> onC (addSP (s8 v))) (* ADD SP, imm8 *)
  | 0xE9 => (4, s |> onC (fun r => set_pc (hl r) r)) (* JP HL *)
  | 0xEA => let '(addr, s) := fetch16 s in (16, s |> write8 addr (a (fst s))) (* LD (imm16), A *)
  | 0xEE => let '(v, s) := fetch8 s in (8, s |> onC (xor8 v))
  | 0xEF => (16, s |> push16 (pc (fst s)) |> onC (set_pc 0x28))
  | 0xF0 => (* LDH A, (imm8) *)
      let '(v, s) := fetch8 s in (12, s |> onC (set_a (read8 (0xFF00 + v) s)))
  | 0xF1 => let '(v, s) := pop16 s in (12, s |> onC (set_af (v .& 0xFFF0)))
  | 0xF2 => (8, s |> onC (set_a (read8 (0xFF00 + c (fst s)) s))) (* LDH A, (C) *)
  | 0xF3 => (4, s |> onC (set_ime false)) (* DI *)
  | 0xF5 => (16, s |> push16 (af (fst s)))
  | 0xF6 => let '(v, s) := fetch8 s in (8, s |> onC (or8 v))
  | 0xF7 => (16, s |> push16 (pc (fst s)) |> onC (set_pc 0x30))
  | 0xF8 => let '(v, s) := fetch8 s in (12, s |> onC (ldHLSP (s8 v))) (* LD HL, SP+imm8 *)
  | 0xF9 => (8, s |> onC (fun r => set_sp (hl r) r)) (* LD SP, HL *)
  | 0xFA => let '(addr, s) := fetch16 s in (16, s |> onC (set_a (read8 addr s))) (* LD A, (imm16) *)
  | 0xFB => (4, s |> onC (set_imeScheduled true)) (* EI *)
  | 0xFE => let '(v, s) := fetch8 s in (8, s |> onC (cp8 v))
  | 0xFF => (16, s |> push16 (pc (fst s)) |> onC (set_pc 0x38))
  | _ => (4, s) (* Undefined opcodes *)
  end.

(** [CPU::step]. *)
Definition step (s : mach) : Z * mach :=
  (* Handle scheduled IME enable *)
  let s := if imeScheduled (fst s)
           then s |> onC (set_ime true) |> onC (set_imeScheduled false)
           else s in
  (* Handle interrupts *)
  let '(intCycles, s) := handleInterrupts s in
  if 0 <? intCycles then (intCycles, s)
  (* If halted, just wait *)
  else if halted (fst s) then (4, s)
  else
    let '(opcode, s) := fetch8 s in
    execute opcode s.

End CPU.

(** ** gameboy.cpp and main.cpp *)

Module GameBoy.

(** What the emulator asks of its host: whether SDL, the window, the
    renderer and the texture can be set up, and the files and the memory
    that loading a cartridge needs. *)
Record host : Type := mkHost {
  video_ok : bool;
  fs : Memory.files
}.

(** The components [GameBoy::init] creates when the video set-up succeeds:
    the bus with the PPU and the APU attached, and the CPU.  A failure to
    open the audio device is reported and ignored. *)
Definition components : CPU.mach :=
  (CPU.reset,
   Memory.new |> MemoryState.setPPU (Some PPU.reset) |> MemoryState.setAPU (Some APU.reset)).

Definition init (h : host) : option CPU.mach :=
  if video_ok h then Some components else None.

(** [GameBoy::loadROM(path)]; [None] when [Memory::loadROM] throws. *)
Definition loadROM (h : host) (path : string) (s : CPU.mach) : option (bool * CPU.mach) :=
  match Memory.loadROM (fs h) path (snd s) with
  | None => None
  | Some (ok, m) => if negb ok then Some (false, (fst s, m)) else Some (true, (fst s, m))
  end.

(** How [main] ends: it returns a code at once, or it enters [gb.run()]
    with a machine, after which it returns 0 when the host quits, or the
    process is aborted by an exception that nothing catches. *)
Inductive outcome : Type :=
| Exit (code : Z)
| Run (s : CPU.mach)
| Aborted.

(** [main(argc, argv)], [argv] given as a list of [argc] strings. *)
Definition main (h : host) (argv : list string) : outcome :=
  match argv with
  | _ :: path :: _ =>
      match init h with
      | None => Exit 1
      | Some s =>
          match loadROM h path s with
          | None => Aborted
          | Some (ok, s) => if negb ok then Exit 1 else Run s
          end
      end
  | _ => Exit 1 (* argc < 2 *)
  end.

(** The SDL events that [handleInput] and [run] tell apart, and the keys. *)
Inductive keysym : Type :=
| SDLK_RIGHT | SDLK_LEFT | SDLK_UP | SDLK_DOWN
| SDLK_z | SDLK_x | SDLK_BACKSPACE | SDLK_RETURN
| SDLK_ESCAPE | SDLK_other.

Inductive event : Type :=
| SDL_KEYDOWN (sym : keysym)
| SDL_KEYUP (sym : keysym)
| SDL_QUIT
| SDL_other.

(** The two function-local statics of [handleInput]: the current state of
    the keys, active low.  Both start as 0xFF. *)
Record keys : Type := mkKeys {
  buttons : Z;  (* A, B, Select, Start *)
  dpad : Z      (* Right, Left, Up, Down *)
}.

Definition keys0 : keys := mkKeys 0xFF 0xFF.

(** [pressed ? (v & ~mask) : (v | mask)], stored in a [uint8_t]. *)
Definition latch (pressed : bool) (mask : Z) (v : Z) : Z :=
  u8 (if pressed then v .& cnot mask else v .| mask).

(** [GameBoy::handleInput(event)], on the statics and the machine. *)
Definition handleInput (ev : event) (st : keys * CPU.mach) : keys * CPU.mach :=
  match ev with
  | SDL_KEYDOWN sym | SDL_KEYUP sym =>
      let pressed := match ev with SDL_KEYDOWN _ => true | _ => false end in
      let '(k, s) := st in
      let k :=
        match sym with
        (* D-pad *)
        | SDLK_RIGHT => mkKeys (buttons k) (latch pressed 0x01 (dpad k))
        | SDLK_LEFT => mkKeys (buttons k) (latch pressed 0x02 (dpad k))
        | SDLK_UP => mkKeys (buttons k) (latch pressed 0x04 (dpad k))
        | SDLK_DOWN => mkKeys (buttons k) (latch pressed 0x08 (dpad k))
        (* Buttons *)
        | SDLK_z => mkKeys (latch pressed 0x01 (buttons k)) (dpad k) (* A *)
        | SDLK_x => mkKeys (latch pressed 0x02 (buttons k)) (dpad k) (* B *)
        | SDLK_BACKSPACE => mkKeys (latch pressed 0x04 (buttons k)) (dpad k) (* Select *)
        | SDLK_RETURN => mkKeys (latch pressed 0x08 (buttons k)) (dpad k) (* Start *)
        | _ => k
        end in
      let s := s |> CPU.onM (Memory.setJoypadState (buttons k) (dpad k)) in
      (* Request joypad interrupt on button press *)
      let s := if pressed then s |> CPU.requestInterrupt INT_JOYPAD else s in
      (k, s)
  | _ => st
  end.

End GameBoy.
(** * The vocabulary of the properties *)

(** The predicates, scenarios and reference descriptions that the
    properties below are stated with. *)

(** ** Cartridge banking *)

(** An MBC3 bus in which a RAM bank and an RTC register have been chosen. *)
Definition mbc3_sample : MemoryState.t :=
  Memory.new |> MemoryState.set_mbcType 3
             |> Memory.handleMBCWrite 0x4000 0x02
             |> Memory.handleMBCWrite 0x4000 0x09.

(** ** Sound registers *)

(** The APU after the program has switched the sound off (NR52 = 0x00). *)
Definition apu_switched_off : APU.t := APU.writeRegister 0x26 0x00 APU.reset.

(** ** Loading a cartridge *)

Open Scope string_scope.

(** A host with 1 GiB to give to a vector and two paths that open:
    [short.gb], a file of three bytes, and [roms], a directory: the stream
    opens it, reports the largest position at its end and delivers
    nothing. *)
Definition short_host : GameBoy.host :=
  GameBoy.mkHost true
    (Memory.mkFiles
       (fun p =>
          if String.eqb p "short.gb" then Some (Memory.mkFile 3 [0xC3; 0x50; 0x01]%Z)
          else if String.eqb p "roms" then Some (Memory.mkFile 0x7FFFFFFFFFFFFFFF []%Z)
          else None)
       (fun n => (n <=? 0x40000000)%Z)).

Close Scope string_scope.

(** ** The timer *)

Section TimerTerms.
Import MemoryState.

(** The timer set up as in the scenario, [t] clocks into the period. *)
Definition armed (t : Z) (m : MemoryState.t) : Prop :=
  size (io m) = 0x80 /\ idx (io m) 0x07 = 0x05 /\ idx (io m) 0x05 = 0xFF /\
  idx (io m) 0x06 = 0x42 /\ timerCounter m = t.

(** The timer after the overflow. *)
Definition fired (m : MemoryState.t) : Prop :=
  size (io m) = 0x80 /\ idx (io m) 0x07 = 0x05 /\ idx (io m) 0x05 = 0x42 /\
  Z.testbit (MemoryState.getIF m) 2 = true /\ timerCounter m = 0.

End TimerTerms.

(** The timer fed a list of clock counts, one [updateTimer] call each. *)
Definition feedTimer (cs : list Z) (m : MemoryState.t) : MemoryState.t :=
  fold_left (fun m c => Memory.updateTimer c m) cs m.

(** The clocks of a list of calls. *)
Definition total (cs : list Z) : Z := fold_right Z.add 0 cs.

(** The scenario on the power-on bus: the program stores TMA, TIMA and TAC,
    and the emulator's loop then feeds the clocks of four instructions. *)
Definition timer_scenario : MemoryState.t :=
  Memory.new |> Memory.write 0xFF06 0x42 |> Memory.write 0xFF05 0xFF
             |> Memory.write 0xFF07 0x05.

(** ** OAM DMA *)

(** The DMA unit fed a list of clock counts, one [updateDMA] call each. *)
Definition feedDMA (cs : list Z) (m : MemoryState.t) : MemoryState.t :=
  fold_left (fun m c => Memory.updateDMA c m) cs m.

(** A transfer from work RAM on the power-on bus, fed the clocks of 160
    four-clock instructions. *)
Definition dma_scenario : MemoryState.t :=
  Memory.new |> Memory.write 0xC000 0x11 |> Memory.write 0xC09F 0x22.

(** ** Reading back what was written *)

(** The sizes that the constructors give the arrays of the bus and of the
    attached APU, which are fixed-size arrays in the source, and a RAM bank
    number that is not negative, as every value the bank register is given
    from a byte is. *)
Record wf_bus (m : MemoryState.t) : Prop := {
  wf_vram : size (MemoryState.vram m) = 0x2000;
  wf_wram : size (MemoryState.wram m) = 0x2000;
  wf_oam : size (MemoryState.oam m) = 0xA0;
  wf_io : size (MemoryState.io m) = 0x80;
  wf_hram : size (MemoryState.hram m) = 0x7F;
  wf_ramBank : 0 <= MemoryState.ramBank m;
  wf_apu : match MemoryState.apu m with
           | Some a => size (APU.registers a) = 0x30 /\ size (APU.waveRam a) = 16
           | None => True
           end
}.

(** The addresses at which a write is read back: everything from 0x8000 up
    except
    - external RAM that is disabled, absent, or too small for the bank;
    - the unusable region 0xFEA0-0xFEFF;
    - JOYP (0xFF00), DIV (0xFF04), STAT (0xFF41) and LY (0xFF44);
    - with an APU attached, NR52 and the unmapped 0xFF27-0xFF2F. *)
Definition readsBack (addr : Z) (m : MemoryState.t) : bool :=
  if addr <? 0x8000 then false
  else if addr <? 0xA000 then true
  else if addr <? 0xC000 then
    MemoryState.ramEnabled m && negb (size (MemoryState.extRam m) =? 0)
    && ((MemoryState.ramBank m * 0x2000) + (addr - 0xA000) <? size (MemoryState.extRam m))
  else if addr <? 0xFEA0 then true
  else if addr <? 0xFF00 then false
  else if addr <? 0xFF80 then
    negb ((addr =? 0xFF00) || (addr =? 0xFF04) || (addr =? 0xFF41) || (addr =? 0xFF44))
    && match MemoryState.apu m with
       | Some _ => negb ((0xFF26 <=? addr) && (addr <=? 0xFF2F))
       | None => true
       end
  else true.

(** The I/O registers with side effects that section 4.1 of the
    specification lists, and the sound registers forwarded to the APU. *)
Definition specialIO (addr : Z) : bool :=
  (addr =? 0xFF00) || (addr =? 0xFF04) || (addr =? 0xFF40) || (addr =? 0xFF41)
  || (addr =? 0xFF44) || (addr =? 0xFF46) || ((0xFF10 <=? addr) && (addr <=? 0xFF3F)).

(** ** Interrupt dispatch *)

Section DispatchTerms.
Import CPUState.

(** The CPU after a dispatch to the vector of interrupt [k]: interrupts
    off, not halted, no enable pending, the stack pointer two lower, and
    every other register as it was. *)
Definition dispatched (k : Z) (r : t) : t :=
  mk (a r) (f r) (b r) (c r) (d r) (e r) (h r) (l r)
     (u16 (sp r - 2)) (0x40 + 8 * k) false false false (stopped r).

(** The bus after a dispatch of interrupt [k]: bit [k] of IF cleared, then
    the two bytes of the return address pushed, low byte at the new stack
    pointer. *)
Definition dispatchedBus (k : Z) (r : t) (m : MemoryState.t) : MemoryState.t :=
  m |> MemoryState.setIF (Z.clearbit (MemoryState.getIF m) k)
    |> Memory.write (u16 (sp r - 2)) (pc r .& 0xFF)
    |> Memory.write (u16 (u16 (sp r - 2) + 1)) (u8 (pc r >> 8)).

End DispatchTerms.

(** The power-on machine with interrupts switched on and VBlank enabled in
    IE; the power-on IF (0xE1) has VBlank pending. *)
Definition vblank_pending : CPU.mach :=
  (CPUState.set_ime true (fst GameBoy.components),
   Memory.write 0xFFFF 0x01 (snd GameBoy.components)).

(** The same machine with the stack pointer at 0xFF10, so that a push
    stores its two bytes at 0xFF0E and at 0xFF0F, the address of IF. *)
Definition stack_below_IF : CPU.mach :=
  (CPUState.set_sp 0xFF10 (fst vblank_pending), snd vblank_pending).

(** A cartridge with EI at the entry point 0x0100 and INC A after it. *)
Definition ei_rom : list Z := filled 0x100 0 ++ [0xFB; 0x3C] ++ filled 0x4E 0.

(** The power-on machine with that cartridge and VBlank enabled in IE; the
    power-on IF (0xE1) has VBlank pending and IME is clear. *)
Definition ei_machine : CPU.mach :=
  (fst GameBoy.components,
   snd GameBoy.components |> MemoryState.set_rom ei_rom |> Memory.write 0xFFFF 0x01).

(** The power-on machine with a cartridge of 32 KiB of zeroes, that is of
    NOPs. *)
Definition nop_machine : CPU.mach :=
  (fst GameBoy.components,
   snd GameBoy.components |> MemoryState.set_rom (filled 0x8000 0)).

(** ** The LCD mode state machine *)

Section ModeTerms.
Import PPUState.

(** The registers and counters of the PPU: everything but the frame buffer
    and the window line counter, which are all the rasteriser writes. *)
Definition core (p : t) : Z * Z * Z * Z * Z * Z * Z * Z * Z * Z * Z * Z * Z * bool :=
  (lcdc p, stat p, scy p, scx p, ly p, lyc p, wy p, wx p, bgp p, obp0 p, obp1 p,
   scanlineCycles p, mode p, frameReady p).

(** The fields that the mode state machine reads and writes: LY, the mode,
    STAT, LYC and the clock within the scanline. *)
Definition view (p : t) : Z * Z * Z * Z * Z :=
  (ly p, mode p, stat p, lyc p, scanlineCycles p).

(** STAT after [setMode(k)] and after [checkLYC]. *)
Definition modeStat (k st : Z) : Z := u8 ((st .& 0xFC) .| (k .& 0x03)).

Definition lycStat (l c st : Z) : Z :=
  if l =? c then u8 (st .| 0x04) else u8 (st .& cnot 0x04).

(** What [PPU::step] does to LY, the mode, STAT, LYC and the clock within
    the scanline, as a function of these and of LCDC and LYC in the I/O
    file ([step_view] below). *)
Definition stepView (cycles : Z) (p : t) (m : MemoryState.t) : Z * Z * Z * Z * Z :=
  let lyc' := MemoryState.readIO 0x45 m in
  if negb (nz (MemoryState.readIO 0x40 m .& 0x80))
  then (ly p, mode p, stat p, lyc', scanlineCycles p)
  else
    let sc := scanlineCycles p + cycles in
    match mode p with
    | 2 => if 80 <=? sc then (ly p, 3, modeStat 3 (stat p), lyc', sc - 80)
           else (ly p, mode p, stat p, lyc', sc)
    | 3 => if 172 <=? sc then (ly p, 0, modeStat 0 (stat p), lyc', sc - 172)
           else (ly p, mode p, stat p, lyc', sc)
    | 0 => if 204 <=? sc then
             let ly1 := u8 (ly p + 1) in
             let k := if ly1 =? 144 then 1 else 2 in
             (ly1, k, lycStat ly1 lyc' (modeStat k (stat p)), lyc', sc - 204)
           else (ly p, mode p, stat p, lyc', sc)
    | 1 => if 456 <=? sc then
             let ly1 := u8 (ly p + 1) in
             if 153 <? ly1 then (0, 2, lycStat 0 lyc' (modeStat 2 (stat p)), lyc', sc - 456)
             else (ly1, mode p, lycStat ly1 lyc' (stat p), lyc', sc - 456)
           else (ly p, mode p, stat p, lyc', sc)
    | _ => (ly p, mode p, stat p, lyc', sc)
    end.

End ModeTerms.

(** ** Runs of the machine, seen from the bus *)

(** What [GameBoy::run] and the CPU do to the bus and to the devices
    attached to it.  The CPU reaches the bus through [Memory::write] and
    [Memory::setIF] only; its reads change nothing.  [APU::step] works on
    the APU alone, and any APU state may come out of it. *)
Inductive busOp : Type :=
| CpuWrite (addr val : Z)
| CpuSetIF (val : Z)
| PpuStep (cycles : Z)
| PpuClearFrame
| ApuStep (a : APU.t)
| TimerStep (cycles : Z)
| DmaStep (cycles : Z)
| Joypad (buttons dpad : Z)
| LoadROM (fs : Memory.files) (path : string).

(** One operation, and a run of them in order. *)
Definition runOp (o : busOp) (m : MemoryState.t) : MemoryState.t :=
  match o with
  | CpuWrite addr val => Memory.write (u16 addr) (u8 val) m
  | CpuSetIF val => MemoryState.setIF (u8 val) m
  | PpuStep cycles => Memory.withPPU (PPU.step cycles) m
  | PpuClearFrame => Memory.withPPU (PPU.onP PPUState.clearFrameReady) m
  | ApuStep a =>
      match MemoryState.apu m with
      | Some _ => MemoryState.set_apu (Some a) m
      | None => m
      end
  | TimerStep cycles => Memory.updateTimer cycles m
  | DmaStep cycles => Memory.updateDMA cycles m
  | Joypad buttons dpad => Memory.setJoypadState (u8 buttons) (u8 dpad) m
  | LoadROM fs path =>
      match Memory.loadROM fs path m with
      | Some (_, m') => m'
      | None => m (* the process ends with the bus as it was *)
      end
  end.


(** The bus that [GameBoy::init] sets up, with the PPU and the APU
    attached. *)
Definition powerOn : MemoryState.t := snd GameBoy.components.




(** ** The invariants of the LCD controller *)

Section InvariantTerms.
Import PPUState.









End InvariantTerms.






(** ** Further properties: the bus *)

(** [m'] differs from [m] in the I/O register file at most. *)
Definition onlyIO (m m' : MemoryState.t) : Prop :=
  m' = MemoryState.set_io (MemoryState.io m') m.

(** The cartridge as the bus holds it: the ROM image and the controller
    type read from its header. *)
Definition cartridge (m : MemoryState.t) : list Z * Z :=
  (MemoryState.rom m, MemoryState.mbcType m).

(** The ROM bank that an MBC1 or MBC3 controller selects for the value
    written to 0x2000-0x3FFF: the low five (MBC1) or seven (MBC3) bits,
    with 0 turned into 1. *)
Definition selectedBank (mbc val : Z) : Z :=
  let mask := if mbc =? 1 then 0x1F else 0x7F in
  if (val .& mask) =? 0 then 1 else val .& mask.

(** An MBC1 cartridge bus with 32 KiB of external RAM, enabled. *)
Definition mbc1_ram_bus : MemoryState.t :=
  Memory.new |> MemoryState.set_mbcType 1
             |> MemoryState.set_extRam (filled 0x8000 0)
             |> Memory.write 0x0000 0x0A.

(** A bus holding a cartridge of four banks whose bytes are their bank
    number, with an MBC1 controller. *)
Definition four_bank_bus : MemoryState.t :=
  Memory.new |> MemoryState.set_mbcType 1
             |> MemoryState.set_rom (filled 0x4000 0 ++ filled 0x4000 1
                                     ++ filled 0x4000 2 ++ filled 0x4000 3).

(** A bus with an MBC5 controller. *)
Definition mbc5_bus : MemoryState.t := Memory.new |> MemoryState.set_mbcType 5.

(** The power-on bus with the timer running at 64 clocks a tick. *)
Definition timer64_bus : MemoryState.t := Memory.new |> Memory.write 0xFF07 0x06.

(** ** Further properties: the LCD controller *)

(** The clock at which a mode begins within its scanline: OAM search at 0,
    pixel transfer at 80, HBlank at 252; a line of VBlank has one mode. *)
Definition modeStart (k : Z) : Z :=
  match k with
  | 2 => 0
  | 3 => 80
  | 0 => 252
  | _ => 0
  end.

(** The clock within the frame that the state of the PPU stands for. *)
Definition framePos (p : PPUState.t) : Z :=
  PPUState.ly p * 456 + modeStart (PPUState.mode p) + PPUState.scanlineCycles p.

(** The clocks of a frame: 154 lines of 456. *)
Definition CLOCKS_PER_FRAME : Z := 154 * 456.

(** Whether [step(cycles)] takes the PPU from line 143 into VBlank. *)
Definition entersVBlank (cycles : Z) (p : PPUState.t) (m : MemoryState.t) : bool :=
  nz (MemoryState.readIO 0x40 m .& 0x80)
  && (PPUState.mode p =? 0)
  && (204 <=? PPUState.scanlineCycles p + cycles)
  && (u8 (PPUState.ly p + 1) =? 144).

(** The PPU in HBlank on line 143, three clocks before the end of the line. *)
Definition end_of_line_143 : PPUState.t :=
  PPU.reset |> PPUState.set_ly 143 |> PPUState.set_mode 0
            |> PPUState.set_scanlineCycles 201.

(** An I/O file of the right size whose IF register holds a byte. *)
Definition ifOK (m : MemoryState.t) : Prop :=
  size (MemoryState.io m) = 0x80 /\ is_u8 (MemoryState.getIF m).

(** [y] is [x], or [x] with the STAT interrupt bit set as well. *)
Definition orStat (x y : Z) : Prop := y = x \/ y = x .| INT_STAT.

(** [fb'] is [fb] but for the pixels of line [l]. *)
Definition sameButLine (l : Z) (fb fb' : list Z) : Prop :=
  size fb' = size fb /\
  forall i, ~ (l * 160 <= i < l * 160 + 160) -> idx fb' i = idx fb i.

(** The pixel at index [i] is one of the four shades. *)
Definition shadeAt (fb : list Z) (i : Z) : Prop := In (idx fb i) PPUState.colors.

(** The PPU at power-on with the background and the sprites switched off. *)
Definition lcd_blank : PPUState.t := PPU.reset |> PPUState.set_lcdc 0x80.

(** The low four bits of the flag register are clear. *)
Definition flagsClean (r : CPUState.t) : Prop := CPUState.f r .& 0x0F = 0.

(** The machine after [n] calls of [CPU::step]. *)
Definition steps (n : nat) (s : CPU.mach) : CPU.mach :=
  Nat.iter n (fun s => snd (CPU.step s)) s.

(** A byte in packed BCD: two decimal digits, and the number it stands for. *)
Definition isBcd (x : Z) : bool := (0 <=? x) && (x / 16 <=? 9) && (x mod 16 <=? 9).
Definition bcdValue (x : Z) : Z := 10 * (x / 16) + x mod 16.

(** The 16-bit word made of a high and a low byte. *)
Definition word (hi lo : Z) : Z := hi * 256 + lo.

(** A CPU with all registers zero: the accumulator and the flags are the
    only registers the ALU reads. *)
Definition zeroed : CPUState.t := CPUState.mk 0 0 0 0 0 0 0 0 0 0 false false false false.

(** The accumulator and the flags. *)
Definition accFlags (r : CPUState.t) : Z * Z := (CPUState.a r, CPUState.f r).

(** The two bytes below [sp] lie in work RAM, or both in high RAM. *)
Definition stackRoom (m : MemoryState.t) (sp : Z) : Prop :=
  (0xC002 <= sp <= 0xE000 /\ size (MemoryState.wram m) = 0x2000) \/
  (0xFF82 <= sp <= 0xFFFF /\ size (MemoryState.hram m) = 0x7F).

(** The operand that the register field of an opcode names: B, C, D, E, H,
    L, the byte at (HL), A. *)
Definition operand (reg : Z) (s : CPU.mach) : Z :=
  if reg =? 6 then CPU.read8 (CPUState.hl (fst s)) s else CPU.getReg reg (fst s).

(** The eight ALU operations in the order of their opcodes. *)
Definition alu (k : Z) : Z -> CPUState.t -> CPUState.t :=
  match k with
  | 0 => CPU.add8 | 1 => CPU.adc8 | 2 => CPU.sub8 | 3 => CPU.sbc8
  | 4 => CPU.and8 | 5 => CPU.xor8 | 6 => CPU.or8 | _ => CPU.cp8
  end.

(** A machine about to run the CB-prefixed opcode 0xFF (SET 7, A) from work
    RAM. *)
Definition cb_machine : CPU.mach :=
  (CPUState.set_pc 0xC000 CPU.reset, Memory.write 0xC000 0xFF Memory.new).

(** The eight keys of the Game Boy: the bit of a key within its row, whether
    the key is on the d-pad row, and the value a program writes to 0xFF00 to
    select the row of the key alone. *)
Definition keyBit (sym : GameBoy.keysym) : option Z :=
  match sym with
  | GameBoy.SDLK_RIGHT | GameBoy.SDLK_z => Some 0
  | GameBoy.SDLK_LEFT | GameBoy.SDLK_x => Some 1
  | GameBoy.SDLK_UP | GameBoy.SDLK_BACKSPACE => Some 2
  | GameBoy.SDLK_DOWN | GameBoy.SDLK_RETURN => Some 3
  | _ => None
  end.

Definition onDpad (sym : GameBoy.keysym) : bool :=
  match sym with
  | GameBoy.SDLK_RIGHT | GameBoy.SDLK_LEFT | GameBoy.SDLK_UP | GameBoy.SDLK_DOWN => true
  | _ => false
  end.

Definition rowSelect (sym : GameBoy.keysym) : Z := if onDpad sym then 0x20 else 0x10.

(** What a program reads at 0xFF00 after selecting the row of [sym]. *)
Definition pollKey (sym : GameBoy.keysym) (m : MemoryState.t) : Z :=
  Memory.read 0xFF00 (Memory.write 0xFF00 (rowSelect sym) m).

(** The machine after the host events [evs], in order. *)
Definition handleInputs (evs : list GameBoy.event) (st : GameBoy.keys * CPU.mach) :
    GameBoy.keys * CPU.mach :=
  fold_left (fun st ev => GameBoy.handleInput ev st) evs st.

(** The key statics hold bytes. *)
Definition keysOK (k : GameBoy.keys) : Prop :=
  is_u8 (GameBoy.buttons k) /\ is_u8 (GameBoy.dpad k).

(** What drives the APU between two samples: a register write from the bus,
    a step of the frame sequencer, a clock of the channels. *)
Inductive apuOp : Type :=
| ApuWrite (reg val : Z)
| ApuSequencer
| ApuClock.

Definition runApuOp (o : apuOp) (a : APU.t) : APU.t :=
  match o with
  | ApuWrite reg val => APU.writeRegister (u8 reg) (u8 val) a
  | ApuSequencer => APU.stepFrameSequencer a
  | ApuClock => APU.stepChannels a
  end.

Definition runApu (os : list apuOp) (a : APU.t) : APU.t :=
  fold_left (fun a o => runApuOp o a) os a.

(** The envelope volumes of channels 1, 2 and 4 and their initial values are
    4-bit numbers. *)
Definition volumesOK (a : APU.t) : Prop :=
  (0 <= Channel1.volume (APU.ch1 a) <= 15 /\ 0 <= Channel1.volumeInit (APU.ch1 a) <= 15) /\
  (0 <= Channel2.volume (APU.ch2 a) <= 15 /\ 0 <= Channel2.volumeInit (APU.ch2 a) <= 15) /\
  (0 <= Channel4.volume (APU.ch4 a) <= 15 /\ 0 <= Channel4.volumeInit (APU.ch4 a) <= 15).

(** The number of length clocks among [j] sequencer steps that begin at
    step [s]: the steps with an even number. *)
Fixpoint lengthClocks (s : Z) (j : nat) : Z :=
  match j with
  | O => 0
  | S j => (if (s .& 1) =? 0 then 1 else 0) + lengthClocks ((s + 1) .& 7) j
  end.

(** The APU after [j] steps of the frame sequencer, and after [j] clocks of
    the channels. *)
Definition sequencerSteps (j : nat) (a : APU.t) : APU.t :=
  Nat.iter j APU.stepFrameSequencer a.

Definition channelClocks (j : nat) (a : APU.t) : APU.t :=
  Nat.iter j APU.stepChannels a.

(** Channel 2 with a note of [n] length units, on a fresh APU. *)
Definition note_of (n : Z) : APU.t :=
  APU.reset |> APU.writeRegister 0x16 (64 - n) |> APU.writeRegister 0x17 0xF0
            |> APU.writeRegister 0x19 0xC0.

(** The length unit of channel [ch] (1 to 4): whether it is enabled, its
    counter, and whether the channel is on. *)
Definition lengthEnabledOf (ch : Z) (a : APU.t) : bool :=
  match ch with
  | 1 => Channel1.lengthEnabled (APU.ch1 a)
  | 2 => Channel2.lengthEnabled (APU.ch2 a)
  | 3 => Channel3.lengthEnabled (APU.ch3 a)
  | _ => Channel4.lengthEnabled (APU.ch4 a)
  end.

Definition lengthCounterOf (ch : Z) (a : APU.t) : Z :=
  match ch with
  | 1 => Channel1.lengthCounter (APU.ch1 a)
  | 2 => Channel2.lengthCounter (APU.ch2 a)
  | 3 => Channel3.lengthCounter (APU.ch3 a)
  | _ => Channel4.lengthCounter (APU.ch4 a)
  end.

Definition enabledOf (ch : Z) (a : APU.t) : bool :=
  match ch with
  | 1 => Channel1.enabled (APU.ch1 a)
  | 2 => Channel2.enabled (APU.ch2 a)
  | 3 => Channel3.enabled (APU.ch3 a)
  | _ => Channel4.enabled (APU.ch4 a)
  end.

(** The noise generator holds a 15-bit number other than zero. *)
Definition lfsrAlive (a : APU.t) : Prop :=
  0 < Channel4.lfsr (APU.ch4 a) <= 0x7FFF.

(** The length unit of a channel as a whole, and one length clock on it: a
    running counter is decremented and switches the channel off at zero. *)
Definition lengthUnit (ch : Z) (a : APU.t) : bool * Z * bool :=
  (lengthEnabledOf ch a, lengthCounterOf ch a, enabledOf ch a).

Definition lengthTick (u : bool * Z * bool) : bool * Z * bool :=
  let '(en, n, on) := u in
  if en && (0 <? n) then (en, n - 1, if n - 1 =? 0 then false else on) else u.
(** * Properties *)

(** ** Arrays and bytes *)

Global Arguments idx : simpl never.
Global Arguments upd : simpl never.
Global Arguments u8 x : simpl nomatch.
Global Arguments u16 x : simpl nomatch.
Global Arguments s8 v : simpl nomatch.
Global Arguments size : simpl never.
Global Arguments filled : simpl never.

Lemma size_upd (v : list Z) (i x : Z) : size (upd v i x) = size v.
Proof.
  unfold size, upd. destruct (i <? 0); [reflexivity|].
  now rewrite length_insert.
Qed.

Lemma idx_upd_same (v : list Z) (i x : Z) :
  0 <= i < size v -> idx (upd v i x) i = x.
Proof.
  unfold size, idx, upd. intros [H0 H1].
  destruct (Z.ltb_spec i 0) as [?|_]; [lia|].
  apply nth_lookup_Some with (d := 0).
  apply list_lookup_insert_eq. lia.
Qed.

Lemma idx_upd_other (v : list Z) (i j x : Z) :
  i <> j -> idx (upd v i x) j = idx v j.
Proof.
  unfold idx, upd. intros Hne.
  destruct (Z.ltb_spec j 0) as [?|Hj]; [reflexivity|].
  destruct (Z.ltb_spec i 0) as [?|Hi]; [reflexivity|].
  rewrite !nth_lookup. f_equal.
  apply list_lookup_insert_ne. lia.
Qed.

Lemma size_filled (n x : Z) : 0 <= n -> size (filled n x) = n.
Proof. intros. unfold size, filled. rewrite repeat_length. lia. Qed.

Lemma u8_range (x : Z) : is_u8 (u8 x).
Proof. unfold is_u8, u8. apply Z.mod_pos_bound. lia. Qed.

Lemma u16_range (x : Z) : is_u16 (u16 x).
Proof. unfold is_u16, u16. apply Z.mod_pos_bound. lia. Qed.

Lemma u8_id (x : Z) : is_u8 x -> u8 x = x.
Proof. unfold is_u8, u8. intros. now apply Z.mod_small. Qed.

Lemma u16_id (x : Z) : is_u16 x -> u16 x = x.
Proof. unfold is_u16, u16. intros. now apply Z.mod_small. Qed.

(** [x & mask] for a non-negative mask lies between 0 and the mask. *)
Lemma land_mask_range (x k : Z) : 0 <= k -> 0 <= x .& (Z.ones k) < 2 ^ k.
Proof. intros. rewrite Z.land_ones by assumption. apply Z.mod_pos_bound. lia. Qed.

(** ** Bits *)

Lemma u8_land (x : Z) : u8 x = x .& 0xFF.
Proof. unfold u8. symmetry. apply (Z.land_ones x 8). lia. Qed.

Lemma u16_land (x : Z) : u16 x = x .& 0xFFFF.
Proof. unfold u16. symmetry. apply (Z.land_ones x 16). lia. Qed.

Lemma testbit_u8 (x n : Z) : 0 <= n -> Z.testbit (u8 x) n = (n <? 8) && Z.testbit x n.
Proof.
  intros Hn. unfold u8. change 256 with (2 ^ 8).
  destruct (Z.ltb_spec n 8).
  - rewrite Z.mod_pow2_bits_low by lia. reflexivity.
  - rewrite Z.mod_pow2_bits_high by lia. reflexivity.
Qed.

(** Testing one bit with a mask, as in [if (x & 0x20)]. *)
Lemma land_bit_eqb (x k : Z) :
  0 <= k -> (x .& (1 << k) =? 0) = negb (Z.testbit x k).
Proof.
  intros Hk. rewrite Z.shiftl_1_l.
  destruct (Z.testbit x k) eqn:E; simpl.
  - apply Z.eqb_neq. intros H.
    assert (T : Z.testbit (x .& 2 ^ k) k = true).
    { rewrite Z.land_spec, E, Z.pow2_bits_true by lia. reflexivity. }
    rewrite H, Z.bits_0 in T. discriminate T.
  - apply Z.eqb_eq. apply Z.bits_inj'. intros n Hn.
    rewrite Z.land_spec, Z.bits_0, Z.pow2_bits_eqb by lia.
    destruct (Z.eqb_spec k n); [subst; rewrite E; reflexivity|].
    apply andb_false_r.
Qed.

Lemma nz_land_bit (x k : Z) : 0 <= k -> nz (x .& (1 << k)) = Z.testbit x k.
Proof. intros. unfold nz. rewrite land_bit_eqb by assumption. apply negb_involutive. Qed.

(** Evaluate the bits of literals. *)
Ltac eval_testbits :=
  repeat match goal with
    | |- context [Z.testbit (Zpos ?p) (Zpos ?q)] =>
        let b := eval vm_compute in (Z.testbit (Zpos p) (Zpos q)) in
        change (Z.testbit (Zpos p) (Zpos q)) with b
    | |- context [Z.testbit (Zpos ?p) 0] =>
        let b := eval vm_compute in (Z.testbit (Zpos p) 0) in
        change (Z.testbit (Zpos p) 0) with b
    end.

(** Push [Z.testbit] through the bit operations of a byte expression. *)
Ltac push_testbit :=
  repeat first
    [ rewrite Z.land_spec | rewrite Z.lor_spec | rewrite Z.lxor_spec
    | rewrite testbit_u8 by lia | rewrite Z.bits_0 ];
  eval_testbits.

(** ** The MBC3 RAM-bank / RTC select register *)

(** C10.  With an MBC3 cartridge, a write to an address in
    [0x4000,0x6000) whose value is in 0x04-0x07 or above 0x0C changes
    neither the RAM bank, nor the RTC enable, nor the selected RTC
    register: the bus is left exactly as it was. *)
Theorem mbc3_unmapped_select_ignored (m : MemoryState.t) (addr val : Z) :
  MemoryState.mbcType m = 3 ->
  0x4000 <= addr < 0x6000 ->
  (0x04 <= val <= 0x07 \/ 0x0C < val) ->
  let m' := Memory.write addr val m in
  MemoryState.ramBank m' = MemoryState.ramBank m /\
  MemoryState.rtcEnabled m' = MemoryState.rtcEnabled m /\
  MemoryState.rtcRegister m' = MemoryState.rtcRegister m /\
  Memory.handleMBCWrite addr val m = m /\
  m' = m.
Proof.
  intros Hk Ha Hv.
  assert (E : Memory.handleMBCWrite addr val m = m).
  { unfold Memory.handleMBCWrite. rewrite Hk.
    destruct (Z.ltb_spec addr 0x2000); [lia|].
    destruct (Z.ltb_spec addr 0x4000); [lia|].
    destruct (Z.ltb_spec addr 0x6000); [|lia].
    destruct (Z.leb_spec val 0x03); [lia|].
    destruct (Z.leb_spec 0x08 val); destruct (Z.leb_spec val 0x0C);
      simpl; try reflexivity; lia. }
  assert (W : Memory.write addr val m = m).
  { unfold Memory.write. destruct (Z.ltb_spec addr 0x8000); [exact E|lia]. }
  cbv zeta. rewrite W. repeat split; try reflexivity. exact E.
Qed.

Lemma mbc3_unmapped_select_ignored_witness :
  MemoryState.rtcRegister mbc3_sample = 0x09 /\
  MemoryState.ramBank mbc3_sample = 0x02 /\
  MemoryState.ramBank (Memory.write 0x5FFF 0x05 mbc3_sample) = 0x02 /\
  MemoryState.rtcEnabled (Memory.write 0x5FFF 0x05 mbc3_sample) = true /\
  MemoryState.rtcRegister (Memory.write 0x5FFF 0x05 mbc3_sample) = 0x09.
Proof.
  split; [reflexivity|]. split; [reflexivity|].
  destruct (mbc3_unmapped_select_ignored mbc3_sample 0x5FFF 0x05) as (H1 & H2 & H3 & _).
  - reflexivity.
  - lia.
  - left; lia.
  - rewrite H1, H2, H3. repeat split; reflexivity.
Defined.

(** ** Sound register writes and the master switch *)

Section APUWrites.
Import APU.

(** The registers NR10-NR25 in the order of their addresses. *)
Lemma nr10_nr25_cases (reg : Z) :
  0x10 <= reg <= 0x25 ->
  reg = 0x10 \/ reg = 0x11 \/ reg = 0x12 \/ reg = 0x13 \/ reg = 0x14 \/ reg = 0x15 \/
  reg = 0x16 \/ reg = 0x17 \/ reg = 0x18 \/ reg = 0x19 \/ reg = 0x1A \/ reg = 0x1B \/
  reg = 0x1C \/ reg = 0x1D \/ reg = 0x1E \/ reg = 0x1F \/ reg = 0x20 \/ reg = 0x21 \/
  reg = 0x22 \/ reg = 0x23 \/ reg = 0x24 \/ reg = 0x25.
Proof. lia. Qed.

Ltac each_register H :=
  repeat (destruct H as [H|H]; [subst|]); [..|subst].

(** The switch never touches the array of stored bytes or the wave RAM. *)
Lemma writeSwitch_registers (reg val : Z) (a : t) :
  0x10 <= reg <= 0x26 ->
  registers (writeSwitch reg val a) = registers a /\
  waveRam (writeSwitch reg val a) = waveRam a.
Proof.
  intros H.
  assert (C : 0x10 <= reg <= 0x25 \/ reg = 0x26) by lia.
  destruct C as [C|C].
  - apply nr10_nr25_cases in C. each_register C; cbn;
      repeat match goal with |- context [if ?b then _ else _] => destruct b end;
      split; reflexivity.
  - subst. cbn. destruct (negb _); split; reflexivity.
Qed.

(** For NR10-NR25 the switch works the same whatever the master switch is,
    and never touches it. *)
Lemma writeSwitch_master (reg val : Z) (a : t) (on : bool) :
  0x10 <= reg <= 0x25 ->
  writeSwitch reg val (set_masterEnable on a)
  = set_masterEnable on (writeSwitch reg val a).
Proof.
  intros H. apply nr10_nr25_cases in H. each_register H; cbn;
    repeat match goal with |- context [if ?b then _ else _] => destruct b end;
    reflexivity.
Qed.

Lemma writeRegister_in_range (reg val : Z) (a : t) :
  0x10 <= reg <= 0x26 ->
  writeRegister reg val a
  = writeSwitch reg val (set_registers (upd (registers a) (reg - 0x10) val) a).
Proof.
  intros H. unfold writeRegister.
  destruct (Z.leb_spec 0x30 reg); [lia|]. simpl.
  destruct (Z.ltb_spec reg 0x10); [lia|].
  destruct (Z.ltb_spec 0x26 reg); [lia|]. reflexivity.
Qed.

Lemma writeRegister_wave (reg val : Z) (a : t) :
  0x30 <= reg <= 0x3F ->
  writeRegister reg val a = set_waveRam (upd (waveRam a) (reg - 0x30) val) a.
Proof.
  intros H. unfold writeRegister.
  destruct (Z.leb_spec 0x30 reg); [|lia].
  destruct (Z.leb_spec reg 0x3F); [|lia]. reflexivity.
Qed.

(** A stored register byte reads back. *)
Lemma readRegister_writeRegister (reg val : Z) (a : t) :
  size (registers a) = 0x30 ->
  0x10 <= reg <= 0x25 ->
  readRegister reg (writeRegister reg val a) = val.
Proof.
  intros Hs H. rewrite writeRegister_in_range by lia.
  unfold readRegister.
  destruct (Z.leb_spec 0x30 reg); [lia|]. simpl.
  destruct (Z.ltb_spec reg 0x10); [lia|].
  destruct (Z.ltb_spec 0x26 reg); [lia|]. simpl.
  destruct (Z.eqb_spec reg 0x26); [lia|].
  destruct (writeSwitch_registers reg val
              (set_registers (upd (registers a) (reg - 0x10) val) a)) as [-> _]; [lia|].
  simpl. apply idx_upd_same. lia.
Qed.

Lemma readRegister_writeRegister_wave (reg val : Z) (a : t) :
  size (waveRam a) = 16 ->
  0x30 <= reg <= 0x3F ->
  readRegister reg (writeRegister reg val a) = val.
Proof.
  intros Hs H. rewrite writeRegister_wave by lia.
  unfold readRegister.
  destruct (Z.leb_spec 0x30 reg); [|lia].
  destruct (Z.leb_spec reg 0x3F); [|lia]. simpl.
  apply idx_upd_same. lia.
Qed.

End APUWrites.

(** C7, as the specification has it, fails: with the master switch off a
    write to NR50 still changes the APU (here the master volume goes from
    0x77 to 0x00). *)
Lemma apu_write_while_off_changes_state :
  APU.masterEnable apu_switched_off = false /\
  APU.writeRegister 0x24 0x00 apu_switched_off <> apu_switched_off.
Proof.
  split; [reflexivity|].
  intros H. apply (f_equal APU.masterVolume) in H.
  vm_compute in H. discriminate H.
Qed.

(** C7, amended.  [writeRegister] has no gate on the master switch: with
    the switch off, a write to any of NR10-NR25 stores the byte, which
    reads back, and updates the channels exactly as it does with the
    switch on, leaving the switch itself alone; a wave-RAM write stores
    the byte in the wave RAM; and a write to a length register (NR11, NR21,
    NR31, NR41) reloads the channel's length counter. *)
Theorem apu_writes_not_gated_by_master (a : APU.t) (reg val wreg wval : Z) :
  APU.masterEnable a = false ->
  size (APU.registers a) = 0x30 ->
  size (APU.waveRam a) = 16 ->
  0x10 <= reg <= 0x25 ->
  0x30 <= wreg <= 0x3F ->
  APU.readRegister reg (APU.writeRegister reg val a) = val /\
  APU.writeRegister reg val a
  = APU.set_masterEnable false (APU.writeRegister reg val (APU.set_masterEnable true a)) /\
  APU.masterEnable (APU.writeRegister reg val a) = false /\
  APU.readRegister wreg (APU.writeRegister wreg wval a) = wval /\
  Channel1.lengthCounter (APU.ch1 (APU.writeRegister 0x11 val a)) = 64 - (val .& 0x3F) /\
  Channel2.lengthCounter (APU.ch2 (APU.writeRegister 0x16 val a)) = 64 - (val .& 0x3F) /\
  Channel3.lengthCounter (APU.ch3 (APU.writeRegister 0x1B val a)) = 256 - val /\
  Channel4.lengthCounter (APU.ch4 (APU.writeRegister 0x20 val a)) = 64 - (val .& 0x3F).
Proof.
  intros Hoff Hr Hw Hreg Hwreg.
  assert (G : APU.writeRegister reg val a
              = APU.set_masterEnable false
                  (APU.writeRegister reg val (APU.set_masterEnable true a))).
  { rewrite !writeRegister_in_range by lia.
    change (APU.set_registers (upd (APU.registers (APU.set_masterEnable true a)) (reg - 16) val)
              (APU.set_masterEnable true a))
      with (APU.set_masterEnable true
              (APU.set_registers (upd (APU.registers a) (reg - 16) val) a)).
    rewrite writeSwitch_master by lia.
    set (X := APU.set_registers (upd (APU.registers a) (reg - 16) val) a).
    assert (EX : X = APU.set_masterEnable false X).
    { subst X. destruct a; simpl in *. subst. reflexivity. }
    rewrite EX at 1. rewrite writeSwitch_master by lia. reflexivity. }
  split; [now apply readRegister_writeRegister|].
  split; [exact G|].
  split; [rewrite G; reflexivity|].
  split; [now apply readRegister_writeRegister_wave|].
  repeat split; reflexivity.
Qed.

Lemma apu_writes_not_gated_by_master_witness :
  APU.readRegister 0x12 (APU.writeRegister 0x12 0xF3 apu_switched_off) = 0xF3 /\
  APU.masterEnable (APU.writeRegister 0x12 0xF3 apu_switched_off) = false /\
  APU.readRegister 0x30 (APU.writeRegister 0x30 0xAB apu_switched_off) = 0xAB /\
  Channel1.lengthCounter (APU.ch1 (APU.writeRegister 0x11 0xF3 apu_switched_off)) = 13.
Proof.
  destruct (apu_writes_not_gated_by_master apu_switched_off 0x12 0xF3 0x30 0xAB)
    as (H1 & _ & H3 & H4 & _); try reflexivity; try lia.
  destruct (apu_writes_not_gated_by_master apu_switched_off 0x11 0xF3 0x30 0xAB)
    as (_ & _ & _ & _ & H5 & _); try reflexivity; try lia.
  rewrite H1, H3, H4, H5. repeat split; reflexivity.
Defined.

(** ** The joypad register *)

(** The select bits that [readJoypad] tests, after a write of [v] to JOYP. *)
Lemma joypad_select_after_write (m : MemoryState.t) (v : Z) (k : Z) :
  size (MemoryState.io m) = 0x80 ->
  k = 4 \/ k = 5 ->
  let m' := Memory.write 0xFF00 v m in
  (u8 (idx (MemoryState.io m') 0x00 .& 0x30) .& (1 << k) =? 0) = negb (Z.testbit v k).
Proof.
  intros Hs Hk. cbv zeta.
  change (Memory.write 0xFF00 v m)
    with (MemoryState.set_io
            (upd (MemoryState.io m) 0x00
               (u8 ((v .& 0x30) .| (idx (MemoryState.io m) 0x00 .& 0xCF)))) m).
  cbn [MemoryState.io MemoryState.set_io].
  rewrite idx_upd_same by lia.
  rewrite land_bit_eqb by lia. f_equal.
  destruct Hk; subst k; push_testbit; simpl;
    rewrite ?andb_true_r, ?andb_false_r, ?orb_false_r; reflexivity.
Qed.

(** C3, as the specification has it, fails.  With A held (buttons nybble
    0xE) and both rows selected the low nybble read is the d-pad nybble 0xF,
    not the AND of the two, 0xE; and after 0x30 has been written the byte
    read has bits 4-5 clear, not set. *)
Lemma joypad_read_not_combined :
  let held := Memory.setJoypadState 0xFE 0xFF Memory.new in
  Memory.read 0xFF00 (Memory.write 0xFF00 0x00 held) .& 0x0F = 0x0F /\
  (0xFE .& 0xFF) .& 0x0F = 0x0E /\
  Memory.read 0xFF00 (Memory.write 0xFF00 0x30 held) .& 0x30 = 0x00.
Proof. vm_compute. repeat split; reflexivity. Qed.

(** C3, amended.  After the program has written [v] to 0xFF00, a read of
    0xFF00 returns a byte with bits 6-7 set and bits 4-5 clear whose low
    nybble is the d-pad nybble when row 0 is selected (bit 4 of [v] low),
    also when row 1 is selected as well; the buttons nybble when only row 1
    is selected (bit 5 low, bit 4 high); and 0xF when no row is selected. *)
Theorem joypad_read_selects_one_row (m : MemoryState.t) (v : Z) :
  size (MemoryState.io m) = 0x80 ->
  Memory.read 0xFF00 (Memory.write 0xFF00 v m)
  = 0xC0 + (if negb (Z.testbit v 4) then MemoryState.joypadDpad m .& 0x0F
            else if negb (Z.testbit v 5) then MemoryState.joypadButtons m .& 0x0F
            else 0x0F).
Proof.
  intros Hs.
  pose proof (joypad_select_after_write m v 4 Hs (or_introl eq_refl)) as H4.
  pose proof (joypad_select_after_write m v 5 Hs (or_intror eq_refl)) as H5.
  cbv zeta in H4, H5.
  change (Memory.read 0xFF00 (Memory.write 0xFF00 v m))
    with (Memory.readJoypad (Memory.write 0xFF00 v m)).
  unfold Memory.readJoypad.
  change (1 << 4) with 0x10 in H4. change (1 << 5) with 0x20 in H5.
  rewrite H4, H5.
  change (MemoryState.joypadDpad (Memory.write 0xFF00 v m)) with (MemoryState.joypadDpad m).
  change (MemoryState.joypadButtons (Memory.write 0xFF00 v m))
    with (MemoryState.joypadButtons m).
  assert (N : forall r x, r .& 0xF0 = 0xC0 ->
                u8 ((r .& 0xF0) .| (x .& 0x0F)) = 0xC0 + (x .& 0x0F) /\
                (0xC0 + (x .& 0x0F)) .& 0xF0 = 0xC0).
  { intros r x ->. pose proof (land_mask_range x 4 ltac:(lia)) as R.
    change (Z.ones 4) with 0x0F in R. change (2 ^ 4) with 16 in R.
    remember (x .& 0x0F) as y eqn:Ey. clear Ey.
    assert (C : y = 0 \/ y = 1 \/ y = 2 \/ y = 3 \/ y = 4 \/ y = 5 \/ y = 6 \/ y = 7 \/
                y = 8 \/ y = 9 \/ y = 10 \/ y = 11 \/ y = 12 \/ y = 13 \/ y = 14 \/ y = 15)
      by lia.
    repeat (destruct C as [C|C]; [subst y; split; reflexivity|]).
    subst y; split; reflexivity. }
  assert (R0 : 0xCF .& 0xF0 = 0xC0) by reflexivity.
  destruct (Z.testbit v 4), (Z.testbit v 5); cbn [negb];
    repeat match goal with
      | |- context [u8 ((?r .& 0xF0) .| (?x .& 0x0F))] =>
          let H := fresh in
          first [ destruct (N r x R0) as [H _]
                | destruct (N r x (proj2 (N 0xCF (MemoryState.joypadButtons m) R0))) as [H _] ];
          rewrite H; clear H
      end; reflexivity.
Qed.

Lemma joypad_read_selects_one_row_witness :
  Memory.read 0xFF00 (Memory.write 0xFF00 0x00 (Memory.setJoypadState 0xFE 0xFB Memory.new))
  = 0xCB.
Proof.
  rewrite (joypad_read_selects_one_row (Memory.setJoypadState 0xFE 0xFB Memory.new) 0x00).
  - reflexivity.
  - reflexivity.
Defined.

(** ** Loading the cartridge *)

Open Scope string_scope.

(** Reading a regular file into a vector of its size gives its bytes. *)
Lemma readInto_whole (n : Z) (bytes v : list Z) :
  Memory.readInto (Memory.mkFile n bytes) (size bytes) v = bytes.
Proof.
  unfold Memory.readInto, size. cbn [Memory.content]. rewrite Nat2Z.id.
  rewrite firstn_all, drop_ge, app_nil_r; [reflexivity|].
  rewrite length_resize. lia.
Qed.

(** [main] once the video is set up. *)
Lemma main_after_init (h : GameBoy.host) (prog path : string) (rest : list string) :
  GameBoy.video_ok h = true ->
  GameBoy.main h (prog :: path :: rest)
  = match Memory.loadROM (GameBoy.fs h) path (snd GameBoy.components) with
    | None => GameBoy.Aborted
    | Some (ok, m) => if ok then GameBoy.Run (CPU.reset, m) else GameBoy.Exit 1
    end.
Proof.
  intros Hvideo. unfold GameBoy.main, GameBoy.init, GameBoy.loadROM. rewrite Hvideo.
  destruct (Memory.loadROM (GameBoy.fs h) path (snd GameBoy.components)) as [[[] m]|];
    reflexivity.
Qed.

(** C9, as the specification has it, fails for a short file: a file of
    three bytes loads ([loadROM] returns true, with the three bytes as the
    ROM) and [main] goes on to run the emulator. *)
Lemma short_rom_is_loaded :
  Memory.loadROM (GameBoy.fs short_host) "short.gb" Memory.new
  = Some (true, MemoryState.set_rom [0xC3; 0x50; 0x01]%Z Memory.new) /\
  GameBoy.main short_host ["gameboy"; "short.gb"]
  = GameBoy.Run (CPU.reset,
                 MemoryState.set_rom [0xC3; 0x50; 0x01]%Z (snd GameBoy.components)).
Proof. split; reflexivity. Qed.

(** C9, amended.  With the video set up, the load goes one of three ways.
    When the file cannot be opened (missing or unreadable),
    [Memory::loadROM] returns false and leaves the bus alone, and [main]
    exits with code 1 without entering the emulation loop; in no other
    case does [loadROM] return false.  When the file opens but a vector of
    the size that [tellg()] reports, taken unchecked as a [size_t], cannot
    be had (a directory, or a stream that cannot tell its position),
    [rom.resize] throws, nothing catches the exception and the process is
    aborted: [main] neither returns 1 nor runs the emulator.  When the
    file opens and is a regular file shorter than the cartridge header
    (fewer than 0x148 bytes) that fits in memory, it is accepted:
    [loadROM] returns true with the bytes of the file as the ROM, skipping
    the MBC and RAM-size detection, and [main] enters the emulation
    loop. *)
Theorem load_fails_only_when_unopened
    (h : GameBoy.host) (prog path : string) (rest : list string) (m : MemoryState.t) :
  GameBoy.video_ok h = true ->
  let fs := GameBoy.fs h in
  let r := Memory.loadROM fs path m in
  let out := GameBoy.main h (prog :: path :: rest) in
  (Memory.ifstream fs path = None ->
   r = Some (false, m) /\ out = GameBoy.Exit 1) /\
  (forall m', r = Some (false, m') -> Memory.ifstream fs path = None) /\
  (out = GameBoy.Exit 1 -> Memory.ifstream fs path = None) /\
  (forall f, Memory.ifstream fs path = Some f ->
             Memory.allocates fs (Memory.tellg f mod 2 ^ 64) = false ->
             r = None /\ out = GameBoy.Aborted) /\
  (forall bytes, Memory.ifstream fs path = Some (Memory.mkFile (size bytes) bytes) ->
                 Memory.allocates fs (size bytes) = true ->
                 (size bytes < 0x148)%Z ->
                 r = Some (true, MemoryState.set_rom bytes m) /\
                 out = GameBoy.Run (CPU.reset,
                                    MemoryState.set_rom bytes (snd GameBoy.components))).
Proof.
  intros Hvideo fs r out.
  assert (F : forall m0 m', Memory.loadROM fs path m0 = Some (false, m') ->
                            Memory.ifstream fs path = None).
  { intros m0 m'. unfold Memory.loadROM.
    destruct (Memory.ifstream fs path) as [f|]; [|reflexivity].
    cbv zeta. destruct (negb (Memory.allocates fs _)); discriminate. }
  assert (N : forall m0, Memory.ifstream fs path = None ->
                         Memory.loadROM fs path m0 = Some (false, m0)).
  { intros m0 E. unfold Memory.loadROM. rewrite E. reflexivity. }
  assert (T : forall m0 f, Memory.ifstream fs path = Some f ->
                Memory.allocates fs (Memory.tellg f mod 2 ^ 64) = false ->
                Memory.loadROM fs path m0 = None).
  { intros m0 f E A. unfold Memory.loadROM. rewrite E. cbv zeta. rewrite A. reflexivity. }
  assert (L : forall m0 bytes,
                Memory.ifstream fs path = Some (Memory.mkFile (size bytes) bytes) ->
                Memory.allocates fs (size bytes) = true ->
                (size bytes < 0x148)%Z ->
                Memory.loadROM fs path m0 = Some (true, MemoryState.set_rom bytes m0)).
  { intros m0 bytes E A St. unfold Memory.loadROM. rewrite E. cbv zeta.
    cbn [Memory.tellg]. rewrite (Z.mod_small (size bytes)) by (unfold size in *; lia).
    rewrite A. cbn [negb].
    rewrite readInto_whole.
    cbn [MemoryState.rom MemoryState.set_rom].
    destruct (Z.leb_spec 0x148 (size bytes)); [lia|reflexivity]. }
  subst r out. rewrite (main_after_init h prog path rest Hvideo). fold fs.
  split; [|split; [|split; [|split]]].
  - intros E. rewrite !(N _ E). split; reflexivity.
  - intros m'. apply F.
  - destruct (Memory.loadROM fs path (snd GameBoy.components)) as [[[] m']|] eqn:E;
      [discriminate| |discriminate].
    intros _. exact (F _ _ E).
  - intros f E A. rewrite !(T _ f E A). split; reflexivity.
  - intros bytes E A St. rewrite !(L _ bytes E A St). split; reflexivity.
Qed.

Lemma load_fails_only_when_unopened_witness :
  (Memory.loadROM (GameBoy.fs short_host) "missing.gb" Memory.new = Some (false, Memory.new) /\
   GameBoy.main short_host ["gameboy"; "missing.gb"] = GameBoy.Exit 1) /\
  (Memory.loadROM (GameBoy.fs short_host) "roms" Memory.new = None /\
   GameBoy.main short_host ["gameboy"; "roms"] = GameBoy.Aborted) /\
  (Memory.loadROM (GameBoy.fs short_host) "short.gb" Memory.new
   = Some (true, MemoryState.set_rom [0xC3; 0x50; 0x01]%Z Memory.new) /\
   GameBoy.main short_host ["gameboy"; "short.gb"]
   = GameBoy.Run (CPU.reset,
                  MemoryState.set_rom [0xC3; 0x50; 0x01]%Z (snd GameBoy.components))).
Proof.
  split; [|split].
  - destruct (load_fails_only_when_unopened short_host "gameboy" "missing.gb" []
                Memory.new) as (H1 & _); [reflexivity|].
    apply H1. reflexivity.
  - destruct (load_fails_only_when_unopened short_host "gameboy" "roms" []
                Memory.new) as (_ & _ & _ & H4 & _); [reflexivity|].
    apply (H4 (Memory.mkFile 0x7FFFFFFFFFFFFFFF [])); reflexivity.
  - destruct (load_fails_only_when_unopened short_host "gameboy" "short.gb" []
                Memory.new) as (_ & _ & _ & _ & H5); [reflexivity|].
    apply (H5 [0xC3; 0x50; 0x01]%Z); [reflexivity|reflexivity|unfold size; simpl; lia].
Defined.

Close Scope string_scope.
(** ** The timer *)

Section Timer.
Import MemoryState.

(** The DIV loop touches the DIV register and its counter only. *)
Lemma divLoop_frame (fuel : nat) (m : t) :
  let m' := Memory.divLoop fuel m in
  size (io m') = size (io m) /\
  timerCounter m' = timerCounter m /\
  (forall r, r <> 0x04 -> idx (io m') r = idx (io m) r).
Proof.
  revert m. induction fuel as [|fuel IH]; intros m; cbn [Memory.divLoop].
  - repeat split.
  - destruct (256 <=? divCounter m); [|repeat split].
    match goal with |- context [Memory.divLoop fuel ?x] => specialize (IH x) end.
    cbv zeta in IH. destruct IH as (I1 & I2 & I3).
    cbn [io set_io set_divCounter timerCounter] in *.
    rewrite size_upd in I1.
    split; [exact I1|]. split; [exact I2|].
    intros r Hr. rewrite I3 by assumption. now apply idx_upd_other.
Qed.

(** The loops of [updateTimer] run to completion within their bounds. *)
Lemma divLoop_runs_out (fuel : nat) (m : t) :
  divCounter m <= Z.of_nat fuel -> divCounter (Memory.divLoop fuel m) < 256.
Proof.
  revert m. induction fuel as [|fuel IH]; intros m H; cbn [Memory.divLoop].
  - lia.
  - destruct (Z.leb_spec 256 (divCounter m)); [|lia].
    apply IH. cbn [divCounter set_io set_divCounter]. lia.
Qed.

Lemma timerTick_counter (freq : Z) (m : t) :
  timerCounter (Memory.timerTick freq m) = timerCounter m - freq.
Proof.
  unfold Memory.timerTick. cbv zeta.
  match goal with |- context [if ?b then _ else _] => destruct b end; reflexivity.
Qed.

Lemma timerLoop_runs_out (fuel : nat) (freq : Z) (m : t) :
  0 < freq -> timerCounter m <= Z.of_nat fuel ->
  timerCounter (Memory.timerLoop fuel freq m) < freq.
Proof.
  intros Hf. revert m. induction fuel as [|fuel IH]; intros m H; cbn [Memory.timerLoop].
  - lia.
  - destruct (Z.leb_spec freq (timerCounter m)); [|lia].
    apply IH. rewrite timerTick_counter. lia.
Qed.

(** A tick of TIMA.  From 0xFF the register is reloaded from TMA and the
    timer interrupt is requested; from any other value it goes up by one
    and IF is left alone. *)
Lemma timerTick_spec (freq : Z) (m : t) :
  size (io m) = 0x80 ->
  is_u8 (idx (io m) 0x05) ->
  let m' := Memory.timerTick freq m in
  size (io m') = 0x80 /\
  idx (io m') 0x06 = idx (io m) 0x06 /\
  idx (io m') 0x07 = idx (io m) 0x07 /\
  (if idx (io m) 0x05 =? 0xFF
   then idx (io m') 0x05 = idx (io m) 0x06 /\
        idx (io m') 0x0F = u8 (idx (io m) 0x0F .| INT_TIMER)
   else idx (io m') 0x05 = idx (io m) 0x05 + 1 /\
        idx (io m') 0x0F = idx (io m) 0x0F).
Proof.
  intros Hs Hb. unfold Memory.timerTick. cbv zeta.
  cbn [io set_io set_timerCounter].
  rewrite idx_upd_same by lia.
  unfold is_u8 in Hb.
  destruct (Z.eqb_spec (idx (io m) 5) 0xFF) as [E|E].
  - rewrite E. change (u8 (255 + 1)) with 0. cbn [Z.eqb].
    cbn [io set_io]. rewrite !size_upd.
    rewrite !idx_upd_same by (rewrite ?size_upd; lia).
    rewrite !(idx_upd_other _ 15 5), !(idx_upd_other _ 15 6), !(idx_upd_other _ 15 7) by lia.
    rewrite !idx_upd_same by (rewrite ?size_upd; lia).
    rewrite !(idx_upd_other _ 5 6), !(idx_upd_other _ 5 7), !(idx_upd_other _ 5 15) by lia.
    repeat split; first [assumption | reflexivity].
  - rewrite (u8_id (idx (io m) 5 + 1)) by (unfold is_u8; lia).
    destruct (Z.eqb_spec (idx (io m) 5 + 1) 0); [lia|].
    cbn [io set_io]. rewrite size_upd.
    rewrite !idx_upd_same by lia.
    rewrite !(idx_upd_other _ 5 6), !(idx_upd_other _ 5 7), !(idx_upd_other _ 5 15) by lia.
    repeat split; first [assumption | reflexivity].
Qed.

Lemma timerLoop_S (fuel : nat) (freq : Z) (m : t) :
  Memory.timerLoop (S fuel) freq m
  = if freq <=? timerCounter m then Memory.timerLoop fuel freq (Memory.timerTick freq m)
    else m.
Proof. reflexivity. Qed.

Lemma timerLoop_idle (fuel : nat) (freq : Z) (m : t) :
  timerCounter m < freq -> Memory.timerLoop fuel freq m = m.
Proof.
  intros H. destruct fuel; cbn [Memory.timerLoop]; [reflexivity|].
  destruct (Z.leb_spec freq (timerCounter m)); [lia|reflexivity].
Qed.

(** [updateTimer] with the timer enabled at period 16: the state before
    the timer loop. *)
Lemma updateTimer_period16 (c : Z) (m : t) :
  idx (io m) 0x07 = 0x05 ->
  exists m2,
    Memory.updateTimer c m
    = Memory.timerLoop (Z.to_nat (timerCounter m + c)) 16
        (set_timerCounter (timerCounter m + c) m2) /\
    size (io m2) = size (io m) /\
    (forall r, r <> 0x04 -> idx (io m2) r = idx (io m) r).
Proof.
  intros Htac. unfold Memory.updateTimer. cbv zeta.
  set (m1 := set_divCounter (divCounter m + c) m).
  destruct (divLoop_frame (Z.to_nat (divCounter m1)) m1) as (F1 & F2 & F3).
  set (m2 := Memory.divLoop (Z.to_nat (divCounter m1)) m1) in *.
  exists m2.
  assert (T : idx (io m2) 7 = 5) by (rewrite F3 by lia; exact Htac).
  rewrite T. cbn [negb nz Z.land Pos.land Z.eqb].
  unfold Memory.getTimerFrequency. cbn [io set_timerCounter timerCounter].
  rewrite T. cbn [Z.land Pos.land].
  rewrite F2. subst m1. cbn [timerCounter set_divCounter io] in *.
  repeat split; assumption.
Qed.

Lemma updateTimer_armed (k c : Z) (m : MemoryState.t) :
  armed k m -> k + c < 16 -> armed (k + c) (Memory.updateTimer c m).
Proof.
  intros (Hs & H7 & H5 & H6 & Ht) Hlt.
  destruct (updateTimer_period16 c m H7) as (m2 & -> & F1 & F3).
  rewrite timerLoop_idle by (cbn [timerCounter set_timerCounter]; lia).
  unfold armed. cbn [io set_timerCounter timerCounter].
  rewrite F1, !F3 by lia. repeat split; first [assumption | lia].
Qed.

Lemma updateTimer_fires (k c : Z) (m : MemoryState.t) :
  armed k m -> k + c = 16 -> fired (Memory.updateTimer c m).
Proof.
  intros (Hs & H7 & H5 & H6 & Ht) Heq.
  destruct (updateTimer_period16 c m H7) as (m2 & -> & F1 & F3).
  rewrite Ht, Heq. change (Z.to_nat 16) with (S 15). rewrite timerLoop_S.
  cbn [timerCounter set_timerCounter Z.leb Z.compare Pos.compare Pos.compare_cont].
  rewrite timerLoop_idle by (rewrite timerTick_counter; cbn [timerCounter set_timerCounter]; lia).
  set (m3 := set_timerCounter 16 m2).
  assert (S3 : size (io m3) = 0x80) by (subst m3; cbn [io set_timerCounter]; lia).
  assert (B3 : is_u8 (idx (io m3) 0x05)).
  { subst m3; cbn [io set_timerCounter]. rewrite F3, H5 by lia. unfold is_u8. lia. }
  destruct (timerTick_spec 16 m3 S3 B3) as (T1 & T6 & T7 & T5).
  cbv zeta in *.
  assert (E5 : idx (io m3) 5 = 0xFF) by (subst m3; cbn [io set_timerCounter]; rewrite F3 by lia; exact H5).
  rewrite E5 in T5. cbn [Z.eqb Pos.eqb] in T5. destruct T5 as [T5 TF].
  unfold fired. rewrite timerTick_counter. unfold MemoryState.getIF.
  rewrite T1, T7, T5, TF. subst m3. cbn [io set_timerCounter timerCounter].
  rewrite !F3 by lia. repeat split; try assumption; try lia.
  rewrite testbit_u8, Z.lor_spec by lia. unfold INT_TIMER.
  change (Z.testbit 4 2) with true. rewrite orb_true_r. reflexivity.
Qed.

Lemma updateTimer_fired (m : t) : fired m -> fired (Memory.updateTimer 0 m).
Proof.
  intros (Hs & H7 & H5 & HF & Ht).
  destruct (updateTimer_period16 0 m H7) as (m2 & -> & F1 & F3).
  rewrite timerLoop_idle by (cbn [timerCounter set_timerCounter]; lia).
  unfold fired, MemoryState.getIF in *. cbn [io set_timerCounter timerCounter].
  rewrite F1, !F3 by lia. repeat split; first [assumption | lia].
Qed.

End Timer.

Lemma feedTimer_fired (cs : list Z) (m : MemoryState.t) :
  Forall (fun c => 0 <= c) cs -> total cs = 0 -> fired m -> fired (feedTimer cs m).
Proof.
  revert m. induction cs as [|c cs IH]; intros m Hpos Hsum Hf; [exact Hf|].
  inversion Hpos as [|? ? Hc Hcs]; subst.
  assert (Hrest : 0 <= total cs).
  { clear -Hcs. induction Hcs; cbn; [lia|]. unfold total in *. lia. }
  cbn in Hsum. fold (total cs) in Hsum.
  assert (c = 0) by lia. subst c.
  cbn. apply IH; [assumption|lia|]. now apply updateTimer_fired.
Qed.

Lemma feedTimer_armed (cs : list Z) (t : Z) (m : MemoryState.t) :
  Forall (fun c => 0 <= c) cs -> t < 16 -> t + total cs = 16 ->
  armed t m -> fired (feedTimer cs m).
Proof.
  revert t m. induction cs as [|c cs IH]; intros t m Hpos Ht Hsum Ha.
  - cbn in Hsum. lia.
  - inversion Hpos as [|? ? Hc Hcs]; subst.
    assert (Hrest : 0 <= total cs).
    { clear -Hcs. induction Hcs; cbn; [lia|]. unfold total in *. lia. }
    cbn in Hsum. fold (total cs) in Hsum. cbn.
    destruct (Z.lt_ge_cases (t + c) 16) as [Hlt|Hge].
    + apply (IH (t + c)); [assumption|lia|lia|]. now apply updateTimer_armed.
    + apply feedTimer_fired; [assumption|lia|].
      apply (updateTimer_fires t); [assumption|lia].
Qed.

(** C4.  With TAC = 0x05, TIMA = 0xFF, TMA = 0x42 and the timer
    accumulator at 0, once [updateTimer] has been fed 16 clocks in all, in
    one call or split over several, TIMA reads 0x42 and bit 2 of IF is set.
    In general a tick of TIMA from 0xFF reloads it from TMA and sets bit 2
    of IF, and a tick from any other value adds one and leaves IF alone. *)
Theorem timer_overflow_reloads_and_requests
    (m : MemoryState.t) (cs : list Z) (n : MemoryState.t) (freq : Z) :
  size (MemoryState.io m) = 0x80 ->
  idx (MemoryState.io m) 0x07 = 0x05 ->
  idx (MemoryState.io m) 0x05 = 0xFF ->
  idx (MemoryState.io m) 0x06 = 0x42 ->
  MemoryState.timerCounter m = 0 ->
  Forall (fun c => 0 <= c) cs ->
  total cs = 16 ->
  size (MemoryState.io n) = 0x80 ->
  is_u8 (idx (MemoryState.io n) 0x05) ->
  (idx (MemoryState.io (feedTimer cs m)) 0x05 = 0x42 /\
   Z.testbit (MemoryState.getIF (feedTimer cs m)) 2 = true) /\
  (if idx (MemoryState.io n) 0x05 =? 0xFF
   then idx (MemoryState.io (Memory.timerTick freq n)) 0x05 = idx (MemoryState.io n) 0x06 /\
        Z.testbit (MemoryState.getIF (Memory.timerTick freq n)) 2 = true
   else idx (MemoryState.io (Memory.timerTick freq n)) 0x05
        = idx (MemoryState.io n) 0x05 + 1 /\
        MemoryState.getIF (Memory.timerTick freq n) = MemoryState.getIF n).
Proof.
  intros Hs H7 H5 H6 Ht Hpos Hsum Hn Hb. split.
  - destruct (feedTimer_armed cs 0 m Hpos ltac:(lia) ltac:(lia)) as (_ & _ & F5 & FF & _).
    + unfold armed. repeat split; assumption.
    + split; assumption.
  - destruct (timerTick_spec freq n Hn Hb) as (_ & _ & _ & T). cbv zeta in T.
    unfold MemoryState.getIF.
    destruct (idx (MemoryState.io n) 5 =? 0xFF); destruct T as [T5 TF]; split;
      try assumption.
    rewrite TF, testbit_u8, Z.lor_spec by lia. unfold INT_TIMER.
    change (Z.testbit 4 2) with true. rewrite orb_true_r. reflexivity.
Qed.

Lemma timer_overflow_reloads_and_requests_witness :
  idx (MemoryState.io (feedTimer [4; 4; 4; 4] timer_scenario)) 0x05 = 0x42 /\
  Z.testbit (MemoryState.getIF (feedTimer [4; 4; 4; 4] timer_scenario)) 2 = true.
Proof.
  apply (timer_overflow_reloads_and_requests timer_scenario [4; 4; 4; 4] timer_scenario 16).
  - reflexivity.
  - reflexivity.
  - reflexivity.
  - reflexivity.
  - reflexivity.
  - repeat constructor; lia.
  - reflexivity.
  - reflexivity.
  - unfold is_u8. vm_compute. split; [discriminate|reflexivity].
Defined.

(** ** OAM DMA *)

Section DMA.
Import MemoryState.

(** A read looks at the OAM only in the OAM window. *)
Lemma read_oam_window (addr : Z) (m : t) :
  0xFE00 <= addr < 0xFEA0 -> Memory.read addr m = idx (oam m) (addr - 0xFE00).
Proof.
  intros H. unfold Memory.read.
  repeat match goal with
    | |- context [?x <? ?y] => destruct (Z.ltb_spec x y); try lia
    end.
Qed.

Lemma read_set_oam (addr : Z) (o : list Z) (m : t) :
  ~ (0xFE00 <= addr < 0xFEA0) -> Memory.read addr (set_oam o m) = Memory.read addr m.
Proof.
  intros H. unfold Memory.read, Memory.readJoypad.
  cbn [set_oam ppu apu rom extRam vram wram oam io hram ie romBank ramBank ramEnabled
       joypadButtons joypadDpad].
  repeat match goal with
    | |- context [?x <? ?y] => destruct (Z.ltb_spec x y); try lia
    end; try reflexivity.
Qed.

(** The loop from index [from] on, started on a bus that differs from
    [m0] in the OAM bytes below [from] only: the bytes it passes over become
    the bytes read from the source page in [m0], and nothing else changes. *)
Lemma dmaCopy_spec (page : Z) (m0 : t) (k : nat) (from : Z) (o : list Z) :
  is_u8 page ->
  dmaSource m0 = page * 256 ->
  size (oam m0) = 0xA0 ->
  size o = 0xA0 ->
  0 <= from -> from + Z.of_nat k <= 160 ->
  (forall j, from <= j < 160 -> idx o j = idx (oam m0) j) ->
  exists o',
    Memory.dmaCopy from (Z.of_nat k) (set_oam o m0) = set_oam o' m0 /\
    size o' = 0xA0 /\
    (forall j, j < from -> idx o' j = idx o j) /\
    (forall j, from <= j < from + Z.of_nat k ->
               idx o' j = Memory.read (page * 256 + j) m0) /\
    (forall j, from + Z.of_nat k <= j < 160 -> idx o' j = idx (oam m0) j).
Proof.
  intros Hp Hsrc Hs0. revert from o.
  induction k as [|k IH]; intros from o Hso Hfrom Hto Hrest.
  - exists o. unfold Memory.dmaCopy. cbn. repeat split; try assumption.
    + lia.
    + intros j Hj. apply Hrest. lia.
  - unfold Memory.dmaCopy. rewrite seqZ_cons by lia. cbn [fold_left].
    replace (Z.pred (Z.of_nat (S k))) with (Z.of_nat k) by lia.
    cbn [oam set_oam dmaSource].
    set (x := Memory.read (u16 (dmaSource m0 + from)) (set_oam o m0)).
    assert (Hx : x = Memory.read (page * 256 + from) m0).
    { subst x. rewrite Hsrc. unfold is_u8 in Hp.
      rewrite u16_id by (unfold is_u16; lia).
      destruct (Z.eq_dec page 0xFE) as [->|Hne].
      - rewrite !read_oam_window by lia. cbn [oam set_oam].
        apply Hrest. lia.
      - apply read_set_oam. lia. }
    change (set_oam (upd o from x) (set_oam o m0)) with (set_oam (upd o from x) m0).
    destruct (IH (Z.succ from) (upd o from x)) as (o' & E & So & Lo & Mid & Hi).
    + rewrite size_upd. exact Hso.
    + lia.
    + lia.
    + intros j Hj. rewrite idx_upd_other by lia. apply Hrest. lia.
    + exists o'. fold (Memory.dmaCopy (Z.succ from) (Z.of_nat k) (set_oam (upd o from x) m0)).
      rewrite E. split; [reflexivity|]. split; [exact So|]. split; [|split].
      * intros j Hj. rewrite Lo by lia. apply idx_upd_other. lia.
      * intros j Hj. destruct (Z.eq_dec j from) as [->|Hne].
        -- rewrite Lo by lia. rewrite idx_upd_same by lia. exact Hx.
        -- apply Mid. lia.
      * intros j Hj. apply Hi. lia.
Qed.

(** The call of [updateDMA] that completes the transfer. *)
Lemma updateDMA_copies (page c : Z) (m : t) (i : Z) :
  is_u8 page ->
  dmaActive m = true ->
  dmaSource m = page * 256 ->
  size (oam m) = 0xA0 ->
  640 <= dmaCycles m + c ->
  0 <= i < 160 ->
  let m' := Memory.updateDMA c m in
  dmaActive m' = false /\
  idx (oam m') i = Memory.read (page * 256 + i) m /\
  idx (oam m') i = Memory.read (page * 256 + i) m'.
Proof.
  intros Hp Ha Hsrc Hs Hc Hi. unfold Memory.updateDMA. rewrite Ha. cbn [negb].
  cbv zeta. cbn [dmaCycles set_dmaCycles].
  destruct (Z.leb_spec 640 (dmaCycles m + c)); [|lia].
  set (m0 := set_dmaCycles (dmaCycles m + c) m).
  destruct (dmaCopy_spec page m0 160 0 (oam m0)) as (o' & E & So & _ & Mid & _);
    try assumption; try lia; try reflexivity.
  change (set_oam (oam m0) m0) with m0 in E.
  change (Z.of_nat 160) with 160 in *.
  rewrite E.
  cbn [dmaActive set_dmaActive oam set_oam].
  split; [reflexivity|].
  assert (R : idx o' i = Memory.read (page * 256 + i) m) by (apply Mid; lia).
  split; [exact R|].
  unfold is_u8 in Hp.
  destruct (Z.eq_dec page 0xFE) as [->|Hne].
  - rewrite read_oam_window by lia. cbn [oam set_dmaActive set_oam]. f_equal. lia.
  - rewrite R. symmetry.
    change (set_dmaActive false (set_oam o' m0))
      with (set_oam o' (set_dmaActive false m0)).
    rewrite read_set_oam by lia. reflexivity.
Qed.

(** Before the transfer completes a call adds to the clock count only. *)
Lemma updateDMA_waits (c : Z) (m : t) :
  dmaActive m = true -> dmaCycles m + c < 640 ->
  Memory.updateDMA c m = set_dmaCycles (dmaCycles m + c) m.
Proof.
  intros Ha Hc. unfold Memory.updateDMA. rewrite Ha. cbn [negb]. cbv zeta.
  cbn [dmaCycles set_dmaCycles].
  destruct (Z.leb_spec 640 (dmaCycles m + c)); [lia|reflexivity].
Qed.

(** After it, a call does nothing. *)
Lemma updateDMA_idle (c : Z) (m : t) : dmaActive m = false -> Memory.updateDMA c m = m.
Proof. intros Ha. unfold Memory.updateDMA. rewrite Ha. reflexivity. Qed.

End DMA.

Lemma feedDMA_idle (cs : list Z) (m : MemoryState.t) :
  MemoryState.dmaActive m = false -> feedDMA cs m = m.
Proof.
  induction cs as [|c cs IH]; intros Ha; [reflexivity|].
  cbn. rewrite updateDMA_idle by assumption. now apply IH.
Qed.

Lemma total_nonneg (cs : list Z) : Forall (fun c => 0 <= c) cs -> 0 <= total cs.
Proof. induction 1; cbn; [lia|]. fold (total l). lia. Qed.

Lemma read_set_dmaCycles (addr k : Z) (m : MemoryState.t) :
  Memory.read addr (MemoryState.set_dmaCycles k m) = Memory.read addr m.
Proof. reflexivity. Qed.

(** While the transfer is pending the bus differs from the bus just after
    the write to 0xFF46 in the clock count only; the call that brings the
    count to 640 copies, and the calls after it do nothing. *)
Lemma feedDMA_pending (page : Z) (m1 : MemoryState.t) (cs : list Z) (k i : Z) :
  is_u8 page ->
  MemoryState.dmaActive m1 = true ->
  MemoryState.dmaSource m1 = page * 256 ->
  size (MemoryState.oam m1) = 0xA0 ->
  Forall (fun c => 0 <= c) cs ->
  0 <= k < 640 -> 640 <= k + total cs ->
  0 <= i < 160 ->
  let m2 := feedDMA cs (MemoryState.set_dmaCycles k m1) in
  MemoryState.dmaActive m2 = false /\
  idx (MemoryState.oam m2) i = Memory.read (page * 256 + i) m1 /\
  idx (MemoryState.oam m2) i = Memory.read (page * 256 + i) m2.
Proof.
  intros Hp Ha Hsrc Hs Hpos. revert k.
  induction Hpos as [|c cs Hc Hcs IH]; intros k Hk Hsum Hi.
  - cbn in Hsum. lia.
  - cbn in Hsum. fold (total cs) in Hsum. pose proof (total_nonneg cs Hcs) as Hrest.
    cbv zeta. cbn [feedDMA fold_left]. fold (feedDMA cs).
    destruct (Z.lt_ge_cases (k + c) 640) as [Hlt|Hge].
    + rewrite updateDMA_waits
        by (cbn [MemoryState.dmaActive MemoryState.dmaCycles MemoryState.set_dmaCycles];
            first [assumption | lia]).
      cbn [MemoryState.dmaCycles MemoryState.set_dmaCycles].
      change (MemoryState.set_dmaCycles (k + c) (MemoryState.set_dmaCycles k m1))
        with (MemoryState.set_dmaCycles (k + c) m1).
      apply IH; [lia|lia|assumption].
    + destruct (updateDMA_copies page c (MemoryState.set_dmaCycles k m1) i)
        as (D & R1 & R2);
        try (cbn [MemoryState.dmaActive MemoryState.dmaSource MemoryState.oam
                  MemoryState.dmaCycles MemoryState.set_dmaCycles];
             first [assumption | lia]).
      cbv zeta in D, R1, R2.
        rewrite feedDMA_idle by assumption.
        rewrite read_set_dmaCycles in R1. repeat split; assumption.
Qed.

(** C5.  After [write(0xFF46, page)] and [updateDMA] calls that add up to
    at least 640 clocks, the DMA is inactive and every [oam[i]], [i] below
    160, is the byte that [read((page << 8) + i)] gives: read on the bus as
    it is when the copy is made, which is the bus as the write left it up to
    the clock count, and also read on the bus after the copy.  In general
    ([n], [c]) the call that brings the count of an active DMA to 640 stores
    in [oam[i]] the byte read from the source page at that moment. *)
Theorem oam_dma_copies_source_page
    (m : MemoryState.t) (page : Z) (cs : list Z) (i : Z) (n : MemoryState.t) (c : Z) :
  size (MemoryState.oam m) = 0xA0 ->
  is_u8 page ->
  Forall (fun c => 0 <= c) cs ->
  640 <= total cs ->
  0 <= i < 160 ->
  size (MemoryState.oam n) = 0xA0 ->
  MemoryState.dmaActive n = true ->
  MemoryState.dmaSource n = (page << 8) ->
  640 <= MemoryState.dmaCycles n + c ->
  let m1 := Memory.write 0xFF46 page m in
  let m2 := feedDMA cs m1 in
  (MemoryState.dmaActive m1 = true /\
   MemoryState.dmaActive m2 = false /\
   idx (MemoryState.oam m2) i = Memory.read ((page << 8) + i) m1 /\
   idx (MemoryState.oam m2) i = Memory.read ((page << 8) + i) m2) /\
  (MemoryState.dmaActive (Memory.updateDMA c n) = false /\
   idx (MemoryState.oam (Memory.updateDMA c n)) i = Memory.read ((page << 8) + i) n).
Proof.
  intros Hs Hp Hpos Hsum Hi Hsn Han Hsrcn Hcn.
  assert (P : (page << 8) = page * 256) by (rewrite Z.shiftl_mul_pow2 by lia; reflexivity).
  rewrite !P in *. cbv zeta. split.
  - set (m1 := Memory.write 0xFF46 page m).
    assert (E1 : m1 = MemoryState.set_io (upd (MemoryState.io m) 0x46 page)
                        (MemoryState.set_dmaSource (u16 (page << 8))
                           (MemoryState.set_dmaCycles 0
                              (MemoryState.set_dmaActive true m)))) by reflexivity.
    assert (A1 : MemoryState.dmaActive m1 = true) by (rewrite E1; reflexivity).
    assert (S1 : MemoryState.dmaSource m1 = page * 256).
    { rewrite E1. cbn [MemoryState.dmaSource MemoryState.set_io MemoryState.set_dmaSource].
      rewrite P. apply u16_id. unfold is_u8 in Hp. unfold is_u16. lia. }
    assert (O1 : size (MemoryState.oam m1) = 0xA0) by (rewrite E1; exact Hs).
    assert (C1 : m1 = MemoryState.set_dmaCycles 0 m1) by (rewrite E1; reflexivity).
    split; [exact A1|].
    rewrite C1 at 1 3 5.
    apply (feedDMA_pending page m1 cs 0 i); try assumption; lia.
  - destruct (updateDMA_copies page c n i) as (D & R & _); try assumption.
    split; assumption.
Qed.

Lemma oam_dma_copies_source_page_witness :
  idx (MemoryState.oam (feedDMA (repeat 4 160) (Memory.write 0xFF46 0xC0 dma_scenario))) 0x9F
  = 0x22.
Proof.
  destruct (oam_dma_copies_source_page dma_scenario 0xC0 (repeat 4 160) 0x9F
              (Memory.write 0xFF46 0xC0 dma_scenario) 640)
    as ((_ & _ & R & _) & _).
  - reflexivity.
  - unfold is_u8. lia.
  - apply Forall_forall. intros x Hx. apply list_elem_of_In, repeat_spec in Hx. subst. lia.
  - vm_compute. discriminate.
  - lia.
  - reflexivity.
  - reflexivity.
  - reflexivity.
  - vm_compute. discriminate.
  - cbv zeta in R. rewrite R. reflexivity.
Defined.

(** ** Reading back what was written *)

Section ReadBack.
Import MemoryState.

(** A PPU method leaves the size of the I/O register file alone. *)
Lemma checkSTATInterrupt_io_size (s : PPU.sys) :
  size (io (snd (PPU.checkSTATInterrupt s))) = size (io (snd s)).
Proof.
  unfold PPU.checkSTATInterrupt. cbv zeta.
  match goal with |- context [if ?b then _ else _] => destruct b end; [|reflexivity].
  cbn [PPU.onM snd fst setIF io set_io]. apply size_upd.
Qed.

Lemma setMode_io_size (k : Z) (s : PPU.sys) :
  size (io (snd (PPU.setMode k s))) = size (io (snd s)).
Proof. unfold PPU.setMode. rewrite checkSTATInterrupt_io_size. reflexivity. Qed.

Lemma writeLCDC_io_size (val : Z) (s : PPU.sys) :
  size (io (snd (PPU.writeLCDC val s))) = size (io (snd s)).
Proof.
  unfold PPU.writeLCDC. cbv zeta.
  match goal with |- context [if ?b then _ else _] => destruct b end; [|reflexivity].
  cbn [PPU.onP snd fst]. rewrite setMode_io_size. reflexivity.
Qed.

Lemma withPPU_writeLCDC_frame (val : Z) (m : t) :
  let m' := Memory.withPPU (PPU.writeLCDC val) m in
  size (io m') = size (io m) /\ apu m' = apu m.
Proof.
  unfold Memory.withPPU. cbv zeta. destruct (ppu m) as [p|]; [|split; reflexivity].
  cbn [io set_ppu apu]. split.
  - rewrite writeLCDC_io_size. reflexivity.
  - unfold PPU.writeLCDC, PPU.setMode, PPU.checkSTATInterrupt. cbv zeta.
    repeat match goal with |- context [if ?b then _ else _] => destruct b end; reflexivity.
Qed.

Ltac split_regions :=
  repeat match goal with
    | |- context [?x <? ?y] => destruct (Z.ltb_spec x y); try lia
    end.

(** [write] and [read], region by region. *)
Lemma write_rom (addr val : Z) (m : t) :
  addr < 0x8000 -> Memory.write addr val m = Memory.handleMBCWrite addr val m.
Proof. intros H. unfold Memory.write. split_regions; try reflexivity. Qed.

Lemma write_vram (addr val : Z) (m : t) :
  0x8000 <= addr < 0xA000 ->
  Memory.write addr val m = set_vram (upd (vram m) (addr - 0x8000) val) m.
Proof. intros H. unfold Memory.write. split_regions; try reflexivity. Qed.

Lemma write_extRam (addr val : Z) (m : t) :
  0xA000 <= addr < 0xC000 ->
  Memory.write addr val m =
  if ramEnabled m && negb (size (extRam m) =? 0) then
    if (ramBank m * 0x2000) + (addr - 0xA000) <? size (extRam m)
    then set_extRam (upd (extRam m) ((ramBank m * 0x2000) + (addr - 0xA000)) val) m
    else m
  else m.
Proof.
  intros H. unfold Memory.write.
  destruct (Z.ltb_spec addr 0x8000); [lia|].
  destruct (Z.ltb_spec addr 0xA000); [lia|].
  destruct (Z.ltb_spec addr 0xC000); [|lia]. reflexivity.
Qed.

Lemma write_wram (addr val : Z) (m : t) :
  0xC000 <= addr < 0xE000 ->
  Memory.write addr val m = set_wram (upd (wram m) (addr - 0xC000) val) m.
Proof. intros H. unfold Memory.write. split_regions; try reflexivity. Qed.

Lemma write_echo (addr val : Z) (m : t) :
  0xE000 <= addr < 0xFE00 ->
  Memory.write addr val m = set_wram (upd (wram m) (addr - 0xE000) val) m.
Proof. intros H. unfold Memory.write. split_regions; try reflexivity. Qed.

Lemma write_oam (addr val : Z) (m : t) :
  0xFE00 <= addr < 0xFEA0 ->
  Memory.write addr val m = set_oam (upd (oam m) (addr - 0xFE00) val) m.
Proof. intros H. unfold Memory.write. split_regions; try reflexivity. Qed.

Lemma write_unusable (addr val : Z) (m : t) :
  0xFEA0 <= addr < 0xFF00 -> Memory.write addr val m = m.
Proof. intros H. unfold Memory.write. split_regions; try reflexivity. Qed.

Lemma write_hram (addr val : Z) (m : t) :
  0xFF80 <= addr < 0xFFFF ->
  Memory.write addr val m = set_hram (upd (hram m) (addr - 0xFF80) val) m.
Proof. intros H. unfold Memory.write. split_regions; try reflexivity. Qed.

Lemma write_ie (addr val : Z) (m : t) :
  0xFFFF <= addr -> Memory.write addr val m = set_ie val m.
Proof. intros H. unfold Memory.write. split_regions; try reflexivity. Qed.

Lemma read_vram (addr : Z) (m : t) :
  0x8000 <= addr < 0xA000 -> Memory.read addr m = idx (vram m) (addr - 0x8000).
Proof. intros H. unfold Memory.read. split_regions; try reflexivity. Qed.

Lemma read_extRam (addr : Z) (m : t) :
  0xA000 <= addr < 0xC000 ->
  Memory.read addr m =
  if ramEnabled m && negb (size (extRam m) =? 0) then
    if (ramBank m * 0x2000) + (addr - 0xA000) <? size (extRam m)
    then idx (extRam m) ((ramBank m * 0x2000) + (addr - 0xA000))
    else 0xFF
  else 0xFF.
Proof.
  intros H. unfold Memory.read.
  destruct (Z.ltb_spec addr 0x4000); [lia|].
  destruct (Z.ltb_spec addr 0x8000); [lia|].
  destruct (Z.ltb_spec addr 0xA000); [lia|].
  destruct (Z.ltb_spec addr 0xC000); [|lia]. reflexivity.
Qed.

Lemma read_wram (addr : Z) (m : t) :
  0xC000 <= addr < 0xE000 -> Memory.read addr m = idx (wram m) (addr - 0xC000).
Proof. intros H. unfold Memory.read. split_regions; try reflexivity. Qed.

Lemma read_echo (addr : Z) (m : t) :
  0xE000 <= addr < 0xFE00 -> Memory.read addr m = idx (wram m) (addr - 0xE000).
Proof. intros H. unfold Memory.read. split_regions; try reflexivity. Qed.

Lemma read_hram (addr : Z) (m : t) :
  0xFF80 <= addr < 0xFFFF -> Memory.read addr m = idx (hram m) (addr - 0xFF80).
Proof. intros H. unfold Memory.read. split_regions; try reflexivity. Qed.

Lemma read_ie (addr : Z) (m : t) : 0xFFFF <= addr -> Memory.read addr m = ie m.
Proof. intros H. unfold Memory.read. split_regions; try reflexivity. Qed.

(** Writes to the I/O page. *)
Lemma write_io_page (addr val : Z) (m : t) :
  0xFF00 <= addr < 0xFF80 ->
  Memory.write addr val m =
  let reg := addr - 0xFF00 in
  match reg with
  | 0x00 => m |> set_io (upd (io m) 0x00 (u8 ((val .& 0x30) .| (idx (io m) 0x00 .& 0xCF))))
  | 0x04 => m |> set_io (upd (io m) 0x04 0) |> set_divCounter 0
  | 0x40 => m |> Memory.withPPU (PPU.writeLCDC val)
              |> (fun m => set_io (upd (io m) 0x40 val) m)
  | 0x41 => m |> Memory.withPPU (PPU.onP (PPU.writeSTAT val))
              |> (fun m => set_io (upd (io m) 0x41 val) m)
  | 0x44 => m |> Memory.withPPU (PPU.onP (PPU.writeLY val))
  | 0x46 => m |> set_dmaActive true |> set_dmaCycles 0 |> set_dmaSource (u16 (val << 8))
              |> (fun m => set_io (upd (io m) 0x46 val) m)
  | _ =>
      let m :=
        match apu m with
        | Some a =>
            if (0x10 <=? reg) && (reg <=? 0x3F)
            then m |> set_apu (Some (APU.writeRegister reg val a))
            else m
        | None => m
        end in
      m |> set_io (upd (io m) reg val)
  end.
Proof.
  intros H. unfold Memory.write.
  repeat match goal with
    | |- context [?x <? ?y] => destruct (Z.ltb_spec x y); try lia
    end.
  rewrite (u8_id (addr - 0xFF00)) by (unfold is_u8; lia). reflexivity.
Qed.

Lemma read_io_page (addr : Z) (m : t) :
  0xFF00 <= addr < 0xFF80 ->
  Memory.read addr m =
  let reg := addr - 0xFF00 in
  match reg with
  | 0x00 => Memory.readJoypad m
  | 0x44 => match ppu m with Some p => PPUState.readLY p | None => 0 end
  | 0x41 => match ppu m with Some p => PPU.readSTAT p | None => 0 end
  | _ =>
      match apu m with
      | Some a =>
          if (0x10 <=? reg) && (reg <=? 0x3F) then APU.readRegister reg a
          else idx (io m) reg
      | None => idx (io m) reg
      end
  end.
Proof.
  intros H. unfold Memory.read.
  repeat match goal with
    | |- context [?x <? ?y] => destruct (Z.ltb_spec x y); try lia
    end.
  rewrite (u8_id (addr - 0xFF00)) by (unfold is_u8; lia). reflexivity.
Qed.

(** A property of every integer below a literal bound, case by case. *)
Lemma below_cases (P : Z -> Prop) (n : Z) :
  Forall P (seqZ 0 n) -> forall x, 0 <= x < n -> P x.
Proof.
  intros H x Hx. rewrite Forall_forall in H. apply H.
  apply elem_of_seqZ. lia.
Qed.

Ltac by_cases_below x bound :=
  pattern x;
  match goal with |- ?P x => refine (below_cases P bound _ x _) end;
  [ let l := eval vm_compute in (seqZ 0 bound) in
    change (seqZ 0 bound) with l
  | lia ].

(** The registers of the I/O page that [write] and [read] single out. *)
Lemma write_io_plain (reg val : Z) (m : t) :
  0 <= reg < 0x80 ->
  reg <> 0x00 -> reg <> 0x04 -> reg <> 0x40 -> reg <> 0x41 -> reg <> 0x44 -> reg <> 0x46 ->
  Memory.write (0xFF00 + reg) val m =
  let m := match apu m with
           | Some a =>
               if (0x10 <=? reg) && (reg <=? 0x3F)
               then m |> set_apu (Some (APU.writeRegister reg val a))
               else m
           | None => m
           end in
  m |> set_io (upd (io m) reg val).
Proof.
  intros H. rewrite write_io_page by lia. cbv zeta.
  replace (0xFF00 + reg - 0xFF00) with reg by lia.
  by_cases_below reg 0x80.
  repeat (constructor; [intros; first [lia | reflexivity]|]). constructor.
Qed.

Lemma read_io_plain (reg : Z) (m : t) :
  0 <= reg < 0x80 ->
  reg <> 0x00 -> reg <> 0x41 -> reg <> 0x44 ->
  Memory.read (0xFF00 + reg) m =
  match apu m with
  | Some a =>
      if (0x10 <=? reg) && (reg <=? 0x3F) then APU.readRegister reg a
      else idx (io m) reg
  | None => idx (io m) reg
  end.
Proof.
  intros H. rewrite read_io_page by lia. cbv zeta.
  replace (0xFF00 + reg - 0xFF00) with reg by lia.
  by_cases_below reg 0x80.
  repeat (constructor; [intros; first [lia | reflexivity]|]). constructor.
Qed.

End ReadBack.

(** C8, as the specification has it, fails outside the I/O page too: on the
    power-on bus (external RAM disabled) a byte written to 0xA000 is
    dropped and the read gives 0xFF, and so does a read of the unusable
    address 0xFEA0 after a write there.  Neither address is in the ROM
    area, is 0xFF04, or is an I/O register. *)
Lemma write_then_read_can_miss :
  Memory.read 0xA000 (Memory.write 0xA000 0x12 Memory.new) = 0xFF /\
  Memory.read 0xFEA0 (Memory.write 0xFEA0 0x12 Memory.new) = 0xFF /\
  specialIO 0xA000 = false /\ specialIO 0xFEA0 = false.
Proof. repeat split; reflexivity. Qed.

Section ReadBackTheorem.
Import MemoryState.

Lemma read_write_io (m : t) (reg v : Z) :
  wf_bus m ->
  0 <= reg < 0x80 ->
  readsBack (0xFF00 + reg) m = true ->
  Memory.read (0xFF00 + reg) (Memory.write (0xFF00 + reg) v m) = v.
Proof.
  intros W Hreg Hrb. destruct W as [_ _ _ Wio _ _ Wapu].
  unfold readsBack in Hrb.
  repeat match type of Hrb with
    | context [?x <? ?y] => destruct (Z.ltb_spec x y); try lia
    end.
  apply andb_prop in Hrb. destruct Hrb as [Hne Hapu].
  apply negb_true_iff in Hne.
  repeat (apply orb_false_elim in Hne; destruct Hne as [Hne ?]).
  repeat match goal with
    | E : (_ =? _) = false |- _ => apply Z.eqb_neq in E
    end.
  destruct (Z.eq_dec reg 0x40) as [->|N40].
  { (* LCDC *)
    change (Memory.write (0xFF00 + 0x40) v m)
      with (set_io (upd (io (Memory.withPPU (PPU.writeLCDC v) m)) 0x40 v)
              (Memory.withPPU (PPU.writeLCDC v) m)).
    destruct (withPPU_writeLCDC_frame v m) as [Fs Fa]. cbv zeta in Fs, Fa.
    rewrite (read_io_plain 0x40) by lia.
    cbn [apu set_io io Z.leb Z.compare Pos.compare Pos.compare_cont andb].
    assert (R : idx (upd (io (Memory.withPPU (PPU.writeLCDC v) m)) 0x40 v) 0x40 = v)
      by (apply idx_upd_same; lia).
    destruct (apu (Memory.withPPU (PPU.writeLCDC v) m)); exact R. }
  destruct (Z.eq_dec reg 0x46) as [->|N46].
  { (* DMA *)
    change (Memory.write (0xFF00 + 0x46) v m)
      with (set_io (upd (io m) 0x46 v)
              (set_dmaSource (u16 (v << 8)) (set_dmaCycles 0 (set_dmaActive true m)))).
    rewrite (read_io_plain 0x46) by lia.
    cbn [apu set_io io set_dmaActive set_dmaCycles set_dmaSource
         Z.leb Z.compare Pos.compare Pos.compare_cont andb].
    assert (R : idx (upd (io m) 0x46 v) 0x46 = v) by (apply idx_upd_same; lia).
    destruct (apu m); exact R. }
  rewrite write_io_plain by lia. rewrite read_io_plain by lia. cbv zeta.
  destruct (apu m) as [a|] eqn:Ea.
  - destruct Wapu as [Wr Ww].
    apply negb_true_iff in Hapu.
    destruct ((0x10 <=? reg) && (reg <=? 0x3F)) eqn:Hsound.
    + cbn [apu set_apu set_io].
      apply andb_prop in Hsound. destruct Hsound as [L1 L2].
      apply Z.leb_le in L1, L2.
      destruct (Z.le_gt_cases reg 0x25).
      * apply readRegister_writeRegister; [assumption|lia].
      * assert (0x30 <= reg).
        { destruct (Z.leb_spec 0xFF26 (0xFF00 + reg)); [|lia].
          destruct (Z.leb_spec (0xFF00 + reg) 0xFF2F); [discriminate Hapu|lia]. }
        apply readRegister_writeRegister_wave; [assumption|lia].
    + cbn [apu set_io io]. rewrite Ea. apply idx_upd_same. lia.
  - cbn [apu set_io io]. rewrite Ea. apply idx_upd_same. lia.
Qed.

End ReadBackTheorem.

(** C8, amended.  For every 16-bit address at which [readsBack] holds and
    every byte [v], [write(addr, v)] followed at once by [read(addr)]
    returns [v].  The addresses left out are: the ROM area below 0x8000;
    external RAM (0xA000-0xBFFF) while it is disabled, absent or smaller
    than the selected bank reaches; the unusable region 0xFEA0-0xFEFF; the
    I/O registers JOYP 0xFF00, DIV 0xFF04, STAT 0xFF41 and LY 0xFF44; and,
    with the APU attached, NR52 and the unmapped sound registers
    0xFF26-0xFF2F.  In particular every address of video RAM, work RAM
    and its echo, OAM, high RAM and IE reads back, as does every I/O
    register that the specification does not list as special. *)
Theorem write_then_read_returns_value (m : MemoryState.t) (addr v : Z) :
  wf_bus m ->
  is_u16 addr ->
  is_u8 v ->
  readsBack addr m = true ->
  Memory.read addr (Memory.write addr v m) = v /\
  (0x8000 <= addr /\ addr <> 0xFF04) /\
  (specialIO addr = false -> addr < 0xA000 \/ 0xC000 <= addr < 0xFEA0 \/ 0xFF00 <= addr ->
   readsBack addr m = true).
Proof.
  intros W Ha Hv Hrb. split; [|split].
  - pose proof W as [Wv Ww Wo _ Wh Wb _]. unfold is_u16 in Ha.
    pose proof Hrb as Hrb'. unfold readsBack in Hrb'.
    destruct (Z.ltb_spec addr 0x8000); [discriminate Hrb'|].
    destruct (Z.ltb_spec addr 0xA000).
    { rewrite write_vram, read_vram by lia.
      cbn [MemoryState.vram MemoryState.set_vram]. apply idx_upd_same. lia. }
    destruct (Z.ltb_spec addr 0xC000).
    { apply andb_prop in Hrb'. destruct Hrb' as [Hrb' Hin].
      apply Z.ltb_lt in Hin.
      rewrite write_extRam by lia. rewrite Hrb'.
      destruct (Z.ltb_spec (MemoryState.ramBank m * 0x2000 + (addr - 0xA000))
                  (size (MemoryState.extRam m))); [|lia].
      rewrite read_extRam by lia.
      cbn [MemoryState.ramEnabled MemoryState.extRam MemoryState.set_extRam
           MemoryState.ramBank].
      rewrite size_upd, Hrb'.
      destruct (Z.ltb_spec (MemoryState.ramBank m * 0x2000 + (addr - 0xA000))
                  (size (MemoryState.extRam m))); [|lia].
      apply idx_upd_same. lia. }
    destruct (Z.ltb_spec addr 0xFEA0).
    { destruct (Z.lt_ge_cases addr 0xE000); [|destruct (Z.lt_ge_cases addr 0xFE00)].
      - rewrite write_wram, read_wram by lia.
        cbn [MemoryState.wram MemoryState.set_wram]. apply idx_upd_same. lia.
      - rewrite write_echo, read_echo by lia.
        cbn [MemoryState.wram MemoryState.set_wram]. apply idx_upd_same. lia.
      - rewrite write_oam, read_oam_window by lia.
        cbn [MemoryState.oam MemoryState.set_oam]. apply idx_upd_same. lia. }
    destruct (Z.ltb_spec addr 0xFF00); [discriminate Hrb'|].
    destruct (Z.ltb_spec addr 0xFF80).
    { replace addr with (0xFF00 + (addr - 0xFF00)) in * by lia.
      apply read_write_io; [assumption|lia|assumption]. }
    destruct (Z.lt_ge_cases addr 0xFFFF).
    + rewrite write_hram, read_hram by lia.
      cbn [MemoryState.hram MemoryState.set_hram]. apply idx_upd_same. lia.
    + rewrite write_ie, read_ie by lia. reflexivity.
  - unfold readsBack in Hrb.
    destruct (Z.ltb_spec addr 0x8000); [discriminate Hrb|]. split; [lia|].
    intros ->. discriminate Hrb.
  - intros Hsp Hreg. exact Hrb.
Qed.

Lemma write_then_read_returns_value_witness :
  Memory.read 0xC123 (Memory.write 0xC123 0x5A (snd GameBoy.components)) = 0x5A /\
  Memory.read 0xFF12 (Memory.write 0xFF12 0x5A (snd GameBoy.components)) = 0x5A.
Proof.
  assert (W : wf_bus (snd GameBoy.components)).
  { constructor; try reflexivity. split; reflexivity. }
  split.
  - apply (write_then_read_returns_value (snd GameBoy.components) 0xC123 0x5A).
    + exact W.
    + unfold is_u16. lia.
    + unfold is_u8. lia.
    + reflexivity.
  - apply (write_then_read_returns_value (snd GameBoy.components) 0xFF12 0x5A).
    + exact W.
    + unfold is_u16. lia.
    + unfold is_u8. lia.
    + reflexivity.
Defined.

(** ** Interrupt dispatch *)

Lemma testbit_above (x k n : Z) : 0 <= x < 2 ^ k -> 0 <= k <= n -> Z.testbit x n = false.
Proof.
  intros Hx Hk. destruct (Z.eq_dec x 0) as [->|Hne]; [apply Z.bits_0|].
  apply Z.bits_above_log2; [lia|].
  apply Z.log2_lt_pow2; [lia|].
  apply Z.lt_le_trans with (2 ^ k); [lia|].
  apply Z.pow_le_mono_r; lia.
Qed.

(** Clearing one bit of a byte, as [x & ~bit] narrowed back to a byte. *)
Lemma u8_clear_bit (x k : Z) :
  is_u8 x -> 0 <= k -> u8 (x .& cnot (1 << k)) = Z.clearbit x k.
Proof.
  intros Hx Hk. unfold cnot, Z.clearbit. rewrite <- Z.ldiff_land.
  apply Z.bits_inj'. intros n Hn. rewrite testbit_u8 by lia.
  destruct (Z.ltb_spec n 8); [reflexivity|].
  cbn [andb]. rewrite Z.ldiff_spec.
  rewrite (testbit_above x 8 n) by (unfold is_u8 in Hx; change (2 ^ 8) with 256; lia).
  reflexivity.
Qed.

(** A pending mask has one of its five bits set. *)
Lemma pending_has_bit (x : Z) :
  x .& 0x1F <> 0 ->
  Z.testbit (x .& 0x1F) 0 = true \/ Z.testbit (x .& 0x1F) 1 = true \/
  Z.testbit (x .& 0x1F) 2 = true \/ Z.testbit (x .& 0x1F) 3 = true \/
  Z.testbit (x .& 0x1F) 4 = true.
Proof.
  intros Hne.
  destruct (Z.testbit (x .& 0x1F) 0) eqn:E0; [now left|].
  destruct (Z.testbit (x .& 0x1F) 1) eqn:E1; [now right; left|].
  destruct (Z.testbit (x .& 0x1F) 2) eqn:E2; [now right; right; left|].
  destruct (Z.testbit (x .& 0x1F) 3) eqn:E3; [now right; right; right; left|].
  destruct (Z.testbit (x .& 0x1F) 4) eqn:E4; [now right; right; right; right|].
  exfalso. apply Hne. apply Z.bits_inj'. intros n Hn. rewrite Z.bits_0.
  assert (C : n = 0 \/ n = 1 \/ n = 2 \/ n = 3 \/ n = 4 \/ 5 <= n) by lia.
  destruct C as [-> | [-> | [-> | [-> | [-> | C]]]]]; try assumption.
  rewrite Z.land_spec. rewrite (testbit_above 0x1F 5 n) by lia. apply andb_false_r.
Qed.

(** The lowest bit set in a pending mask. *)
Lemma lowest_pending_bit (x : Z) :
  x .& 0x1F <> 0 ->
  exists k, 0 <= k < 5 /\ Z.testbit (x .& 0x1F) k = true /\
            (forall j, 0 <= j < k -> Z.testbit (x .& 0x1F) j = false).
Proof.
  intros Hp. set (p := x .& 0x1F) in *.
  assert (B : forall j, Z.testbit p j = true \/ Z.testbit p j = false)
    by (intros j; destruct (Z.testbit p j); auto).
  assert (F : forall k, 0 <= k < 5 -> Z.testbit p k = true ->
              (forall j, 0 <= j < k -> Z.testbit p j = false) ->
              exists k, 0 <= k < 5 /\ Z.testbit p k = true /\
                        (forall j, 0 <= j < k -> Z.testbit p j = false))
    by (intros k ? ? ?; exists k; auto).
  destruct (B 0) as [?|B0]; [apply (F 0); [lia|assumption|intros; lia]|].
  destruct (B 1) as [?|B1];
    [apply (F 1); [lia|assumption|intros j Hj; replace j with 0 by lia; easy]|].
  destruct (B 2) as [?|B2];
    [apply (F 2); [lia|assumption|];
     intros j Hj; assert (j = 0 \/ j = 1) as [-> | ->] by lia; easy|].
  destruct (B 3) as [?|B3];
    [apply (F 3); [lia|assumption|];
     intros j Hj; assert (j = 0 \/ j = 1 \/ j = 2) as [-> | [-> | ->]] by lia; easy|].
  destruct (pending_has_bit x Hp) as [?|[?|[?|[?|B4]]]];
    try (unfold p in B0, B1, B2, B3; congruence).
  apply (F 4); [lia|exact B4|].
  intros j Hj.
  assert (j = 0 \/ j = 1 \/ j = 2 \/ j = 3) as [-> | [-> | [-> | ->]]] by lia; easy.
Qed.

Section Dispatch.
Import CPUState.

Lemma handleInterrupts_dispatch (r : t) (m : MemoryState.t) (k : Z) :
  ime r = true ->
  is_u8 (MemoryState.getIF m) ->
  let p := MemoryState.getIF m .& MemoryState.getIE m .& 0x1F in
  0 <= k < 5 ->
  Z.testbit p k = true ->
  (forall j, 0 <= j < k -> Z.testbit p j = false) ->
  CPU.handleInterrupts (r, m)
  = (20, (r |> set_halted false |> set_ime false |> set_sp (u16 (sp r - 2))
            |> set_pc (0x40 + 8 * k),
          dispatchedBus k r m)).
Proof.
  intros Hime Hif p Hk Hbit Hlow.
  assert (Hp : 0 <= p < 32).
  { subst p. apply (land_mask_range _ 5). lia. }
  unfold CPU.handleInterrupts. cbv zeta. cbn [snd fst].
  fold p. rewrite (u8_id p) by (unfold is_u8; lia).
  assert (Hnz : nz p = true).
  { unfold nz. apply negb_true_iff, Z.eqb_neq. intros E. rewrite E, Z.bits_0 in Hbit.
    discriminate Hbit. }
  rewrite Hnz. cbn [CPU.onC fst snd ime set_halted]. rewrite Hime.
  change INT_VBLANK with (1 << 0). change INT_STAT with (1 << 1).
  change INT_TIMER with (1 << 2). change INT_SERIAL with (1 << 3).
  change INT_JOYPAD with (1 << 4).
  rewrite !nz_land_bit by lia.
  assert (C : k = 0 \/ k = 1 \/ k = 2 \/ k = 3 \/ k = 4) by lia.
  destruct C as [-> | [-> | [-> | [-> | ->]]]];
    repeat match goal with
      | |- context [Z.testbit p ?j] =>
          first [ rewrite Hbit | rewrite (Hlow j) by lia ]
      end;
    cbv iota beta;
    unfold CPU.push16, CPU.write16, CPU.write8, dispatchedBus; cbv zeta;
    unfold CPU.onC, CPU.onM; cbn [fst snd];
    rewrite u8_clear_bit by (assumption || lia);
    reflexivity.
Qed.

End Dispatch.

Section DispatchStep.
Import CPUState.

(** [CPU::step] on a state with something pending and interrupts on, or
    about to be switched on by a scheduled enable. *)
Lemma step_dispatch (r : t) (m : MemoryState.t) (k : Z) :
  ime r = true \/ imeScheduled r = true ->
  is_u8 (MemoryState.getIF m) ->
  let p := MemoryState.getIF m .& MemoryState.getIE m .& 0x1F in
  0 <= k < 5 ->
  Z.testbit p k = true ->
  (forall j, 0 <= j < k -> Z.testbit p j = false) ->
  CPU.step (r, m) = (20, (dispatched k r, dispatchedBus k r m)).
Proof.
  intros Hon Hif p Hk Hbit Hlow. unfold CPU.step. cbv zeta. cbn [fst].
  set (s := if imeScheduled r then _ else _).
  assert (Es : s = (set_imeScheduled false (set_ime true r), m) \/
               (s = (r, m) /\ imeScheduled r = false /\ ime r = true)).
  { subst s. destruct (imeScheduled r) eqn:E; [left; reflexivity|right].
    destruct Hon as [H|H]; [auto|discriminate H]. }
  destruct Es as [-> | (-> & Hs & Hi)].
  - rewrite (handleInterrupts_dispatch _ m k) by (assumption || reflexivity).
    reflexivity.
  - rewrite (handleInterrupts_dispatch _ m k) by assumption.
    cbn [Z.ltb Z.compare]. f_equal. f_equal.
    destruct r; cbn in *. subst. reflexivity.
Qed.

(** A write leaves IF alone unless it goes to IF itself or to LCDC, whose
    write can switch the LCD off and raise the STAT interrupt. *)
Lemma write_keeps_IF (addr val : Z) (m : MemoryState.t) :
  addr <> 0xFF0F -> addr <> 0xFF40 ->
  MemoryState.getIF (Memory.write addr val m) = MemoryState.getIF m.
Proof.
  intros N1 N2. unfold MemoryState.getIF.
  destruct (Z.lt_ge_cases addr 0x8000).
  { rewrite write_rom by lia. unfold Memory.handleMBCWrite.
    repeat match goal with
      | |- context [match ?x with _ => _ end] => destruct x
      end; reflexivity. }
  destruct (Z.lt_ge_cases addr 0xA000); [rewrite write_vram by lia; reflexivity|].
  destruct (Z.lt_ge_cases addr 0xC000).
  { rewrite write_extRam by lia.
    repeat match goal with
      | |- context [if ?x then _ else _] => destruct x
      end; reflexivity. }
  destruct (Z.lt_ge_cases addr 0xE000); [rewrite write_wram by lia; reflexivity|].
  destruct (Z.lt_ge_cases addr 0xFE00); [rewrite write_echo by lia; reflexivity|].
  destruct (Z.lt_ge_cases addr 0xFEA0); [rewrite write_oam by lia; reflexivity|].
  destruct (Z.lt_ge_cases addr 0xFF00); [rewrite write_unusable by lia; reflexivity|].
  destruct (Z.lt_ge_cases addr 0xFF80).
  2:{ destruct (Z.lt_ge_cases addr 0xFFFF);
        [rewrite write_hram by lia|rewrite write_ie by lia]; reflexivity. }
  replace addr with (0xFF00 + (addr - 0xFF00)) in * by lia.
  set (reg := addr - 0xFF00) in *.
  assert (Hreg : 0 <= reg < 0x80) by (subst reg; lia).
  assert (Nf : reg <> 0x0F) by lia. assert (N40 : reg <> 0x40) by lia.
  clearbody reg. clear - Hreg Nf N40.
  assert (P : forall f : PPUState.t -> PPUState.t,
             MemoryState.io (Memory.withPPU (PPU.onP f) m) = MemoryState.io m).
  { intros g. unfold Memory.withPPU. destruct (MemoryState.ppu m); reflexivity. }
  destruct (Z.eq_dec reg 0x00) as [->|?];
    [change (0xFF00 + 0) with 0xFF00; cbn; apply idx_upd_other; lia|].
  destruct (Z.eq_dec reg 0x04) as [->|?];
    [change (0xFF00 + 4) with 0xFF04; cbn; apply idx_upd_other; lia|].
  destruct (Z.eq_dec reg 0x41) as [->|?].
  { change (Memory.write (0xFF00 + 0x41) val m)
      with (MemoryState.set_io
              (upd (MemoryState.io (Memory.withPPU (PPU.onP (PPU.writeSTAT val)) m)) 0x41 val)
              (Memory.withPPU (PPU.onP (PPU.writeSTAT val)) m)).
    cbn [MemoryState.io MemoryState.set_io]. rewrite P. apply idx_upd_other. lia. }
  destruct (Z.eq_dec reg 0x44) as [->|?].
  { change (Memory.write (0xFF00 + 0x44) val m)
      with (Memory.withPPU (PPU.onP (PPU.writeLY val)) m).
    rewrite P. reflexivity. }
  destruct (Z.eq_dec reg 0x46) as [->|?];
    [change (0xFF00 + 0x46) with 0xFF46; cbn; apply idx_upd_other; lia|].
  rewrite write_io_plain by lia. cbv zeta.
  destruct (MemoryState.apu m);
    repeat match goal with
      | |- context [if ?x then _ else _] => destruct x
      end;
    cbn [MemoryState.io MemoryState.set_io MemoryState.set_apu]; apply idx_upd_other; lia.
Qed.

Lemma getIF_setIF (v : Z) (m : MemoryState.t) :
  size (MemoryState.io m) = 0x80 -> MemoryState.getIF (MemoryState.setIF v m) = v.
Proof.
  intros H. unfold MemoryState.getIF, MemoryState.setIF.
  cbn [MemoryState.io MemoryState.set_io]. apply idx_upd_same. lia.
Qed.

End DispatchStep.

(** C1, as the specification has it, fails when the stack lies over IF.
    With IME set, VBlank pending (IF = 0xE1, IE = 0x01), PC = 0x0100 and
    SP = 0xFF10, [step] dispatches to 0x0040 in 20 clocks, but the high
    byte of the pushed PC is stored at 0xFF0F after bit 0 of IF has been
    cleared: IF ends as 0x01, with the VBlank bit set and bits 5-7 lost,
    where clearing exactly bit 0 would leave 0xE0. *)
Lemma dispatch_push_overwrites_IF :
  CPUState.ime (fst stack_below_IF) = true /\
  MemoryState.getIF (snd stack_below_IF) = 0xE1 /\
  MemoryState.getIF (snd stack_below_IF) .& MemoryState.getIE (snd stack_below_IF) .& 0x1F
  = 0x01 /\
  fst (CPU.step stack_below_IF) = 20 /\
  CPUState.pc (fst (snd (CPU.step stack_below_IF))) = 0x40 /\
  CPUState.sp (fst (snd (CPU.step stack_below_IF))) = 0xFF0E /\
  MemoryState.getIF (snd (snd (CPU.step stack_below_IF))) = 0x01 /\
  Z.clearbit 0xE1 0 = 0xE0.
Proof. vm_compute. repeat split; reflexivity. Qed.

(** C1, amended.  In every state with IME set and [p = IF & IE & 0x1F]
    non-zero, [step] returns 20 clocks and, for [k] the lowest bit set in
    [p] (bit 0 VBlank, 1 STAT, 2 Timer, 3 Serial, 4 Joypad): IME is clear;
    bit [k] of IF is cleared; PC is then pushed (SP is two lower, modulo
    2^16, with the low byte of PC at the new SP and the high byte above
    it); PC is the vector 0x40 + 8k; and no register has changed
    otherwise, no instruction having been fetched.  The push goes through
    the bus after the flag is cleared.  When neither of its two bytes
    lands on IF (0xFF0F) or on LCDC (0xFF40), that is when the new SP is
    none of 0xFF0E, 0xFF0F, 0xFF3F and 0xFF40, IF is left with exactly
    bit [k] cleared. *)
Theorem step_dispatches_pending_interrupt (r : CPUState.t) (m : MemoryState.t) :
  CPUState.ime r = true ->
  size (MemoryState.io m) = 0x80 ->
  is_u8 (MemoryState.getIF m) ->
  let p := MemoryState.getIF m .& MemoryState.getIE m .& 0x1F in
  p <> 0 ->
  exists k,
    0 <= k < 5 /\
    Z.testbit p k = true /\
    (forall j, 0 <= j < k -> Z.testbit p j = false) /\
    CPU.step (r, m) = (20, (dispatched k r, dispatchedBus k r m)) /\
    CPUState.ime (dispatched k r) = false /\
    CPUState.sp (dispatched k r) = u16 (CPUState.sp r - 2) /\
    CPUState.pc (dispatched k r) = nth (Z.to_nat k) [0x40; 0x48; 0x50; 0x58; 0x60] 0 /\
    (~ In (u16 (CPUState.sp r - 2)) [0xFF0E; 0xFF0F; 0xFF3F; 0xFF40] ->
     MemoryState.getIF (dispatchedBus k r m) = Z.clearbit (MemoryState.getIF m) k).
Proof.
  intros Hime Hio Hif p Hp.
  destruct (lowest_pending_bit _ Hp) as (k & Hk & Hbit & Hlow). fold p in Hbit, Hlow.
  exists k.
  split; [exact Hk|]. split; [exact Hbit|]. split; [exact Hlow|].
  split; [apply step_dispatch; auto|].
  split; [reflexivity|]. split; [reflexivity|]. split.
  - cbn [CPUState.pc dispatched].
    assert (C : k = 0 \/ k = 1 \/ k = 2 \/ k = 3 \/ k = 4) by lia.
    destruct C as [-> | [-> | [-> | [-> | ->]]]]; reflexivity.
  - intros Hn. set (a1 := u16 (CPUState.sp r - 2)) in *.
    assert (N : a1 <> 0xFF0E /\ a1 <> 0xFF0F /\ a1 <> 0xFF3F /\ a1 <> 0xFF40).
    { repeat split; intros E; apply Hn; rewrite E; cbn; auto. }
    destruct N as (N1 & N2 & N3 & N4).
    unfold dispatchedBus. fold a1.
    pose proof (u16_range (CPUState.sp r - 2)) as Ra. fold a1 in Ra. unfold is_u16 in Ra.
    assert (A2 : u16 (a1 + 1) <> 0xFF0F /\ u16 (a1 + 1) <> 0xFF40).
    { destruct (Z.eq_dec a1 0xFFFF) as [->|?]; [split; discriminate|].
      rewrite u16_id by (unfold is_u16; lia). lia. }
    rewrite !write_keeps_IF by tauto.
    now apply getIF_setIF.
Qed.

Lemma step_dispatches_pending_interrupt_witness :
  CPU.step vblank_pending
  = (20, (dispatched 0 (fst vblank_pending),
          dispatchedBus 0 (fst vblank_pending) (snd vblank_pending))) /\
  CPUState.pc (dispatched 0 (fst vblank_pending)) = 0x40 /\
  CPUState.sp (dispatched 0 (fst vblank_pending)) = 0xFFFC /\
  MemoryState.getIF (dispatchedBus 0 (fst vblank_pending) (snd vblank_pending)) = 0xE0 /\
  Memory.read 0xFFFC (dispatchedBus 0 (fst vblank_pending) (snd vblank_pending)) = 0x00 /\
  Memory.read 0xFFFD (dispatchedBus 0 (fst vblank_pending) (snd vblank_pending)) = 0x01.
Proof.
  destruct (step_dispatches_pending_interrupt (fst vblank_pending) (snd vblank_pending))
    as (k & Hk & Hbit & Hlow & Hstep & _).
  - reflexivity.
  - reflexivity.
  - unfold is_u8. vm_compute. split; [discriminate|reflexivity].
  - vm_compute. discriminate.
  - assert (k = 0).
    { destruct (Z.eq_dec k 0) as [E|E]; [exact E|].
      assert (F : Z.testbit
                    (MemoryState.getIF (snd vblank_pending)
                     .& MemoryState.getIE (snd vblank_pending) .& 0x1F) 0 = false)
        by (apply Hlow; lia).
      vm_compute in F. discriminate F. }
    subst k. split; [exact Hstep|]. repeat split; reflexivity.
Defined.

(** ** EI and the scheduled enable *)

Section EI.
Import CPUState.

(** [step] on an EI instruction with IME clear and an enabled interrupt
    pending: nothing is dispatched, the enable is scheduled, and the bus
    is untouched. *)
Lemma step_EI (r : t) (m : MemoryState.t) :
  ime r = false ->
  imeScheduled r = false ->
  MemoryState.getIF m .& MemoryState.getIE m .& 0x1F <> 0 ->
  Memory.read (pc r) m = 0xFB ->
  CPU.step (r, m)
  = (4, (r |> set_halted false |> set_pc (u16 (pc r + 1)) |> set_imeScheduled true, m)).
Proof.
  intros Hime Hs Hp Hop. unfold CPU.step. cbv zeta. cbn [fst]. rewrite Hs.
  unfold CPU.handleInterrupts. cbv zeta. cbn [fst snd].
  set (p := MemoryState.getIF m .& MemoryState.getIE m .& 0x1F) in *.
  assert (Rp : 0 <= p < 32) by (subst p; apply (land_mask_range _ 5); lia).
  rewrite (u8_id p) by (unfold is_u8; lia).
  assert (Hnz : nz p = true) by (unfold nz; apply negb_true_iff, Z.eqb_neq; exact Hp).
  rewrite Hnz. unfold CPU.onC. cbn [fst snd ime set_halted]. rewrite Hime.
  cbn [Z.ltb Z.compare fst halted set_halted].
  unfold CPU.fetch8, CPU.read8, CPU.onC. cbn [fst snd pc set_halted]. rewrite Hop.
  reflexivity.
Qed.

End EI.

(** C6 fails on the code.  From a state with IME clear, no enable
    scheduled, EI at PC and an enabled interrupt pending, the step that
    executes EI takes 4 clocks and leaves IME clear; but the next step sets
    IME before it looks at the interrupts and dispatches at once: it takes
    20 clocks, jumps to the vector, and pushes as return address the address
    of the instruction after EI, which has not been executed. *)
Theorem ei_interrupt_taken_before_next_instruction (r : CPUState.t) (m : MemoryState.t) :
  CPUState.ime r = false ->
  CPUState.imeScheduled r = false ->
  is_u8 (MemoryState.getIF m) ->
  let p := MemoryState.getIF m .& MemoryState.getIE m .& 0x1F in
  p <> 0 ->
  Memory.read (CPUState.pc r) m = 0xFB ->
  exists k r1,
    0 <= k < 5 /\ Z.testbit p k = true /\
    CPU.step (r, m) = (4, (r1, m)) /\
    CPUState.ime r1 = false /\
    CPUState.imeScheduled r1 = true /\
    CPUState.pc r1 = u16 (CPUState.pc r + 1) /\
    CPU.step (r1, m) = (20, (dispatched k r1, dispatchedBus k r1 m)) /\
    CPUState.pc (dispatched k r1) = 0x40 + 8 * k /\
    dispatchedBus k r1 m
    = (m |> MemoryState.setIF (Z.clearbit (MemoryState.getIF m) k)
         |> Memory.write (u16 (CPUState.sp r - 2)) (u16 (CPUState.pc r + 1) .& 0xFF)
         |> Memory.write (u16 (u16 (CPUState.sp r - 2) + 1))
                         (u8 (u16 (CPUState.pc r + 1) >> 8))).
Proof.
  intros Hime Hs Hif p Hp Hop.
  destruct (lowest_pending_bit _ Hp) as (k & Hk & Hbit & Hlow). fold p in Hbit, Hlow.
  exists k.
  exists (r |> CPUState.set_halted false |> CPUState.set_pc (u16 (CPUState.pc r + 1))
            |> CPUState.set_imeScheduled true).
  split; [exact Hk|]. split; [exact Hbit|].
  split; [now apply step_EI|].
  split; [exact Hime|]. split; [reflexivity|]. split; [reflexivity|].
  split; [apply step_dispatch; auto|].
  split; reflexivity.
Qed.

Lemma ei_interrupt_taken_before_next_instruction_witness :
  let first := CPU.step ei_machine in
  let second := CPU.step (snd first) in
  fst first = 4 /\
  CPUState.ime (fst (snd first)) = false /\
  CPUState.pc (fst (snd first)) = 0x0101 /\
  fst second = 20 /\
  CPUState.pc (fst (snd second)) = 0x0040 /\
  CPUState.a (fst (snd second)) = CPUState.a (fst ei_machine) /\
  CPU.read16 (CPUState.sp (fst (snd second))) (snd second) = 0x0101.
Proof.
  destruct (ei_interrupt_taken_before_next_instruction (fst ei_machine) (snd ei_machine))
    as (k & r1 & Hk & Hbit & S1 & _ & _ & _ & S2 & _).
  - reflexivity.
  - reflexivity.
  - unfold is_u8. vm_compute. split; [discriminate|reflexivity].
  - vm_compute. discriminate.
  - reflexivity.
  - vm_compute. repeat split; reflexivity.
Defined.

(** ** The LCD mode state machine *)

Section PPUFrame.
Import PPUState.

Lemma fold_left_keeps {A B C : Type} (step : A -> B -> A) (g : A -> C) (l : list B) (a0 : A) :
  (forall x y, g (step x y) = g x) -> g (fold_left step l a0) = g a0.
Proof.
  intros H. revert a0. induction l as [|y l IH]; intros a0; [reflexivity|].
  cbn [fold_left]. rewrite IH. apply H.
Qed.

Lemma renderBackground_core (m : MemoryState.t) (r : PPU.rstate) :
  core (fst (PPU.renderBackground m r)) = core (fst r).
Proof.
  unfold PPU.renderBackground. cbv zeta.
  apply (fold_left_keeps _ (fun r => core (fst r))). intros x y. reflexivity.
Qed.

Lemma renderWindow_core (m : MemoryState.t) (r : PPU.rstate) :
  core (fst (PPU.renderWindow m r)) = core (fst r).
Proof.
  unfold PPU.renderWindow. cbv zeta.
  destruct (ly (fst r) <? wy (fst r)); [reflexivity|].
  destruct (166 <? wx (fst r)); [reflexivity|].
  match goal with
  | |- context [fold_left ?step ?l ?a0] =>
      pose proof (fold_left_keeps step (fun rv => core (fst (fst rv))) l a0) as K;
      destruct (fold_left step l a0) as [r' vis]
  end.
  cbn [fst] in K. rewrite <- K.
  - destruct vis; reflexivity.
  - intros x y. destruct (y - (wx (fst r) - 7) <? 0); reflexivity.
Qed.

Lemma renderSprites_core (m : MemoryState.t) (r : PPU.rstate) :
  core (fst (PPU.renderSprites m r)) = core (fst r).
Proof.
  unfold PPU.renderSprites. cbv zeta.
  match goal with |- context [fold_left ?step ?l ?a0] => destruct (fold_left step l a0) end.
  reflexivity.
Qed.

Lemma renderScanline_core (m : MemoryState.t) (p : t) :
  core (PPU.renderScanline m p) = core p.
Proof.
  unfold PPU.renderScanline. cbv zeta.
  destruct (SCREEN_HEIGHT <=? ly p); [reflexivity|].
  set (r1 := if nz (lcdc p .& 0x01) then _ else _).
  assert (C1 : core (fst r1) = core p).
  { subst r1. destruct (nz (lcdc p .& 0x01)).
    - apply renderBackground_core.
    - cbn [fst]. apply (fold_left_keeps _ core). intros x y. reflexivity. }
  set (r2 := if nz (lcdc p .& 0x20) && nz (lcdc p .& 0x01) then _ else r1).
  assert (C2 : core (fst r2) = core p).
  { subst r2. destruct (nz (lcdc p .& 0x20) && nz (lcdc p .& 0x01)); [|exact C1].
    rewrite renderWindow_core. exact C1. }
  destruct (nz (lcdc p .& 0x02)); [|exact C2].
  rewrite renderSprites_core. exact C2.
Qed.

Lemma core_view (p q : t) : core p = core q -> view p = view q.
Proof. unfold core, view. intros H. injection H. intros. congruence. Qed.

Lemma checkSTATInterrupt_fst (s : PPU.sys) : fst (PPU.checkSTATInterrupt s) = fst s.
Proof.
  unfold PPU.checkSTATInterrupt. cbv zeta.
  match goal with |- context [if ?b then _ else _] => destruct b end; reflexivity.
Qed.

Lemma setMode_fst (k : Z) (s : PPU.sys) :
  fst (PPU.setMode k s)
  = set_stat (u8 ((stat (fst s) .& 0xFC) .| (k .& 0x03))) (set_mode k (fst s)).
Proof. unfold PPU.setMode. rewrite checkSTATInterrupt_fst. reflexivity. Qed.

Lemma checkLYC_fst (s : PPU.sys) :
  fst (PPU.checkLYC s)
  = if ly (fst s) =? lyc (fst s)
    then set_stat (u8 (stat (fst s) .| 0x04)) (fst s)
    else set_stat (u8 (stat (fst s) .& cnot 0x04)) (fst s).
Proof. unfold PPU.checkLYC. rewrite checkSTATInterrupt_fst. reflexivity. Qed.

End PPUFrame.

Section PPUView.
Import PPUState.

Lemma setMode_view (k : Z) (p : t) (m : MemoryState.t) :
  view (fst (PPU.setMode k (p, m))) = (ly p, k, modeStat k (stat p), lyc p, scanlineCycles p).
Proof. rewrite setMode_fst. reflexivity. Qed.

Lemma checkLYC_view (p : t) (m : MemoryState.t) :
  view (fst (PPU.checkLYC (p, m))) = (ly p, mode p, lycStat (ly p) (lyc p) (stat p), lyc p, scanlineCycles p).
Proof.
  rewrite checkLYC_fst. cbn [fst]. unfold lycStat.
  destruct (ly p =? lyc p); reflexivity.
Qed.

Lemma onP_fst (g : t -> t) (s : PPU.sys) : fst (PPU.onP g s) = g (fst s).
Proof. reflexivity. Qed.

Lemma onM_fst (g : MemoryState.t -> MemoryState.t) (s : PPU.sys) :
  fst (PPU.onM g s) = fst s.
Proof. reflexivity. Qed.

(** What each block of the mode switch does to LY, the mode, STAT and
    LYC. *)
Lemma stepOAM_view (p : t) (m : MemoryState.t) :
  view (fst (PPU.stepOAM (p, m)))
  = if 80 <=? scanlineCycles p
    then (ly p, 3, modeStat 3 (stat p), lyc p, scanlineCycles p - 80)
    else view p.
Proof.
  unfold PPU.stepOAM. cbv zeta. cbn [fst].
  destruct (80 <=? scanlineCycles p); [|reflexivity].
  rewrite setMode_fst, onP_fst. reflexivity.
Qed.

Lemma stepTransfer_view (p : t) (m : MemoryState.t) :
  view (fst (PPU.stepTransfer (p, m)))
  = if 172 <=? scanlineCycles p
    then (ly p, 0, modeStat 0 (stat p), lyc p, scanlineCycles p - 172)
    else view p.
Proof.
  unfold PPU.stepTransfer. cbv zeta. cbn [fst].
  destruct (172 <=? scanlineCycles p); [|reflexivity].
  rewrite setMode_fst. cbn [fst snd]. rewrite onP_fst. cbn [fst].
  match goal with
  | |- context [PPU.renderScanline ?mm ?pp] =>
      pose proof (core_view _ _ (renderScanline_core mm pp)) as V;
      set (rp := PPU.renderScanline mm pp) in *
  end.
  unfold view in *. cbn [ly mode stat lyc scanlineCycles set_stat set_mode set_scanlineCycles] in *.
  injection V as V1 V2 V3 V4 V5. unfold modeStat. rewrite V1, V3, V4, V5. reflexivity.
Qed.

Lemma stepHBlank_view (p : t) (m : MemoryState.t) :
  view (fst (PPU.stepHBlank (p, m)))
  = if 204 <=? scanlineCycles p then
      let ly1 := u8 (ly p + 1) in
      let k := if ly1 =? 144 then 1 else 2 in
      (ly1, k, lycStat ly1 (lyc p) (modeStat k (stat p)), lyc p, scanlineCycles p - 204)
    else view p.
Proof.
  unfold PPU.stepHBlank. cbv zeta. cbn [fst].
  destruct (204 <=? scanlineCycles p); [|reflexivity].
  rewrite checkLYC_fst, !onM_fst, !onP_fst. cbn [fst ly set_ly set_scanlineCycles].
  destruct (u8 (ly p + 1) =? 144).
  - rewrite !onP_fst, !onM_fst, !setMode_fst, !onP_fst. cbn [fst].
    unfold lycStat, modeStat, view.
    cbn [ly lyc stat mode scanlineCycles set_windowLine set_frameReady set_stat set_mode set_ly
         set_scanlineCycles].
    destruct (u8 (ly p + 1) =? lyc p); reflexivity.
  - rewrite !setMode_fst, !onP_fst. cbn [fst].
    unfold lycStat, modeStat, view.
    cbn [ly lyc stat mode scanlineCycles set_stat set_mode set_ly set_scanlineCycles].
    destruct (u8 (ly p + 1) =? lyc p); reflexivity.
Qed.

Lemma stepVBlank_view (p : t) (m : MemoryState.t) :
  view (fst (PPU.stepVBlank (p, m)))
  = if 456 <=? scanlineCycles p then
      let ly1 := u8 (ly p + 1) in
      if 153 <? ly1
      then (0, 2, lycStat 0 (lyc p) (modeStat 2 (stat p)), lyc p, scanlineCycles p - 456)
      else (ly1, mode p, lycStat ly1 (lyc p) (stat p), lyc p, scanlineCycles p - 456)
    else view p.
Proof.
  unfold PPU.stepVBlank. cbv zeta. cbn [fst].
  destruct (456 <=? scanlineCycles p); [|reflexivity].
  rewrite checkLYC_fst, !onM_fst, !onP_fst. cbn [fst ly set_ly set_scanlineCycles].
  destruct (153 <? u8 (ly p + 1)).
  - rewrite !setMode_fst, !onP_fst. cbn [fst].
    unfold lycStat, modeStat, view.
    cbn [ly lyc stat mode scanlineCycles set_stat set_mode set_ly set_scanlineCycles].
    destruct (0 =? lyc p); reflexivity.
  - rewrite !onP_fst. cbn [fst].
    unfold lycStat, view.
    cbn [ly lyc stat mode scanlineCycles set_stat set_mode set_ly set_scanlineCycles].
    destruct (u8 (ly p + 1) =? lyc p); reflexivity.
Qed.

Lemma loadRegisters_view (m : MemoryState.t) (p : t) :
  view (PPU.loadRegisters m p)
  = (ly p, mode p, stat p, MemoryState.readIO 0x45 m, scanlineCycles p) /\
  lcdc (PPU.loadRegisters m p) = MemoryState.readIO 0x40 m.
Proof. repeat split; reflexivity. Qed.

Lemma step_unfold (cycles : Z) (p : t) (m : MemoryState.t) :
  PPU.step cycles (p, m) =
  let q := PPU.loadRegisters m p in
  if negb (nz (lcdc q .& 0x80)) then (q, m)
  else
    let q' := set_scanlineCycles (scanlineCycles q + cycles) q in
    match mode q' with
    | 2 => PPU.stepOAM (q', m)
    | 3 => PPU.stepTransfer (q', m)
    | 0 => PPU.stepHBlank (q', m)
    | 1 => PPU.stepVBlank (q', m)
    | _ => (q', m)
    end.
Proof. reflexivity. Qed.

Lemma set_scanlineCycles_view (x : Z) (q : t) :
  view (set_scanlineCycles x q) = (ly q, mode q, stat q, lyc q, x).
Proof. reflexivity. Qed.

Lemma mode_other {A : Type} (k : Z) (x0 x1 x2 x3 d : A) :
  k <> 0 -> k <> 1 -> k <> 2 -> k <> 3 ->
  match k with 2 => x2 | 3 => x3 | 0 => x0 | 1 => x1 | _ => d end = d.
Proof.
  intros. destruct k as [|r|r]; try lia; [|reflexivity].
  repeat (destruct r as [r|r|]; try reflexivity; try lia).
Qed.

Lemma step_view (cycles : Z) (p : t) (m : MemoryState.t) :
  view (fst (PPU.step cycles (p, m))) = stepView cycles p m.
Proof.
  rewrite step_unfold. unfold stepView. cbv zeta.
  destruct (loadRegisters_view m p) as (Q & Q1).
  set (q := PPU.loadRegisters m p) in *. clearbody q.
  rewrite Q1.
  destruct (negb (nz (MemoryState.readIO 0x40 m .& 0x80))); [exact Q|].
  pose proof (set_scanlineCycles_view (scanlineCycles q + cycles) q) as Qv.
  unfold view in Q. injection Q as A1 A2 A3 A4 A5.
  rewrite A1, A2, A3, A4 in Qv.
  generalize dependent (set_scanlineCycles (scanlineCycles q + cycles) q).
  rewrite A5. clear Q1 A1 A2 A3 A4 A5 q. intros q' Qv.
  unfold view in Qv. injection Qv as A1 A2 A3 A4 A5.
  rewrite A2.
  assert (M : mode p = 0 \/ mode p = 1 \/ mode p = 2 \/ mode p = 3 \/
              (mode p <> 0 /\ mode p <> 1 /\ mode p <> 2 /\ mode p <> 3)) by lia.
  destruct M as [M | [M | [M | [M | M]]]].
  - rewrite M. rewrite stepHBlank_view, A5. cbv zeta.
    destruct (204 <=? scanlineCycles p + cycles); unfold view;
      rewrite ?A1, ?A2, ?A3, ?A4, ?A5, ?M; reflexivity.
  - rewrite M. rewrite stepVBlank_view, A5. cbv zeta.
    destruct (456 <=? scanlineCycles p + cycles); unfold view;
      rewrite ?A1, ?A2, ?A3, ?A4, ?A5, ?M; reflexivity.
  - rewrite M. rewrite stepOAM_view, A5.
    destruct (80 <=? scanlineCycles p + cycles); unfold view;
      rewrite ?A1, ?A2, ?A3, ?A4, ?A5, ?M; reflexivity.
  - rewrite M. rewrite stepTransfer_view, A5.
    destruct (172 <=? scanlineCycles p + cycles); unfold view;
      rewrite ?A1, ?A2, ?A3, ?A4, ?A5, ?M; reflexivity.
  - destruct M as (M0 & M1 & M2 & M3).
    rewrite !mode_other by assumption.
    unfold view. cbn [fst]. rewrite A1, A2, A3, A4, A5. reflexivity.
Qed.


End PPUView.

(** ** Runs of the machine, seen from the bus *)

Section BusOps.
Import MemoryState.


Lemma withPPU_some (f : PPU.sys -> PPU.sys) (m : t) (p : PPUState.t) :
  ppu m = Some p -> Memory.withPPU f m = set_ppu (Some (fst (f (p, m)))) (snd (f (p, m))).
Proof. intros H. unfold Memory.withPPU. rewrite H. reflexivity. Qed.

(** Everything but the PPU calls leaves the attached PPU alone. *)
Lemma handleMBCWrite_ppu (addr val : Z) (m : t) :
  ppu (Memory.handleMBCWrite addr val m) = ppu m.
Proof.
  unfold Memory.handleMBCWrite.
  repeat match goal with
    | |- context [match ?x with _ => _ end] => destruct x
    end; reflexivity.
Qed.









(** A write reaches the attached PPU at LCDC, STAT and LY only. *)
Lemma write_ppu (addr val : Z) (m : t) (p : PPUState.t) :
  is_u16 addr ->
  ppu m = Some p ->
  ppu (Memory.write addr val m)
  = Some (if addr =? 0xFF40 then fst (PPU.writeLCDC val (p, m))
          else if addr =? 0xFF41 then PPU.writeSTAT val p
          else if addr =? 0xFF44 then PPU.writeLY val p
          else p).
Proof.
  intros Ha Hp. unfold is_u16 in Ha.
  destruct (Z.eqb_spec addr 0xFF40) as [-> | N40].
  { rewrite write_io_page by lia. cbv zeta.
    change (0xFF40 - 0xFF00) with 0x40. cbv beta iota.
    rewrite (withPPU_some _ _ _ Hp). reflexivity. }
  destruct (Z.eqb_spec addr 0xFF41) as [-> | N41].
  { rewrite write_io_page by lia. cbv zeta.
    change (0xFF41 - 0xFF00) with 0x41. cbv beta iota.
    rewrite (withPPU_some _ _ _ Hp). reflexivity. }
  destruct (Z.eqb_spec addr 0xFF44) as [-> | N44].
  { rewrite write_io_page by lia. cbv zeta.
    change (0xFF44 - 0xFF00) with 0x44. cbv beta iota.
    rewrite (withPPU_some _ _ _ Hp). reflexivity. }
  rewrite <- Hp.
  destruct (Z.lt_ge_cases addr 0x8000); [rewrite write_rom by lia; apply handleMBCWrite_ppu|].
  destruct (Z.lt_ge_cases addr 0xA000); [rewrite write_vram by lia; reflexivity|].
  destruct (Z.lt_ge_cases addr 0xC000).
  { rewrite write_extRam by lia.
    repeat match goal with |- context [if ?b then _ else _] => destruct b end; reflexivity. }
  destruct (Z.lt_ge_cases addr 0xE000); [rewrite write_wram by lia; reflexivity|].
  destruct (Z.lt_ge_cases addr 0xFE00); [rewrite write_echo by lia; reflexivity|].
  destruct (Z.lt_ge_cases addr 0xFEA0); [rewrite write_oam by lia; reflexivity|].
  destruct (Z.lt_ge_cases addr 0xFF00); [rewrite write_unusable by lia; reflexivity|].
  destruct (Z.lt_ge_cases addr 0xFF80).
  2:{ destruct (Z.lt_ge_cases addr 0xFFFF);
        [rewrite write_hram by lia | rewrite write_ie by lia]; reflexivity. }
  destruct (Z.eq_dec addr 0xFF00) as [-> | N00].
  { rewrite write_io_page by lia. reflexivity. }
  destruct (Z.eq_dec addr 0xFF04) as [-> | N04].
  { rewrite write_io_page by lia. reflexivity. }
  destruct (Z.eq_dec addr 0xFF46) as [-> | N46].
  { rewrite write_io_page by lia. reflexivity. }
  replace addr with (0xFF00 + (addr - 0xFF00)) by lia.
  rewrite write_io_plain by lia. cbv zeta.
  destruct (apu m); [|reflexivity].
  match goal with |- context [if ?b then _ else _] => destruct b end; reflexivity.
Qed.


Lemma powerOn_ppu : ppu powerOn = Some PPU.reset.
Proof. reflexivity. Qed.

End BusOps.

(** ** The invariants of the LCD controller *)

Section PPUInvariants.
Import PPUState.

(** *** The low bits of STAT *)


Lemma low2_id (k : Z) : 0 <= k <= 3 -> k .& 3 = k.
Proof.
  intros H. assert (k = 0 \/ k = 1 \/ k = 2 \/ k = 3) as [-> | [-> | [-> | ->]]] by lia;
    reflexivity.
Qed.





(** *** What the state machine keeps *)









(** *** The mode bits of STAT *)







(** *** The coincidence flag *)


End PPUInvariants.

(** *** A frame of scanlines *)

Section PPUScanlines.
Import PPUState.

(** [PPU::step] writes IF and the LY register of the I/O file, and no
    other register of it. *)
Lemma onP_snd (g : t -> t) (s : PPU.sys) : snd (PPU.onP g s) = snd s.
Proof. reflexivity. Qed.

Lemma onM_snd (g : MemoryState.t -> MemoryState.t) (s : PPU.sys) :
  snd (PPU.onM g s) = g (snd s).
Proof. reflexivity. Qed.



Section KeptRegister.
Variable r : Z.
Hypothesis not_IF : r <> 0x0F.
Hypothesis not_LY : r <> 0x44.










End KeptRegister.








End PPUScanlines.

(** *** C2 *)



(** * Further properties of the code *)

(** ** What the PPU does to the bus *)

Section BusFrames.
Import MemoryState.

Lemma onlyIO_refl (m : t) : onlyIO m m.
Proof. unfold onlyIO. destruct m; reflexivity. Qed.

Lemma onlyIO_trans (m1 m2 m3 : t) : onlyIO m1 m2 -> onlyIO m2 m3 -> onlyIO m1 m3.
Proof. unfold onlyIO. intros H1 H2. rewrite H2 at 1. rewrite H1 at 1. reflexivity. Qed.

Lemma onlyIO_setIF (v : Z) (m : t) : onlyIO m (setIF v m).
Proof. reflexivity. Qed.

Lemma onlyIO_writeIO (r v : Z) (m : t) : onlyIO m (writeIO r v m).
Proof. reflexivity. Qed.

Lemma checkSTATInterrupt_onlyIO (s : PPU.sys) :
  onlyIO (snd s) (snd (PPU.checkSTATInterrupt s)).
Proof.
  unfold PPU.checkSTATInterrupt. cbv zeta.
  match goal with |- context [if ?b then _ else _] => destruct b end;
    [apply onlyIO_setIF|apply onlyIO_refl].
Qed.

Lemma setMode_onlyIO (k : Z) (s : PPU.sys) : onlyIO (snd s) (snd (PPU.setMode k s)).
Proof. unfold PPU.setMode. apply (checkSTATInterrupt_onlyIO (PPU.onP _ (PPU.onP _ s))). Qed.

Lemma checkLYC_onlyIO (s : PPU.sys) : onlyIO (snd s) (snd (PPU.checkLYC s)).
Proof. unfold PPU.checkLYC. apply (checkSTATInterrupt_onlyIO (PPU.onP _ s)). Qed.

Lemma writeLCDC_onlyIO (val : Z) (s : PPU.sys) : onlyIO (snd s) (snd (PPU.writeLCDC val s)).
Proof.
  unfold PPU.writeLCDC. cbv zeta.
  match goal with |- context [if ?b then _ else _] => destruct b end;
    [|apply onlyIO_refl].
  rewrite onP_snd. apply (setMode_onlyIO 0 (PPU.onP _ (PPU.onP _ s))).
Qed.

Lemma stepOAM_onlyIO (s : PPU.sys) : onlyIO (snd s) (snd (PPU.stepOAM s)).
Proof.
  unfold PPU.stepOAM. cbv zeta.
  match goal with |- context [if ?b then _ else _] => destruct b end;
    [|apply onlyIO_refl].
  apply (setMode_onlyIO 3 (PPU.onP _ s)).
Qed.

Lemma stepTransfer_onlyIO (s : PPU.sys) : onlyIO (snd s) (snd (PPU.stepTransfer s)).
Proof.
  unfold PPU.stepTransfer. cbv zeta.
  match goal with |- context [if ?b then _ else _] => destruct b end;
    [|apply onlyIO_refl].
  match goal with |- onlyIO _ (snd (PPU.setMode 0 ?x)) => apply (setMode_onlyIO 0 x) end.
Qed.

Lemma stepHBlank_onlyIO (s : PPU.sys) : onlyIO (snd s) (snd (PPU.stepHBlank s)).
Proof.
  unfold PPU.stepHBlank. cbv zeta.
  match goal with |- context [if ?b then _ else _] => destruct b end;
    [|apply onlyIO_refl].
  eapply onlyIO_trans; [|apply checkLYC_onlyIO].
  rewrite onM_snd. eapply onlyIO_trans; [|apply onlyIO_writeIO].
  match goal with |- context [if ?b then _ else _] => destruct b end.
  - rewrite !onP_snd, onM_snd. eapply onlyIO_trans; [|apply onlyIO_setIF].
    match goal with |- onlyIO _ (snd (PPU.setMode 1 ?x)) => apply (setMode_onlyIO 1 x) end.
  - match goal with |- onlyIO _ (snd (PPU.setMode 2 ?x)) => apply (setMode_onlyIO 2 x) end.
Qed.

Lemma stepVBlank_onlyIO (s : PPU.sys) : onlyIO (snd s) (snd (PPU.stepVBlank s)).
Proof.
  unfold PPU.stepVBlank. cbv zeta.
  match goal with |- context [if ?b then _ else _] => destruct b end;
    [|apply onlyIO_refl].
  eapply onlyIO_trans; [|apply checkLYC_onlyIO].
  rewrite onM_snd. eapply onlyIO_trans; [|apply onlyIO_writeIO].
  match goal with |- context [if ?b then _ else _] => destruct b end.
  - match goal with |- onlyIO _ (snd (PPU.setMode 2 ?x)) => apply (setMode_onlyIO 2 x) end.
  - apply onlyIO_refl.
Qed.

Lemma step_onlyIO (cycles : Z) (p : PPUState.t) (m : t) :
  onlyIO m (snd (PPU.step cycles (p, m))).
Proof.
  rewrite step_unfold. cbv zeta.
  match goal with |- context [if ?b then _ else _] => destruct b end; [apply onlyIO_refl|].
  generalize (PPUState.set_scanlineCycles
                (PPUState.scanlineCycles (PPU.loadRegisters m p) + cycles)
                (PPU.loadRegisters m p)).
  intros q.
  assert (M : PPUState.mode q = 0 \/ PPUState.mode q = 1 \/ PPUState.mode q = 2 \/
              PPUState.mode q = 3 \/
              (PPUState.mode q <> 0 /\ PPUState.mode q <> 1 /\ PPUState.mode q <> 2 /\
               PPUState.mode q <> 3)) by lia.
  destruct M as [M | [M | [M | [M | M]]]]; try rewrite M.
  - apply (stepHBlank_onlyIO (q, m)).
  - apply (stepVBlank_onlyIO (q, m)).
  - apply (stepOAM_onlyIO (q, m)).
  - apply (stepTransfer_onlyIO (q, m)).
  - destruct M as (M0 & M1 & M2 & M3). rewrite mode_other by assumption. apply onlyIO_refl.
Qed.

End BusFrames.

(** ** The cartridge is read-only *)

Section Cartridge.
Import MemoryState.

Lemma onlyIO_cartridge (m m' : t) : onlyIO m m' -> cartridge m' = cartridge m.
Proof. unfold onlyIO. intros H. rewrite H. reflexivity. Qed.

Lemma handleMBCWrite_cartridge (addr val : Z) (m : t) :
  cartridge (Memory.handleMBCWrite addr val m) = cartridge m.
Proof.
  unfold Memory.handleMBCWrite.
  repeat match goal with
    | |- context [match ?x with _ => _ end] => destruct x
    end; reflexivity.
Qed.

Lemma withPPU_cartridge (f : PPU.sys -> PPU.sys) (m : t) :
  (forall p, onlyIO m (snd (f (p, m)))) ->
  cartridge (Memory.withPPU f m) = cartridge m.
Proof.
  intros H. unfold Memory.withPPU. destruct (ppu m) as [p|]; [|reflexivity].
  cbv zeta. rewrite <- (onlyIO_cartridge m _ (H p)). reflexivity.
Qed.

Lemma write_cartridge (addr val : Z) (m : t) :
  cartridge (Memory.write addr val m) = cartridge m.
Proof.
  destruct (Z.lt_ge_cases addr 0x8000);
    [rewrite write_rom by lia; apply handleMBCWrite_cartridge|].
  destruct (Z.lt_ge_cases addr 0xA000); [rewrite write_vram by lia; reflexivity|].
  destruct (Z.lt_ge_cases addr 0xC000).
  { rewrite write_extRam by lia.
    repeat match goal with |- context [if ?b then _ else _] => destruct b end; reflexivity. }
  destruct (Z.lt_ge_cases addr 0xE000); [rewrite write_wram by lia; reflexivity|].
  destruct (Z.lt_ge_cases addr 0xFE00); [rewrite write_echo by lia; reflexivity|].
  destruct (Z.lt_ge_cases addr 0xFEA0); [rewrite write_oam by lia; reflexivity|].
  destruct (Z.lt_ge_cases addr 0xFF00); [rewrite write_unusable by lia; reflexivity|].
  destruct (Z.lt_ge_cases addr 0xFF80).
  2:{ destruct (Z.lt_ge_cases addr 0xFFFF);
        [rewrite write_hram by lia | rewrite write_ie by lia]; reflexivity. }
  destruct (Z.eq_dec addr 0xFF00) as [-> | N00].
  { rewrite write_io_page by lia. reflexivity. }
  destruct (Z.eq_dec addr 0xFF04) as [-> | N04].
  { rewrite write_io_page by lia. reflexivity. }
  destruct (Z.eq_dec addr 0xFF40) as [-> | N40].
  { rewrite write_io_page by lia. cbv zeta.
    change (0xFF40 - 0xFF00) with 0x40. cbv beta iota.
    change (cartridge (set_io ?x ?y)) with (cartridge y).
    apply withPPU_cartridge. intros p. apply (writeLCDC_onlyIO val (p, m)). }
  destruct (Z.eq_dec addr 0xFF41) as [-> | N41].
  { rewrite write_io_page by lia. cbv zeta.
    change (0xFF41 - 0xFF00) with 0x41. cbv beta iota.
    change (cartridge (set_io ?x ?y)) with (cartridge y).
    apply withPPU_cartridge. intros p. apply onlyIO_refl. }
  destruct (Z.eq_dec addr 0xFF44) as [-> | N44].
  { rewrite write_io_page by lia. cbv zeta.
    change (0xFF44 - 0xFF00) with 0x44. cbv beta iota.
    apply withPPU_cartridge. intros p. apply onlyIO_refl. }
  destruct (Z.eq_dec addr 0xFF46) as [-> | N46].
  { rewrite write_io_page by lia. reflexivity. }
  replace addr with (0xFF00 + (addr - 0xFF00)) by lia.
  rewrite write_io_plain by lia. cbv zeta.
  destruct (apu m); [|reflexivity].
  match goal with |- context [if ?b then _ else _] => destruct b end; reflexivity.
Qed.

Lemma divLoop_cartridge (fuel : nat) (m : t) : cartridge (Memory.divLoop fuel m) = cartridge m.
Proof.
  revert m. induction fuel as [|fuel IH]; intros m; cbn [Memory.divLoop]; [reflexivity|].
  destruct (256 <=? divCounter m); [|reflexivity]. rewrite IH. reflexivity.
Qed.

Lemma timerTick_cartridge (freq : Z) (m : t) :
  cartridge (Memory.timerTick freq m) = cartridge m.
Proof.
  unfold Memory.timerTick. cbv zeta.
  match goal with |- context [if ?b then _ else _] => destruct b end; reflexivity.
Qed.

Lemma timerLoop_cartridge (fuel : nat) (freq : Z) (m : t) :
  cartridge (Memory.timerLoop fuel freq m) = cartridge m.
Proof.
  revert m. induction fuel as [|fuel IH]; intros m; cbn [Memory.timerLoop]; [reflexivity|].
  destruct (freq <=? timerCounter m); [|reflexivity]. rewrite IH. apply timerTick_cartridge.
Qed.

Lemma updateTimer_cartridge (cycles : Z) (m : t) :
  cartridge (Memory.updateTimer cycles m) = cartridge m.
Proof.
  unfold Memory.updateTimer. cbv zeta.
  match goal with |- context [if ?b then _ else _] => destruct b end.
  - rewrite divLoop_cartridge. reflexivity.
  - rewrite timerLoop_cartridge.
    change (cartridge (set_timerCounter ?x ?y)) with (cartridge y).
    rewrite divLoop_cartridge. reflexivity.
Qed.

Lemma dmaCopy_cartridge (from count : Z) (m : t) :
  cartridge (Memory.dmaCopy from count m) = cartridge m.
Proof.
  unfold Memory.dmaCopy. generalize (seqZ from count). intros l.
  apply (fold_left_keeps _ cartridge). intros x y. reflexivity.
Qed.

Lemma set_dmaActive_cartridge (b : bool) (m : t) : cartridge (set_dmaActive b m) = cartridge m.
Proof. reflexivity. Qed.

Lemma updateDMA_cartridge (cycles : Z) (m : t) :
  cartridge (Memory.updateDMA cycles m) = cartridge m.
Proof.
  unfold Memory.updateDMA. cbv zeta.
  destruct (negb (dmaActive m)); [reflexivity|].
  match goal with |- context [if ?b then _ else _] => destruct b end; [|reflexivity].
  rewrite set_dmaActive_cartridge, dmaCopy_cartridge. reflexivity.
Qed.

End Cartridge.

(** Nothing that happens while the machine runs changes the cartridge: a
    write by the CPU to any address (the ROM area included, where it only
    drives the bank controller), an update of IF, a step of the PPU, of
    the timer or of the DMA unit, and a joypad update all leave the ROM
    image and the controller type as they are.  Only a load replaces
    them. *)
Theorem cartridge_is_read_only (o : busOp) (m : MemoryState.t) :
  (forall fs path, o <> LoadROM fs path) ->
  MemoryState.rom (runOp o m) = MemoryState.rom m /\
  MemoryState.mbcType (runOp o m) = MemoryState.mbcType m.
Proof.
  intros H.
  assert (E : cartridge (runOp o m) = cartridge m).
  { destruct o; cbn [runOp].
    - apply write_cartridge.
    - reflexivity.
    - apply withPPU_cartridge. intros p. apply step_onlyIO.
    - apply withPPU_cartridge. intros p. apply onlyIO_refl.
    - destruct (MemoryState.apu m); reflexivity.
    - apply updateTimer_cartridge.
    - apply updateDMA_cartridge.
    - reflexivity.
    - exfalso. apply (H fs path). reflexivity. }
  unfold cartridge in E. injection E as E1 E2. split; assumption.
Qed.

Lemma cartridge_is_read_only_witness :
  MemoryState.rom (runOp (CpuWrite 0x0150 0xFF) dma_scenario) = MemoryState.rom dma_scenario /\
  MemoryState.mbcType (runOp (CpuWrite 0x0150 0xFF) dma_scenario)
  = MemoryState.mbcType dma_scenario.
Proof. apply cartridge_is_read_only. intros fs path. discriminate. Defined.

(** ** Bank switching *)

Section Banking.
Import MemoryState.

Lemma read_romN (addr : Z) (m : t) :
  0x4000 <= addr < 0x8000 ->
  Memory.read addr m
  = if (romBank m * 0x4000) + (addr - 0x4000) <? size (rom m)
    then idx (rom m) ((romBank m * 0x4000) + (addr - 0x4000))
    else 0xFF.
Proof.
  intros H. unfold Memory.read.
  destruct (Z.ltb_spec addr 0x4000); [lia|].
  destruct (Z.ltb_spec addr 0x8000); [|lia]. reflexivity.
Qed.

Lemma handleMBCWrite_romBank13 (addr val : Z) (m : t) :
  mbcType m = 1 \/ mbcType m = 3 ->
  0x2000 <= addr < 0x4000 ->
  Memory.handleMBCWrite addr val m = set_romBank (selectedBank (mbcType m) val) m.
Proof.
  intros Hm Ha. unfold Memory.handleMBCWrite, selectedBank.
  destruct (Z.ltb_spec addr 0x2000); [lia|].
  destruct (Z.ltb_spec addr 0x4000); [|lia].
  destruct Hm as [-> | ->]; cbv iota beta zeta; cbn [romBank set_romBank Z.eqb Pos.eqb];
    match goal with |- context [if ?b then _ else _] => destruct b end; reflexivity.
Qed.

End Banking.

(** With an MBC1 or MBC3 cartridge, a write of [val] to 0x2000-0x3FFF selects
    the bank that a read from 0x4000-0x7FFF then sees: the byte at offset
    [bank * 0x4000 + (addr - 0x4000)] of the ROM image, where [bank] is the
    low five (MBC1) or seven (MBC3) bits of [val] and bank 0 cannot be
    selected (it gives bank 1); past the end of the image the read gives
    0xFF. *)
Theorem rom_bank_select_then_read (m : MemoryState.t) (sel val addr : Z) :
  MemoryState.mbcType m = 1 \/ MemoryState.mbcType m = 3 ->
  0x2000 <= sel < 0x4000 ->
  0x4000 <= addr < 0x8000 ->
  let bank := selectedBank (MemoryState.mbcType m) val in
  let offset := bank * 0x4000 + (addr - 0x4000) in
  1 <= bank <= 0x7F /\
  Memory.read addr (Memory.write sel val m)
  = if offset <? size (MemoryState.rom m) then idx (MemoryState.rom m) offset else 0xFF.
Proof.
  intros Hm Hs Ha. cbv zeta. split.
  - unfold selectedBank.
    set (mask := if MemoryState.mbcType m =? 1 then 0x1F else 0x7F).
    assert (R : 0 <= val .& mask <= 0x7F).
    { subst mask. destruct (MemoryState.mbcType m =? 1).
      - pose proof (land_mask_range val 5). change (Z.ones 5) with 0x1F in *.
        change (2 ^ 5) with 32 in *. lia.
      - pose proof (land_mask_range val 7). change (Z.ones 7) with 0x7F in *.
        change (2 ^ 7) with 128 in *. lia. }
    destruct (Z.eqb_spec (val .& mask) 0); lia.
  - rewrite write_rom by lia. rewrite handleMBCWrite_romBank13 by assumption.
    rewrite read_romN by assumption. reflexivity.
Qed.

Lemma rom_bank_select_then_read_witness :
  Memory.read 0x4000 (Memory.write 0x2000 0x02 four_bank_bus) = 2 /\
  Memory.read 0x4000 (Memory.write 0x2000 0x00 four_bank_bus) = 1 /\
  Memory.read 0x4000 (Memory.write 0x2000 0x04 four_bank_bus) = 0xFF.
Proof.
  split; [|split].
  - destruct (rom_bank_select_then_read four_bank_bus 0x2000 0x02 0x4000) as [_ E];
      [left; reflexivity | lia | lia |]. rewrite E. reflexivity.
  - destruct (rom_bank_select_then_read four_bank_bus 0x2000 0x00 0x4000) as [_ E];
      [left; reflexivity | lia | lia |]. rewrite E. reflexivity.
  - destruct (rom_bank_select_then_read four_bank_bus 0x2000 0x04 0x4000) as [_ E];
      [left; reflexivity | lia | lia |]. rewrite E. reflexivity.
Defined.

(** With an MBC5 cartridge the ROM bank number has nine bits, written in
    two halves: the low eight at 0x2000-0x2FFF and the ninth at
    0x3000-0x3FFF.  After both writes, in either order, the bank is
    [lo + 256 * (hi & 1)] whatever it was before, and bank 0 can be
    selected. *)
Theorem mbc5_bank_halves_compose (m : MemoryState.t) (a1 a2 lo hi : Z) :
  MemoryState.mbcType m = 5 ->
  0x2000 <= a1 < 0x3000 ->
  0x3000 <= a2 < 0x4000 ->
  is_u8 lo ->
  MemoryState.romBank (Memory.write a2 hi (Memory.write a1 lo m)) = lo + 256 * (hi .& 1) /\
  MemoryState.romBank (Memory.write a1 lo (Memory.write a2 hi m)) = lo + 256 * (hi .& 1).
Proof.
  intros Hm H1 H2 Hlo.
  assert (W1 : forall m0, MemoryState.mbcType m0 = 5 ->
             Memory.write a1 lo m0
             = MemoryState.set_romBank ((MemoryState.romBank m0 .& 0x100) .| lo) m0).
  { intros m0 E. rewrite write_rom by lia. unfold Memory.handleMBCWrite. rewrite E.
    destruct (Z.ltb_spec a1 0x2000); [lia|].
    destruct (Z.ltb_spec a1 0x3000); [|lia]. reflexivity. }
  assert (W2 : forall m0, MemoryState.mbcType m0 = 5 ->
             Memory.write a2 hi m0
             = MemoryState.set_romBank
                 ((MemoryState.romBank m0 .& 0xFF) .| ((hi .& 0x01) << 8)) m0).
  { intros m0 E. rewrite write_rom by lia. unfold Memory.handleMBCWrite. rewrite E.
    destruct (Z.ltb_spec a2 0x2000); [lia|].
    destruct (Z.ltb_spec a2 0x3000); [lia|].
    destruct (Z.ltb_spec a2 0x4000); [|lia]. reflexivity. }
  assert (B : hi .& 1 = 0 \/ hi .& 1 = 1).
  { pose proof (land_mask_range hi 1) as R. change (Z.ones 1) with 1 in R.
    change (2 ^ 1) with 2 in R. lia. }
  assert (L8 : forall x, (x .& 0x100) .& 0xFF = 0).
  { intros x. rewrite <- Z.land_assoc. reflexivity || apply Z.land_0_r. }
  assert (Lo : lo .& 0xFF = lo /\ lo .& 0x100 = 0).
  { unfold is_u8 in Hlo. split.
    - rewrite <- u8_land. apply u8_id. exact Hlo.
    - apply Z.bits_inj'. intros n Hn. rewrite Z.land_spec, Z.bits_0.
      destruct (Z.eq_dec n 8) as [->|N].
      + rewrite (testbit_above lo 8 8) by (change (2 ^ 8) with 256; lia). reflexivity.
      + change 0x100 with (2 ^ 8). rewrite Z.pow2_bits_false by lia. apply andb_false_r. }
  destruct Lo as [Lo1 Lo2].
  assert (D : forall b, b = 0 \/ b = 1 -> lo .| (b << 8) = lo + 256 * b).
  { intros b [-> | ->].
    - change (0 << 8) with 0. rewrite Z.lor_0_r. lia.
    - change (1 << 8) with 256. change (256 * 1) with 256.
      rewrite <- Z.lxor_lor by exact Lo2. symmetry. apply Z.add_nocarry_lxor. exact Lo2. }
  split.
  - rewrite (W1 m Hm), W2 by exact Hm. cbn [MemoryState.romBank MemoryState.set_romBank].
    rewrite Z.land_lor_distr_l, L8, Lo1, Z.lor_0_l. apply D. exact B.
  - rewrite (W2 m Hm), W1 by exact Hm. cbn [MemoryState.romBank MemoryState.set_romBank].
    rewrite Z.land_lor_distr_l.
    rewrite <- (Z.land_assoc _ 0xFF 0x100). change (0xFF .& 0x100) with 0.
    rewrite Z.land_0_r, Z.lor_0_l.
    assert (E : ((hi .& 1) << 8) .& 0x100 = (hi .& 1) << 8)
      by (destruct B as [-> | ->]; reflexivity).
    rewrite E, Z.lor_comm. apply D. exact B.
Qed.

Lemma mbc5_bank_halves_compose_witness :
  MemoryState.romBank (Memory.write 0x3000 0x01 (Memory.write 0x2000 0x23 mbc5_bus)) = 0x123 /\
  MemoryState.romBank (Memory.write 0x2000 0x00 (Memory.write 0x3000 0x00 mbc5_bus)) = 0.
Proof.
  split.
  - destruct (mbc5_bank_halves_compose mbc5_bus 0x2000 0x3000 0x23 0x01) as [E _];
      [reflexivity | lia | lia | unfold is_u8; lia |]. rewrite E. reflexivity.
  - destruct (mbc5_bank_halves_compose mbc5_bus 0x2000 0x3000 0x00 0x00) as [_ E];
      [reflexivity | lia | lia | unfold is_u8; lia |]. rewrite E. reflexivity.
Defined.

(** The echo region 0xE000-0xFDFF is the work RAM seen again: a read there
    gives what the same offset of 0xC000-0xDDFF gives, a byte written
    through either window is read back through the other. *)
Theorem echo_ram_mirrors_work_ram (m : MemoryState.t) (k v : Z) :
  size (MemoryState.wram m) = 0x2000 ->
  0 <= k < 0x1E00 ->
  Memory.read (0xE000 + k) m = Memory.read (0xC000 + k) m /\
  Memory.read (0xE000 + k) (Memory.write (0xC000 + k) v m) = v /\
  Memory.read (0xC000 + k) (Memory.write (0xE000 + k) v m) = v.
Proof.
  intros Hs Hk.
  rewrite write_wram, write_echo by lia.
  rewrite (read_echo (0xE000 + k) m), (read_wram (0xC000 + k) m) by lia.
  rewrite (read_echo (0xE000 + k) (MemoryState.set_wram _ m)) by lia.
  rewrite (read_wram (0xC000 + k) (MemoryState.set_wram _ m)) by lia.
  cbn [MemoryState.wram MemoryState.set_wram].
  replace (0xE000 + k - 0xE000) with k by lia.
  replace (0xC000 + k - 0xC000) with k by lia.
  rewrite idx_upd_same by lia. repeat split.
Qed.

Lemma echo_ram_mirrors_work_ram_witness :
  Memory.read 0xE010 Memory.new = Memory.read 0xC010 Memory.new /\
  Memory.read 0xE010 (Memory.write 0xC010 0x5A Memory.new) = 0x5A /\
  Memory.read 0xC010 (Memory.write 0xE010 0x5A Memory.new) = 0x5A.
Proof. apply (echo_ram_mirrors_work_ram Memory.new 0x10 0x5A); [reflexivity|lia]. Defined.

Section ExternalRAM.
Import MemoryState.

Lemma mbc1_select_ramBank (b : Z) (m : t) :
  mbcType m = 1 -> Memory.write 0x4000 b m = set_ramBank (b .& 0x03) m.
Proof.
  intros E. rewrite write_rom by lia. unfold Memory.handleMBCWrite. rewrite E. reflexivity.
Qed.

End ExternalRAM.

(** The banks of external RAM are disjoint.  With an MBC1 cartridge, RAM
    enabled and 32 KiB of it, a byte written at an address of
    0xA000-0xBFFF while bank [b] is selected is still there when the
    program comes back to bank [b] after writing the same address in
    another bank. *)
Theorem ext_ram_banks_are_disjoint (m : MemoryState.t) (b b' addr v v' : Z) :
  MemoryState.mbcType m = 1 ->
  MemoryState.ramEnabled m = true ->
  size (MemoryState.extRam m) = 0x8000 ->
  0 <= b <= 3 -> 0 <= b' <= 3 -> b <> b' ->
  0xA000 <= addr < 0xC000 ->
  let select (x : Z) := Memory.write 0x4000 x in
  Memory.read addr
    (m |> select b |> Memory.write addr v
       |> select b' |> Memory.write addr v'
       |> select b)
  = v.
Proof.
  intros Hm He Hs Hb Hb' Hne Ha. cbv zeta beta.
  rewrite (mbc1_select_ramBank b m Hm), (low2_id b Hb).
  set (m1 := MemoryState.set_ramBank b m).
  assert (W : forall (x w : Z) (m0 : MemoryState.t),
             MemoryState.ramEnabled m0 = true -> size (MemoryState.extRam m0) = 0x8000 ->
             MemoryState.ramBank m0 = x -> 0 <= x <= 3 ->
             Memory.write addr w m0
             = MemoryState.set_extRam
                 (upd (MemoryState.extRam m0) (x * 0x2000 + (addr - 0xA000)) w) m0).
  { intros x w m0 E1 E2 E3 Hx. rewrite write_extRam by lia. rewrite E1, E2, E3.
    cbn [andb negb Z.eqb]. destruct (Z.ltb_spec (x * 0x2000 + (addr - 0xA000)) 0x8000);
      [reflexivity|lia]. }
  rewrite (W b v m1) by (try assumption; reflexivity).
  set (m2 := MemoryState.set_extRam _ m1).
  rewrite (mbc1_select_ramBank b' m2) by exact Hm. rewrite (low2_id b' Hb').
  set (m3 := MemoryState.set_ramBank b' m2).
  rewrite (W b' v' m3)
    by (try assumption; try reflexivity;
        subst m3 m2; cbn [MemoryState.extRam MemoryState.set_extRam
                          MemoryState.set_ramBank]; rewrite size_upd; exact Hs).
  set (m4 := MemoryState.set_extRam _ m3).
  rewrite (mbc1_select_ramBank b m4) by exact Hm. rewrite (low2_id b Hb).
  rewrite read_extRam by lia.
  subst m4 m3 m2 m1.
  cbn [MemoryState.extRam MemoryState.set_extRam MemoryState.set_ramBank
       MemoryState.ramEnabled MemoryState.ramBank].
  rewrite He, !size_upd, Hs. cbn [andb negb Z.eqb].
  destruct (Z.ltb_spec (b * 0x2000 + (addr - 0xA000)) 0x8000); [|lia].
  rewrite idx_upd_other by lia. apply idx_upd_same. rewrite Hs. lia.
Qed.

Lemma ext_ram_banks_are_disjoint_witness :
  Memory.read 0xA123
    (mbc1_ram_bus |> Memory.write 0x4000 2 |> Memory.write 0xA123 0x77
                  |> Memory.write 0x4000 0 |> Memory.write 0xA123 0x11
                  |> Memory.write 0x4000 2)
  = 0x77.
Proof.
  apply (ext_ram_banks_are_disjoint mbc1_ram_bus 2 0 0xA123 0x77 0x11);
    try reflexivity; lia.
Defined.

(** ** DIV and TIMA *)

Section TimerCounts.
Import MemoryState.

Lemma u8_add_l (x y : Z) : u8 (u8 x + y) = u8 (x + y).
Proof. unfold u8. apply Z.add_mod_idemp_l. lia. Qed.

(** The DIV loop: one increment for each 256 clocks in the counter. *)
Lemma divLoop_counts (fuel : nat) (m : t) :
  0 <= divCounter m <= Z.of_nat fuel ->
  is_u8 (idx (io m) 0x04) ->
  size (io m) = 0x80 ->
  let m' := Memory.divLoop fuel m in
  divCounter m' = divCounter m mod 256 /\
  idx (io m') 0x04 = u8 (idx (io m) 0x04 + divCounter m / 256).
Proof.
  revert m. induction fuel as [|fuel IH]; intros m H Hb Hs; cbn [Memory.divLoop]; cbv zeta.
  - assert (E : divCounter m = 0) by lia. rewrite E.
    change (0 mod 256) with 0. change (0 / 256) with 0. rewrite Z.add_0_r.
    split; [reflexivity|]. symmetry. apply u8_id. exact Hb.
  - destruct (Z.leb_spec 256 (divCounter m)) as [G|G].
    + match goal with |- context [Memory.divLoop fuel ?x] => set (m1 := x) end.
      assert (E1 : divCounter m1 = divCounter m - 256) by reflexivity.
      assert (E2 : idx (io m1) 4 = u8 (idx (io m) 4 + 1))
        by (subst m1; cbn [io set_io set_divCounter]; apply idx_upd_same; lia).
      assert (E3 : size (io m1) = 0x80)
        by (subst m1; cbn [io set_io set_divCounter]; rewrite size_upd; exact Hs).
      specialize (IH m1). cbv zeta in IH. rewrite E1, E2 in IH.
      destruct IH as (I1 & I2); [lia | apply u8_range | exact E3 |].
      rewrite I1, I2, u8_add_l.
      replace (divCounter m - 256) with (divCounter m + (-1) * 256) by lia.
      rewrite Z.mod_add, Z.div_add by lia. split; [reflexivity|]. f_equal. lia.
    + rewrite Z.mod_small, Z.div_small by lia. rewrite Z.add_0_r.
      split; [reflexivity|]. symmetry. apply u8_id. exact Hb.
Qed.

(** A tick of TIMA leaves DIV, its counter and TAC alone. *)
Lemma timerTick_frame (freq : Z) (m : t) :
  let m' := Memory.timerTick freq m in
  size (io m') = size (io m) /\
  divCounter m' = divCounter m /\
  (forall r, r <> 0x05 -> r <> 0x0F -> idx (io m') r = idx (io m) r).
Proof.
  unfold Memory.timerTick. cbv zeta.
  match goal with |- context [if ?b then _ else _] => destruct b end;
    cbn [io set_io set_timerCounter divCounter]; rewrite ?size_upd;
    (split; [reflexivity|]); (split; [reflexivity|]);
    intros r H5 HF; rewrite ?idx_upd_other by lia; reflexivity.
Qed.

Lemma timerLoop_frame (fuel : nat) (freq : Z) (m : t) :
  let m' := Memory.timerLoop fuel freq m in
  size (io m') = size (io m) /\
  divCounter m' = divCounter m /\
  (forall r, r <> 0x05 -> r <> 0x0F -> idx (io m') r = idx (io m) r).
Proof.
  revert m. induction fuel as [|fuel IH]; intros m; cbn [Memory.timerLoop]; cbv zeta.
  - repeat split.
  - destruct (freq <=? timerCounter m); [|repeat split].
    specialize (IH (Memory.timerTick freq m)). cbv zeta in IH.
    destruct IH as (I1 & I2 & I3).
    destruct (timerTick_frame freq m) as (T1 & T2 & T3).
    split; [congruence|]. split; [congruence|].
    intros r H5 HF. rewrite I3, T3 by assumption. reflexivity.
Qed.

(** The timer loop when TIMA does not overflow: one increment for each
    period in the counter, and IF left alone. *)
Lemma timerLoop_counts (fuel : nat) (freq : Z) (m : t) :
  0 < freq ->
  0 <= timerCounter m <= Z.of_nat fuel ->
  size (io m) = 0x80 ->
  0 <= idx (io m) 0x05 ->
  idx (io m) 0x05 + timerCounter m / freq <= 0xFF ->
  let m' := Memory.timerLoop fuel freq m in
  timerCounter m' = timerCounter m mod freq /\
  idx (io m') 0x05 = idx (io m) 0x05 + timerCounter m / freq /\
  idx (io m') 0x0F = idx (io m) 0x0F.
Proof.
  intros Hf. revert m.
  induction fuel as [|fuel IH]; intros m H Hs H0 Hmax; cbn [Memory.timerLoop]; cbv zeta.
  - assert (E : timerCounter m = 0) by lia. rewrite E.
    rewrite Z.mod_0_l, Z.div_0_l by lia. repeat split; lia.
  - destruct (Z.leb_spec freq (timerCounter m)) as [G|G].
    + assert (D : timerCounter m / freq = (timerCounter m - freq) / freq + 1).
      { replace (timerCounter m) with ((timerCounter m - freq) + 1 * freq) at 1 by lia.
        rewrite Z.div_add by lia. reflexivity. }
      assert (P : 0 <= (timerCounter m - freq) / freq) by (apply Z.div_pos; lia).
      destruct (timerTick_spec freq m Hs) as (T1 & T6 & T7 & T);
        [unfold is_u8; lia|].
      cbv zeta in T1, T6, T7, T.
      destruct (Z.eqb_spec (idx (io m) 5) 0xFF) as [E|E]; [lia|].
      destruct T as [T5 TF].
      specialize (IH (Memory.timerTick freq m)). cbv zeta in IH.
      rewrite timerTick_counter, T5 in IH.
      destruct IH as (I1 & I2 & I3); [lia | exact T1 | lia | lia |].
      rewrite I1, I2, I3, TF, D.
      replace (timerCounter m - freq) with (timerCounter m + (-1) * freq) by lia.
      rewrite Z.mod_add by lia. repeat split; lia.
    + rewrite Z.mod_small, Z.div_small by lia. repeat split; lia.
Qed.

Lemma timerFrequency_cases (m : t) :
  Memory.getTimerFrequency m = 1024 \/ Memory.getTimerFrequency m = 16 \/
  Memory.getTimerFrequency m = 64 \/ Memory.getTimerFrequency m = 256.
Proof.
  unfold Memory.getTimerFrequency.
  pose proof (land_mask_range (idx (io m) 7) 2) as R.
  change (Z.ones 2) with 3 in R. change (2 ^ 2) with 4 in R.
  assert (C : idx (io m) 7 .& 3 = 0 \/ idx (io m) 7 .& 3 = 1 \/
              idx (io m) 7 .& 3 = 2 \/ idx (io m) 7 .& 3 = 3) by lia.
  destruct C as [-> | [-> | [-> | ->]]]; auto.
Qed.

End TimerCounts.

(** DIV.  Over a call of [updateTimer(cycles)] with a clock count that is
    not negative, the DIV register at 0xFF04 goes up by the number of
    whole 256-clock periods in the DIV counter plus the clocks, modulo
    256, and the counter keeps the remainder; whether the timer is enabled
    makes no difference.  A write of any value to 0xFF04 sets the register
    and the counter to 0. *)
Theorem div_counts_periods_of_256_clocks (m : MemoryState.t) (cycles v : Z) :
  size (MemoryState.io m) = 0x80 ->
  is_u8 (MemoryState.readIO 0x04 m) ->
  0 <= MemoryState.divCounter m ->
  0 <= cycles ->
  let m' := Memory.updateTimer cycles m in
  Memory.read 0xFF04 m'
  = u8 (Memory.read 0xFF04 m + (MemoryState.divCounter m + cycles) / 256) /\
  MemoryState.divCounter m' = (MemoryState.divCounter m + cycles) mod 256 /\
  Memory.read 0xFF04 (Memory.write 0xFF04 v m) = 0 /\
  MemoryState.divCounter (Memory.write 0xFF04 v m) = 0.
Proof.
  intros Hs Hb Hd Hc. cbv zeta.
  assert (R : forall m0, Memory.read 0xFF04 m0 = idx (MemoryState.io m0) 4).
  { intros m0. change 0xFF04 with (0xFF00 + 4). rewrite read_io_plain by lia.
    destruct (MemoryState.apu m0); reflexivity. }
  rewrite !R.
  split; [|split; [|split]].
  3:{ change (Memory.write 0xFF04 v m)
        with (MemoryState.set_divCounter 0 (MemoryState.set_io (upd (MemoryState.io m) 4 0) m)).
      cbn [MemoryState.io MemoryState.set_io MemoryState.set_divCounter].
      apply idx_upd_same. lia. }
  3:{ reflexivity. }
  all: unfold Memory.updateTimer; cbv zeta;
    set (m1 := MemoryState.set_divCounter (MemoryState.divCounter m + cycles) m);
    destruct (divLoop_counts (Z.to_nat (MemoryState.divCounter m1)) m1) as [D1 D2];
    [subst m1; cbn [MemoryState.divCounter MemoryState.set_divCounter]; lia
    | exact Hb | exact Hs |];
    set (m2 := Memory.divLoop (Z.to_nat (MemoryState.divCounter m1)) m1) in *;
    match goal with |- context [if ?b then _ else _] => destruct b end.
  - exact D2.
  - match goal with |- context [Memory.timerLoop ?f ?q ?x] =>
      destruct (timerLoop_frame f q x) as (_ & _ & F) end.
    rewrite F by lia. exact D2.
  - exact D1.
  - match goal with |- context [Memory.timerLoop ?f ?q ?x] =>
      destruct (timerLoop_frame f q x) as (_ & F & _) end.
    rewrite F. exact D1.
Qed.

Lemma div_counts_periods_of_256_clocks_witness :
  Memory.read 0xFF04 (Memory.updateTimer 1000 Memory.new) = 3 /\
  MemoryState.divCounter (Memory.updateTimer 1000 Memory.new) = 232 /\
  Memory.read 0xFF04 (Memory.write 0xFF04 0x55 Memory.new) = 0 /\
  MemoryState.divCounter (Memory.write 0xFF04 0x55 Memory.new) = 0.
Proof.
  apply (div_counts_periods_of_256_clocks Memory.new 1000 0x55);
    [reflexivity | unfold is_u8; vm_compute; split; [discriminate|reflexivity] | reflexivity
    | lia].
Defined.

(** With the timer stopped (bit 2 of TAC clear), [updateTimer] counts
    nothing: TIMA, the interrupt flags and the timer's clock counter are
    as they were, whatever the number of clocks. *)
Theorem stopped_timer_does_not_count (m : MemoryState.t) (cycles : Z) :
  Z.testbit (MemoryState.readIO 0x07 m) 2 = false ->
  let m' := Memory.updateTimer cycles m in
  MemoryState.readIO 0x05 m' = MemoryState.readIO 0x05 m /\
  MemoryState.getIF m' = MemoryState.getIF m /\
  MemoryState.timerCounter m' = MemoryState.timerCounter m.
Proof.
  intros H. cbv zeta. unfold Memory.updateTimer. cbv zeta.
  set (m1 := MemoryState.set_divCounter (MemoryState.divCounter m + cycles) m).
  destruct (divLoop_frame (Z.to_nat (MemoryState.divCounter m1)) m1) as (F1 & F2 & F3).
  set (m2 := Memory.divLoop (Z.to_nat (MemoryState.divCounter m1)) m1) in *.
  assert (T : nz (idx (MemoryState.io m2) 7 .& 0x04) = false).
  { rewrite F3 by lia. change 0x04 with (1 << 2). rewrite nz_land_bit by lia. exact H. }
  rewrite T. cbn [negb].
  unfold MemoryState.readIO, MemoryState.getIF. rewrite !F3 by lia. rewrite F2.
  repeat split.
Qed.

Lemma stopped_timer_does_not_count_witness :
  MemoryState.readIO 0x05 (Memory.updateTimer 5000 Memory.new) = 0 /\
  MemoryState.getIF (Memory.updateTimer 5000 Memory.new) = 0xE1 /\
  MemoryState.timerCounter (Memory.updateTimer 5000 Memory.new) = 0.
Proof. apply (stopped_timer_does_not_count Memory.new 5000). reflexivity. Defined.

(** With the timer running, and as long as TIMA does not overflow, a call
    of [updateTimer(cycles)] adds to TIMA the number of whole periods in
    the timer's counter plus the clocks, keeps the remainder in the counter
    and requests no interrupt; the period is the one TAC selects, 1024,
    16, 64 or 256 clocks. *)
Theorem tima_counts_periods (m : MemoryState.t) (cycles : Z) :
  size (MemoryState.io m) = 0x80 ->
  Z.testbit (MemoryState.readIO 0x07 m) 2 = true ->
  0 <= MemoryState.timerCounter m ->
  0 <= cycles ->
  0 <= MemoryState.readIO 0x05 m ->
  let period := Memory.getTimerFrequency m in
  let ticks := (MemoryState.timerCounter m + cycles) / period in
  MemoryState.readIO 0x05 m + ticks <= 0xFF ->
  let m' := Memory.updateTimer cycles m in
  MemoryState.readIO 0x05 m' = MemoryState.readIO 0x05 m + ticks /\
  MemoryState.timerCounter m' = (MemoryState.timerCounter m + cycles) mod period /\
  MemoryState.getIF m' = MemoryState.getIF m.
Proof.
  intros Hs Ht Hc Hy H5. cbv zeta. intros Hmax.
  unfold Memory.updateTimer. cbv zeta.
  set (m1 := MemoryState.set_divCounter (MemoryState.divCounter m + cycles) m).
  destruct (divLoop_frame (Z.to_nat (MemoryState.divCounter m1)) m1) as (F1 & F2 & F3).
  set (m2 := Memory.divLoop (Z.to_nat (MemoryState.divCounter m1)) m1) in *.
  assert (T : nz (idx (MemoryState.io m2) 7 .& 0x04) = true).
  { rewrite F3 by lia. change 0x04 with (1 << 2). rewrite nz_land_bit by lia. exact Ht. }
  rewrite T. cbn [negb].
  assert (Ef : Memory.getTimerFrequency
                 (MemoryState.set_timerCounter (MemoryState.timerCounter m2 + cycles) m2)
               = Memory.getTimerFrequency m).
  { unfold Memory.getTimerFrequency. cbn [MemoryState.io MemoryState.set_timerCounter].
    rewrite F3 by lia. reflexivity. }
  rewrite Ef.
  assert (Pf : 0 < Memory.getTimerFrequency m)
    by (destruct (timerFrequency_cases m) as [-> | [-> | [-> | ->]]]; lia).
  cbn [MemoryState.timerCounter MemoryState.set_timerCounter]. rewrite F2.
  subst m1. cbn [MemoryState.timerCounter MemoryState.set_divCounter MemoryState.io] in *.
  unfold MemoryState.readIO, MemoryState.getIF in *.
  match goal with |- context [Memory.timerLoop ?f ?q ?x] =>
    destruct (timerLoop_counts f q x Pf) as (C1 & C2 & C3) end;
    cbn [MemoryState.timerCounter MemoryState.set_timerCounter MemoryState.io];
    rewrite ?F3 by lia; try lia.
  cbn [MemoryState.timerCounter MemoryState.set_timerCounter MemoryState.io] in C1, C2, C3.
  rewrite !F3 in C2, C3 by lia.
  rewrite C1, C2, C3. repeat split.
Qed.

Lemma tima_counts_periods_witness :
  MemoryState.readIO 0x05 (Memory.updateTimer 1000 timer64_bus) = 15 /\
  MemoryState.timerCounter (Memory.updateTimer 1000 timer64_bus) = 40 /\
  MemoryState.getIF (Memory.updateTimer 1000 timer64_bus) = 0xE1.
Proof.
  apply (tima_counts_periods timer64_bus 1000);
    try reflexivity; try lia; vm_compute; discriminate.
Defined.

(** ** The loaded cartridge *)

Section Loaded.
Import MemoryState.

Lemma loadROM_rom (fs : Memory.files) (path : string) (f : Memory.file) (m : t) :
  Memory.ifstream fs path = Some f ->
  Memory.allocates fs (Memory.tellg f mod 2 ^ 64) = true ->
  exists m', Memory.loadROM fs path m = Some (true, m') /\
             rom m' = Memory.readInto f (Memory.tellg f mod 2 ^ 64) (rom m) /\
             romBank m' = romBank m.
Proof.
  intros E A. unfold Memory.loadROM. rewrite E. cbv zeta. rewrite A. cbn [negb].
  generalize (Memory.readInto f (Memory.tellg f mod 2 ^ 64) (rom m)). intros bytes.
  eexists. split; [reflexivity|].
  destruct (0x148 <=? size (rom (set_rom bytes m))); [|split; reflexivity].
  set (m1 := match idx (rom (set_rom bytes m)) 0x147 with 0 => _ | _ => _ end).
  assert (E1 : rom m1 = bytes /\ romBank m1 = romBank m).
  { subst m1.
    repeat match goal with
      | |- context [match ?x with _ => _ end] => destruct x
      end; split; reflexivity. }
  destruct E1 as [R1 R2]. clearbody m1.
  repeat match goal with
    | |- context [match ?x with _ => _ end] => destruct x
    end; (split; [exact R1|exact R2]).
Qed.

End Loaded.

(** A cartridge image that has been loaded is what the CPU reads at
    0x0000-0x7FFF.  For a regular file, one whose size [tellg] reports,
    that fits in memory, [loadROM] returns true, and on a bus whose bank
    register still has its power-on value 1 the byte at every address
    below 0x8000 that lies within the image is then the byte of the file
    at that offset, whatever the header says.  The header is whole or
    absent: with 0x148 or 0x149 bytes the source would read the RAM size
    at 0x149 past the end of the image. *)
Theorem loaded_rom_is_read_back
    (fs : Memory.files) (path : string) (bytes : list Z)
    (m : MemoryState.t) (addr : Z) :
  Memory.ifstream fs path = Some (Memory.mkFile (size bytes) bytes) ->
  size bytes < 2 ^ 64 ->
  Memory.allocates fs (size bytes) = true ->
  size bytes < 0x148 \/ 0x14A <= size bytes ->
  MemoryState.romBank m = 1 ->
  0 <= addr < 0x8000 ->
  addr < size bytes ->
  exists m', Memory.loadROM fs path m = Some (true, m') /\
             Memory.read addr m' = idx bytes addr.
Proof.
  intros E Hs A _ Hb Ha Hl.
  assert (S : size bytes mod 2 ^ 64 = size bytes)
    by (apply Z.mod_small; unfold size in *; lia).
  destruct (loadROM_rom fs path _ m E) as (m' & L1 & L2 & L3).
  { cbn [Memory.tellg]. rewrite S. exact A. }
  cbn [Memory.tellg] in L2. rewrite S, readInto_whole in L2.
  exists m'. split; [exact L1|].
  destruct (Z.lt_ge_cases addr 0x4000).
  - unfold Memory.read. destruct (Z.ltb_spec addr 0x4000); [|lia]. rewrite L2. reflexivity.
  - rewrite read_romN by lia. rewrite L2, L3, Hb.
    replace (1 * 0x4000 + (addr - 0x4000)) with addr by lia.
    destruct (Z.ltb_spec addr (size bytes)); [reflexivity|lia].
Qed.

Open Scope string_scope.

Lemma loaded_rom_is_read_back_witness :
  exists m', Memory.loadROM (GameBoy.fs short_host) "short.gb" Memory.new = Some (true, m') /\
             Memory.read 1 m' = 0x50.
Proof.
  apply (loaded_rom_is_read_back (GameBoy.fs short_host) "short.gb" [0xC3; 0x50; 0x01]%Z);
    [reflexivity | reflexivity | reflexivity | left; reflexivity | reflexivity | lia
    | reflexivity].
Defined.

Close Scope string_scope.
(** ** The clock of the LCD controller *)

(** No clock is lost.  With the LCD on, a call of [step(cycles)] moves the
    position of the PPU within the frame, line times 456 plus the start of
    the mode plus the clock within the mode, forward by exactly [cycles],
    modulo the 70224 clocks of a frame: what a mode change takes from the
    clock is what the new mode starts at.  With the LCD off the position
    does not move. *)
Theorem ppu_step_conserves_clocks (cycles : Z) (p : PPUState.t) (m : MemoryState.t) :
  0 <= PPUState.ly p <= 153 ->
  let p' := fst (PPU.step cycles (p, m)) in
  if nz (MemoryState.readIO 0x40 m .& 0x80)
  then framePos p' mod CLOCKS_PER_FRAME = (framePos p + cycles) mod CLOCKS_PER_FRAME
  else framePos p' = framePos p.
Proof.
  intros L. cbv zeta.
  pose proof (step_view cycles p m) as V.
  set (p' := fst (PPU.step cycles (p, m))) in *. clearbody p'.
  unfold stepView in V. cbv zeta in V.
  assert (F : forall l k st c sc, view p' = (l, k, st, c, sc) ->
              framePos p' = l * 456 + modeStart k + sc).
  { intros l k st c sc E. unfold view in E. injection E as <- <- _ _ <-. reflexivity. }
  unfold CLOCKS_PER_FRAME.
  destruct (nz (MemoryState.readIO 0x40 m .& 0x80)); cbn [negb] in V.
  2:{ rewrite (F _ _ _ _ _ V). reflexivity. }
  assert (M : PPUState.mode p = 0 \/ PPUState.mode p = 1 \/ PPUState.mode p = 2 \/
              PPUState.mode p = 3 \/
              (PPUState.mode p <> 0 /\ PPUState.mode p <> 1 /\ PPUState.mode p <> 2 /\
               PPUState.mode p <> 3)) by lia.
  assert (U : u8 (PPUState.ly p + 1) = PPUState.ly p + 1)
    by (apply u8_id; unfold is_u8; lia).
  unfold framePos at 2.
  destruct M as [M | [M | [M | [M | M]]]].
  - rewrite M in *. cbv iota in V. rewrite U in V.
    destruct (204 <=? PPUState.scanlineCycles p + cycles).
    + rewrite (F _ _ _ _ _ V).
      destruct (PPUState.ly p + 1 =? 144); cbn [modeStart]; f_equal; lia.
    + rewrite (F _ _ _ _ _ V). cbn [modeStart]; f_equal; lia.
  - rewrite M in *. cbv iota in V. rewrite U in V.
    destruct (456 <=? PPUState.scanlineCycles p + cycles).
    + destruct (Z.ltb_spec 153 (PPUState.ly p + 1)); rewrite (F _ _ _ _ _ V);
        cbn [modeStart].
      * replace (PPUState.ly p) with 153 by lia.
        replace (153 * 456 + 0 + PPUState.scanlineCycles p + cycles)
          with (PPUState.scanlineCycles p + cycles - 456 + 1 * (154 * 456)) by lia.
        rewrite Z.mod_add by lia. f_equal; lia.
      * f_equal; lia.
    + rewrite (F _ _ _ _ _ V). cbn [modeStart]; f_equal; lia.
  - rewrite M in *. cbv iota in V.
    destruct (80 <=? PPUState.scanlineCycles p + cycles);
      rewrite (F _ _ _ _ _ V); cbn [modeStart]; f_equal; lia.
  - rewrite M in *. cbv iota in V.
    destruct (172 <=? PPUState.scanlineCycles p + cycles);
      rewrite (F _ _ _ _ _ V); cbn [modeStart]; f_equal; lia.
  - destruct M as (M0 & M1 & M2 & M3). rewrite mode_other in V by assumption.
    rewrite (F _ _ _ _ _ V). f_equal; lia.
Qed.

Lemma ppu_step_conserves_clocks_witness :
  framePos (fst (PPU.step 8 (end_of_line_143, powerOn))) mod CLOCKS_PER_FRAME
  = (framePos end_of_line_143 + 8) mod CLOCKS_PER_FRAME.
Proof.
  apply (ppu_step_conserves_clocks 8 end_of_line_143 powerOn).
  cbn [end_of_line_143]. vm_compute. split; discriminate.
Defined.

(** ** The interrupts of the LCD controller *)

Section PPUInterrupts.
Import PPUState.

Lemma u8_lor_byte (x k : Z) : is_u8 x -> is_u8 k -> u8 (x .| k) = x .| k.
Proof.
  unfold is_u8. intros Hx Hk. apply Z.bits_inj'. intros n Hn.
  rewrite testbit_u8 by lia. destruct (Z.ltb_spec n 8); [reflexivity|].
  rewrite Z.lor_spec.
  rewrite (testbit_above x 8 n), (testbit_above k 8 n)
    by (change (2 ^ 8) with 256; lia).
  reflexivity.
Qed.

Lemma lor_byte_range (x k : Z) : is_u8 x -> is_u8 k -> is_u8 (x .| k).
Proof. intros Hx Hk. rewrite <- (u8_lor_byte x k Hx Hk). apply u8_range. Qed.

Lemma orStat_refl (x : Z) : orStat x x.
Proof. left. reflexivity. Qed.

Lemma orStat_trans (x y z : Z) : orStat x y -> orStat y z -> orStat x z.
Proof.
  unfold orStat. intros [-> | ->] [-> | ->]; auto.
  right. rewrite <- Z.lor_assoc, Z.lor_diag. reflexivity.
Qed.

Lemma orStat_vblank (x y : Z) : orStat x y -> orStat (x .| INT_VBLANK) (y .| INT_VBLANK).
Proof.
  unfold orStat. intros [-> | ->]; auto.
  right. rewrite <- !Z.lor_assoc. f_equal; apply Z.lor_comm.
Qed.

Lemma setIF_ifOK (v : Z) (m : MemoryState.t) :
  ifOK m -> is_u8 v ->
  ifOK (MemoryState.setIF v m) /\ MemoryState.getIF (MemoryState.setIF v m) = v.
Proof.
  intros [Hs Hb] Hv.
  assert (E : MemoryState.getIF (MemoryState.setIF v m) = v) by (apply getIF_setIF; exact Hs).
  split; [|exact E]. split; [|rewrite E; exact Hv].
  unfold MemoryState.setIF. cbn [MemoryState.io MemoryState.set_io]. rewrite size_upd. exact Hs.
Qed.

Lemma writeIO_ifOK (r v : Z) (m : MemoryState.t) :
  r <> 0x0F -> ifOK m ->
  ifOK (MemoryState.writeIO r v m) /\
  MemoryState.getIF (MemoryState.writeIO r v m) = MemoryState.getIF m.
Proof.
  intros Hr [Hs Hb].
  assert (E : MemoryState.getIF (MemoryState.writeIO r v m) = MemoryState.getIF m).
  { unfold MemoryState.getIF, MemoryState.writeIO. cbn [MemoryState.io MemoryState.set_io].
    apply idx_upd_other. exact Hr. }
  split; [|exact E]. split; [|rewrite E; exact Hb].
  unfold MemoryState.writeIO. cbn [MemoryState.io MemoryState.set_io]. rewrite size_upd.
  exact Hs.
Qed.

Lemma checkSTATInterrupt_IF (s : PPU.sys) :
  ifOK (snd s) ->
  ifOK (snd (PPU.checkSTATInterrupt s)) /\
  orStat (MemoryState.getIF (snd s)) (MemoryState.getIF (snd (PPU.checkSTATInterrupt s))).
Proof.
  intros H. unfold PPU.checkSTATInterrupt. cbv zeta.
  match goal with |- context [if ?b then _ else _] => destruct b end;
    [|split; [exact H|apply orStat_refl]].
  rewrite onM_snd.
  assert (B : is_u8 2) by (unfold is_u8; lia).
  destruct H as [Hs Hb].
  change INT_STAT with 2. rewrite (u8_lor_byte _ 2 Hb B).
  destruct (setIF_ifOK (MemoryState.getIF (snd s) .| 2) (snd s)) as [O E];
    [split; assumption | apply lor_byte_range; assumption |].
  split; [exact O|]. rewrite E. right. reflexivity.
Qed.

Lemma setMode_IF (k : Z) (s : PPU.sys) :
  ifOK (snd s) ->
  ifOK (snd (PPU.setMode k s)) /\
  orStat (MemoryState.getIF (snd s)) (MemoryState.getIF (snd (PPU.setMode k s))).
Proof.
  intros H. unfold PPU.setMode.
  apply (checkSTATInterrupt_IF (PPU.onP _ (PPU.onP _ s))). exact H.
Qed.

Lemma checkLYC_IF (s : PPU.sys) :
  ifOK (snd s) ->
  ifOK (snd (PPU.checkLYC s)) /\
  orStat (MemoryState.getIF (snd s)) (MemoryState.getIF (snd (PPU.checkLYC s))).
Proof.
  intros H. unfold PPU.checkLYC. apply (checkSTATInterrupt_IF (PPU.onP _ s)). exact H.
Qed.

Lemma stepOAM_IF (s : PPU.sys) :
  ifOK (snd s) ->
  orStat (MemoryState.getIF (snd s)) (MemoryState.getIF (snd (PPU.stepOAM s))) /\
  frameReady (fst (PPU.stepOAM s)) = frameReady (fst s).
Proof.
  intros H. unfold PPU.stepOAM. cbv zeta.
  match goal with |- context [if ?b then _ else _] => destruct b end;
    [|split; [apply orStat_refl|reflexivity]].
  split; [apply (setMode_IF 3 (PPU.onP _ s)); exact H|].
  rewrite setMode_fst. reflexivity.
Qed.

Lemma stepTransfer_IF (s : PPU.sys) :
  ifOK (snd s) ->
  orStat (MemoryState.getIF (snd s)) (MemoryState.getIF (snd (PPU.stepTransfer s))) /\
  frameReady (fst (PPU.stepTransfer s)) = frameReady (fst s).
Proof.
  intros H. unfold PPU.stepTransfer. cbv zeta.
  match goal with |- context [if ?b then _ else _] => destruct b end;
    [|split; [apply orStat_refl|reflexivity]].
  split.
  - match goal with |- context [PPU.setMode 0 ?x] => apply (setMode_IF 0 x) end. exact H.
  - rewrite setMode_fst. cbn [fst snd]. rewrite onP_fst.
    cbn [frameReady set_stat set_mode].
    match goal with
    | |- context [PPU.renderScanline ?mm ?pp] =>
        pose proof (renderScanline_core mm pp) as V
    end.
    unfold core in V. injection V as _ _ _ _ _ _ _ _ _ _ _ _ _ V. exact V.
Qed.

Lemma stepHBlank_IF (s : PPU.sys) :
  ifOK (snd s) ->
  let enters := (204 <=? scanlineCycles (fst s)) && (u8 (ly (fst s) + 1) =? 144) in
  orStat (MemoryState.getIF (snd s) .| (if enters then INT_VBLANK else 0))
         (MemoryState.getIF (snd (PPU.stepHBlank s))) /\
  frameReady (fst (PPU.stepHBlank s)) = frameReady (fst s) || enters.
Proof.
  intros H. cbv zeta. unfold PPU.stepHBlank. cbv zeta.
  destruct (204 <=? scanlineCycles (fst s)); cbn [andb].
  2:{ rewrite Z.lor_0_r, orb_false_r. split; [apply orStat_refl|reflexivity]. }
  rewrite checkLYC_fst.
  match goal with |- context [PPU.checkLYC ?x] => set (sx := x) end.
  assert (K : (ifOK (snd sx) /\
               orStat (MemoryState.getIF (snd s)
                       .| (if u8 (ly (fst s) + 1) =? 144 then INT_VBLANK else 0))
                      (MemoryState.getIF (snd sx))) /\
              frameReady (fst sx) = frameReady (fst s) || (u8 (ly (fst s) + 1) =? 144)).
  { subst sx. rewrite onM_snd, onM_fst.
    cbn [fst snd PPU.onP ly set_ly set_scanlineCycles].
    destruct (u8 (ly (fst s) + 1) =? 144).
    - rewrite !onP_fst, onM_fst, !onP_snd, onM_snd, setMode_fst.
      cbn [frameReady set_windowLine set_frameReady]. rewrite orb_true_r.
      split; [|reflexivity].
      match goal with |- context [PPU.setMode 1 ?x] =>
        destruct (setMode_IF 1 x H) as [O1 S1]; set (s1 := PPU.setMode 1 x) in * end.
      assert (B : is_u8 1) by (unfold is_u8; lia).
      change INT_VBLANK with 1. rewrite (u8_lor_byte _ 1 (proj2 O1) B).
      destruct (setIF_ifOK (MemoryState.getIF (snd s1) .| 1) (snd s1) O1) as [O2 E2];
        [apply lor_byte_range; [exact (proj2 O1)|exact B]|].
      match goal with |- context [MemoryState.writeIO 0x44 ?v ?mm] =>
        destruct (writeIO_ifOK 0x44 v mm ltac:(lia) O2) as [O3 E3] end.
      split; [exact O3|]. rewrite E3, E2.
      apply (orStat_vblank _ _ S1).
    - rewrite setMode_fst. cbn [fst frameReady set_stat set_mode set_ly set_scanlineCycles].
      rewrite orb_false_r, Z.lor_0_r. split; [|reflexivity].
      match goal with |- context [PPU.setMode 2 ?x] =>
        destruct (setMode_IF 2 x H) as [O1 S1]; set (s1 := PPU.setMode 2 x) in * end.
      match goal with |- context [MemoryState.writeIO 0x44 ?v ?mm] =>
        destruct (writeIO_ifOK 0x44 v mm ltac:(lia) O1) as [O3 E3] end.
      split; [exact O3|]. rewrite E3. exact S1. }
  destruct K as [[O S] R]. clearbody sx.
  destruct (checkLYC_IF sx O) as [_ S2].
  split; [exact (orStat_trans _ _ _ S S2)|].
  match goal with |- context [if ?b then _ else _] => destruct b end;
    cbn [frameReady set_stat]; exact R.
Qed.

Lemma stepVBlank_IF (s : PPU.sys) :
  ifOK (snd s) ->
  orStat (MemoryState.getIF (snd s)) (MemoryState.getIF (snd (PPU.stepVBlank s))) /\
  frameReady (fst (PPU.stepVBlank s)) = frameReady (fst s).
Proof.
  intros H. unfold PPU.stepVBlank. cbv zeta.
  match goal with |- context [if ?b then _ else _] => destruct b end;
    [|split; [apply orStat_refl|reflexivity]].
  rewrite checkLYC_fst.
  match goal with |- context [PPU.checkLYC ?x] => set (sx := x) end.
  assert (K : (ifOK (snd sx) /\
               orStat (MemoryState.getIF (snd s)) (MemoryState.getIF (snd sx))) /\
              frameReady (fst sx) = frameReady (fst s)).
  { subst sx. rewrite onM_snd, onM_fst.
    match goal with |- context [if ?b then _ else _] => destruct b end.
    - rewrite setMode_fst. split; [|reflexivity].
      match goal with |- context [PPU.setMode 2 ?x] =>
        destruct (setMode_IF 2 x H) as [O1 S1]; set (s1 := PPU.setMode 2 x) in * end.
      match goal with |- context [MemoryState.writeIO 0x44 ?v ?mm] =>
        destruct (writeIO_ifOK 0x44 v mm ltac:(lia) O1) as [O3 E3] end.
      split; [exact O3|]. rewrite E3. exact S1.
    - split; [|reflexivity]. rewrite !onP_snd.
      match goal with |- context [MemoryState.writeIO 0x44 ?v ?mm] =>
        destruct (writeIO_ifOK 0x44 v mm ltac:(lia) H) as [O3 E3] end.
      split; [exact O3|]. rewrite E3. apply orStat_refl. }
  destruct K as [[O S] R]. clearbody sx.
  destruct (checkLYC_IF sx O) as [_ S2].
  split; [exact (orStat_trans _ _ _ S S2)|].
  match goal with |- context [if ?b then _ else _] => destruct b end;
    cbn [frameReady set_stat]; exact R.
Qed.

End PPUInterrupts.

(** The VBlank interrupt and the frame latch.  [step] requests the VBlank
    interrupt, and sets the frame-ready latch, exactly when it takes the
    PPU from line 143 into line 144; and whatever it does, it clears no
    bit of IF and sets none but those of VBlank and STAT. *)
Theorem vblank_raised_on_entering_line_144
    (cycles : Z) (p : PPUState.t) (m : MemoryState.t) :
  size (MemoryState.io m) = 0x80 ->
  is_u8 (MemoryState.getIF m) ->
  let s' := PPU.step cycles (p, m) in
  let raised := if entersVBlank cycles p m then INT_VBLANK else 0 in
  (MemoryState.getIF (snd s') = MemoryState.getIF m .| raised \/
   MemoryState.getIF (snd s') = MemoryState.getIF m .| raised .| INT_STAT) /\
  PPUState.frameReady (fst s') = PPUState.frameReady p || entersVBlank cycles p m.
Proof.
  intros Hs Hb. cbv zeta.
  assert (H : ifOK m) by (split; assumption).
  rewrite step_unfold. cbv zeta. unfold entersVBlank.
  change (PPUState.lcdc (PPU.loadRegisters m p)) with (MemoryState.readIO 0x40 m).
  destruct (nz (MemoryState.readIO 0x40 m .& 0x80)); cbn [negb andb].
  2:{ rewrite Z.lor_0_r, orb_false_r. split; [left|]; reflexivity. }
  set (q := PPUState.set_scanlineCycles _ (PPU.loadRegisters m p)).
  assert (Q : PPUState.mode q = PPUState.mode p /\
              PPUState.scanlineCycles q = PPUState.scanlineCycles p + cycles /\
              PPUState.ly q = PPUState.ly p /\
              PPUState.frameReady q = PPUState.frameReady p) by (repeat split).
  destruct Q as (Q1 & Q2 & Q3 & Q4). clearbody q. rewrite Q1.
  assert (M : PPUState.mode p = 0 \/ PPUState.mode p = 1 \/ PPUState.mode p = 2 \/
              PPUState.mode p = 3 \/
              (PPUState.mode p <> 0 /\ PPUState.mode p <> 1 /\ PPUState.mode p <> 2 /\
               PPUState.mode p <> 3)) by lia.
  destruct M as [M | [M | [M | [M | M]]]].
  - rewrite M. cbn [Z.eqb andb].
    destruct (stepHBlank_IF (q, m) H) as [S R]. cbv zeta in S, R. cbn [fst snd] in S, R.
    rewrite Q2, Q3, Q4 in *. split; [exact S|exact R].
  - rewrite M. cbn [Z.eqb andb]. rewrite Z.lor_0_r, orb_false_r.
    destruct (stepVBlank_IF (q, m) H) as [S R]. cbn [fst snd] in S, R.
    rewrite Q4 in R. split; [exact S|exact R].
  - rewrite M. cbn [Z.eqb andb]. rewrite Z.lor_0_r, orb_false_r.
    destruct (stepOAM_IF (q, m) H) as [S R]. cbn [fst snd] in S, R.
    rewrite Q4 in R. split; [exact S|exact R].
  - rewrite M. cbn [Z.eqb andb]. rewrite Z.lor_0_r, orb_false_r.
    destruct (stepTransfer_IF (q, m) H) as [S R]. cbn [fst snd] in S, R.
    rewrite Q4 in R. split; [exact S|exact R].
  - destruct M as (M0 & M1 & M2 & M3). rewrite mode_other by assumption.
    destruct (Z.eqb_spec (PPUState.mode p) 0) as [E|_]; [contradiction|].
    cbn [andb fst snd]. rewrite Z.lor_0_r, orb_false_r, Q4. split; [left|]; reflexivity.
Qed.

Lemma vblank_raised_on_entering_line_144_witness :
  let s' := PPU.step 8 (end_of_line_143, MemoryState.setIF 0 powerOn) in
  (MemoryState.getIF (snd s') = 1 \/ MemoryState.getIF (snd s') = 3) /\
  PPUState.frameReady (fst s') = true.
Proof.
  apply (vblank_raised_on_entering_line_144 8 end_of_line_143 (MemoryState.setIF 0 powerOn));
    [reflexivity | unfold is_u8; vm_compute; split; [discriminate|reflexivity]].
Defined.

(** ** The scanline rasteriser *)

Section Rasteriser.
Import PPUState.

Lemma fold_left_inv {A B : Type} (Q : A -> Prop) (step : A -> B -> A) (l : list B) (a0 : A) :
  Q a0 -> (forall a x, In x l -> Q a -> Q (step a x)) -> Q (fold_left step l a0).
Proof.
  revert a0. induction l as [|y l IH]; intros a0 H0 Hs; cbn [fold_left]; [exact H0|].
  apply IH.
  - apply Hs; [left; reflexivity|exact H0].
  - intros a x Hx. apply Hs. right. exact Hx.
Qed.

(** A loop that settles a property at each index it visits, and unsettles
    it nowhere, leaves it settled at every index of its range. *)
Lemma fold_left_settles {A B : Type} (I : A -> Prop) (P : B -> A -> Prop)
    (step : A -> B -> A) (l : list B) (a0 : A) :
  I a0 ->
  (forall a x, In x l -> I a -> I (step a x)) ->
  (forall a x, In x l -> I a -> P x (step a x)) ->
  (forall a x y, In x l -> I a -> P y a -> P y (step a x)) ->
  forall y, In y l -> P y (fold_left step l a0).
Proof.
  revert a0. induction l as [|z l IH]; intros a0 H0 HI HP HK y Hy; [destruct Hy|].
  cbn [fold_left]. destruct Hy as [<- | Hy].
  - apply (fold_left_inv (fun a => I a /\ P z a)).
    + split; [apply HI; [left; reflexivity|exact H0] | apply HP; [left; reflexivity|exact H0]].
    + intros a x Hx [Ia Pa]. split; [apply HI; [right; exact Hx|exact Ia]|].
      apply HK; [right; exact Hx|exact Ia|exact Pa].
  - apply IH; try assumption.
    + apply HI; [left; reflexivity|exact H0].
    + intros a x Hx. apply HI. right. exact Hx.
    + intros a x Hx. apply HP. right. exact Hx.
    + intros a x y' Hx. apply HK. right. exact Hx.
Qed.

Lemma In_upto (n x : Z) : In x (PPU.upto n) <-> 0 <= x < n.
Proof.
  unfold PPU.upto. rewrite <- list_elem_of_In, elem_of_seqZ. lia.
Qed.

Lemma sameButLine_refl (l : Z) (fb : list Z) : sameButLine l fb fb.
Proof. split; [reflexivity|]. intros; reflexivity. Qed.

Lemma sameButLine_trans (l : Z) (fb1 fb2 fb3 : list Z) :
  sameButLine l fb1 fb2 -> sameButLine l fb2 fb3 -> sameButLine l fb1 fb3.
Proof.
  intros [S1 K1] [S2 K2]. split; [congruence|].
  intros i Hi. rewrite K2, K1 by assumption. reflexivity.
Qed.

Lemma sameButLine_upd (l x c : Z) (fb : list Z) :
  0 <= x < 160 -> sameButLine l fb (upd fb (l * 160 + x) c).
Proof.
  intros Hx. split; [apply size_upd|].
  intros i Hi. apply idx_upd_other. lia.
Qed.

Lemma shade_in_colors (k : Z) : 0 <= k <= 3 -> In (idx colors k) colors.
Proof.
  intros H. assert (k = 0 \/ k = 1 \/ k = 2 \/ k = 3) as [-> | [-> | [-> | ->]]] by lia;
    cbn; auto.
Qed.

Lemma palette_shade (pal n : Z) : In (idx colors (u8 ((pal >> n) .& 0x03))) colors.
Proof.
  pose proof (land_mask_range (pal >> n) 2) as R.
  change (Z.ones 2) with 3 in R. change (2 ^ 2) with 4 in R.
  rewrite u8_id by (unfold is_u8; lia). apply shade_in_colors. lia.
Qed.

Lemma shadeAt_upd (fb : list Z) (i c j : Z) :
  0 <= i < size fb -> In c colors ->
  (j = i \/ shadeAt fb j) -> shadeAt (upd fb i c) j.
Proof.
  intros Hi Hc H. unfold shadeAt in *.
  destruct (Z.eq_dec j i) as [->|N].
  - rewrite idx_upd_same by exact Hi. exact Hc.
  - rewrite idx_upd_other by lia. destruct H as [E|H]; [contradiction|exact H].
Qed.

(** *** Each layer writes pixels of line LY only *)

Lemma renderBackground_line (m : MemoryState.t) (r : PPU.rstate) :
  sameButLine (ly (fst r)) (framebuffer (fst r))
              (framebuffer (fst (PPU.renderBackground m r))).
Proof.
  unfold PPU.renderBackground. cbv zeta.
  apply (fold_left_inv
           (fun a => sameButLine (ly (fst r)) (framebuffer (fst r)) (framebuffer (fst a)))).
  - apply sameButLine_refl.
  - intros a x Hx Ha. apply In_upto in Hx. cbn [fst framebuffer set_framebuffer].
    eapply sameButLine_trans; [exact Ha|]. apply sameButLine_upd. exact Hx.
Qed.

Lemma renderWindow_line (m : MemoryState.t) (r : PPU.rstate) :
  sameButLine (ly (fst r)) (framebuffer (fst r))
              (framebuffer (fst (PPU.renderWindow m r))).
Proof.
  unfold PPU.renderWindow. cbv zeta.
  destruct (ly (fst r) <? wy (fst r)); [apply sameButLine_refl|].
  destruct (166 <? wx (fst r)); [apply sameButLine_refl|].
  match goal with
  | |- context [@fold_left ?A ?B ?step ?l ?a0] =>
      pose proof (@fold_left_inv A B
                    (fun a => sameButLine (ly (fst r)) (framebuffer (fst r))
                                (framebuffer (fst (fst a)))) step l a0) as K;
      revert K; destruct (fold_left step l a0) as [r' vis]; intros K
  end.
  cbn [fst] in K.
  assert (K' : sameButLine (ly (fst r)) (framebuffer (fst r)) (framebuffer (fst r'))).
  { apply K; [apply sameButLine_refl|].
    intros a x Hx Ha. apply In_upto in Hx.
    destruct (x - (wx (fst r) - 7) <? 0); [exact Ha|].
    cbn [fst framebuffer set_framebuffer].
    eapply sameButLine_trans; [exact Ha|]. apply sameButLine_upd. exact Hx. }
  destruct vis; exact K'.
Qed.

Lemma renderSpriteRow_line (p : t) (bgPriority : list Z)
    (xPos lo hi palette : Z) (priority xFlip : bool) (fb : list Z) :
  sameButLine (ly p) fb
    (PPU.renderSpriteRow p bgPriority xPos lo hi palette priority xFlip fb).
Proof.
  unfold PPU.renderSpriteRow.
  apply (fold_left_inv (fun a => sameButLine (ly p) fb a)).
  - apply sameButLine_refl.
  - intros a x Hx Ha. cbv zeta.
    destruct (Z.ltb_spec (xPos + x) 0); cbn [orb]; [exact Ha|].
    destruct (Z.leb_spec SCREEN_WIDTH (xPos + x)); [exact Ha|].
    repeat match goal with |- context [if ?b then _ else _] => destruct b end;
      try exact Ha.
    all: eapply sameButLine_trans; [exact Ha|]; apply sameButLine_upd;
      unfold SCREEN_WIDTH in *; lia.
Qed.

Lemma renderSprites_line (m : MemoryState.t) (r : PPU.rstate) :
  sameButLine (ly (fst r)) (framebuffer (fst r))
              (framebuffer (fst (PPU.renderSprites m r))).
Proof.
  unfold PPU.renderSprites. cbv zeta.
  match goal with
  | |- context [@fold_left ?A ?B ?step ?l ?a0] =>
      pose proof (@fold_left_inv A B
                    (fun a => sameButLine (ly (fst r)) (framebuffer (fst r)) (fst a))
                    step l a0) as K;
      revert K; destruct (fold_left step l a0) as [fb n]; intros K
  end.
  cbn [fst framebuffer set_framebuffer] in *.
  apply K; [apply sameButLine_refl|].
  intros [fb0 n0] x Hx Ha. cbn [fst] in *.
  repeat match goal with |- context [if ?b then _ else _] => destruct b end;
    try exact Ha;
    cbn [fst]; (eapply sameButLine_trans; [exact Ha|]); apply renderSpriteRow_line.
Qed.


(** *** Each layer paints with the four shades *)

Lemma upd_shaded (fb : list Z) (i c j : Z) :
  size fb = 160 * 144 /\ shadeAt fb j ->
  0 <= i < 160 * 144 -> In c colors ->
  size (upd fb i c) = 160 * 144 /\ shadeAt (upd fb i c) j.
Proof.
  intros [S H] Hi Hc. split; [rewrite size_upd; exact S|].
  apply shadeAt_upd; [lia|exact Hc|right; exact H].
Qed.

Lemma renderBackground_shade (m : MemoryState.t) (r : PPU.rstate) (x : Z) :
  0 <= ly (fst r) < 144 -> size (framebuffer (fst r)) = 160 * 144 -> 0 <= x < 160 ->
  shadeAt (framebuffer (fst (PPU.renderBackground m r))) (ly (fst r) * 160 + x).
Proof.
  intros Hl Hs Hx. unfold PPU.renderBackground. cbv zeta.
  apply (fold_left_settles
           (fun a : PPU.rstate => size (framebuffer (fst a)) = 160 * 144)
           (fun y (a : PPU.rstate) => shadeAt (framebuffer (fst a)) (ly (fst r) * 160 + y))).
  - exact Hs.
  - intros a y Hy Ha. cbn [fst framebuffer set_framebuffer]. rewrite size_upd. exact Ha.
  - intros a y Hy Ha. apply In_upto in Hy. unfold SCREEN_WIDTH in *.
    cbn [fst framebuffer set_framebuffer].
    apply shadeAt_upd; [lia|apply palette_shade|left; reflexivity].
  - intros a y z Hy Ha Hz. apply In_upto in Hy. unfold SCREEN_WIDTH in *.
    cbn [fst framebuffer set_framebuffer].
    apply shadeAt_upd; [lia|apply palette_shade|right; exact Hz].
  - apply In_upto. unfold SCREEN_WIDTH. exact Hx.
Qed.

Lemma fill_shade (p : t) (x : Z) :
  0 <= ly p < 144 -> size (framebuffer p) = 160 * 144 -> 0 <= x < 160 ->
  idx (framebuffer
         (fold_left
            (fun (q : t) (x : Z) =>
               set_framebuffer (upd (framebuffer q) (ly p * SCREEN_WIDTH + x) (idx colors 0)) q)
            (PPU.upto SCREEN_WIDTH) p)) (ly p * 160 + x) = idx colors 0.
Proof.
  intros Hl Hs Hx.
  apply (fold_left_settles
           (fun a : t => size (framebuffer a) = 160 * 144)
           (fun y (a : t) => idx (framebuffer a) (ly p * 160 + y) = idx colors 0)).
  - exact Hs.
  - intros a y Hy Ha. cbn [framebuffer set_framebuffer]. rewrite size_upd. exact Ha.
  - intros a y Hy Ha. apply In_upto in Hy. unfold SCREEN_WIDTH in *.
    cbn [framebuffer set_framebuffer]. apply idx_upd_same. lia.
  - intros a y z Hy Ha Hz. apply In_upto in Hy. unfold SCREEN_WIDTH in *.
    cbn [framebuffer set_framebuffer].
    destruct (Z.eq_dec z y) as [->|N].
    + apply idx_upd_same. lia.
    + rewrite idx_upd_other by lia. exact Hz.
  - apply In_upto. unfold SCREEN_WIDTH. exact Hx.
Qed.

Lemma renderWindow_shade (m : MemoryState.t) (r : PPU.rstate) (j : Z) :
  0 <= ly (fst r) < 144 ->
  size (framebuffer (fst r)) = 160 * 144 /\ shadeAt (framebuffer (fst r)) j ->
  shadeAt (framebuffer (fst (PPU.renderWindow m r))) j.
Proof.
  intros Hl H0. unfold PPU.renderWindow. cbv zeta.
  destruct (ly (fst r) <? wy (fst r)); [apply H0|].
  destruct (166 <? wx (fst r)); [apply H0|].
  match goal with
  | |- context [@fold_left ?A ?B ?step ?l ?a0] =>
      pose proof (@fold_left_inv A B
                    (fun a => size (framebuffer (fst (fst a))) = 160 * 144 /\
                              shadeAt (framebuffer (fst (fst a))) j) step l a0) as K;
      revert K; destruct (fold_left step l a0) as [r' vis]; intros K
  end.
  cbn [fst] in K.
  assert (K' : size (framebuffer (fst r')) = 160 * 144 /\ shadeAt (framebuffer (fst r')) j).
  { apply K; [exact H0|].
    intros a x Hx Ha. apply In_upto in Hx. unfold SCREEN_WIDTH in *.
    destruct (x - (wx (fst r) - 7) <? 0); [exact Ha|].
    cbn [fst framebuffer set_framebuffer].
    apply upd_shaded; [exact Ha|lia|apply palette_shade]. }
  destruct vis; apply K'.
Qed.

Lemma renderSpriteRow_shade (p : t) (bgPriority : list Z)
    (xPos lo hi palette : Z) (priority xFlip : bool) (fb : list Z) (j : Z) :
  0 <= ly p < 144 ->
  size fb = 160 * 144 /\ shadeAt fb j ->
  let fb' := PPU.renderSpriteRow p bgPriority xPos lo hi palette priority xFlip fb in
  size fb' = 160 * 144 /\ shadeAt fb' j.
Proof.
  intros Hl H0. cbv zeta. unfold PPU.renderSpriteRow.
  apply (fold_left_inv (fun a => size a = 160 * 144 /\ shadeAt a j)); [exact H0|].
  intros a x Hx Ha. cbv zeta.
  destruct (Z.ltb_spec (xPos + x) 0); cbn [orb]; [exact Ha|].
  destruct (Z.leb_spec SCREEN_WIDTH (xPos + x)); [exact Ha|].
  repeat match goal with |- context [if ?b then _ else _] => destruct b end;
    try exact Ha.
  all: apply upd_shaded; [exact Ha|unfold SCREEN_WIDTH in *; lia|apply palette_shade].
Qed.

Lemma renderSprites_shade (m : MemoryState.t) (r : PPU.rstate) (j : Z) :
  0 <= ly (fst r) < 144 ->
  size (framebuffer (fst r)) = 160 * 144 /\ shadeAt (framebuffer (fst r)) j ->
  shadeAt (framebuffer (fst (PPU.renderSprites m r))) j.
Proof.
  intros Hl H0. unfold PPU.renderSprites. cbv zeta.
  match goal with
  | |- context [@fold_left ?A ?B ?step ?l ?a0] =>
      pose proof (@fold_left_inv A B
                    (fun a => size (fst a) = 160 * 144 /\ shadeAt (fst a) j)
                    step l a0) as K;
      revert K; destruct (fold_left step l a0) as [fb n]; intros K
  end.
  cbn [fst framebuffer set_framebuffer] in *.
  apply K; [exact H0|].
  intros [fb0 n0] x Hx Ha. cbn [fst] in *.
  repeat match goal with |- context [if ?b then _ else _] => destruct b end;
    try exact Ha;
    cbn [fst]; apply renderSpriteRow_shade; assumption.
Qed.

Lemma core_ly (p q : t) : core p = core q -> ly p = ly q.
Proof. unfold core. intros H. injection H. intros. assumption. Qed.

Lemma core_lcdc (p q : t) : core p = core q -> lcdc p = lcdc q.
Proof. unfold core. intros H. injection H. intros. assumption. Qed.

End Rasteriser.

(** A scanline is drawn on its own row of the frame buffer: whatever the
    registers, the video RAM and the sprite table hold, [renderScanline]
    keeps the size of the frame buffer and every pixel outside the 160
    pixels of line LY, and from line 144 on it draws nothing at all. *)
Theorem scanline_is_drawn_on_its_own_row (m : MemoryState.t) (p : PPUState.t) :
  sameButLine (PPUState.ly p) (PPUState.framebuffer p)
              (PPUState.framebuffer (PPU.renderScanline m p)) /\
  (144 <= PPUState.ly p -> PPU.renderScanline m p = p).
Proof.
  split.
  2:{ intros H. unfold PPU.renderScanline, PPUState.SCREEN_HEIGHT.
      destruct (Z.leb_spec 144 (PPUState.ly p)); [reflexivity|lia]. }
  unfold PPU.renderScanline. cbv zeta.
  destruct (PPUState.SCREEN_HEIGHT <=? PPUState.ly p); [apply sameButLine_refl|].
  set (r1 := if nz (PPUState.lcdc p .& 0x01) then _ else _).
  assert (C1 : PPUState.ly (fst r1) = PPUState.ly p /\
               sameButLine (PPUState.ly p) (PPUState.framebuffer p)
                 (PPUState.framebuffer (fst r1))).
  { subst r1. destruct (nz (PPUState.lcdc p .& 0x01)).
    - split; [apply core_ly, renderBackground_core|].
      apply (renderBackground_line m (p, filled 160 0)).
    - cbn [fst]. split; [apply (fold_left_keeps _ PPUState.ly); intros; reflexivity|].
      apply (fold_left_inv
               (fun a => sameButLine (PPUState.ly p) (PPUState.framebuffer p)
                           (PPUState.framebuffer a))); [apply sameButLine_refl|].
      intros a x Hx Ha. apply In_upto in Hx.
      cbn [PPUState.framebuffer PPUState.set_framebuffer].
      eapply sameButLine_trans; [exact Ha|]. apply sameButLine_upd. exact Hx. }
  clearbody r1. destruct C1 as [L1 C1].
  set (r2 := if nz (PPUState.lcdc p .& 0x20) && nz (PPUState.lcdc p .& 0x01) then _ else r1).
  assert (C2 : PPUState.ly (fst r2) = PPUState.ly p /\
               sameButLine (PPUState.ly p) (PPUState.framebuffer p)
                 (PPUState.framebuffer (fst r2))).
  { subst r2.
    destruct (nz (PPUState.lcdc p .& 0x20) && nz (PPUState.lcdc p .& 0x01));
      [|split; assumption].
    split; [rewrite (core_ly _ _ (renderWindow_core m r1)); exact L1|].
    eapply sameButLine_trans; [exact C1|]. rewrite <- L1. apply renderWindow_line. }
  clearbody r2. destruct C2 as [L2 C2].
  destruct (nz (PPUState.lcdc p .& 0x02)); [|exact C2].
  eapply sameButLine_trans; [exact C2|]. rewrite <- L2. apply renderSprites_line.
Qed.

(** On a visible line every pixel of the row that [renderScanline] has drawn
    is one of the four shades of the DMG palette, whatever the palette
    registers, the tiles and the sprites hold. *)
Theorem drawn_row_holds_palette_shades (m : MemoryState.t) (p : PPUState.t) (x : Z) :
  size (PPUState.framebuffer p) = 160 * 144 ->
  0 <= PPUState.ly p < 144 ->
  0 <= x < 160 ->
  In (idx (PPUState.framebuffer (PPU.renderScanline m p)) (PPUState.ly p * 160 + x))
     [0xFFFFFFFF; 0xFFAAAAAA; 0xFF555555; 0xFF000000].
Proof.
  intros Hs Hl Hx. change (shadeAt (PPUState.framebuffer (PPU.renderScanline m p))
                             (PPUState.ly p * 160 + x)).
  unfold PPU.renderScanline. cbv zeta. unfold PPUState.SCREEN_HEIGHT.
  destruct (Z.leb_spec 144 (PPUState.ly p)); [lia|].
  set (j := PPUState.ly p * 160 + x).
  set (r1 := if nz (PPUState.lcdc p .& 0x01) then _ else _).
  assert (C1 : PPUState.ly (fst r1) = PPUState.ly p /\
               size (PPUState.framebuffer (fst r1)) = 160 * 144 /\
               shadeAt (PPUState.framebuffer (fst r1)) j).
  { subst r1. destruct (nz (PPUState.lcdc p .& 0x01)).
    - split; [apply core_ly, renderBackground_core|]. split.
      + destruct (renderBackground_line m (p, filled 160 0)) as [S _].
        rewrite S. exact Hs.
      + apply (renderBackground_shade m (p, filled 160 0) x); assumption.
    - cbn [fst]. split; [apply (fold_left_keeps _ PPUState.ly); intros; reflexivity|].
      split.
      + apply (fold_left_inv (fun a => size (PPUState.framebuffer a) = 160 * 144));
          [exact Hs|].
        intros a y Hy Ha. cbn [PPUState.framebuffer PPUState.set_framebuffer].
        rewrite size_upd. exact Ha.
      + unfold shadeAt, j. rewrite fill_shade by assumption. cbn. auto. }
  clearbody r1. destruct C1 as (L1 & S1 & C1).
  set (r2 := if nz (PPUState.lcdc p .& 0x20) && nz (PPUState.lcdc p .& 0x01) then _ else r1).
  assert (C2 : PPUState.ly (fst r2) = PPUState.ly p /\
               size (PPUState.framebuffer (fst r2)) = 160 * 144 /\
               shadeAt (PPUState.framebuffer (fst r2)) j).
  { subst r2.
    destruct (nz (PPUState.lcdc p .& 0x20) && nz (PPUState.lcdc p .& 0x01));
      [|repeat split; assumption].
    split; [rewrite (core_ly _ _ (renderWindow_core m r1)); exact L1|]. split.
    - destruct (renderWindow_line m r1) as [S _]. rewrite S. exact S1.
    - apply renderWindow_shade; [rewrite L1; exact Hl|split; assumption]. }
  clearbody r2. destruct C2 as (L2 & S2 & C2).
  destruct (nz (PPUState.lcdc p .& 0x02)); [|exact C2].
  apply renderSprites_shade; [rewrite L2; exact Hl|split; assumption].
Qed.

Lemma drawn_row_holds_palette_shades_witness :
  In (idx (PPUState.framebuffer (PPU.renderScanline powerOn PPU.reset))
          (PPUState.ly PPU.reset * 160 + 7))
     [0xFFFFFFFF; 0xFFAAAAAA; 0xFF555555; 0xFF000000].
Proof.
  apply (drawn_row_holds_palette_shades powerOn PPU.reset 7).
  - reflexivity.
  - cbn [PPU.reset PPUState.ly]. lia.
  - lia.
Defined.

(** With the background and the sprites switched off in LCDC (bits 0 and 1
    clear) a visible line comes out blank: all its 160 pixels get shade 0,
    white, and the window is not drawn even if LCDC bit 5 asks for it. *)
Theorem line_is_blank_without_background_and_sprites
    (m : MemoryState.t) (p : PPUState.t) (x : Z) :
  nz (PPUState.lcdc p .& 0x01) = false ->
  nz (PPUState.lcdc p .& 0x02) = false ->
  size (PPUState.framebuffer p) = 160 * 144 ->
  0 <= PPUState.ly p < 144 ->
  0 <= x < 160 ->
  idx (PPUState.framebuffer (PPU.renderScanline m p)) (PPUState.ly p * 160 + x)
  = 0xFFFFFFFF.
Proof.
  intros B0 B1 Hs Hl Hx.
  unfold PPU.renderScanline. cbv zeta. unfold PPUState.SCREEN_HEIGHT.
  destruct (Z.leb_spec 144 (PPUState.ly p)); [lia|].
  rewrite B0, B1, andb_false_r. cbn [fst].
  rewrite fill_shade by assumption. reflexivity.
Qed.

Lemma line_is_blank_without_background_and_sprites_witness :
  idx (PPUState.framebuffer (PPU.renderScanline powerOn lcd_blank))
      (PPUState.ly lcd_blank * 160 + 159) = 0xFFFFFFFF.
Proof.
  apply (line_is_blank_without_background_and_sprites powerOn lcd_blank 159).
  - reflexivity.
  - reflexivity.
  - reflexivity.
  - cbn [lcd_blank PPU.reset PPUState.ly PPUState.set_lcdc]. lia.
  - lia.
Defined.
(** ** The CPU *)

Section CPUTiming.
Import CPUState.

Ltac split_matches :=
  repeat (cbv beta iota;
          match goal with
          | |- context [match ?x with _ => _ end] => destruct x
          end).

Lemma handleInterrupts_cycles (s : CPU.mach) :
  fst (CPU.handleInterrupts s) = 0 \/ fst (CPU.handleInterrupts s) = 20.
Proof.
  unfold CPU.handleInterrupts. cbv zeta.
  split_matches; cbn [fst]; auto.
Qed.

Lemma executeCB_cycles (s : CPU.mach) :
  let n := fst (CPU.executeCB s) in n = 8 \/ n = 12 \/ n = 16.
Proof.
  cbv zeta. unfold CPU.executeCB, CPU.fetch8. cbv zeta.
  split_matches; cbn [fst]; auto.
Qed.

Lemma execute_cycles (opcode : Z) (s : CPU.mach) :
  let n := fst (CPU.execute opcode s) in 4 <= n <= 24 /\ n mod 4 = 0.
Proof.
  cbv zeta.
  assert (CB : let n := fst (CPU.executeCB s) + 4 in 4 <= n <= 24 /\ n mod 4 = 0).
  { cbv zeta. destruct (executeCB_cycles s) as [E | [E | E]]; rewrite E;
      split; (lia || reflexivity). }
  cbv zeta in CB.
  unfold CPU.execute, CPU.fetch8, CPU.fetch16, CPU.pop16, CPU.inc8, CPU.dec8,
    CPU.rlc, CPU.rrc, CPU.rl, CPU.rr.
  destruct opcode as [|p|p]; [cbn [fst]; split; [lia|reflexivity]| |cbn [fst]; split; [lia|reflexivity]].
  do 8 (try destruct p as [p|p|]); cbv beta iota;
    try (cbn [fst]; split; [lia|reflexivity]).
  all: try match goal with |- context [if ?b then _ else _] => destruct b end.
  all: try (cbn [fst]; split; [lia|reflexivity]).
  destruct (CPU.executeCB s) as [n s']. cbn [fst] in *. exact CB.
Qed.

End CPUTiming.

(** On a machine whose image holds the whole of ROM bank 0, where every
    read of the bus is a defined one, a call of [CPU::step] takes between
    4 and 24 clocks, a multiple of four: whether the step dispatches an
    interrupt, idles in HALT or executes an instruction, defined or not.
    (Without a full bank 0 the fetch may be the unchecked [rom[addr]] past
    the end of the image, about which nothing is said.) *)
Theorem cpu_step_takes_4_to_24_clocks (s : CPU.mach) :
  Memory.bank0Present (snd s) ->
  let n := fst (CPU.step s) in 4 <= n <= 24 /\ n mod 4 = 0.
Proof.
  intros _. cbv zeta. unfold CPU.step. cbv zeta.
  match goal with
  | |- context [CPU.handleInterrupts ?x] =>
      pose proof (handleInterrupts_cycles x) as H;
      destruct (CPU.handleInterrupts x) as [n s1]
  end.
  cbn [fst] in H. destruct H as [-> | ->]; cbv beta iota.
  - change (0 <? 0) with false. cbv iota.
    destruct (CPUState.halted (fst s1)); [cbn [fst]; split; [lia|reflexivity]|].
    unfold CPU.fetch8. cbv beta iota. apply execute_cycles.
  - change (0 <? 20) with true. cbn [fst]. split; [lia|reflexivity].
Qed.

Lemma cpu_step_takes_4_to_24_clocks_witness :
  fst (CPU.step nop_machine) = 4 /\
  4 <= fst (CPU.step nop_machine) <= 24 /\ fst (CPU.step nop_machine) mod 4 = 0.
Proof.
  split; [vm_compute; reflexivity|].
  apply (cpu_step_takes_4_to_24_clocks nop_machine).
  unfold Memory.bank0Present. apply Z.leb_le. vm_compute. reflexivity.
Defined.
(** *** The flag register *)

Section CPUFlags.
Import CPUState.

Lemma low4_u8 (x : Z) : u8 x .& 0x0F = x .& 0x0F.
Proof. rewrite u8_land, <- Z.land_assoc. reflexivity. Qed.

Lemma low4_or (x k : Z) : k .& 0x0F = 0 -> (x .| k) .& 0x0F = x .& 0x0F.
Proof. intros H. rewrite Z.land_lor_distr_l, H, Z.lor_0_r. reflexivity. Qed.

Lemma low4_and (x k : Z) : k .& 0x0F = 0x0F -> (x .& k) .& 0x0F = x .& 0x0F.
Proof. intros H. rewrite <- Z.land_assoc, H. reflexivity. Qed.

Lemma flagsClean_set_f_bit (v : bool) (k : Z) (r : t) :
  k .& 0x0F = 0 -> cnot k .& 0x0F = 0x0F -> flagsClean r ->
  flagsClean (set_f (u8 (if v then f r .| k else f r .& cnot k)) r).
Proof.
  unfold flagsClean. intros H1 H2 H. cbn [f set_f]. rewrite low4_u8.
  destruct v; [rewrite low4_or by exact H1|rewrite low4_and by exact H2]; exact H.
Qed.

Lemma flagsClean_setZ (v : bool) (r : t) : flagsClean r -> flagsClean (setZ v r).
Proof. apply flagsClean_set_f_bit; reflexivity. Qed.

Lemma flagsClean_setN (v : bool) (r : t) : flagsClean r -> flagsClean (setN v r).
Proof. apply flagsClean_set_f_bit; reflexivity. Qed.

Lemma flagsClean_setH (v : bool) (r : t) : flagsClean r -> flagsClean (setH v r).
Proof. apply flagsClean_set_f_bit; reflexivity. Qed.

Lemma flagsClean_setC (v : bool) (r : t) : flagsClean r -> flagsClean (setC v r).
Proof. apply flagsClean_set_f_bit; reflexivity. Qed.

Lemma flagsClean_setFlags (z n h c : bool) (r : t) : flagsClean (setFlags z n h c r).
Proof. destruct z, n, h, c; reflexivity. Qed.

Lemma flagsClean_same (r r' : t) : f r' = f r -> flagsClean r -> flagsClean r'.
Proof. unfold flagsClean. intros ->. trivial. Qed.

Lemma flagsClean_set_a (v : Z) (r : t) : flagsClean r -> flagsClean (set_a v r).
Proof. apply flagsClean_same. reflexivity. Qed.
Lemma flagsClean_set_b (v : Z) (r : t) : flagsClean r -> flagsClean (set_b v r).
Proof. apply flagsClean_same. reflexivity. Qed.
Lemma flagsClean_set_c (v : Z) (r : t) : flagsClean r -> flagsClean (set_c v r).
Proof. apply flagsClean_same. reflexivity. Qed.
Lemma flagsClean_set_d (v : Z) (r : t) : flagsClean r -> flagsClean (set_d v r).
Proof. apply flagsClean_same. reflexivity. Qed.
Lemma flagsClean_set_e (v : Z) (r : t) : flagsClean r -> flagsClean (set_e v r).
Proof. apply flagsClean_same. reflexivity. Qed.
Lemma flagsClean_set_h (v : Z) (r : t) : flagsClean r -> flagsClean (set_h v r).
Proof. apply flagsClean_same. reflexivity. Qed.
Lemma flagsClean_set_l (v : Z) (r : t) : flagsClean r -> flagsClean (set_l v r).
Proof. apply flagsClean_same. reflexivity. Qed.
Lemma flagsClean_set_sp (v : Z) (r : t) : flagsClean r -> flagsClean (set_sp v r).
Proof. apply flagsClean_same. reflexivity. Qed.
Lemma flagsClean_set_pc (v : Z) (r : t) : flagsClean r -> flagsClean (set_pc v r).
Proof. apply flagsClean_same. reflexivity. Qed.
Lemma flagsClean_set_bc (v : Z) (r : t) : flagsClean r -> flagsClean (set_bc v r).
Proof. apply flagsClean_same. reflexivity. Qed.
Lemma flagsClean_set_de (v : Z) (r : t) : flagsClean r -> flagsClean (set_de v r).
Proof. apply flagsClean_same. reflexivity. Qed.
Lemma flagsClean_set_hl (v : Z) (r : t) : flagsClean r -> flagsClean (set_hl v r).
Proof. apply flagsClean_same. reflexivity. Qed.
Lemma flagsClean_set_ime (v : bool) (r : t) : flagsClean r -> flagsClean (set_ime v r).
Proof. apply flagsClean_same. reflexivity. Qed.
Lemma flagsClean_set_imeScheduled (v : bool) (r : t) :
  flagsClean r -> flagsClean (set_imeScheduled v r).
Proof. apply flagsClean_same. reflexivity. Qed.
Lemma flagsClean_set_halted (v : bool) (r : t) : flagsClean r -> flagsClean (set_halted v r).
Proof. apply flagsClean_same. reflexivity. Qed.
Lemma flagsClean_set_stopped (v : bool) (r : t) : flagsClean r -> flagsClean (set_stopped v r).
Proof. apply flagsClean_same. reflexivity. Qed.

(** POP AF masks the popped word with [0xFFF0]. *)
Lemma flagsClean_pop_af (v : Z) (r : t) : flagsClean (set_af (v .& 0xFFF0) r).
Proof.
  unfold flagsClean, set_af. cbn [f set_f set_a].
  rewrite <- !Z.land_assoc. change (0xFFF0 .& (0xFF .& 0x0F)) with 0.
  apply Z.land_0_r.
Qed.

Create HintDb flags.
#[local] Hint Resolve flagsClean_setZ flagsClean_setN flagsClean_setH flagsClean_setC
  flagsClean_setFlags flagsClean_set_a flagsClean_set_b flagsClean_set_c flagsClean_set_d
  flagsClean_set_e flagsClean_set_h flagsClean_set_l flagsClean_set_sp flagsClean_set_pc
  flagsClean_set_bc flagsClean_set_de flagsClean_set_hl flagsClean_set_ime
  flagsClean_set_imeScheduled flagsClean_set_halted flagsClean_set_stopped
  flagsClean_pop_af : flags.

Lemma flagsClean_alu (v : Z) (r : t) :
  flagsClean (CPU.add8 v r) /\ flagsClean (CPU.adc8 v r) /\ flagsClean (CPU.sub8 v r) /\
  flagsClean (CPU.sbc8 v r) /\ flagsClean (CPU.and8 v r) /\ flagsClean (CPU.or8 v r) /\
  flagsClean (CPU.xor8 v r) /\ flagsClean (CPU.cp8 v r).
Proof.
  unfold CPU.add8, CPU.adc8, CPU.sub8, CPU.sbc8, CPU.and8, CPU.or8, CPU.xor8, CPU.cp8.
  cbv zeta. repeat split; auto with flags.
Qed.

Lemma flagsClean_add8 (v : Z) (r : t) : flagsClean (CPU.add8 v r).
Proof. apply flagsClean_alu. Qed.
Lemma flagsClean_adc8 (v : Z) (r : t) : flagsClean (CPU.adc8 v r).
Proof. apply flagsClean_alu. Qed.
Lemma flagsClean_sub8 (v : Z) (r : t) : flagsClean (CPU.sub8 v r).
Proof. apply flagsClean_alu. Qed.
Lemma flagsClean_sbc8 (v : Z) (r : t) : flagsClean (CPU.sbc8 v r).
Proof. apply flagsClean_alu. Qed.
Lemma flagsClean_and8 (v : Z) (r : t) : flagsClean (CPU.and8 v r).
Proof. apply flagsClean_alu. Qed.
Lemma flagsClean_or8 (v : Z) (r : t) : flagsClean (CPU.or8 v r).
Proof. apply flagsClean_alu. Qed.
Lemma flagsClean_xor8 (v : Z) (r : t) : flagsClean (CPU.xor8 v r).
Proof. apply flagsClean_alu. Qed.
Lemma flagsClean_cp8 (v : Z) (r : t) : flagsClean (CPU.cp8 v r).
Proof. apply flagsClean_alu. Qed.

Lemma flagsClean_add16hl (v : Z) (r : t) : flagsClean r -> flagsClean (CPU.add16hl v r).
Proof. intros H. unfold CPU.add16hl. cbv zeta. auto 8 with flags. Qed.

Lemma flagsClean_addSP (v : Z) (r : t) : flagsClean (CPU.addSP v r).
Proof. unfold CPU.addSP. cbv zeta. auto with flags. Qed.

Lemma flagsClean_ldHLSP (v : Z) (r : t) : flagsClean (CPU.ldHLSP v r).
Proof. unfold CPU.ldHLSP. cbv zeta. auto with flags. Qed.

Lemma flagsClean_daa (r : t) : flagsClean r -> flagsClean (CPU.daa r).
Proof.
  intros H. unfold CPU.daa. cbv zeta.
  destruct (getN r).
  - auto 8 with flags.
  - destruct (getC r || (0x99 <? a r)); auto 8 with flags.
Qed.

#[local] Hint Resolve flagsClean_add8 flagsClean_adc8 flagsClean_sub8 flagsClean_sbc8
  flagsClean_and8 flagsClean_or8 flagsClean_xor8 flagsClean_cp8 flagsClean_add16hl
  flagsClean_addSP flagsClean_ldHLSP flagsClean_daa : flags.

Ltac open_cpu :=
  unfold CPU.fetch8, CPU.fetch16, CPU.pop16, CPU.push16, CPU.write16, CPU.write8,
    CPU.onM, CPU.onC, CPU.inc8, CPU.dec8, CPU.rlc, CPU.rrc, CPU.rl, CPU.rr, CPU.sla,
    CPU.sra, CPU.swap, CPU.srl, CPU.bit;
  cbv beta iota zeta; cbn [fst snd].

Lemma setReg_flagsClean (reg v : Z) (r : t) :
  flagsClean r -> flagsClean (CPU.setReg reg v r).
Proof.
  intros H. unfold CPU.setReg.
  repeat match goal with |- context [match ?x with _ => _ end] => destruct x end;
    auto with flags.
Qed.

#[local] Hint Resolve setReg_flagsClean : flags.

Lemma executeCB_flagsClean (s : CPU.mach) :
  flagsClean (fst s) -> flagsClean (fst (snd (CPU.executeCB s))).
Proof.
  intros H. unfold CPU.executeCB. open_cpu.
  repeat (cbv beta iota;
          match goal with
          | |- context [match ?x with _ => _ end] => destruct x
          end); cbn [fst snd]; auto 8 with flags.
Qed.

Lemma execute_flagsClean (opcode : Z) (s : CPU.mach) :
  flagsClean (fst s) -> flagsClean (fst (snd (CPU.execute opcode s))).
Proof.
  intros H. pose proof (executeCB_flagsClean s H) as CB.
  unfold CPU.execute.
  destruct opcode as [|p|p]; [exact H| |exact H].
  do 8 (try destruct p as [p|p|]); cbv beta iota; try exact H.
  all: try (destruct (CPU.executeCB s) as [n s']; exact CB).
  all: open_cpu.
  all: try match goal with |- context [if ?b then _ else _] => destruct b end.
  all: cbn [fst snd]; auto 8 with flags.
Qed.

Lemma handleInterrupts_flagsClean (s : CPU.mach) :
  flagsClean (fst s) -> flagsClean (fst (snd (CPU.handleInterrupts s))).
Proof.
  intros H. unfold CPU.handleInterrupts. cbv zeta.
  repeat (cbv beta iota;
          match goal with
          | |- context [match ?x with _ => _ end] => destruct x
          end); open_cpu; auto 8 with flags.
Qed.

Lemma step_flagsClean (s : CPU.mach) :
  flagsClean (fst s) -> flagsClean (fst (snd (CPU.step s))).
Proof.
  intros H. unfold CPU.step. cbv zeta.
  match goal with
  | |- context [CPU.handleInterrupts ?x] =>
      assert (H1 : flagsClean (fst x))
        by (destruct (imeScheduled (fst s)); open_cpu; auto with flags);
      pose proof (handleInterrupts_flagsClean x H1) as H2;
      destruct (CPU.handleInterrupts x) as [n s1]
  end.
  cbn [fst snd] in H2. cbv beta iota.
  destruct (0 <? n); [exact H2|].
  destruct (halted (fst s1)); [exact H2|].
  unfold CPU.fetch8. cbv beta iota. apply execute_flagsClean.
  unfold CPU.onC. cbn [fst]. auto with flags.
Qed.

End CPUFlags.

(** The low four bits of the flag register F always read zero: they are
    zero after construction, and no step of the CPU, on any bus and with any
    program, sets one of them. *)
Theorem flag_register_low_bits_stay_clear (m : MemoryState.t) (n : nat) :
  CPUState.f (fst (steps n (CPU.reset, m))) .& 0x0F = 0.
Proof.
  change (flagsClean (fst (steps n (CPU.reset, m)))).
  induction n as [|n IH].
  - reflexivity.
  - unfold steps in *. cbn [Nat.iter]. apply step_flagsClean. exact IH.
Qed.
(** *** The ALU *)

Section ALU.
Import CPUState.

Lemma getC_setFlags (z n h c : bool) (r : t) : getC (setFlags z n h c r) = c.
Proof. destruct z, n, h, c; reflexivity. Qed.

Lemma getC_set_a (v : Z) (r : t) : getC (set_a v r) = getC r.
Proof. reflexivity. Qed.

Lemma land_byte (x : Z) : x .& 0xFF = x mod 256.
Proof. apply (Z.land_ones x 8). lia. Qed.

Lemma In_bytes (v : Z) : is_u8 v -> In v (seqZ 0 256).
Proof. unfold is_u8. intros H. apply list_elem_of_In, elem_of_seqZ. lia. Qed.

(** A check that holds on each of the 256 bytes holds on every byte. *)
Lemma byte_table (P : Z -> bool) :
  forallb P (seqZ 0 256) = true -> forall v, is_u8 v -> P v = true.
Proof.
  intros T v Hv. rewrite forallb_forall in T. apply T, In_bytes, Hv.
Qed.

Lemma In_bcd (x : Z) : isBcd x = true -> In x (List.filter isBcd (seqZ 0 256)).
Proof.
  intros H. apply filter_In. split; [|exact H].
  apply In_bytes. unfold isBcd in H.
  apply andb_true_iff in H. destruct H as [H H2].
  apply andb_true_iff in H. destruct H as [H0 H1].
  apply Z.leb_le in H0, H1, H2. unfold is_u8.
  pose proof (Z.div_mod x 16 ltac:(lia)). pose proof (Z.mod_pos_bound x 16 ltac:(lia)). lia.
Qed.

Lemma bcd_table (P : Z -> Z -> bool) :
  forallb (fun x => forallb (P x) (List.filter isBcd (seqZ 0 256))) (List.filter isBcd (seqZ 0 256))
  = true ->
  forall x y, isBcd x = true -> isBcd y = true -> P x y = true.
Proof.
  intros T x y Hx Hy. rewrite forallb_forall in T.
  specialize (T x (In_bcd x Hx)). rewrite forallb_forall in T.
  apply T, In_bcd, Hy.
Qed.

(** The ALU reads and writes the accumulator and the flags only. *)
Lemma add8_accFlags (x y : Z) (r : t) :
  accFlags (CPU.add8 y (set_a x r)) = accFlags (CPU.add8 y (set_a x zeroed)).
Proof. reflexivity. Qed.

Lemma sub8_accFlags (x y : Z) (r : t) :
  accFlags (CPU.sub8 y (set_a x r)) = accFlags (CPU.sub8 y (set_a x zeroed)).
Proof. reflexivity. Qed.

Lemma daa_accFlags (r r' : t) : accFlags r = accFlags r' -> accFlags (CPU.daa r) = accFlags (CPU.daa r').
Proof.
  destruct r as [a0 f0 b0 c0 d0 e0 h0 l0 sp0 pc0 i0 j0 k0 s0].
  destruct r' as [a1 f1 b1 c1 d1 e1 h1 l1 sp1 pc1 i1 j1 k1 s1].
  unfold accFlags. cbn [a f]. intros H. injection H as -> ->.
  cbv [CPU.daa getN getC getH setC setZ setH a f set_a set_f].
  repeat match goal with |- context [if ?b then _ else _] => destruct b end;
    reflexivity.
Qed.

End ALU.

(** Multi-byte arithmetic chains through the carry flag.  Adding the low
    bytes with ADD and then the high bytes with ADC gives the 16-bit sum of
    the two words, and the final carry tells whether the sum passed 0xFFFF;
    SUB followed by SBC gives the 16-bit difference, and the final carry is
    the borrow. *)
Theorem carry_chains_through_two_bytes (r : CPUState.t) (xh xl yh yl : Z) :
  is_u8 xh -> is_u8 xl -> is_u8 yh -> is_u8 yl ->
  let lo := CPU.add8 yl (CPUState.set_a xl r) in
  let hi := CPU.adc8 yh (CPUState.set_a xh lo) in
  let lo' := CPU.sub8 yl (CPUState.set_a xl r) in
  let hi' := CPU.sbc8 yh (CPUState.set_a xh lo') in
  word (CPUState.a hi) (CPUState.a lo) = (word xh xl + word yh yl) mod 65536 /\
  CPUState.getC hi = (0xFFFF <? word xh xl + word yh yl) /\
  word (CPUState.a hi') (CPUState.a lo') = (word xh xl - word yh yl) mod 65536 /\
  CPUState.getC hi' = (word xh xl <? word yh yl).
Proof.
  unfold is_u8, word. intros Hxh Hxl Hyh Hyl. cbv zeta.
  unfold CPU.adc8, CPU.sbc8. cbv zeta.
  assert (C1 : CPUState.getC (CPUState.set_a xh (CPU.add8 yl (CPUState.set_a xl r)))
               = (0xFF <? xl + yl)).
  { unfold CPU.add8. cbv zeta. apply getC_setFlags. }
  assert (C2 : CPUState.getC (CPUState.set_a xh (CPU.sub8 yl (CPUState.set_a xl r)))
               = (xl <? yl)).
  { unfold CPU.sub8. cbv zeta. apply getC_setFlags. }
  rewrite C1, C2, !getC_set_a, !getC_setFlags.
  unfold CPU.add8, CPU.sub8. cbv zeta.
  cbn [CPUState.a CPUState.set_a CPUState.setFlags CPUState.set_f].
  rewrite !land_byte.
  repeat split.
  - destruct (Z.ltb_spec 0xFF (xl + yl)); Z.div_mod_to_equations; lia.
  - destruct (Z.ltb_spec 0xFF (xl + yl));
      destruct (Z.ltb_spec 0xFF (xh + yh + 1));
      destruct (Z.ltb_spec 0xFF (xh + yh + 0));
      destruct (Z.ltb_spec 0xFFFF (xh * 256 + xl + (yh * 256 + yl))); try reflexivity; lia.
  - destruct (Z.ltb_spec xl yl); Z.div_mod_to_equations; lia.
  - destruct (Z.ltb_spec xl yl);
      destruct (Z.ltb_spec (xh - yh - 1) 0);
      destruct (Z.ltb_spec (xh - yh - 0) 0);
      destruct (Z.ltb_spec (xh * 256 + xl) (yh * 256 + yl)); try reflexivity; lia.
Qed.

Lemma carry_chains_through_two_bytes_witness :
  word (CPUState.a (CPU.adc8 0x12 (CPUState.set_a 0x34
          (CPU.add8 0xFF (CPUState.set_a 0x01 CPU.reset)))))
       (CPUState.a (CPU.add8 0xFF (CPUState.set_a 0x01 CPU.reset)))
  = (word 0x34 0x01 + word 0x12 0xFF) mod 65536.
Proof.
  apply (carry_chains_through_two_bytes CPU.reset 0x34 0x01 0x12 0xFF);
    unfold is_u8; lia.
Defined.

(** CP compares by subtracting: it sets the four flags exactly as SUB does
    for the same operand, and leaves the accumulator as it was. *)
Theorem cp_sets_the_flags_of_sub (r : CPUState.t) (v : Z) :
  is_u8 (CPUState.a r) -> is_u8 v ->
  CPUState.f (CPU.cp8 v r) = CPUState.f (CPU.sub8 v r) /\
  CPUState.a (CPU.cp8 v r) = CPUState.a r.
Proof.
  unfold is_u8. intros Ha Hv. split; [|reflexivity].
  unfold CPU.cp8, CPU.sub8. cbv zeta.
  cbn [CPUState.f CPUState.set_a CPUState.setFlags CPUState.set_f].
  rewrite land_byte.
  replace ((CPUState.a r - v) mod 256 =? 0) with (CPUState.a r =? v); [reflexivity|].
  destruct (Z.eqb_spec (CPUState.a r) v) as [E|E];
    destruct (Z.eqb_spec ((CPUState.a r - v) mod 256) 0) as [E'|E']; try reflexivity;
    exfalso; Z.div_mod_to_equations; lia.
Qed.

Lemma cp_sets_the_flags_of_sub_witness :
  CPUState.f (CPU.cp8 0x90 CPU.reset) = CPUState.f (CPU.sub8 0x90 CPU.reset) /\
  CPUState.a (CPU.cp8 0x90 CPU.reset) = CPUState.a CPU.reset.
Proof.
  apply (cp_sets_the_flags_of_sub CPU.reset 0x90);
    unfold is_u8; cbn [CPU.reset CPUState.a CPUState.set_a CPUState.set_af CPUState.set_bc
                         CPUState.set_de CPUState.set_hl CPUState.set_sp CPUState.set_pc
                         CPUState.set_f CPUState.set_b CPUState.set_c CPUState.set_d
                         CPUState.set_e CPUState.set_h CPUState.set_l];
    change (0x01B0 >> 8) with 1; lia.
Defined.

(** DAA turns the result of a binary addition or subtraction of two packed
    BCD bytes into the packed BCD result: after ADD the accumulator holds
    the decimal sum modulo 100 with the carry set exactly if the sum reached
    100, after SUB the decimal difference modulo 100 with the carry set
    exactly if it borrowed; the zero flag follows the accumulator and the
    half carry is cleared. *)
Theorem daa_gives_decimal_sum_and_difference (r : CPUState.t) (x y : Z) :
  isBcd x = true -> isBcd y = true ->
  let s := CPU.daa (CPU.add8 y (CPUState.set_a x r)) in
  let d := CPU.daa (CPU.sub8 y (CPUState.set_a x r)) in
  (isBcd (CPUState.a s) = true /\
   bcdValue (CPUState.a s) = (bcdValue x + bcdValue y) mod 100 /\
   CPUState.getC s = (100 <=? bcdValue x + bcdValue y) /\
   CPUState.getZ s = (CPUState.a s =? 0) /\ CPUState.getH s = false) /\
  (isBcd (CPUState.a d) = true /\
   bcdValue (CPUState.a d) = (bcdValue x - bcdValue y) mod 100 /\
   CPUState.getC d = (bcdValue x <? bcdValue y) /\
   CPUState.getZ d = (CPUState.a d =? 0) /\ CPUState.getH d = false).
Proof.
  intros Hx Hy. cbv zeta.
  pose (ok := fun (af : Z * Z) (v : Z) (c : bool) =>
                isBcd (fst af) && (bcdValue (fst af) =? v)
                && Bool.eqb (nz (snd af .& 0x10)) c
                && Bool.eqb (nz (snd af .& 0x80)) (fst af =? 0)
                && negb (nz (snd af .& 0x20))).
  assert (OK : forall q v c, ok (accFlags q) v c = true ->
                 isBcd (CPUState.a q) = true /\ bcdValue (CPUState.a q) = v /\
                 CPUState.getC q = c /\ CPUState.getZ q = (CPUState.a q =? 0) /\
                 CPUState.getH q = false).
  { intros q v c H. unfold ok, accFlags in H. cbn [fst snd] in H.
    do 4 (apply andb_true_iff in H; destruct H as [H ?]).
    repeat split.
    - exact H.
    - apply Z.eqb_eq. assumption.
    - apply Bool.eqb_prop. assumption.
    - apply Bool.eqb_prop. assumption.
    - apply negb_true_iff. assumption. }
  pose (P := fun x y =>
               ok (accFlags (CPU.daa (CPU.add8 y (CPUState.set_a x zeroed))))
                  ((bcdValue x + bcdValue y) mod 100) (100 <=? bcdValue x + bcdValue y)
               && ok (accFlags (CPU.daa (CPU.sub8 y (CPUState.set_a x zeroed))))
                     ((bcdValue x - bcdValue y) mod 100) (bcdValue x <? bcdValue y)).
  assert (T : P x y = true).
  { apply (bcd_table P); [|exact Hx|exact Hy]. vm_compute. reflexivity. }
  unfold P in T. apply andb_true_iff in T. destruct T as [T1 T2].
  rewrite <- (daa_accFlags _ _ (add8_accFlags x y r)) in T1.
  rewrite <- (daa_accFlags _ _ (sub8_accFlags x y r)) in T2.
  split; apply OK; assumption.
Qed.

Lemma daa_gives_decimal_sum_and_difference_witness :
  bcdValue (CPUState.a (CPU.daa (CPU.add8 0x38 (CPUState.set_a 0x45 CPU.reset))))
  = (bcdValue 0x45 + bcdValue 0x38) mod 100.
Proof.
  apply (daa_gives_decimal_sum_and_difference CPU.reset 0x45 0x38); reflexivity.
Defined.

(** The rotations undo each other on every byte: RRC undoes RLC and RLC
    undoes RRC, SWAP undoes itself, and RR undoes RL through the carry,
    giving back the byte and the carry flag it started from. *)
Theorem rotations_undo_each_other (r r' : CPUState.t) (v : Z) :
  is_u8 v ->
  fst (CPU.rrc (fst (CPU.rlc v r)) r') = v /\
  fst (CPU.rlc (fst (CPU.rrc v r)) r') = v /\
  fst (CPU.swap (fst (CPU.swap v r)) r') = v /\
  fst (CPU.rr (fst (CPU.rl v r)) (snd (CPU.rl v r))) = v /\
  CPUState.getC (snd (CPU.rr (fst (CPU.rl v r)) (snd (CPU.rl v r)))) = CPUState.getC r.
Proof.
  intros Hv.
  unfold CPU.rrc, CPU.rlc, CPU.swap, CPU.rr, CPU.rl. cbv zeta. cbn [fst snd].
  rewrite !getC_setFlags.
  pose (P := fun v =>
               (u8 ((u8 ((v << 1) .| (v >> 7)) >> 1) .| (u8 ((v << 1) .| (v >> 7)) << 7)) =? v)
               && (u8 ((u8 ((v >> 1) .| (v << 7)) << 1) .| (u8 ((v >> 1) .| (v << 7)) >> 7)) =? v)
               && (u8 (((u8 (((v .& 0xF) << 4) .| ((v .& 0xF0) >> 4)) .& 0xF) << 4)
                       .| ((u8 (((v .& 0xF) << 4) .| ((v .& 0xF0) >> 4)) .& 0xF0) >> 4)) =? v)
               && forallb (fun c : bool =>
                    (u8 ((u8 ((v << 1) .| (if c then 1 else 0)) >> 1)
                         .| (if nz (v .& 0x80) then 0x80 else 0)) =? v)
                    && Bool.eqb (nz (u8 ((v << 1) .| (if c then 1 else 0)) .& 0x01)) c)
                    [true; false]).
  assert (T : P v = true).
  { apply (byte_table P); [|exact Hv]. vm_compute. reflexivity. }
  unfold P in T.
  repeat (apply andb_true_iff in T; destruct T as [T ?]).
  repeat split; try (apply Z.eqb_eq; assumption).
  - match goal with H : forallb _ _ = true |- _ => rewrite forallb_forall in H;
      specialize (H (CPUState.getC r)) end.
    destruct (CPUState.getC r); (apply Z.eqb_eq;
      match goal with H : _ -> _ |- _ =>
        specialize (H ltac:(cbn; auto)); apply andb_true_iff in H; apply H end).
  - match goal with H : forallb _ _ = true |- _ => rewrite forallb_forall in H;
      specialize (H (CPUState.getC r)) end.
    destruct (CPUState.getC r); (apply Bool.eqb_prop;
      match goal with H : _ -> _ |- _ =>
        specialize (H ltac:(cbn; auto)); apply andb_true_iff in H; apply H end).
Qed.

Lemma rotations_undo_each_other_witness :
  fst (CPU.rrc (fst (CPU.rlc 0x85 CPU.reset)) CPU.reset) = 0x85.
Proof.
  apply (rotations_undo_each_other CPU.reset CPU.reset 0x85). unfold is_u8. lia.
Defined.
(** *** The stack *)

Section Stack.
Import CPUState.

Lemma lor_shift8 (lo hi : Z) : 0 <= lo < 256 -> 0 <= hi -> lo .| (hi << 8) = lo + 256 * hi.
Proof.
  intros Hlo Hhi.
  assert (D : lo .& (hi << 8) = 0).
  { apply Z.bits_inj'. intros n Hn. rewrite Z.land_spec, Z.bits_0.
    destruct (Z.lt_ge_cases n 8).
    - rewrite Z.shiftl_spec_low by lia. apply andb_false_r.
    - rewrite (testbit_above lo 8 n) by lia. reflexivity. }
  rewrite <- Z.lxor_lor by exact D. rewrite <- Z.add_nocarry_lxor by exact D.
  rewrite Z.shiftl_mul_pow2 by lia. change (2 ^ 8) with 256. lia.
Qed.

(** The two bytes [write16] stores make the word again. *)
Lemma word_of_bytes (v : Z) :
  is_u16 v -> u16 ((v .& 0xFF) .| (u8 (v >> 8) << 8)) = v.
Proof.
  unfold is_u16, u16, u8. intros H.
  rewrite land_byte. rewrite Z.shiftr_div_pow2 by lia.
  change (2 ^ 8) with 256.
  rewrite lor_shift8 by (Z.div_mod_to_equations; lia).
  Z.div_mod_to_equations. lia.
Qed.

Lemma push16_unfold (v : Z) (r : t) (m : MemoryState.t) :
  CPU.push16 v (r, m)
  = (set_sp (u16 (sp r - 2)) r,
     Memory.write (u16 (u16 (sp r - 2) + 1)) (u8 (v >> 8))
       (Memory.write (u16 (sp r - 2)) (v .& 0xFF) m)).
Proof. reflexivity. Qed.

Lemma pop16_unfold (r : t) (m : MemoryState.t) :
  CPU.pop16 (r, m)
  = (u16 (Memory.read (sp r) m .| (Memory.read (u16 (sp r + 1)) m << 8)),
     (set_sp (u16 (sp r + 2)) r, m)).
Proof. reflexivity. Qed.

(** A word stored below [addr + 2] reads back. *)
Lemma stack_cells (addr v : Z) (m : MemoryState.t) :
  is_u16 v ->
  stackRoom m (addr + 2) ->
  let m' := Memory.write (u16 (addr + 1)) (u8 (v >> 8)) (Memory.write addr (v .& 0xFF) m) in
  u16 (Memory.read addr m' .| (Memory.read (u16 (addr + 1)) m' << 8)) = v.
Proof.
  intros Hv Room. cbv zeta.
  destruct Room as [[Ha Hs] | [Ha Hs]].
  - assert (U : u16 (addr + 1) = addr + 1) by (apply u16_id; unfold is_u16; lia).
    rewrite U.
    rewrite (write_wram addr) by lia.
    rewrite (write_wram (addr + 1)) by lia.
    rewrite !read_wram by lia.
    cbn [MemoryState.wram MemoryState.set_wram].
    rewrite (idx_upd_other _ (addr + 1 - 0xC000) (addr - 0xC000)) by lia.
    rewrite !idx_upd_same by (rewrite ?size_upd; lia).
    apply word_of_bytes; exact Hv.
  - assert (U : u16 (addr + 1) = addr + 1) by (apply u16_id; unfold is_u16; lia).
    rewrite U.
    rewrite (write_hram addr) by lia.
    rewrite (write_hram (addr + 1)) by lia.
    rewrite !read_hram by lia.
    cbn [MemoryState.hram MemoryState.set_hram].
    rewrite (idx_upd_other _ (addr + 1 - 0xFF80) (addr - 0xFF80)) by lia.
    rewrite !idx_upd_same by (rewrite ?size_upd; lia).
    apply word_of_bytes; exact Hv.
Qed.

(** What was pushed is popped, also after the registers other than SP have
    changed in between. *)
Lemma push16_pop16 (v : Z) (r : t) (m : MemoryState.t) (g : t -> t) :
  is_u16 v ->
  stackRoom m (sp r) ->
  (forall q, sp (g q) = sp q) ->
  let s1 := CPU.push16 v (r, m) in
  sp (fst s1) = sp r - 2 /\
  fst (CPU.pop16 (CPU.onC g s1)) = v /\
  sp (fst (snd (CPU.pop16 (CPU.onC g s1)))) = sp r.
Proof.
  intros Hv Room G. cbv zeta.
  assert (R : 2 <= sp r <= 0xFFFF) by (destruct Room as [[? _] | [? _]]; lia).
  assert (U : u16 (sp r - 2) = sp r - 2) by (apply u16_id; unfold is_u16; lia).
  rewrite push16_unfold. unfold CPU.onC. cbn [fst snd].
  rewrite pop16_unfold. cbn [fst snd]. rewrite !G. cbn [sp set_sp].
  rewrite U.
  split; [reflexivity|]. split.
  - apply stack_cells; [exact Hv|]. replace (sp r - 2 + 2) with (sp r) by lia. exact Room.
  - rewrite u16_id by (unfold is_u16; lia). lia.
Qed.

Lemma execute_call (r : t) (m : MemoryState.t) :
  CPU.execute 0xCD (r, m)
  = (24, CPU.onC (set_pc (CPU.read16 (pc r) (r, m)))
           (CPU.push16 (u16 (pc r + 2)) (set_pc (u16 (pc r + 2)) r, m))).
Proof. reflexivity. Qed.

Lemma execute_ret (s : CPU.mach) :
  CPU.execute 0xC9 s = (16, CPU.onC (set_pc (fst (CPU.pop16 s))) (snd (CPU.pop16 s))).
Proof. reflexivity. Qed.

End Stack.

(** CALL and RET pair up.  With the two bytes below SP in work RAM or in
    high RAM, CALL takes 24 clocks, jumps to its operand and moves SP down
    by two; a RET executed from there takes 16 clocks, comes back to the
    instruction after the CALL and puts SP back where it was. *)
Theorem call_then_ret_comes_back (r : CPUState.t) (m : MemoryState.t) :
  stackRoom m (CPUState.sp r) ->
  let c := CPU.execute 0xCD (r, m) in
  let t := CPU.execute 0xC9 (snd c) in
  fst c = 24 /\
  CPUState.pc (fst (snd c)) = CPU.read16 (CPUState.pc r) (r, m) /\
  CPUState.sp (fst (snd c)) = CPUState.sp r - 2 /\
  fst t = 16 /\
  CPUState.pc (fst (snd t)) = u16 (CPUState.pc r + 2) /\
  CPUState.sp (fst (snd t)) = CPUState.sp r.
Proof.
  intros Room. cbv zeta.
  rewrite execute_call. cbn [fst snd]. rewrite execute_ret. cbn [fst snd].
  generalize (CPU.read16 (CPUState.pc r) (r, m)). intros tgt.
  destruct (push16_pop16 (u16 (CPUState.pc r + 2))
              (CPUState.set_pc (u16 (CPUState.pc r + 2)) r) m (CPUState.set_pc tgt)
              (u16_range _) Room (fun q => eq_refl))
    as (S1 & V & S2).
  cbv zeta in S1, V, S2. cbn [CPUState.sp CPUState.set_pc] in S1, S2.
  revert S1 V S2.
  generalize (CPU.push16 (u16 (CPUState.pc r + 2))
                (CPUState.set_pc (u16 (CPUState.pc r + 2)) r, m)).
  intros s1 S1 V S2.
  rewrite V.
  split; [reflexivity|]. split; [reflexivity|]. split; [exact S1|].
  split; [reflexivity|]. split; [reflexivity|].
  unfold CPU.onC at 1. cbn [fst CPUState.sp CPUState.set_pc]. exact S2.
Qed.

Lemma call_then_ret_comes_back_witness :
  CPUState.pc (fst (snd (CPU.execute 0xC9 (snd (CPU.execute 0xCD (CPU.reset, Memory.new))))))
  = u16 (CPUState.pc CPU.reset + 2).
Proof.
  apply (call_then_ret_comes_back CPU.reset Memory.new).
  right. split; [|reflexivity].
  change (CPUState.sp CPU.reset) with 0xFFFE. lia.
Defined.
(** *** The regular blocks of the opcode table *)

Section Decode.

Lemma field_cases (k : Z) :
  0 <= k < 8 -> k = 0 \/ k = 1 \/ k = 2 \/ k = 3 \/ k = 4 \/ k = 5 \/ k = 6 \/ k = 7.
Proof. lia. Qed.

End Decode.

(** The 63 loads of the block 0x40..0x7F are each the load its fields name:
    opcode [0x40 + 8 * dst + src] copies the operand named by [src] into the
    register named by [dst], or stores it at (HL) when [dst] is 6, and
    changes nothing else; it takes 4 clocks between registers and 8 when
    (HL) is involved.  (Both fields 6 is HALT.) *)
Theorem load_block_follows_its_fields (dst src : Z) (s : CPU.mach) :
  0 <= dst < 8 -> 0 <= src < 8 -> ~ (dst = 6 /\ src = 6) ->
  CPU.execute (0x40 + 8 * dst + src) s
  = if dst =? 6
    then (8, CPU.write8 (CPUState.hl (fst s)) (CPU.getReg src (fst s)) s)
    else (if src =? 6 then 8 else 4, CPU.onC (CPU.setReg dst (operand src s)) s).
Proof.
  intros Hd Hs N.
  destruct (field_cases dst Hd) as [-> | [-> | [-> | [-> | [-> | [-> | [-> | ->]]]]]]];
    destruct (field_cases src Hs) as [-> | [-> | [-> | [-> | [-> | [-> | [-> | ->]]]]]]];
    try reflexivity.
  exfalso. apply N. split; reflexivity.
Qed.

Lemma load_block_follows_its_fields_witness :
  CPU.execute 0x53 (CPU.reset, Memory.new)
  = (4, CPU.onC (CPU.setReg 2 (operand 3 (CPU.reset, Memory.new))) (CPU.reset, Memory.new)).
Proof.
  apply (load_block_follows_its_fields 2 3 (CPU.reset, Memory.new)); lia.
Defined.

(** The 64 opcodes of the block 0x80..0xBF are each the ALU operation their
    fields name: opcode [0x80 + 8 * k + src] applies the [k]-th of ADD, ADC,
    SUB, SBC, AND, XOR, OR, CP to the operand named by [src], in 4 clocks,
    or 8 for (HL); and opcode [0xC6 + 8 * k] applies it to the byte that
    follows the opcode, in 8 clocks. *)
Theorem alu_block_follows_its_fields (k src : Z) (s : CPU.mach) :
  0 <= k < 8 -> 0 <= src < 8 ->
  CPU.execute (0x80 + 8 * k + src) s
  = (if src =? 6 then 8 else 4, CPU.onC (alu k (operand src s)) s) /\
  CPU.execute (0xC6 + 8 * k) s
  = (8, CPU.onC (alu k (fst (CPU.fetch8 s))) (snd (CPU.fetch8 s))).
Proof.
  intros Hk Hs.
  destruct (field_cases k Hk) as [-> | [-> | [-> | [-> | [-> | [-> | [-> | ->]]]]]]];
    destruct (field_cases src Hs) as [-> | [-> | [-> | [-> | [-> | [-> | [-> | ->]]]]]]];
    split; reflexivity.
Qed.

Lemma alu_block_follows_its_fields_witness :
  CPU.execute 0xAE (CPU.reset, Memory.new)
  = (8, CPU.onC (alu 5 (operand 6 (CPU.reset, Memory.new))) (CPU.reset, Memory.new)).
Proof.
  apply (alu_block_follows_its_fields 5 6 (CPU.reset, Memory.new)); lia.
Defined.
(** *** The bit instructions of the CB page *)

Section BitInstructions.
Import CPUState.

(** [set], [res] and [bit] on a byte, bit by bit. *)
Lemma bit_ops_table (v : Z) (b : Z) :
  is_u8 v -> 0 <= b < 8 ->
  CPU.set b v = Z.setbit v b /\ CPU.res b v = Z.clearbit v b /\
  ((v .& (1 << b)) =? 0) = negb (Z.testbit v b).
Proof.
  intros Hv Hb.
  pose (P := fun v => forallb (fun b => (CPU.set b v =? Z.setbit v b)
                                        && (CPU.res b v =? Z.clearbit v b)
                                        && Bool.eqb ((v .& (1 << b)) =? 0)
                                                    (negb (Z.testbit v b)))
                        (seqZ 0 8)).
  assert (T : P v = true).
  { apply (byte_table P); [|exact Hv]. vm_compute. reflexivity. }
  unfold P in T. rewrite forallb_forall in T.
  specialize (T b ltac:(apply list_elem_of_In, elem_of_seqZ; lia)).
  apply andb_true_iff in T. destruct T as [T T3].
  apply andb_true_iff in T. destruct T as [T1 T2].
  split; [apply Z.eqb_eq; exact T1|]. split; [apply Z.eqb_eq; exact T2|].
  apply Bool.eqb_prop. exact T3.
Qed.

Ltac run_cb H :=
  unfold CPU.executeCB, CPU.fetch8, CPU.read8; cbn [fst snd];
  rewrite H; reflexivity.

Ltac each_field Hb Hr N :=
  destruct (field_cases _ Hb) as [-> | [-> | [-> | [-> | [-> | [-> | [-> | ->]]]]]]];
  destruct (field_cases _ Hr) as [-> | [-> | [-> | [-> | [-> | [-> | [-> | ->]]]]]]];
  try (exfalso; apply N; reflexivity).

Lemma executeCB_bit (b reg : Z) (r : t) (m : MemoryState.t) :
  0 <= b < 8 -> 0 <= reg < 8 -> reg <> 6 ->
  Memory.read (pc r) m = 0x40 + 8 * b + reg ->
  CPU.executeCB (r, m)
  = (8, (CPU.bit b (CPU.getReg reg r) (set_pc (u16 (pc r + 1)) r), m)).
Proof. intros Hb Hr N H. each_field Hb Hr N; run_cb H. Qed.

Lemma executeCB_res (b reg : Z) (r : t) (m : MemoryState.t) :
  0 <= b < 8 -> 0 <= reg < 8 -> reg <> 6 ->
  Memory.read (pc r) m = 0x80 + 8 * b + reg ->
  CPU.executeCB (r, m)
  = (8, (CPU.setReg reg (CPU.res b (CPU.getReg reg r)) (set_pc (u16 (pc r + 1)) r), m)).
Proof. intros Hb Hr N H. each_field Hb Hr N; run_cb H. Qed.

Lemma executeCB_set (b reg : Z) (r : t) (m : MemoryState.t) :
  0 <= b < 8 -> 0 <= reg < 8 -> reg <> 6 ->
  Memory.read (pc r) m = 0xC0 + 8 * b + reg ->
  CPU.executeCB (r, m)
  = (8, (CPU.setReg reg (CPU.set b (CPU.getReg reg r)) (set_pc (u16 (pc r + 1)) r), m)).
Proof. intros Hb Hr N H. each_field Hb Hr N; run_cb H. Qed.

End BitInstructions.

(** The bit instructions of the CB page do what their fields say.  With a
    byte in the register named by [reg], the opcode [0x40 + 8 * b + reg]
    (BIT) sets Z exactly if bit [b] of the register is clear, clears N, sets
    H and keeps the carry and every register; [0x80 + 8 * b + reg] (RES)
    clears bit [b] of that register and [0xC0 + 8 * b + reg] (SET) sets it,
    changing no other bit, register or flag.  Each takes 8 clocks, moves PC
    past the opcode and leaves the bus alone. *)
Theorem cb_bit_instructions_follow_their_fields
    (b reg : Z) (r : CPUState.t) (m : MemoryState.t) :
  0 <= b < 8 -> 0 <= reg < 8 -> reg <> 6 ->
  is_u8 (CPU.getReg reg r) ->
  let r1 := CPUState.set_pc (u16 (CPUState.pc r + 1)) r in
  let v := CPU.getReg reg r in
  (Memory.read (CPUState.pc r) m = 0x40 + 8 * b + reg ->
   CPU.executeCB (r, m)
   = (8, (r1 |> CPUState.setZ (negb (Z.testbit v b)) |> CPUState.setN false
             |> CPUState.setH true, m))) /\
  (Memory.read (CPUState.pc r) m = 0x80 + 8 * b + reg ->
   CPU.executeCB (r, m) = (8, (CPU.setReg reg (Z.clearbit v b) r1, m))) /\
  (Memory.read (CPUState.pc r) m = 0xC0 + 8 * b + reg ->
   CPU.executeCB (r, m) = (8, (CPU.setReg reg (Z.setbit v b) r1, m))).
Proof.
  intros Hb Hr N Hv. cbv zeta.
  destruct (bit_ops_table (CPU.getReg reg r) b Hv Hb) as (E1 & E2 & E3).
  rewrite <- E1, <- E2, <- E3.
  split; [|split]; intros H.
  - rewrite (executeCB_bit b reg r m Hb Hr N H). reflexivity.
  - apply executeCB_res; assumption.
  - apply executeCB_set; assumption.
Qed.

Lemma cb_bit_instructions_follow_their_fields_witness :
  CPU.executeCB cb_machine
  = (8, (CPU.setReg 7 (Z.setbit (CPU.getReg 7 (fst cb_machine)) 7)
           (CPUState.set_pc (u16 (CPUState.pc (fst cb_machine) + 1)) (fst cb_machine)),
         snd cb_machine)).
Proof.
  apply (cb_bit_instructions_follow_their_fields 7 7 (fst cb_machine) (snd cb_machine));
    try lia.
  - unfold is_u8. change (CPU.getReg 7 (fst cb_machine)) with 1. lia.
  - reflexivity.
Defined.
(** ** STAT and LY, seen from the bus *)

Section LCDRegisters.

Lemma stat_bits (val st : Z) :
  u8 (u8 ((val .& 0x78) .| (st .& 0x07)) .| 0x80) = 0x80 .| (val .& 0x78) .| (st .& 0x07).
Proof.
  apply Z.bits_inj'. intros n Hn.
  destruct (Z.lt_ge_cases n 8) as [L|G].
  - assert (C : n = 0 \/ n = 1 \/ n = 2 \/ n = 3 \/ n = 4 \/ n = 5 \/ n = 6 \/ n = 7) by lia.
    destruct C as [-> | [-> | [-> | [-> | [-> | [-> | [-> | ->]]]]]]];
      push_testbit; cbn [Z.ltb Z.compare Pos.compare Pos.compare_cont andb orb];
      rewrite ?andb_false_r, ?andb_true_r, ?orb_false_r, ?orb_true_r; reflexivity.
  - rewrite testbit_u8 by lia.
    destruct (Z.ltb_spec n 8); [lia|]. cbn [andb].
    rewrite !Z.lor_spec, !Z.land_spec.
    rewrite (testbit_above 0x80 8 n), (testbit_above 0x78 8 n), (testbit_above 0x07 8 n)
      by lia.
    rewrite !andb_false_r. reflexivity.
Qed.

End LCDRegisters.

(** STAT and LY through the bus, with the PPU attached.  A write to 0xFF41
    changes bits 3-6 of STAT only: a read that follows returns bit 7 set,
    bits 3-6 as written and bits 0-2 as the PPU had them.  LY reads the
    line of the PPU, and after a write of any value to 0xFF44 it reads 0. *)
Theorem stat_and_ly_through_the_bus (m : MemoryState.t) (p : PPUState.t) (val : Z) :
  MemoryState.ppu m = Some p ->
  Memory.read 0xFF41 (Memory.write 0xFF41 val m)
  = 0x80 .| (val .& 0x78) .| (PPUState.stat p .& 0x07) /\
  Memory.read 0xFF44 m = PPUState.ly p /\
  Memory.read 0xFF44 (Memory.write 0xFF44 val m) = 0.
Proof.
  intros Hp.
  pose proof (write_ppu 0xFF41 val m p ltac:(unfold is_u16; lia) Hp) as W1.
  pose proof (write_ppu 0xFF44 val m p ltac:(unfold is_u16; lia) Hp) as W4.
  change (0xFF41 =? 0xFF40) with false in W1. change (0xFF41 =? 0xFF41) with true in W1.
  change (0xFF44 =? 0xFF40) with false in W4. change (0xFF44 =? 0xFF41) with false in W4.
  change (0xFF44 =? 0xFF44) with true in W4. cbv iota in W1, W4.
  rewrite !read_io_page by lia. cbv zeta.
  change (0xFF41 - 0xFF00) with 0x41. change (0xFF44 - 0xFF00) with 0x44. cbv iota.
  rewrite W1, W4, Hp.
  split; [|split; reflexivity].
  unfold PPU.readSTAT, PPU.writeSTAT. cbn [PPUState.stat PPUState.set_stat].
  apply stat_bits.
Qed.

Lemma stat_and_ly_through_the_bus_witness :
  Memory.read 0xFF41 (Memory.write 0xFF41 0xFF powerOn)
  = 0x80 .| (0xFF .& 0x78) .| (PPUState.stat PPU.reset .& 0x07).
Proof.
  apply (stat_and_ly_through_the_bus powerOn PPU.reset 0xFF). reflexivity.
Defined.
(** ** Keys: from the host event to the joypad register *)

Section Input.
Import GameBoy.

(** What [latch] does to the bits of a byte. *)
Lemma latch_bits (pressed : bool) (b b' : Z) (v : Z) :
  is_u8 v -> 0 <= b < 4 -> 0 <= b' < 4 ->
  Z.testbit (latch pressed (1 << b) v) b'
  = if b' =? b then negb pressed else Z.testbit v b'.
Proof.
  intros Hv Hb Hb'.
  pose (P := fun v =>
               forallb (fun pressed : bool =>
                 forallb (fun b =>
                   forallb (fun b' =>
                     Bool.eqb (Z.testbit (latch pressed (1 << b) v) b')
                              (if b' =? b then negb pressed else Z.testbit v b'))
                     (seqZ 0 4)) (seqZ 0 4)) [true; false]).
  assert (T : P v = true).
  { apply (byte_table P); [|exact Hv]. vm_compute. reflexivity. }
  unfold P in T. rewrite forallb_forall in T.
  specialize (T pressed ltac:(destruct pressed; cbn; auto)).
  rewrite forallb_forall in T.
  specialize (T b ltac:(apply list_elem_of_In, elem_of_seqZ; lia)).
  rewrite forallb_forall in T.
  specialize (T b' ltac:(apply list_elem_of_In, elem_of_seqZ; lia)).
  apply Bool.eqb_prop. exact T.
Qed.

Lemma latch_byte (pressed : bool) (mask v : Z) : is_u8 (latch pressed mask v).
Proof. apply u8_range. Qed.

(** The row of a key in the statics and on the bus. *)
Lemma pollKey_bit (sym : keysym) (m : MemoryState.t) (b : Z) :
  size (MemoryState.io m) = 0x80 -> 0 <= b < 4 ->
  Z.testbit (pollKey sym m) b
  = Z.testbit (if onDpad sym then MemoryState.joypadDpad m
               else MemoryState.joypadButtons m) b.
Proof.
  intros Hs Hb. unfold pollKey.
  pose proof (joypad_select_after_write m (rowSelect sym) 4 Hs (or_introl eq_refl)) as H4.
  pose proof (joypad_select_after_write m (rowSelect sym) 5 Hs (or_intror eq_refl)) as H5.
  cbv zeta in H4, H5.
  change (Memory.read 0xFF00 (Memory.write 0xFF00 (rowSelect sym) m))
    with (Memory.readJoypad (Memory.write 0xFF00 (rowSelect sym) m)).
  unfold Memory.readJoypad.
  change (1 << 4) with 0x10 in H4. change (1 << 5) with 0x20 in H5.
  rewrite H4, H5.
  change (MemoryState.joypadDpad (Memory.write 0xFF00 (rowSelect sym) m))
    with (MemoryState.joypadDpad m).
  change (MemoryState.joypadButtons (Memory.write 0xFF00 (rowSelect sym) m))
    with (MemoryState.joypadButtons m).
  assert (C : b = 0 \/ b = 1 \/ b = 2 \/ b = 3) by lia.
  unfold rowSelect. destruct (onDpad sym);
    change (Z.testbit 0x20 4) with false; change (Z.testbit 0x20 5) with true;
    change (Z.testbit 0x10 4) with true; change (Z.testbit 0x10 5) with false;
    cbn [negb];
    destruct C as [-> | [-> | [-> | ->]]]; push_testbit;
    cbn [Z.ltb Z.compare Pos.compare Pos.compare_cont andb orb];
    rewrite ?andb_true_r, ?andb_false_r, ?orb_false_l, ?orb_false_r; reflexivity.
Qed.

(** [handleInput] on the bus: the statics are latched, and IF gets the
    joypad bit on a key press. *)
Lemma handleInput_key (pressed : bool) (sym : keysym) (k : keys) (s : CPU.mach) :
  handleInput (if pressed then SDL_KEYDOWN sym else SDL_KEYUP sym) (k, s)
  = let k' := fst (handleInput (if pressed then SDL_KEYDOWN sym else SDL_KEYUP sym) (k, s)) in
    let m := Memory.setJoypadState (buttons k') (dpad k') (snd s) in
    (k', (fst s,
          if pressed
          then MemoryState.setIF (u8 (MemoryState.getIF m .| INT_JOYPAD)) m
          else m)).
Proof. destruct pressed, sym; reflexivity. Qed.

Lemma handleInput_keys (pressed : bool) (sym : keysym) (k : keys) (s : CPU.mach) :
  fst (handleInput (if pressed then SDL_KEYDOWN sym else SDL_KEYUP sym) (k, s))
  = match keyBit sym with
    | Some b =>
        if onDpad sym then mkKeys (buttons k) (latch pressed (1 << b) (dpad k))
        else mkKeys (latch pressed (1 << b) (buttons k)) (dpad k)
    | None => k
    end.
Proof. destruct pressed, sym; destruct k; reflexivity. Qed.

Lemma handleInput_bus (pressed : bool) (sym : keysym) (k : keys) (s : CPU.mach) :
  let st := handleInput (if pressed then SDL_KEYDOWN sym else SDL_KEYUP sym) (k, s) in
  MemoryState.joypadButtons (snd (snd st)) = buttons (fst st) /\
  MemoryState.joypadDpad (snd (snd st)) = dpad (fst st) /\
  size (MemoryState.io (snd (snd st))) = size (MemoryState.io (snd s)).
Proof.
  cbv zeta. rewrite handleInput_key. cbv zeta. cbn [fst snd].
  destruct pressed.
  - unfold MemoryState.setIF.
    cbn [MemoryState.joypadButtons MemoryState.joypadDpad MemoryState.io MemoryState.set_io].
    rewrite size_upd. repeat split; reflexivity.
  - repeat split; reflexivity.
Qed.

Lemma handleInput_keysOK (ev : event) (k : keys) (s : CPU.mach) :
  keysOK k -> keysOK (fst (handleInput ev (k, s))).
Proof.
  intros [H1 H2]. destruct ev as [sym | sym | | ]; [| |split; assumption|split; assumption];
    destruct sym; cbn [handleInput fst buttons dpad]; split;
    cbn [buttons dpad]; try assumption; apply latch_byte.
Qed.

End Input.

(** A key of the Game Boy is read as held from its key-down event until its
    key-up event.  Whatever the keys were before, after [handleInput] has
    seen the press of a mapped key, a program that selects the row of the
    key at 0xFF00 reads the bit of the key as 0; after the release it reads
    the bit as 1; and the other three keys of the row read as they did in
    the emulator's key state before the press. *)
Theorem key_is_read_from_press_to_release
    (sym : GameBoy.keysym) (b : Z) (k : GameBoy.keys) (s : CPU.mach) :
  keyBit sym = Some b ->
  keysOK k ->
  size (MemoryState.io (snd s)) = 0x80 ->
  let down := GameBoy.handleInput (GameBoy.SDL_KEYDOWN sym) (k, s) in
  let up := GameBoy.handleInput (GameBoy.SDL_KEYUP sym) down in
  let row := if onDpad sym then GameBoy.dpad k else GameBoy.buttons k in
  Z.testbit (pollKey sym (snd (snd down))) b = false /\
  Z.testbit (pollKey sym (snd (snd up))) b = true /\
  forall b', 0 <= b' < 4 -> b' <> b ->
    Z.testbit (pollKey sym (snd (snd down))) b' = Z.testbit row b' /\
    Z.testbit (pollKey sym (snd (snd up))) b' = Z.testbit row b'.
Proof.
  intros Hk [K1 K2] Hs. cbv zeta.
  assert (Hb : 0 <= b < 4) by (destruct sym; inversion Hk; lia).
  pose proof (handleInput_bus true sym k s) as D. cbv zeta in D. cbv iota in D.
  pose proof (handleInput_keys true sym k s) as DK. cbv iota in DK. rewrite Hk in DK.
  destruct (GameBoy.handleInput (GameBoy.SDL_KEYDOWN sym) (k, s)) as [k1 s1].
  cbn [fst snd] in D, DK. destruct D as (D1 & D2 & D3).
  assert (OK1 : keysOK k1).
  { subst k1. destruct (onDpad sym); split; cbn [GameBoy.buttons GameBoy.dpad];
      try assumption; apply latch_byte. }
  pose proof (handleInput_bus false sym k1 s1) as U. cbv zeta in U. cbv iota in U.
  pose proof (handleInput_keys false sym k1 s1) as UK. cbv iota in UK. rewrite Hk in UK.
  destruct (GameBoy.handleInput (GameBoy.SDL_KEYUP sym) (k1, s1)) as [k2 s2].
  cbn [fst snd] in U, UK |- *. destruct U as (U1 & U2 & U3).
  rewrite !pollKey_bit by (try lia; congruence).
  assert (E1 : (if onDpad sym then MemoryState.joypadDpad (snd s1)
                else MemoryState.joypadButtons (snd s1))
               = GameBoy.latch true (1 << b) (if onDpad sym then GameBoy.dpad k else GameBoy.buttons k)).
  { rewrite D1, D2, DK. destruct (onDpad sym); reflexivity. }
  assert (E2 : (if onDpad sym then MemoryState.joypadDpad (snd s2)
                else MemoryState.joypadButtons (snd s2))
               = GameBoy.latch false (1 << b)
                   (GameBoy.latch true (1 << b)
                      (if onDpad sym then GameBoy.dpad k else GameBoy.buttons k))).
  { rewrite U1, U2, UK, DK. destruct (onDpad sym); reflexivity. }
  assert (R : is_u8 (if onDpad sym then GameBoy.dpad k else GameBoy.buttons k))
    by (destruct (onDpad sym); assumption).
  split; [|split].
  - rewrite E1, latch_bits by (try lia; assumption). rewrite Z.eqb_refl. reflexivity.
  - rewrite E2, latch_bits by (try lia; apply latch_byte). rewrite Z.eqb_refl. reflexivity.
  - intros b' Hb' N.
    intros. rewrite !pollKey_bit by (try lia; congruence).
    rewrite E1, E2.
    rewrite (latch_bits false) by (try lia; apply latch_byte).
    rewrite !(latch_bits true) by (try lia; assumption).
    destruct (Z.eqb_spec b' b); [contradiction|]. split; reflexivity.
Qed.

Lemma key_is_read_from_press_to_release_witness :
  Z.testbit (pollKey GameBoy.SDLK_x
               (snd (snd (GameBoy.handleInput (GameBoy.SDL_KEYDOWN GameBoy.SDLK_x)
                            (GameBoy.keys0, GameBoy.components))))) 1 = false.
Proof.
  apply (key_is_read_from_press_to_release GameBoy.SDLK_x 1 GameBoy.keys0 GameBoy.components).
  - reflexivity.
  - unfold keysOK, is_u8. cbn [GameBoy.keys0 GameBoy.buttons GameBoy.dpad]. lia.
  - reflexivity.
Defined.

(** Every key-down event requests the joypad interrupt, whether the key is
    one of the eight mapped keys or not: [handleInput] sets bit 4 of IF on
    every press and changes no other bit of it.  A key-up event, a quit
    event and any other event leave IF as it is; and no event changes the
    CPU registers. *)
Theorem every_key_down_requests_joypad_interrupt
    (ev : GameBoy.event) (k : GameBoy.keys) (s : CPU.mach) :
  size (MemoryState.io (snd s)) = 0x80 ->
  is_u8 (MemoryState.getIF (snd s)) ->
  let st := GameBoy.handleInput ev (k, s) in
  MemoryState.getIF (snd (snd st))
  = (match ev with
     | GameBoy.SDL_KEYDOWN _ => MemoryState.getIF (snd s) .| INT_JOYPAD
     | _ => MemoryState.getIF (snd s)
     end) /\
  fst (snd st) = fst s.
Proof.
  intros Hs Hb. cbv zeta.
  destruct ev as [sym | sym | | ]; [| |split; reflexivity|split; reflexivity].
  - rewrite (handleInput_key true sym k s). cbv zeta. cbn [fst snd].
    split; [|reflexivity].
    rewrite getIF_setIF by exact Hs.
    change (MemoryState.getIF (Memory.setJoypadState _ _ (snd s)))
      with (MemoryState.getIF (snd s)).
    apply u8_lor_byte; [exact Hb|unfold is_u8, INT_JOYPAD; lia].
  - rewrite (handleInput_key false sym k s). cbv zeta. cbn [fst snd].
    split; reflexivity.
Qed.

Lemma every_key_down_requests_joypad_interrupt_witness :
  MemoryState.getIF
    (snd (snd (GameBoy.handleInput (GameBoy.SDL_KEYDOWN GameBoy.SDLK_ESCAPE)
                 (GameBoy.keys0, GameBoy.components))))
  = MemoryState.getIF (snd GameBoy.components) .| INT_JOYPAD.
Proof.
  apply (every_key_down_requests_joypad_interrupt
           (GameBoy.SDL_KEYDOWN GameBoy.SDLK_ESCAPE) GameBoy.keys0 GameBoy.components).
  - reflexivity.
  - unfold is_u8. change (MemoryState.getIF (snd GameBoy.components)) with 0xE1. lia.
Defined.
(** ** The sound channels *)

Section Volumes.
Import APU.

Lemma nibble_range (x : Z) : 0 <= x .& 0x0F <= 15.
Proof.
  pose proof (land_mask_range x 4 ltac:(lia)) as R.
  change (Z.ones 4) with 0x0F in R. change (2 ^ 4) with 16 in R. lia.
Qed.

Ltac apu_proj :=
  cbn [
    Channel1.set_enabled Channel1.set_frequencyTimer Channel1.set_frequency Channel1.set_duty
    Channel1.set_dutyPos Channel1.set_volume Channel1.set_volumeInit
    Channel1.set_envelopeTimer Channel1.set_envelopePeriod Channel1.set_envelopeAdd
    Channel1.set_lengthCounter Channel1.set_lengthEnabled Channel1.set_sweepTimer
    Channel1.set_sweepPeriod Channel1.set_sweepNegate Channel1.set_sweepShift
    Channel1.set_shadowFreq Channel1.set_sweepEnabled Channel2.set_enabled
    Channel2.set_frequencyTimer Channel2.set_frequency Channel2.set_duty Channel2.set_dutyPos
    Channel2.set_volume Channel2.set_volumeInit Channel2.set_envelopeTimer
    Channel2.set_envelopePeriod Channel2.set_envelopeAdd Channel2.set_lengthCounter
    Channel2.set_lengthEnabled Channel3.set_enabled Channel3.set_dacEnabled
    Channel3.set_frequencyTimer Channel3.set_frequency Channel3.set_volume
    Channel3.set_lengthCounter Channel3.set_lengthEnabled Channel3.set_samplePos
    Channel4.set_enabled Channel4.set_frequencyTimer Channel4.set_volume
    Channel4.set_volumeInit Channel4.set_envelopeTimer Channel4.set_envelopePeriod
    Channel4.set_envelopeAdd Channel4.set_lengthCounter Channel4.set_lengthEnabled
    Channel4.set_lfsr Channel4.set_divisor Channel4.set_shift Channel4.set_widthMode
    APU.set_registers APU.set_ch1 APU.set_ch2 APU.set_ch3 APU.set_ch4 APU.set_waveRam
    APU.set_frameSequencerCycles APU.set_frameSequencerStep APU.set_sampleAccumulator
    APU.set_masterEnable APU.set_masterVolume APU.set_channelPan Channel1.enabled
    Channel1.frequencyTimer Channel1.frequency Channel1.duty Channel1.dutyPos Channel1.volume
    Channel1.volumeInit Channel1.envelopeTimer Channel1.envelopePeriod Channel1.envelopeAdd
    Channel1.lengthCounter Channel1.lengthEnabled Channel1.sweepTimer Channel1.sweepPeriod
    Channel1.sweepNegate Channel1.sweepShift Channel1.shadowFreq Channel1.sweepEnabled
    Channel2.enabled Channel2.frequencyTimer Channel2.frequency Channel2.duty Channel2.dutyPos
    Channel2.volume Channel2.volumeInit Channel2.envelopeTimer Channel2.envelopePeriod
    Channel2.envelopeAdd Channel2.lengthCounter Channel2.lengthEnabled Channel3.enabled
    Channel3.dacEnabled Channel3.frequencyTimer Channel3.frequency Channel3.volume
    Channel3.lengthCounter Channel3.lengthEnabled Channel3.samplePos Channel4.enabled
    Channel4.frequencyTimer Channel4.volume Channel4.volumeInit Channel4.envelopeTimer
    Channel4.envelopePeriod Channel4.envelopeAdd Channel4.lengthCounter Channel4.lengthEnabled
    Channel4.lfsr Channel4.divisor Channel4.shift Channel4.widthMode APU.registers APU.ch1
    APU.ch2 APU.ch3 APU.ch4 APU.waveRam APU.frameSequencerCycles APU.frameSequencerStep
    APU.sampleAccumulator APU.masterEnable APU.masterVolume APU.channelPan] in *.

Ltac split_ifs :=
  repeat match goal with
    | |- context [if ?b then _ else _] => destruct b eqn:?
    end.

Ltac volumes :=
  unfold volumesOK in *; apu_proj; try tauto;
  repeat match goal with
    | |- context [?x .& 15] => pose proof (nibble_range x); generalize dependent (x .& 15); intros
    end;
  repeat match goal with
    | H : (_ <? _) = true |- _ => apply Z.ltb_lt in H
    | H : (_ <? _) = false |- _ => apply Z.ltb_ge in H
    | H : (_ && _) = true |- _ => apply andb_true_iff in H; destruct H
    end;
  intuition lia.

Lemma trigger_volumesOK (a : t) :
  (volumesOK a -> volumesOK (triggerChannel1 a)) /\
  (volumesOK a -> volumesOK (triggerChannel2 a)) /\
  (volumesOK a -> volumesOK (triggerChannel3 a)) /\
  (volumesOK a -> volumesOK (triggerChannel4 a)).
Proof.
  unfold triggerChannel1, triggerChannel2, triggerChannel3, triggerChannel4.
  cbv zeta. split; [|split; [|split]]; intros H; split_ifs; volumes.
Qed.

Ltac after_trigger :=
  lazymatch goal with
  | |- volumesOK (triggerChannel1 ?x) => apply (proj1 (trigger_volumesOK x))
  | |- volumesOK (triggerChannel2 ?x) => apply (proj1 (proj2 (trigger_volumesOK x)))
  | |- volumesOK (triggerChannel3 ?x) => apply (proj1 (proj2 (proj2 (trigger_volumesOK x))))
  | |- volumesOK (triggerChannel4 ?x) => apply (proj2 (proj2 (proj2 (trigger_volumesOK x))))
  | |- _ => idtac
  end.

Lemma writeSwitch_volumesOK (reg val : Z) (a : t) :
  volumesOK a -> volumesOK (writeSwitch reg val a).
Proof.
  intros H. unfold writeSwitch.
  destruct reg as [|p|p]; [exact H| |exact H].
  do 6 (try destruct p as [p|p|]).
  all: cbv beta iota zeta.
  all: try assumption.
  all: split_ifs.
  all: after_trigger.
  all: volumes.
Qed.

Lemma writeRegister_volumesOK (reg val : Z) (a : t) :
  volumesOK a -> volumesOK (writeRegister reg val a).
Proof.
  intros H. unfold writeRegister.
  destruct ((0x30 <=? reg) && (reg <=? 0x3F)); [exact H|].
  destruct ((reg <? 0x10) || (0x26 <? reg)); [exact H|].
  apply writeSwitch_volumesOK. exact H.
Qed.

Lemma lengthClocks_volumesOK (a : t) :
  volumesOK a ->
  volumesOK (lengthClock1 a) /\ volumesOK (lengthClock2 a) /\
  volumesOK (lengthClock3 a) /\ volumesOK (lengthClock4 a).
Proof.
  intros H. unfold lengthClock1, lengthClock2, lengthClock3, lengthClock4. cbv zeta.
  repeat split; split_ifs; volumes.
Qed.

Lemma sweepClock_volumesOK (a : t) : volumesOK a -> volumesOK (sweepClock a).
Proof. intros H. unfold sweepClock. cbv zeta. split_ifs; volumes. Qed.

Lemma envelopeClocks_volumesOK (a : t) :
  volumesOK a ->
  volumesOK (envelopeClock1 a) /\ volumesOK (envelopeClock2 a) /\ volumesOK (envelopeClock4 a).
Proof.
  intros H. unfold envelopeClock1, envelopeClock2, envelopeClock4. cbv zeta.
  repeat split; split_ifs; volumes.
Qed.

Lemma stepFrameSequencer_volumesOK (a : t) :
  volumesOK a -> volumesOK (stepFrameSequencer a).
Proof.
  intros H. unfold stepFrameSequencer.
  set (a1 := if (frameSequencerStep a .& 1) =? 0 then _ else a).
  assert (H1 : volumesOK a1).
  { subst a1. destruct ((frameSequencerStep a .& 1) =? 0); [|exact H].
    pose proof (proj1 (lengthClocks_volumesOK _ H)) as L1.
    pose proof (proj1 (proj2 (lengthClocks_volumesOK _ L1))) as L2.
    pose proof (proj1 (proj2 (proj2 (lengthClocks_volumesOK _ L2)))) as L3.
    exact (proj2 (proj2 (proj2 (lengthClocks_volumesOK _ L3)))). }
  clearbody a1. cbv zeta.
  set (a2 := if (frameSequencerStep a1 =? 2) || (frameSequencerStep a1 =? 6) then _ else a1).
  assert (H2 : volumesOK a2).
  { subst a2. destruct ((frameSequencerStep a1 =? 2) || (frameSequencerStep a1 =? 6));
      [apply sweepClock_volumesOK|]; exact H1. }
  clearbody a2.
  set (a3 := if frameSequencerStep a2 =? 7 then _ else a2).
  assert (H3 : volumesOK a3).
  { subst a3. destruct (frameSequencerStep a2 =? 7); [|exact H2].
    pose proof (proj1 (envelopeClocks_volumesOK _ H2)) as E1.
    pose proof (proj1 (proj2 (envelopeClocks_volumesOK _ E1))) as E2.
    exact (proj2 (proj2 (envelopeClocks_volumesOK _ E2))). }
  clearbody a3. exact H3.
Qed.

Lemma clockChannels_volumesOK (a : t) :
  volumesOK a ->
  volumesOK (clockChannel1 a) /\ volumesOK (clockChannel2 a) /\
  volumesOK (clockChannel3 a) /\ volumesOK (clockChannel4 a).
Proof.
  intros H. unfold clockChannel1, clockChannel2, clockChannel3, clockChannel4.
  cbv zeta. repeat split; split_ifs; volumes.
Qed.

Lemma stepChannels_volumesOK (a : t) : volumesOK a -> volumesOK (stepChannels a).
Proof.
  intros H. unfold stepChannels.
  pose proof (proj1 (clockChannels_volumesOK _ H)) as H1.
  pose proof (proj1 (proj2 (clockChannels_volumesOK _ H1))) as H2.
  pose proof (proj1 (proj2 (proj2 (clockChannels_volumesOK _ H2)))) as H3.
  exact (proj2 (proj2 (proj2 (clockChannels_volumesOK _ H3)))).
Qed.

End Volumes.

(** The envelope volumes stay 4-bit numbers.  From the state after reset,
    whatever registers the program writes with whatever bytes, and however
    the frame sequencer steps and the channel clocks are interleaved with
    the writes, the volume and the initial volume of channels 1, 2 and 4 are
    always within 0..15. *)
Theorem envelope_volumes_stay_within_4_bits (os : list apuOp) :
  volumesOK (runApu os APU.reset).
Proof.
  unfold runApu.
  apply (fold_left_inv volumesOK).
  - unfold volumesOK. cbn [APU.reset]. vm_compute. intuition discriminate.
  - intros a o _ H. destruct o; cbn [runApuOp].
    + apply writeRegister_volumesOK. exact H.
    + apply stepFrameSequencer_volumesOK. exact H.
    + apply stepChannels_volumesOK. exact H.
Qed.
(** *** The length counters *)

Section Lengths.
Import APU.

Ltac apu_proj :=
  cbn [
    Channel1.set_enabled Channel1.set_frequencyTimer Channel1.set_frequency Channel1.set_duty
    Channel1.set_dutyPos Channel1.set_volume Channel1.set_volumeInit
    Channel1.set_envelopeTimer Channel1.set_envelopePeriod Channel1.set_envelopeAdd
    Channel1.set_lengthCounter Channel1.set_lengthEnabled Channel1.set_sweepTimer
    Channel1.set_sweepPeriod Channel1.set_sweepNegate Channel1.set_sweepShift
    Channel1.set_shadowFreq Channel1.set_sweepEnabled Channel2.set_enabled
    Channel2.set_frequencyTimer Channel2.set_frequency Channel2.set_duty Channel2.set_dutyPos
    Channel2.set_volume Channel2.set_volumeInit Channel2.set_envelopeTimer
    Channel2.set_envelopePeriod Channel2.set_envelopeAdd Channel2.set_lengthCounter
    Channel2.set_lengthEnabled Channel3.set_enabled Channel3.set_dacEnabled
    Channel3.set_frequencyTimer Channel3.set_frequency Channel3.set_volume
    Channel3.set_lengthCounter Channel3.set_lengthEnabled Channel3.set_samplePos
    Channel4.set_enabled Channel4.set_frequencyTimer Channel4.set_volume
    Channel4.set_volumeInit Channel4.set_envelopeTimer Channel4.set_envelopePeriod
    Channel4.set_envelopeAdd Channel4.set_lengthCounter Channel4.set_lengthEnabled
    Channel4.set_lfsr Channel4.set_divisor Channel4.set_shift Channel4.set_widthMode
    APU.set_registers APU.set_ch1 APU.set_ch2 APU.set_ch3 APU.set_ch4 APU.set_waveRam
    APU.set_frameSequencerCycles APU.set_frameSequencerStep APU.set_sampleAccumulator
    APU.set_masterEnable APU.set_masterVolume APU.set_channelPan Channel1.enabled
    Channel1.frequencyTimer Channel1.frequency Channel1.duty Channel1.dutyPos Channel1.volume
    Channel1.volumeInit Channel1.envelopeTimer Channel1.envelopePeriod Channel1.envelopeAdd
    Channel1.lengthCounter Channel1.lengthEnabled Channel1.sweepTimer Channel1.sweepPeriod
    Channel1.sweepNegate Channel1.sweepShift Channel1.shadowFreq Channel1.sweepEnabled
    Channel2.enabled Channel2.frequencyTimer Channel2.frequency Channel2.duty Channel2.dutyPos
    Channel2.volume Channel2.volumeInit Channel2.envelopeTimer Channel2.envelopePeriod
    Channel2.envelopeAdd Channel2.lengthCounter Channel2.lengthEnabled Channel3.enabled
    Channel3.dacEnabled Channel3.frequencyTimer Channel3.frequency Channel3.volume
    Channel3.lengthCounter Channel3.lengthEnabled Channel3.samplePos Channel4.enabled
    Channel4.frequencyTimer Channel4.volume Channel4.volumeInit Channel4.envelopeTimer
    Channel4.envelopePeriod Channel4.envelopeAdd Channel4.lengthCounter Channel4.lengthEnabled
    Channel4.lfsr Channel4.divisor Channel4.shift Channel4.widthMode APU.registers APU.ch1
    APU.ch2 APU.ch3 APU.ch4 APU.waveRam APU.frameSequencerCycles APU.frameSequencerStep
    APU.sampleAccumulator APU.masterEnable APU.masterVolume APU.channelPan] in *.

Ltac split_ifs :=
  repeat match goal with
    | |- context [if ?b then _ else _] => destruct b eqn:?
    end.

Lemma channel_cases (ch : Z) : 1 <= ch <= 4 -> ch = 1 \/ ch = 2 \/ ch = 3 \/ ch = 4.
Proof. lia. Qed.

Ltac each_channel H :=
  destruct (channel_cases _ H) as [-> | [-> | [-> | ->]]].

Ltac eval_eqb :=
  repeat match goal with
    | |- context [Zpos ?p =? Zpos ?q] =>
        let b := eval vm_compute in (Zpos p =? Zpos q) in
        change (Zpos p =? Zpos q) with b
    end.

Ltac unit_of blk :=
  unfold lengthUnit, lengthTick, blk, lengthEnabledOf, lengthCounterOf, enabledOf;
  cbv beta iota zeta; eval_eqb; cbv iota; split_ifs; apu_proj; try reflexivity;
  try congruence.

(** Each length clock ticks its own unit and leaves the others. *)
Lemma lengthClock1_unit (ch : Z) (a : t) :
  1 <= ch <= 4 ->
  lengthUnit ch (lengthClock1 a) = if ch =? 1 then lengthTick (lengthUnit ch a) else lengthUnit ch a.
Proof. intros H. each_channel H; unit_of lengthClock1. Qed.

Lemma lengthClock2_unit (ch : Z) (a : t) :
  1 <= ch <= 4 ->
  lengthUnit ch (lengthClock2 a) = if ch =? 2 then lengthTick (lengthUnit ch a) else lengthUnit ch a.
Proof. intros H. each_channel H; unit_of lengthClock2. Qed.

Lemma lengthClock3_unit (ch : Z) (a : t) :
  1 <= ch <= 4 ->
  lengthUnit ch (lengthClock3 a) = if ch =? 3 then lengthTick (lengthUnit ch a) else lengthUnit ch a.
Proof. intros H. each_channel H; unit_of lengthClock3. Qed.

Lemma lengthClock4_unit (ch : Z) (a : t) :
  1 <= ch <= 4 ->
  lengthUnit ch (lengthClock4 a) = if ch =? 4 then lengthTick (lengthUnit ch a) else lengthUnit ch a.
Proof. intros H. each_channel H; unit_of lengthClock4. Qed.

(** The sweep can switch channel 1 off, and touches no length unit
    otherwise; the envelopes touch none. *)
Lemma sweepClock_unit (ch : Z) (a : t) :
  1 <= ch <= 4 ->
  fst (lengthUnit ch (sweepClock a)) = fst (lengthUnit ch a) /\
  (ch <> 1 -> lengthUnit ch (sweepClock a) = lengthUnit ch a) /\
  (enabledOf ch (sweepClock a) = true -> enabledOf ch a = true).
Proof.
  intros H. each_channel H; unfold lengthUnit, sweepClock, lengthEnabledOf, lengthCounterOf,
    enabledOf; cbv beta iota zeta; split_ifs; apu_proj; repeat split; congruence.
Qed.

Lemma envelopeClock1_unit (ch : Z) (a : t) :
  1 <= ch <= 4 -> lengthUnit ch (envelopeClock1 a) = lengthUnit ch a.
Proof.
  intros H. each_channel H; unfold lengthUnit, envelopeClock1, lengthEnabledOf,
    lengthCounterOf, enabledOf; cbv beta iota zeta; split_ifs; reflexivity.
Qed.

Lemma envelopeClock2_unit (ch : Z) (a : t) :
  1 <= ch <= 4 -> lengthUnit ch (envelopeClock2 a) = lengthUnit ch a.
Proof.
  intros H. each_channel H; unfold lengthUnit, envelopeClock2, lengthEnabledOf,
    lengthCounterOf, enabledOf; cbv beta iota zeta; split_ifs; reflexivity.
Qed.

Lemma envelopeClock4_unit (ch : Z) (a : t) :
  1 <= ch <= 4 -> lengthUnit ch (envelopeClock4 a) = lengthUnit ch a.
Proof.
  intros H. each_channel H; unfold lengthUnit, envelopeClock4, lengthEnabledOf,
    lengthCounterOf, enabledOf; cbv beta iota zeta; split_ifs; reflexivity.
Qed.

(** No block moves the sequencer. *)
Lemma blocks_keep_step (a : t) :
  frameSequencerStep (lengthClock1 a) = frameSequencerStep a /\
  frameSequencerStep (lengthClock2 a) = frameSequencerStep a /\
  frameSequencerStep (lengthClock3 a) = frameSequencerStep a /\
  frameSequencerStep (lengthClock4 a) = frameSequencerStep a /\
  frameSequencerStep (sweepClock a) = frameSequencerStep a /\
  frameSequencerStep (envelopeClock1 a) = frameSequencerStep a /\
  frameSequencerStep (envelopeClock2 a) = frameSequencerStep a /\
  frameSequencerStep (envelopeClock4 a) = frameSequencerStep a.
Proof.
  unfold lengthClock1, lengthClock2, lengthClock3, lengthClock4, sweepClock,
    envelopeClock1, envelopeClock2, envelopeClock4. cbv zeta.
  repeat split; split_ifs; reflexivity.
Qed.

(** The four length clocks together tick every unit once. *)
Lemma lengthClocks_unit (ch : Z) (a : t) :
  1 <= ch <= 4 ->
  lengthUnit ch (lengthClock4 (lengthClock3 (lengthClock2 (lengthClock1 a))))
  = lengthTick (lengthUnit ch a) /\
  frameSequencerStep (lengthClock4 (lengthClock3 (lengthClock2 (lengthClock1 a))))
  = frameSequencerStep a.
Proof.
  intros H. split.
  - rewrite lengthClock4_unit, lengthClock3_unit, lengthClock2_unit, lengthClock1_unit
      by exact H.
    each_channel H; reflexivity.
  - destruct (blocks_keep_step (lengthClock3 (lengthClock2 (lengthClock1 a))))
      as (_ & _ & _ & -> & _).
    destruct (blocks_keep_step (lengthClock2 (lengthClock1 a))) as (_ & _ & -> & _).
    destruct (blocks_keep_step (lengthClock1 a)) as (_ & -> & _).
    apply blocks_keep_step.
Qed.

(** One step of the sequencer on a length unit. *)
Lemma stepFrameSequencer_unit (ch : Z) (a : t) :
  1 <= ch <= 4 ->
  let u := if (frameSequencerStep a .& 1) =? 0
           then lengthTick (lengthUnit ch a) else lengthUnit ch a in
  let a' := stepFrameSequencer a in
  frameSequencerStep a' = (frameSequencerStep a + 1) .& 7 /\
  fst (lengthUnit ch a') = fst u /\
  (ch <> 1 -> lengthUnit ch a' = u) /\
  (enabledOf ch a' = true -> snd u = true).
Proof.
  intros H. cbv zeta. unfold stepFrameSequencer.
  set (a1 := if (frameSequencerStep a .& 1) =? 0 then _ else a).
  set (u := if (frameSequencerStep a .& 1) =? 0 then _ else lengthUnit ch a).
  assert (H1 : lengthUnit ch a1 = u /\ frameSequencerStep a1 = frameSequencerStep a).
  { subst a1 u. destruct ((frameSequencerStep a .& 1) =? 0); [|split; reflexivity].
    apply lengthClocks_unit. exact H. }
  clearbody a1 u. destruct H1 as [U1 S1]. cbv zeta.
  set (a2 := if (frameSequencerStep a1 =? 2) || (frameSequencerStep a1 =? 6) then _ else a1).
  assert (H2 : (fst (lengthUnit ch a2) = fst u /\
                (ch <> 1 -> lengthUnit ch a2 = u) /\
                (enabledOf ch a2 = true -> snd u = true)) /\
               frameSequencerStep a2 = frameSequencerStep a).
  { subst a2. destruct ((frameSequencerStep a1 =? 2) || (frameSequencerStep a1 =? 6)).
    - destruct (sweepClock_unit ch a1 H) as (F & E & O).
      destruct (blocks_keep_step a1) as (_ & _ & _ & _ & S & _).
      rewrite S, S1, F, U1. repeat split.
      + intros N. rewrite (E N). exact U1.
      + intros T. specialize (O T). rewrite <- U1. exact O.
    - rewrite U1, S1. repeat split. intros T. rewrite <- U1. exact T. }
  clearbody a2. destruct H2 as [(F2 & E2 & O2) S2].
  set (a3 := if frameSequencerStep a2 =? 7 then _ else a2).
  assert (H3 : lengthUnit ch a3 = lengthUnit ch a2 /\
               frameSequencerStep a3 = frameSequencerStep a).
  { subst a3. destruct (frameSequencerStep a2 =? 7); [|split; [reflexivity|exact S2]].
    rewrite envelopeClock4_unit, envelopeClock2_unit, envelopeClock1_unit by exact H.
    split; [reflexivity|].
    destruct (blocks_keep_step (envelopeClock2 (envelopeClock1 a2)))
      as (_ & _ & _ & _ & _ & _ & _ & ->).
    destruct (blocks_keep_step (envelopeClock1 a2)) as (_ & _ & _ & _ & _ & _ & -> & _).
    destruct (blocks_keep_step a2) as (_ & _ & _ & _ & _ & -> & _). exact S2. }
  clearbody a3. destruct H3 as [U3 S3].
  assert (K : lengthUnit ch (set_frameSequencerStep ((frameSequencerStep a3 + 1) .& 7) a3)
              = lengthUnit ch a3)
    by (each_channel H; reflexivity).
  assert (K' : enabledOf ch (set_frameSequencerStep ((frameSequencerStep a3 + 1) .& 7) a3)
               = enabledOf ch a3)
    by (each_channel H; reflexivity).
  rewrite K, K', U3. cbn [frameSequencerStep set_frameSequencerStep]. rewrite S3.
  split; [reflexivity|]. split; [exact F2|]. split; [exact E2|].
  intros T. apply O2. unfold lengthUnit in U3. injection U3 as _ _ U3. rewrite <- U3. exact T.
Qed.

Lemma lengthClocks_snoc (s : Z) (j : nat) :
  lengthClocks s (S j)
  = lengthClocks s j
    + (if (Nat.iter j (fun s => (s + 1) .& 7) s .& 1) =? 0 then 1 else 0).
Proof.
  revert s. induction j as [|j IH]; intros s.
  - cbn [lengthClocks]. unfold Nat.iter. cbn [nat_rect]. lia.
  - change (lengthClocks s (S (S j)))
      with ((if (s .& 1) =? 0 then 1 else 0) + lengthClocks ((s + 1) .& 7) (S j)).
    rewrite IH. cbn [lengthClocks].
    rewrite Nat.iter_succ_r. lia.
Qed.

Lemma lengthClocks_nonneg (s : Z) (j : nat) : 0 <= lengthClocks s j.
Proof.
  revert s. induction j as [|j IH]; intros s; cbn [lengthClocks]; [lia|].
  specialize (IH ((s + 1) .& 7)). destruct ((s .& 1) =? 0); lia.
Qed.

End Lengths.

(** A note ends when its length has run out.  Take a channel whose length
    counter is enabled and holds [n > 0], and let the frame sequencer run
    without the program triggering the channel again.  After [j] steps, of
    which [k] were length clocks (the steps with an even number), the
    counter holds [n - k], or 0 once [k] has reached [n]; from then on the
    channel is off; and for channels 2, 3 and 4 the channel is off only
    from then on: until then it is as it was. *)
Theorem note_ends_when_its_length_runs_out (ch : Z) (a : APU.t) (j : nat) :
  1 <= ch <= 4 ->
  lengthEnabledOf ch a = true ->
  0 < lengthCounterOf ch a ->
  let n := lengthCounterOf ch a in
  let k := lengthClocks (APU.frameSequencerStep a) j in
  let a' := sequencerSteps j a in
  lengthEnabledOf ch a' = true /\
  lengthCounterOf ch a' = Z.max 0 (n - k) /\
  (n <= k -> enabledOf ch a' = false) /\
  (ch <> 1 -> enabledOf ch a' = enabledOf ch a && (k <? n)).
Proof.
  intros H En Pos. cbv zeta.
  assert (I : APU.frameSequencerStep (sequencerSteps j a)
              = Nat.iter j (fun s => (s + 1) .& 7) (APU.frameSequencerStep a) /\
              lengthEnabledOf ch (sequencerSteps j a) = true /\
              lengthCounterOf ch (sequencerSteps j a)
              = Z.max 0 (lengthCounterOf ch a - lengthClocks (APU.frameSequencerStep a) j) /\
              (lengthCounterOf ch a <= lengthClocks (APU.frameSequencerStep a) j ->
               enabledOf ch (sequencerSteps j a) = false) /\
              (ch <> 1 ->
               enabledOf ch (sequencerSteps j a)
               = enabledOf ch a && (lengthClocks (APU.frameSequencerStep a) j
                                    <? lengthCounterOf ch a))).
  { induction j as [|j IH].
    - unfold sequencerSteps, Nat.iter. cbn [nat_rect lengthClocks].
      split; [reflexivity|]. split; [exact En|]. split; [lia|]. split; [lia|].
      intros _. destruct (Z.ltb_spec 0 (lengthCounterOf ch a)); [|lia].
      rewrite andb_true_r. reflexivity.
    - destruct IH as (St & E & C & O & X).
      rewrite lengthClocks_snoc. rewrite <- St.
      unfold sequencerSteps in *.
      change (Nat.iter (S j) APU.stepFrameSequencer a)
        with (APU.stepFrameSequencer (Nat.iter j APU.stepFrameSequencer a)).
      set (b := Nat.iter j APU.stepFrameSequencer a) in *. clearbody b.
      pose proof (lengthClocks_nonneg (APU.frameSequencerStep a) j) as K0.
      set (k := lengthClocks (APU.frameSequencerStep a) j) in *. clearbody k.
      destruct (stepFrameSequencer_unit ch b H) as (S' & F' & E' & O').
      cbv zeta in S', F', E', O'.
      unfold lengthUnit, lengthTick in F', E', O'. rewrite E, C in F', E', O'.
      cbn [andb] in F', E', O'.
      split; [rewrite S', St; reflexivity|].
      destruct ((APU.frameSequencerStep b .& 1) =? 0).
      + destruct (Z.ltb_spec 0 (Z.max 0 (lengthCounterOf ch a - k))) as [P|P];
          cbn [fst snd] in F', O'.
        * injection F' as F1 F2. rewrite F1, F2.
          split; [reflexivity|]. split; [lia|]. split.
          -- intros L.
             destruct (Z.eqb_spec (Z.max 0 (lengthCounterOf ch a - k) - 1) 0) as [Z0|Z0];
               [|lia].
             destruct (enabledOf ch (APU.stepFrameSequencer b)) eqn:T; [|reflexivity].
             specialize (O' eq_refl). discriminate O'.
          -- intros N. specialize (E' N). injection E' as _ _ E'. rewrite E', (X N).
             destruct (Z.eqb_spec (Z.max 0 (lengthCounterOf ch a - k) - 1) 0) as [Z0|Z0];
               destruct (Z.ltb_spec k (lengthCounterOf ch a));
               destruct (Z.ltb_spec (k + 1) (lengthCounterOf ch a)); try lia;
               rewrite ?andb_true_r, ?andb_false_r; reflexivity.
        * injection F' as F1 F2. rewrite F1, F2.
          split; [reflexivity|]. split; [lia|]. split.
          -- intros L.
             destruct (enabledOf ch (APU.stepFrameSequencer b)) eqn:T; [|reflexivity].
             specialize (O' eq_refl). rewrite O in O' by lia. discriminate O'.
          -- intros N. specialize (E' N). injection E' as _ _ E'. rewrite E', (X N).
             destruct (Z.ltb_spec k (lengthCounterOf ch a));
               destruct (Z.ltb_spec (k + 1) (lengthCounterOf ch a)); try lia; reflexivity.
      + cbn [fst snd] in F', O'. injection F' as F1 F2. rewrite F1, F2, Z.add_0_r.
        split; [reflexivity|]. split; [reflexivity|]. split.
        * intros L.
          destruct (enabledOf ch (APU.stepFrameSequencer b)) eqn:T; [|reflexivity].
          specialize (O' eq_refl). rewrite O in O' by lia. discriminate O'.
        * intros N. specialize (E' N). injection E' as _ _ E'. rewrite E', (X N).
          reflexivity. }
  destruct I as (_ & E & C & O & X).
  split; [exact E|]. split; [exact C|]. split; [exact O|exact X].
Qed.

Lemma note_ends_when_its_length_runs_out_witness :
  enabledOf 2 (note_of 3) = true /\
  enabledOf 2 (sequencerSteps 4 (note_of 3)) = true /\
  enabledOf 2 (sequencerSteps 5 (note_of 3)) = false.
Proof.
  split; [reflexivity|]. split.
  - destruct (note_ends_when_its_length_runs_out 2 (note_of 3) 4) as (_ & _ & _ & X).
    + lia.
    + reflexivity.
    + reflexivity.
    + rewrite X by lia. reflexivity.
  - apply (note_ends_when_its_length_runs_out 2 (note_of 3) 5).
    + lia.
    + reflexivity.
    + reflexivity.
    + vm_compute. discriminate.
Defined.
(** *** The noise generator *)

Section Noise.
Import APU.

Lemma lor_shift14 (lo hi : Z) :
  0 <= lo < 2 ^ 14 -> 0 <= hi -> lo .| (hi << 14) = lo + 2 ^ 14 * hi.
Proof.
  intros Hlo Hhi.
  assert (D : lo .& (hi << 14) = 0).
  { apply Z.bits_inj'. intros n Hn. rewrite Z.land_spec, Z.bits_0.
    destruct (Z.lt_ge_cases n 14).
    - rewrite Z.shiftl_spec_low by lia. apply andb_false_r.
    - rewrite (testbit_above lo 14 n) by lia. reflexivity. }
  rewrite <- Z.lxor_lor by exact D. rewrite <- Z.add_nocarry_lxor by exact D.
  rewrite Z.shiftl_mul_pow2 by lia. lia.
Qed.

(** One shift of the generator in 15-bit mode. *)
Lemma lfsr_shift (l : Z) :
  0 < l <= 0x7FFF ->
  0 < u16 ((l >> 1) .| (((l .& 1) .^ ((l >> 1) .& 1)) << 14)) <= 0x7FFF.
Proof.
  intros H.
  assert (T : l >> 1 = l / 2) by (rewrite Z.shiftr_div_pow2 by lia; reflexivity).
  assert (B0 : l .& 1 = l mod 2) by (apply (Z.land_ones l 1); lia).
  assert (B1 : (l >> 1) .& 1 = (l / 2) mod 2)
    by (rewrite T; apply (Z.land_ones (l / 2) 1); lia).
  rewrite B0, B1, T.
  assert (R : 0 <= l / 2 < 2 ^ 14) by (change (2 ^ 14) with 16384; Z.div_mod_to_equations; lia).
  assert (C0 : l mod 2 = 0 \/ l mod 2 = 1) by (Z.div_mod_to_equations; lia).
  assert (C1 : (l / 2) mod 2 = 0 \/ (l / 2) mod 2 = 1) by (Z.div_mod_to_equations; lia).
  destruct C0 as [E0|E0], C1 as [E1|E1]; rewrite E0, E1;
    match goal with
    | |- context [?x .^ ?y] => let v := eval vm_compute in (x .^ y) in change (x .^ y) with v
    end;
    rewrite lor_shift14 by lia; change (2 ^ 14) with 16384 in *; unfold u16;
    Z.div_mod_to_equations; lia.
Qed.

Lemma clockChannel4_lfsr (a : t) :
  Channel4.widthMode (ch4 a) = false -> lfsrAlive a ->
  Channel4.widthMode (ch4 (clockChannel4 a)) = false /\ lfsrAlive (clockChannel4 a).
Proof.
  intros W L. unfold lfsrAlive, clockChannel4 in *. cbv zeta.
  cbn [ch4 set_ch4].
  repeat match goal with
    | |- context [if ?b then _ else _] => destruct b eqn:?
    end;
    cbn [Channel4.lfsr Channel4.widthMode Channel4.set_lfsr Channel4.set_frequencyTimer] in *;
    try congruence; try (split; [exact W|exact L]);
    (split; [exact W|apply lfsr_shift; exact L]).
Qed.

Lemma clockChannels_ch4 (a : t) :
  ch4 (clockChannel1 a) = ch4 a /\ ch4 (clockChannel2 a) = ch4 a /\
  ch4 (clockChannel3 a) = ch4 a.
Proof. repeat split; reflexivity. Qed.

Lemma stepChannels_lfsr (a : t) :
  Channel4.widthMode (ch4 a) = false -> lfsrAlive a ->
  Channel4.widthMode (ch4 (stepChannels a)) = false /\ lfsrAlive (stepChannels a).
Proof.
  intros W L. unfold stepChannels. apply clockChannel4_lfsr.
  - destruct (clockChannels_ch4 (clockChannel2 (clockChannel1 a))) as (_ & _ & ->).
    destruct (clockChannels_ch4 (clockChannel1 a)) as (_ & -> & _).
    destruct (clockChannels_ch4 a) as (-> & _). exact W.
  - unfold lfsrAlive.
    destruct (clockChannels_ch4 (clockChannel2 (clockChannel1 a))) as (_ & _ & ->).
    destruct (clockChannels_ch4 (clockChannel1 a)) as (_ & -> & _).
    destruct (clockChannels_ch4 a) as (-> & _). exact L.
Qed.

End Noise.

(** The noise generator never dies in 15-bit mode.  While the width mode of
    channel 4 is off, the shift register, which starts as 0x7FFF, stays a
    15-bit number other than zero through any number of channel clocks, so
    the channel never falls silent by getting stuck at zero. *)
Theorem noise_generator_stays_alive (a : APU.t) (j : nat) :
  Channel4.widthMode (APU.ch4 a) = false ->
  0 < Channel4.lfsr (APU.ch4 a) <= 0x7FFF ->
  0 < Channel4.lfsr (APU.ch4 (channelClocks j a)) <= 0x7FFF.
Proof.
  intros W L. change (lfsrAlive (channelClocks j a)).
  assert (I : Channel4.widthMode (APU.ch4 (channelClocks j a)) = false /\
              lfsrAlive (channelClocks j a)).
  { induction j as [|j IH]; [split; assumption|].
    unfold channelClocks in *.
    change (Nat.iter (S j) APU.stepChannels a)
      with (APU.stepChannels (Nat.iter j APU.stepChannels a)).
    destruct IH as [W' L']. apply stepChannels_lfsr; assumption. }
  apply I.
Qed.

Lemma noise_generator_stays_alive_witness :
  0 < Channel4.lfsr (APU.ch4 (channelClocks 100 APU.reset)) <= 0x7FFF.
Proof.
  apply (noise_generator_stays_alive APU.reset 100).
  - reflexivity.
  - change (Channel4.lfsr (APU.ch4 APU.reset)) with 0x7FFF. lia.
Defined.
